(** * ecb-exchange-rates-ts: the SDMX-JSON decoder and the client facade

    A shallow embedding of [src/parsers/sdmx-json-parser.ts],
    [src/client.ts], [src/utils/validation.ts], [src/utils/url-builder.ts],
    [src/errors/index.ts] and [src/types/index.ts], with the fixtures of
    [src/__tests__/fixtures.ts], followed by the properties the
    specification states about them.  The fetcher of
    [src/services/http-fetcher.ts] enters through its interface,
    [HttpFetcher], as the client receives it; [FetchHttpFetcher] itself is
    embedded further down, as a function of what [fetch] answers, and
    further properties of the code follow those of the specification.

    Conventions of the embedding.
    - A JS number is an IEEE-754 binary64 value: Rocq's primitive [float].
    - A JS string is a [string] holding its UTF-8 bytes.
    - A thrown exception (a rejected promise, for the [async] methods of the
      client) is the [Throw] branch of [Result]; the awaits of the client
      are sequential, so its methods are modelled as functions.
    - A TypeScript interface is a record.  A field is an [option] when its
      type is optional ([id?: string]) or when the code tests it for
      absence ([!dataSets], [structure?.dimensions], [?.values],
      [!series]); [None] is JavaScript's [undefined].
    - A JS object used as a dictionary ([Record<string, T>]) is the list of
      its entries in the order [Object.entries] enumerates them.
    - The types of TypeScript are erased when the code runs, and the cast
      of [parseSdmxJson] is not checked.  What [JSON.parse] returns is a
      value of type [any]: null, a boolean, a number, a string, an array
      or an object.  The decoder is embedded twice: on the records of the
      declared types, as the specification reads it, and on the values of
      type [any], as it runs, with the [TypeError]s of the runtime.  The
      client runs the second, and the two agree on the values that have
      the declared shape. *)

From Stdlib Require Import String Ascii List ZArith NArith Bool Lia.
From Stdlib Require Import DecimalString Zpower QArith Qround.
From Stdlib Require DecimalNat Uint63.
From Stdlib Require Import Floats FloatLemmas.
Import ListNotations.

Set Warnings "-inexact-float".
Set Warnings "-register-all".
Set Implicit Arguments.

Open Scope string_scope.
Open Scope Z_scope.

(* ------------------------------------------------------------------ *)
(** * The runtime: the ECMAScript built-ins the sources call *)
(* ------------------------------------------------------------------ *)

Module JS.

(** ** Strings *)

(** The UTF-8 bytes of a string, as numbers. *)
Definition bytes (s : string) : list N :=
  map N_of_ascii (list_ascii_of_string s).

Definition continuation (b : N) : bool := ((128 <=? b) && (b <? 192))%N.

(** [StringToCodePoints]: the code points of a string.  A byte that starts
    no well-formed sequence is read as U+FFFD. *)
Fixpoint decode (fuel : nat) (l : list N) : list N :=
  match fuel with
  | O => []
  | S fuel' =>
    match l with
    | [] => []
    | b0 :: r =>
      if (b0 <? 128)%N then b0 :: decode fuel' r
      else if ((194 <=? b0) && (b0 <? 224))%N then
        match r with
        | b1 :: r1 =>
          if continuation b1
          then ((b0 - 192) * 64 + (b1 - 128))%N :: decode fuel' r1
          else 65533%N :: decode fuel' r
        | _ => 65533%N :: decode fuel' r
        end
      else if ((224 <=? b0) && (b0 <? 240))%N then
        match r with
        | b1 :: b2 :: r2 =>
          let cp := ((b0 - 224) * 4096 + (b1 - 128) * 64 + (b2 - 128))%N in
          if continuation b1 && continuation b2 && (2048 <=? cp)%N
          then cp :: decode fuel' r2
          else 65533%N :: decode fuel' r
        | _ => 65533%N :: decode fuel' r
        end
      else if ((240 <=? b0) && (b0 <? 245))%N then
        match r with
        | b1 :: b2 :: b3 :: r3 =>
          let cp := ((b0 - 240) * 262144 + (b1 - 128) * 4096
                     + (b2 - 128) * 64 + (b3 - 128))%N in
          if continuation b1 && continuation b2 && continuation b3
             && (65536 <=? cp)%N && (cp <? 1114112)%N
          then cp :: decode fuel' r3
          else 65533%N :: decode fuel' r
        | _ => 65533%N :: decode fuel' r
        end
      else 65533%N :: decode fuel' r
    end
  end.

Definition codePoints (s : string) : list N :=
  let l := bytes s in decode (List.length l) l.

(** The UTF-8 bytes of a code point.  A string of JavaScript can hold a
    surrogate alone; it is written here with three bytes, as a code point
    of its value, and [decode] reads it back. *)
Definition fromCodePoint (cp : N) : string :=
  string_of_list_ascii
    (map ascii_of_N
       (if cp <? 128 then [cp]
        else if cp <? 2048 then [192 + cp / 64; 128 + cp mod 64]
        else if cp <? 65536 then
          [224 + cp / 4096; 128 + (cp / 64) mod 64; 128 + cp mod 64]
        else [240 + cp / 262144; 128 + (cp / 4096) mod 64;
              128 + (cp / 64) mod 64; 128 + cp mod 64])%N).

(** The UTF-16 code units of a string: [s.length] is their number, [s[i]]
    is the string of the unit at [i], and a code point above U+FFFF takes
    two of them. *)
Definition codeUnits (s : string) : list N :=
  flat_map (fun cp => if cp <? 65536 then [cp]
                      else [55296 + (cp - 65536) / 1024;
                            56320 + (cp - 65536) mod 1024])%N
           (codePoints s).

(** [ToString(i)] for an index [i] of an array: its decimal numeral. *)
Definition indexKey (i : nat) : string :=
  DecimalString.NilZero.string_of_uint (Nat.to_uint i).

(** [String.prototype.split] with a one-character separator: the pieces
    between the separators, so that a string without separator (the empty
    string too) gives one piece. *)
Fixpoint split (sep : ascii) (s : string) : list string :=
  match s with
  | EmptyString => [EmptyString]
  | String c r =>
    if Ascii.eqb c sep then EmptyString :: split sep r
    else match split sep r with
         | piece :: pieces => String c piece :: pieces
         | [] => [String c EmptyString]
         end
  end.

(** [Array.prototype.join]. *)
Fixpoint join (sep : string) (l : list string) : string :=
  match l with
  | [] => ""
  | [x] => x
  | x :: r => x ++ sep ++ join sep r
  end.

(** [s < t] on strings: lexicographic on the code units (here bytes; the
    two agree on the ASCII strings the sources compare). *)
Fixpoint ltb (s t : string) : bool :=
  match s, t with
  | _, EmptyString => false
  | EmptyString, String _ _ => true
  | String a s', String b t' =>
    if (N_of_ascii a <? N_of_ascii b)%N then true
    else if (N_of_ascii b <? N_of_ascii a)%N then false
    else ltb s' t'
  end.

(** Truthiness of a [string | undefined]: absent and empty are falsy. *)
Definition truthy (o : option string) : bool :=
  match o with
  | Some (String _ _) => true
  | _ => false
  end.

(** ** Numbers *)

Definition NaN : float := nan.

(** [StrWhiteSpaceChar]: WhiteSpace (TAB, VT, FF, ZWNBSP and the space
    separators) and LineTerminator (LF, CR, LS, PS). *)
Definition isStrWhiteSpaceChar (c : N) : bool :=
  ((c =? 9) || (c =? 10) || (c =? 11) || (c =? 12) || (c =? 13) || (c =? 32)
   || (c =? 160) || (c =? 5760) || ((8192 <=? c) && (c <=? 8202))
   || (c =? 8232) || (c =? 8233) || (c =? 8239) || (c =? 8287)
   || (c =? 12288) || (c =? 65279))%N.

Fixpoint dropWhiteSpace (l : list N) : list N :=
  match l with
  | c :: r => if isStrWhiteSpaceChar c then dropWhiteSpace r else l
  | [] => []
  end.

Definition trim (l : list N) : list N :=
  rev (dropWhiteSpace (rev (dropWhiteSpace l))).

(** The value of a digit in a radix up to 16, when it is one. *)
Definition digitValue (radix c : N) : option N :=
  let v := if ((48 <=? c) && (c <=? 57))%N then Some (c - 48)%N
           else if ((97 <=? c) && (c <=? 102))%N then Some (c - 87)%N
           else if ((65 <=? c) && (c <=? 70))%N then Some (c - 55)%N
           else None in
  match v with
  | Some d => if (d <? radix)%N then Some d else None
  | None => None
  end.

(** The longest prefix of digits, as digit values, and what follows it. *)
Fixpoint takeDigits (radix : N) (l : list N) : list N * list N :=
  match l with
  | c :: r =>
    match digitValue radix c with
    | Some d => let '(ds, rest) := takeDigits radix r in (d :: ds, rest)
    | None => ([], l)
    end
  | [] => ([], [])
  end.

Definition digitsValue (radix : N) (ds : list N) : Z :=
  fold_left (fun acc d => acc * Z.of_N radix + Z.of_N d) ds 0.

(** The mathematical value of an unsigned literal: infinite, or [m * 10^e]. *)
Variant magnitude := MagInfinity | MagDecimal (m e : Z).

(** [ExponentPart] (optional) up to the end of the literal. *)
Definition parseExponentPart (l : list N) : option Z :=
  match l with
  | [] => Some 0
  | c :: r =>
    if ((c =? 101) || (c =? 69))%N then
      let '(sgn, r1) := match r with
                        | 43%N :: r' => (1, r')
                        | 45%N :: r' => (-1, r')
                        | _ => (1, r)
                        end in
      match takeDigits 10 r1 with
      | ((_ :: _) as ds, []) => Some (sgn * digitsValue 10 ds)
      | _ => None
      end
    else None
  end.

(** [StrUnsignedDecimalLiteral]: [Infinity], [digits . digits? exp?],
    [. digits exp?] or [digits exp?]. *)
Definition parseStrUnsignedDecimalLiteral (l : list N) : option magnitude :=
  if list_eq_dec N.eq_dec l (bytes "Infinity") then Some MagInfinity
  else
    let '(ip, r) := takeDigits 10 l in
    match r with
    | 46%N :: r1 =>
      let '(fp, r2) := takeDigits 10 r1 in
      match ip, fp with
      | [], [] => None
      | _, _ =>
        match parseExponentPart r2 with
        | Some e =>
          Some (MagDecimal (digitsValue 10 (ip ++ fp))
                           (e - Z.of_nat (List.length fp)))
        | None => None
        end
      end
    | _ =>
      match ip with
      | [] => None
      | _ =>
        match parseExponentPart r with
        | Some e => Some (MagDecimal (digitsValue 10 ip) e)
        | None => None
        end
      end
    end.

(** [NonDecimalIntegerLiteral]: [0b], [0o] or [0x] and digits of that radix. *)
Definition parseNonDecimalIntegerLiteral (l : list N) : option magnitude :=
  match l with
  | 48%N :: p :: ds =>
    let radix := if ((p =? 98) || (p =? 66))%N then Some 2%N
                 else if ((p =? 111) || (p =? 79))%N then Some 8%N
                 else if ((p =? 120) || (p =? 88))%N then Some 16%N
                 else None in
    match radix with
    | Some rx =>
      match takeDigits rx ds with
      | ((_ :: _) as vs, []) => Some (MagDecimal (digitsValue rx vs) 0)
      | _ => None
      end
    | None => None
    end
  | _ => None
  end.

(** The binary64 value nearest to [(-1)^sign * m * 10^e] (ties to even),
    for [0 <= m].  A negative exponent divides: the quotient is taken with
    enough bits for the rounding position to lie inside it, and the
    remainder tells on which side of the midpoint the value lies. *)
Definition roundDecimal (sign : bool) (m e : Z) : spec_float :=
  if m <=? 0 then S754_zero sign
  else if 0 <=? e then binary_round_aux prec emax sign (m * 10 ^ e) 0 loc_Exact
  else
    let d := 10 ^ (- e) in
    let s := Z.max 0 (Z.log2 d + 57 - Z.log2 m) in
    let n := m * 2 ^ s in
    let q := n / d in
    let r := n mod d in
    let loc := if r =? 0 then loc_Exact else loc_Inexact (Z.compare (2 * r) d) in
    binary_round_aux prec emax sign q (- s) loc.

Definition magnitudeToNumber (sign : bool) (v : magnitude) : float :=
  match v with
  | MagInfinity => if sign then neg_infinity else infinity
  | MagDecimal m e => SF2Prim (roundDecimal sign m e)
  end.

(** [StrNumericLiteral]: a signed decimal literal or an unsigned
    non-decimal integer literal. *)
Definition parseStrNumericLiteral (l : list N) : option float :=
  match l with
  | 43%N :: r => option_map (magnitudeToNumber false) (parseStrUnsignedDecimalLiteral r)
  | 45%N :: r => option_map (magnitudeToNumber true) (parseStrUnsignedDecimalLiteral r)
  | _ =>
    match parseNonDecimalIntegerLiteral l with
    | Some v => Some (magnitudeToNumber false v)
    | None => option_map (magnitudeToNumber false) (parseStrUnsignedDecimalLiteral l)
    end
  end.

(** [Number(s)] on a string ([StringToNumber]): white space around the
    literal is ignored, the empty literal is [+0], and a string that is not
    a [StringNumericLiteral] is [NaN]. *)
Definition Number (s : string) : float :=
  match trim (codePoints s) with
  | [] => zero
  | l => match parseStrNumericLiteral l with
         | Some x => x
         | None => NaN
         end
  end.

(** The integer a number denotes as a property key of an array: [a[x]]
    reads the property named [ToString(x)], which is an index of the array
    exactly when [x] is a non-negative integer ([-0] is printed "0"). *)
Definition toArrayIndex (x : float) : option Z :=
  match Prim2SF x with
  | S754_zero _ => Some 0
  | S754_finite false m e =>
    if 0 <=? e then Some (Zpos m * 2 ^ e)
    else let d := 2 ^ (- e) in
         if Zpos m mod d =? 0 then Some (Zpos m / d) else None
  | _ => None
  end.

(** [a[x]] for an array [a] and a number [x]: [None] is [undefined]. *)
Definition array_get {A : Type} (a : list A) (x : float) : option A :=
  match toArrayIndex x with
  | Some i => if i <? Z.of_nat (List.length a) then nth_error a (Z.to_nat i) else None
  | None => None
  end.

(** [a[i]] for an integer [i] the code computed itself. *)
Definition array_at {A : Type} (a : list A) (i : Z) : option A :=
  if i <? 0 then None else nth_error a (Z.to_nat i).

(** [Array.prototype.findIndex]: the position of the first element that
    satisfies the predicate, [-1] when there is none. *)
Fixpoint findIndex {A : Type} (p : A -> bool) (a : list A) : Z :=
  match a with
  | [] => -1
  | x :: r => if p x then 0
              else let i := findIndex p r in
                   if i =? -1 then -1 else i + 1
  end.

(** [Math.round]: the nearest integer, a tie going up; [-0] for what
    rounds to zero from below. *)
Definition Math_round (x : float) : float :=
  match Prim2SF x with
  | S754_finite s m e =>
    if 0 <=? e then x
    else
      let d := 2 ^ (- e) in
      let v := if s then Zneg m else Zpos m in
      let n := (2 * v + d) / (2 * d) in
      if n =? 0 then (if s then neg_zero else zero)
      else SF2Prim (binary_normalize prec emax n 0 false)
  | _ => x
  end.

(** ** [Map<string, V>]: the entries in insertion order *)

Definition Map (V : Type) : Type := list (string * V).

Fixpoint Map_get {V : Type} (m : Map V) (k : string) : option V :=
  match m with
  | [] => None
  | (k', v) :: r => if String.eqb k' k then Some v else Map_get r k
  end.

(** [Map.prototype.set]: a present key keeps its place and takes the new
    value, a new key goes last. *)
Fixpoint Map_set {V : Type} (m : Map V) (k : string) (v : V) : Map V :=
  match m with
  | [] => [(k, v)]
  | (k', v') :: r =>
    if String.eqb k' k then (k', v) :: r else (k', v') :: Map_set r k v
  end.

(** [m.entries().next().value]. *)
Definition Map_first {V : Type} (m : Map V) : option (string * V) :=
  match m with
  | [] => None
  | e :: _ => Some e
  end.

End JS.


(* ------------------------------------------------------------------ *)
(** * [src/errors/index.ts] *)
(* ------------------------------------------------------------------ *)

(** What a [throw] carries: the five subclasses of [EcbError] with the
    fields their constructors store, and any other exception (a
    [SyntaxError] of [JSON.parse], a [TypeError] of [new URL], what an
    injected fetcher throws) by its name and message.  A [cause] is kept
    as the name and message of the exception that was caught. *)
Inductive Exception :=
| EcbApiError (message : string) (statusCode : float) (statusText : string)
| EcbNetworkError (message : string) (cause : option (string * string))
| EcbParseError (message : string) (cause : option (string * string))
| EcbValidationError (message : string)
| EcbNoDataError (message : string) (currencies : list string)
                 (startDate : string) (endDate : option string)
| RuntimeError (name message : string).

(** The [code] field [EcbError] stores. *)
Definition code (e : Exception) : option string :=
  match e with
  | EcbApiError _ _ _ => Some "ECB_API_ERROR"
  | EcbNetworkError _ _ => Some "ECB_NETWORK_ERROR"
  | EcbParseError _ _ => Some "ECB_PARSE_ERROR"
  | EcbValidationError _ => Some "ECB_VALIDATION_ERROR"
  | EcbNoDataError _ _ _ _ => Some "ECB_NO_DATA"
  | RuntimeError _ _ => None
  end.

(** [error instanceof EcbParseError]. *)
Definition instanceof_EcbParseError (e : Exception) : bool :=
  match e with
  | EcbParseError _ _ => true
  | _ => false
  end.

(** [error instanceof EcbNoDataError]. *)
Definition instanceof_EcbNoDataError (e : Exception) : bool :=
  match e with
  | EcbNoDataError _ _ _ _ => true
  | _ => false
  end.

(** [new EcbNoDataError(currencies, startDate, endDate)]. *)
Definition new_EcbNoDataError (currencies : list string) (startDate : string)
                              (endDate : option string) : Exception :=
  let dateRange :=
    match endDate with
    | Some e =>
      if JS.truthy endDate && negb (String.eqb e startDate)
      then startDate ++ " to " ++ e
      else startDate
    | None => startDate
    end in
  EcbNoDataError
    ("No exchange rate data available for " ++ JS.join ", " currencies
     ++ " on " ++ dateRange
     ++ ". The ECB does not publish rates on weekends, holidays, or future dates.")
    currencies startDate endDate.

(** The outcome of a call: a value, or the exception it threw. *)
Inductive Result (A : Type) : Type :=
| Ok (a : A)
| Throw (e : Exception).

Arguments Ok {A} a.
Arguments Throw {A} e.

Definition bind {A B : Type} (r : Result A) (k : A -> Result B) : Result B :=
  match r with
  | Ok a => k a
  | Throw e => Throw e
  end.

Declare Scope result_scope.
Delimit Scope result_scope with result.
Notation "'let*' x ':=' r 'in' k" := (bind r (fun x => k))
  (at level 10, x name, r at level 100, k at level 200) : result_scope.
Open Scope result_scope.

(* ------------------------------------------------------------------ *)
(** * Values of type [any] *)
(* ------------------------------------------------------------------ *)

(** [JSON.parse] returns a value of type [any], and the cast that follows
    it in [parseSdmxJson] checks nothing: the decoder and the client run
    on whatever the text holds.  This section gives the values that a JSON
    text denotes and the operations of the language that the sources
    apply to them. *)

(** A [TypeError] of the runtime; its message is the engine's. *)
Definition TypeError (message : string) : Exception :=
  RuntimeError "TypeError" message.

(** A [for ... of] loop over the elements [l], from a state: [body] is one
    iteration, and an iteration that throws ends the loop. *)
Definition forOf {A B : Type} (body : B -> A -> Result B) (l : list A) (init : B)
  : Result B :=
  fold_left (fun state x => let* b := state in body b x) l (Ok init).

Module Any.

(** null, a boolean, a number, a string, an array or an object.  An array
    and an object have an identity, [ref]: two of them are the same value
    when they are the same object, and [JSON.parse] makes a new object for
    every array and every object of the text.  The entries of an object
    are its own properties, in the order in which [Object.entries]
    enumerates them.  [undefined] is no value of a JSON text: what can be
    [undefined] is an [option]. *)
Inductive t :=
| Null
| Boolean (b : bool)
| Number (x : float)
| Str (s : string)
| Array (ref : N) (elements : list t)
| Object (ref : N) (entries : list (string * t)).

(** Truthiness: [undefined], [null], [false], [0], [-0], [NaN] and the
    empty string are falsy. *)
Definition truthy (v : option t) : bool :=
  match v with
  | None => false
  | Some Null => false
  | Some (Boolean b) => b
  | Some (Number x) => negb (PrimFloat.eqb x 0 || PrimFloat.is_nan x)
  | Some (Str s) => negb (String.eqb s "")
  | Some (Array _ _) => true
  | Some (Object _ _) => true
  end.

(** The names of the properties that the decoder reads with a dot,
    [values], [length] and [findIndex] apart.  No prototype of the
    language defines a property of one of these names, so that only an
    object can have one, as an own property. *)
Module Key.
Variant t :=
  dataSets | structure | dimensions | series | observation | id | observations.

Definition toString (k : t) : string :=
  match k with
  | dataSets => "dataSets"
  | structure => "structure"
  | dimensions => "dimensions"
  | series => "series"
  | observation => "observation"
  | id => "id"
  | observations => "observations"
  end.
End Key.

(** [v.k] for a [v] that is not null. *)
Definition get (v : t) (k : Key.t) : option t :=
  match v with
  | Object _ entries => JS.Map_get entries (Key.toString k)
  | _ => None
  end.

(** [v.k]: reading a property of [null] or of [undefined] throws. *)
Definition read (v : t) (k : Key.t) : Result (option t) :=
  match v with
  | Null =>
    Throw (TypeError ("Cannot read properties of null (reading '"
                      ++ Key.toString k ++ "')"))
  | _ => Ok (get v k)
  end.

Definition readOf (v : option t) (k : Key.t) : Result (option t) :=
  match v with
  | None =>
    Throw (TypeError ("Cannot read properties of undefined (reading '"
                      ++ Key.toString k ++ "')"))
  | Some v => read v k
  end.

(** [v?.k] *)
Definition chain (v : option t) (k : Key.t) : option t :=
  match v with
  | None => None
  | Some Null => None
  | Some v => get v k
  end.

(** [v.length === 0] for a [v] that is neither [null] nor [undefined]: the
    length of an array, the number of code units of a string, the own
    property of that name of an object. *)
Definition lengthIsZero (v : t) : bool :=
  match v with
  | Array _ elements => match elements with [] => true | _ :: _ => false end
  | Str s => String.eqb s ""
  | Object _ entries =>
    match JS.Map_get entries "length" with
    | Some (Number x) => PrimFloat.eqb x 0
    | _ => false
    end
  | _ => false
  end.

(** The strings [s[0]], [s[1]], ... of the code units of a string, and the
    strings of its code points, which a [for ... of] loop runs over. *)
Definition units (s : string) : list t :=
  map (fun u => Str (JS.fromCodePoint u)) (JS.codeUnits s).

Definition characters (s : string) : list t :=
  map (fun cp => Str (JS.fromCodePoint cp)) (JS.codePoints s).

(** [for (const x of v)]: the elements of an array, the code points of a
    string; no other value of a JSON text is iterable. *)
Definition iterate (v : t) : Result (list t) :=
  match v with
  | Array _ elements => Ok elements
  | Str s => Ok (characters s)
  | _ => Throw (TypeError "dataSets is not iterable")
  end.

(** The elements of an array under their indices. *)
Definition indexed (l : list t) : list (string * t) :=
  combine (map JS.indexKey (seq 0 (List.length l))) l.

(** [Object.entries(v)]: the own enumerable properties, which are the
    elements of an array and the code units of a string under their
    indices; a number and a boolean have none; [null] and [undefined]
    throw. *)
Definition entries (v : t) : Result (list (string * t)) :=
  match v with
  | Null => Throw (TypeError "Cannot convert undefined or null to object")
  | Boolean _ => Ok []
  | Number _ => Ok []
  | Str s => Ok (indexed (units s))
  | Array _ elements => Ok (indexed elements)
  | Object _ entries => Ok entries
  end.

Definition entriesOf (v : option t) : Result (list (string * t)) :=
  match v with
  | None => Throw (TypeError "Cannot convert undefined or null to object")
  | Some v => entries v
  end.

(** [v[0]]: the first element of an array, the first code unit of a
    string, the own property "0" of an object. *)
Definition first (v : t) : Result (option t) :=
  match v with
  | Null => Throw (TypeError "Cannot read properties of null (reading '0')")
  | Array _ elements => Ok (JS.array_at elements 0)
  | Str s => Ok (JS.array_at (units s) 0)
  | Object _ entries => Ok (JS.Map_get entries "0")
  | _ => Ok None
  end.

(** [v[i]] for an integer [i] that the code computed. *)
Definition element (v : option t) (i : Z) : Result (option t) :=
  match v with
  | None => Throw (TypeError "Cannot read properties of undefined")
  | Some Null => Throw (TypeError "Cannot read properties of null")
  | Some (Array _ elements) => Ok (JS.array_at elements i)
  | Some (Str s) => Ok (JS.array_at (units s) i)
  | Some (Object _ entries) =>
    Ok (JS.Map_get entries
          (if i <? 0 then "-" ++ JS.indexKey (Z.to_nat (- i))
           else JS.indexKey (Z.to_nat i)))
  | Some _ => Ok None
  end.

(** [a.findIndex(p)], a method of arrays, with a predicate that can
    throw: an array of a JSON text inherits it, and no other value of a
    JSON text has a function under that name. *)
Fixpoint findIndex_from (p : t -> Result bool) (a : list t) : Result Z :=
  match a with
  | [] => Ok (-1)
  | x :: r =>
    let* found := p x in
    if found then Ok 0
    else let* i := findIndex_from p r in
         Ok (if i =? -1 then -1 else i + 1)
  end.

Definition findIndex (a : option t) (p : t -> Result bool) : Result Z :=
  match a with
  | None => Throw (TypeError "Cannot read properties of undefined (reading 'findIndex')")
  | Some Null => Throw (TypeError "Cannot read properties of null (reading 'findIndex')")
  | Some (Array _ elements) => findIndex_from p elements
  | Some _ => Throw (TypeError "dims.findIndex is not a function")
  end.

(** What [d?.values] gives: [undefined], a value of the text, or, for an
    array [d], the method [Array.prototype.values]. *)
Variant values :=
| NoValues
| Values (v : t)
| ValuesMethod.

Definition valuesOf (d : option t) : values :=
  match d with
  | Some (Object _ entries) =>
    match JS.Map_get entries "values" with
    | Some v => Values v
    | None => NoValues
    end
  | Some (Array _ _) => ValuesMethod
  | _ => NoValues
  end.

(** [!values] is false for a truthy value and for the method. *)
Definition hasValues (values : values) : bool :=
  match values with
  | NoValues => false
  | Values v => truthy (Some v)
  | ValuesMethod => true
  end.

(** [SameValueZero], the equality of the keys of a [Map]: two arrays or
    objects are equal when they are the same object, [NaN] equals [NaN]
    and [-0] equals [0]. *)
Definition SameValueZero (a b : t) : bool :=
  match a, b with
  | Null, Null => true
  | Boolean x, Boolean y => Bool.eqb x y
  | Number x, Number y =>
    PrimFloat.eqb x y || (PrimFloat.is_nan x && PrimFloat.is_nan y)
  | Str x, Str y => String.eqb x y
  | Array x _, Array y _ => N.eqb x y
  | Object x _, Object y _ => N.eqb x y
  | _, _ => false
  end.

(** ** [Map<K, V>] with keys of type [any]: the entries in insertion
    order *)

Definition Map (V : Type) : Type := list (t * V).

(** The key under which [Map.prototype.set] stores: [0] for [-0]. *)
Definition Map_key (k : t) : t :=
  match k with
  | Number x => if PrimFloat.eqb x 0 then Number 0 else k
  | _ => k
  end.

Fixpoint Map_get {V : Type} (m : Map V) (k : t) : option V :=
  match m with
  | [] => None
  | (k', v) :: r => if SameValueZero k' k then Some v else Map_get r k
  end.

(** [Map.prototype.set]: a present key keeps its place and takes the new
    value, a new key goes last. *)
Fixpoint Map_set {V : Type} (m : Map V) (k : t) (v : V) : Map V :=
  match m with
  | [] => [(Map_key k, v)]
  | (k', v') :: r =>
    if SameValueZero k' k then (k', v) :: r else (k', v') :: Map_set r k v
  end.

(** [m.entries().next().value]. *)
Definition Map_first {V : Type} (m : Map V) : option (t * V) :=
  match m with
  | [] => None
  | e :: _ => Some e
  end.

(** [a ?? b] *)
Definition coalesce (a : option t) (b : t) : t :=
  match a with
  | None => b
  | Some Null => b
  | Some v => v
  end.

(** ** Conversions *)

(** The conversion of a number to a string, [Number::toString], is a
    service of the runtime that this development does not define. *)
Section Conversions.

Variable Number_toString : float -> string.

(** [ToString(v)], through [ToPrimitive] for an array and an object.  An
    array is converted by [Array.prototype.toString], which joins the
    strings of its elements with commas, [null] giving the empty string.
    An object is converted by [Object.prototype.toString], unless a
    property "toString" of its own, which is no function, hides that
    method: then [valueOf] returns no primitive either, and the
    conversion throws. *)
Fixpoint ToString (v : t) : Result string :=
  match v with
  | Null => Ok "null"
  | Boolean true => Ok "true"
  | Boolean false => Ok "false"
  | Number x => Ok (Number_toString x)
  | Str s => Ok s
  | Array _ elements =>
    (fix join (l : list t) : Result string :=
       match l with
       | [] => Ok ""
       | x :: r =>
         let* head := match x with
                      | Null => Ok ""
                      | _ => ToString x
                      end in
         match r with
         | [] => Ok head
         | _ :: _ => let* tail := join r in Ok (head ++ "," ++ tail)
         end
       end) elements
  | Object _ entries =>
    match JS.Map_get entries "toString" with
    | Some _ => Throw (TypeError "Cannot convert object to primitive value")
    | None => Ok "[object Object]"
    end
  end.

(** [ToPropertyKey(v)], the name under which [o[v]] reads and writes. *)
Definition ToPropertyKey (v : t) : Result string := ToString v.

(** [ToNumber(v)], which the arithmetic operators apply to an operand. *)
Definition ToNumber (v : t) : Result float :=
  match v with
  | Null => Ok zero
  | Boolean true => Ok one
  | Boolean false => Ok zero
  | Number x => Ok x
  | Str s => Ok (JS.Number s)
  | _ => let* s := ToString v in Ok (JS.Number s)
  end.

(** [v[x]] for a number [x] and a [v] that is neither [null] nor
    [undefined]: the property named [ToString(x)], which is an element of
    an array, a code unit of a string, an own property of an object. *)
Definition at_ (v : t) (x : float) : option t :=
  match v with
  | Array _ elements => JS.array_get elements x
  | Str s => JS.array_get (units s) x
  | Object _ entries => JS.Map_get entries (Number_toString x)
  | _ => None
  end.

(** [values[x]] for what [d?.values] gave and [!values] let through: a
    function has no property named by a number. *)
Definition item (values : values) (x : float) : option t :=
  match values with
  | Values v => at_ v x
  | _ => None
  end.

End Conversions.

End Any.

(** An object made by the literal [{}] and written to by assignments: its
    prototype and its own properties, in the order of their creation (the
    place of an integer-like name in the enumeration is not modelled; no
    function here enumerates an object it has written to). *)
Module PlainObject.

Variant prototype :=
| ObjectPrototype
| NullPrototype
| Prototype (p : Any.t).

Record t := mk {
  proto : prototype;
  own : list (string * Any.t)
}.

(** [{}] *)
Definition empty : t := mk ObjectPrototype [].

Definition hasOwn (entries : list (string * Any.t)) (k : string) : bool :=
  match JS.Map_get entries k with
  | Some _ => true
  | None => false
  end.

(** Whether an assignment to the name "__proto__", of which the object
    has no own property, reaches the accessor of [Object.prototype]: not
    when the prototype is [null], nor when the prototype is an object of
    the text with an own property of that name. *)
Definition reachesAccessor (o : t) : bool :=
  match proto o with
  | ObjectPrototype => true
  | NullPrototype => false
  | Prototype (Any.Object _ entries) => negb (hasOwn entries "__proto__")
  | Prototype _ => true
  end.

(** [o[k] = v].  An own property takes the value.  Otherwise the name
    "__proto__" is that of an accessor which [Object.prototype] defines:
    its setter makes an object or [null] the prototype and ignores any
    other value.  Any other name, inherited or not, becomes an own
    property. *)
Definition assign (o : t) (k : string) (v : Any.t) : t :=
  if hasOwn (own o) k then mk (proto o) (JS.Map_set (own o) k v)
  else if String.eqb k "__proto__" && reachesAccessor o then
    match v with
    | Any.Array _ _ => mk (Prototype v) (own o)
    | Any.Object _ _ => mk (Prototype v) (own o)
    | Any.Null => mk NullPrototype (own o)
    | _ => o
    end
  else mk (proto o) (JS.Map_set (own o) k v).

End PlainObject.
Abbreviation PlainObject := PlainObject.t.

(* ------------------------------------------------------------------ *)
(** * [src/types/index.ts] *)
(* ------------------------------------------------------------------ *)

(** Data frequency for the exchange rate series: ["D" | "M" | "A"]. *)
Module Frequency.
Variant t := D | M | A.

(** The string the value is. *)
Definition toString (f : t) : string :=
  match f with
  | D => "D"
  | M => "M"
  | A => "A"
  end.
End Frequency.
Abbreviation Frequency := Frequency.t.

(** A [Record<string, V>]: its entries as [Object.entries] lists them. *)
Definition Dict (V : Type) : Type := list (string * V).

Definition Object_entries {V : Type} (o : Dict V) : list (string * V) := o.

Module ExchangeRateObservation.
Record t := mk {
  date : string;
  currency : string;
  baseCurrency : string;
  rate : float
}.
End ExchangeRateObservation.
Abbreviation ExchangeRateObservation := ExchangeRateObservation.t.

(** The results of the client.  Their bases, dates and rates are declared
    as strings and numbers; they hold what the decoder read in the
    response, whose type nothing has checked: values of type [any], which
    are strings and numbers when the response has the declared shape. *)
Module ExchangeRateResult.
Record t := mk {
  base : Any.t;
  rates : Any.Map Any.t;
  currency : string
}.
End ExchangeRateResult.
Abbreviation ExchangeRateResult := ExchangeRateResult.t.

Module ExchangeRatesResult.
Record t := mk {
  base : Any.t;
  rates : Any.Map PlainObject;
  currencies : list string
}.
End ExchangeRatesResult.
Abbreviation ExchangeRatesResult := ExchangeRatesResult.t.

Module ConversionResult.
Record t := mk {
  amount : float;
  rate : Any.t;
  date : Any.t;
  currency : string
}.
End ConversionResult.
Abbreviation ConversionResult := ConversionResult.t.

Module ExchangeRateQuery.
Record t := mk {
  currencies : list string;
  startDate : string;
  endDate : option string;
  frequency : option Frequency;
  baseCurrency : option string
}.
End ExchangeRateQuery.
Abbreviation ExchangeRateQuery := ExchangeRateQuery.t.

Module EcbClientConfig.
Record t := mk {
  baseUrl : option string;
  timeoutMs : option float;
  baseCurrency : option string
}.
End EcbClientConfig.
Abbreviation EcbClientConfig := EcbClientConfig.t.

(** ** SDMX-JSON response shapes *)

Module SdmxValue.
Record t := mk {
  id : option string;
  name : string;
  start : option string;
  end_ : option string
}.
End SdmxValue.
Abbreviation SdmxValue := SdmxValue.t.

(** [values] is declared mandatory; the parser tests it ([?.values] and
    [!currencyValues]), so it is optional here. *)
Module SdmxDimension.
Record t := mk {
  id : string;
  name : string;
  role : option string;
  values : option (list SdmxValue)
}.
End SdmxDimension.
Abbreviation SdmxDimension := SdmxDimension.t.

Module SdmxSeries.
Record t := mk {
  attributes : list (option float);
  observations : Dict (list (option float))
}.
End SdmxSeries.
Abbreviation SdmxSeries := SdmxSeries.t.

(** [series] is declared mandatory; the parser tests it ([!series]). *)
Module SdmxDataSet.
Record t := mk {
  action : option string;
  validFrom : option string;
  series : option (Dict SdmxSeries)
}.
End SdmxDataSet.
Abbreviation SdmxDataSet := SdmxDataSet.t.

Module SdmxDimensions.
Record t := mk {
  series : list SdmxDimension;
  observation : list SdmxDimension
}.
End SdmxDimensions.
Abbreviation SdmxDimensions := SdmxDimensions.t.

Module SdmxAttributes.
Record t := mk {
  series : option (list SdmxDimension);
  observation : option (list SdmxDimension)
}.
End SdmxAttributes.
Abbreviation SdmxAttributes := SdmxAttributes.t.

(** [dimensions] is declared mandatory; the parser tests it
    ([!structure?.dimensions]). *)
Module SdmxStructure.
Record t := mk {
  name : option string;
  dimensions : option SdmxDimensions;
  attributes : option SdmxAttributes
}.
End SdmxStructure.
Abbreviation SdmxStructure := SdmxStructure.t.

Module SdmxSender.
Record t := mk {
  id : string
}.
End SdmxSender.
Abbreviation SdmxSender := SdmxSender.t.

Module SdmxHeader.
Record t := mk {
  id : string;
  test : bool;
  prepared : string;
  sender : SdmxSender
}.
End SdmxHeader.
Abbreviation SdmxHeader := SdmxHeader.t.

(** [dataSets] and [structure] are declared mandatory; the parser tests
    both ([!dataSets], [structure?.]). *)
Module SdmxJsonResponse.
Record t := mk {
  header : SdmxHeader;
  dataSets : option (list SdmxDataSet);
  structure : option SdmxStructure
}.
End SdmxJsonResponse.
Abbreviation SdmxJsonResponse := SdmxJsonResponse.t.

(* ------------------------------------------------------------------ *)
(** * [src/parsers/sdmx-json-parser.ts] *)
(* ------------------------------------------------------------------ *)

(** The double quote that the messages' template strings contain. *)
Definition dquote : string := String "034"%char "".

(** Optional chaining [o?.f]. *)
Definition optChain {A B : Type} (o : option A) (f : A -> option B) : option B :=
  match o with
  | Some a => f a
  | None => None
  end.

Definition findDimensionIndex (dims : list SdmxDimension) (id : string) : Result Z :=
  let index := JS.findIndex (fun d => String.eqb (SdmxDimension.id d) id) dims in
  if index =? -1 then
    Throw (EcbParseError
             ("Missing series dimension " ++ dquote ++ id ++ dquote
              ++ " in SDMX-JSON structure.") None)
  else Ok index.

Definition findObservationDimensionIndex (dims : list SdmxDimension) (id : string)
  : Result Z :=
  let index := JS.findIndex (fun d => String.eqb (SdmxDimension.id d) id) dims in
  if index =? -1 then
    Throw (EcbParseError
             ("Missing observation dimension " ++ dquote ++ id ++ dquote
              ++ " in SDMX-JSON structure.") None)
  else Ok index.

(** The three nested loops of [parseJsonResponse], innermost first.  Each
    body takes the [observations] array as it stands and returns it as the
    iteration leaves it; [continue] returns it unchanged. *)
Section Loops.

Variables currencyDimIndex denomDimIndex : Z.
Variables currencyValues denomValues timeValues : list SdmxValue.

(** [for (const [obsKey, obsValues] of Object.entries(seriesData.observations))] *)
Definition forObservation (currency baseCurrency : string)
    (observations : list ExchangeRateObservation)
    (entry : string * list (option float)) : list ExchangeRateObservation :=
  let '(obsKey, obsValues) := entry in
  let timeIdx := JS.Number obsKey in
  let date := optChain (JS.array_get timeValues timeIdx) SdmxValue.id in
  let rate := JS.array_at obsValues 0 in
  match date, rate with
  | Some d, Some (Some r) =>
    if negb (JS.truthy date) then observations
    else observations ++ [ExchangeRateObservation.mk d currency baseCurrency r]
  | _, _ => observations
  end.

(** [for (const [seriesKey, seriesData] of Object.entries(series))] *)
Definition forSeries (observations : list ExchangeRateObservation)
    (entry : string * SdmxSeries) : list ExchangeRateObservation :=
  let '(seriesKey, seriesData) := entry in
  let dimIndices := map JS.Number (JS.split ":" seriesKey) in
  let currencyIdx := JS.array_at dimIndices currencyDimIndex in
  let denomIdx := JS.array_at dimIndices denomDimIndex in
  match currencyIdx, denomIdx with
  | Some currencyIdx, Some denomIdx =>
    let currency := optChain (JS.array_get currencyValues currencyIdx) SdmxValue.id in
    let baseCurrency := optChain (JS.array_get denomValues denomIdx) SdmxValue.id in
    match currency, baseCurrency with
    | Some c, Some b =>
      if negb (JS.truthy currency) || negb (JS.truthy baseCurrency) then observations
      else fold_left (forObservation c b)
                     (Object_entries (SdmxSeries.observations seriesData))
                     observations
    | _, _ => observations
    end
  | _, _ => observations
  end.

(** [for (const dataSet of dataSets)] *)
Definition forDataSet (observations : list ExchangeRateObservation)
    (dataSet : SdmxDataSet) : list ExchangeRateObservation :=
  match SdmxDataSet.series dataSet with
  | None => observations
  | Some series => fold_left forSeries (Object_entries series) observations
  end.

End Loops.

Definition parseJsonResponse (data : SdmxJsonResponse)
  : Result (list ExchangeRateObservation) :=
  match SdmxJsonResponse.dataSets data with
  | None => Ok []
  | Some [] => Ok []
  | Some dataSets =>
    match optChain (SdmxJsonResponse.structure data) SdmxStructure.dimensions with
    | None => Throw (EcbParseError "SDMX-JSON response missing structure.dimensions." None)
    | Some dimensions =>
      let seriesDims := SdmxDimensions.series dimensions in
      let obsDims := SdmxDimensions.observation dimensions in
      let* currencyDimIndex := findDimensionIndex seriesDims "CURRENCY" in
      let* denomDimIndex := findDimensionIndex seriesDims "CURRENCY_DENOM" in
      let* timeDimIndex := findObservationDimensionIndex obsDims "TIME_PERIOD" in
      let currencyValues :=
        optChain (JS.array_at seriesDims currencyDimIndex) SdmxDimension.values in
      let denomValues :=
        optChain (JS.array_at seriesDims denomDimIndex) SdmxDimension.values in
      let timeValues :=
        optChain (JS.array_at obsDims timeDimIndex) SdmxDimension.values in
      match currencyValues, denomValues, timeValues with
      | Some currencyValues, Some denomValues, Some timeValues =>
        Ok (fold_left
              (forDataSet currencyDimIndex denomDimIndex
                          currencyValues denomValues timeValues)
              dataSets [])
      | _, _, _ => Throw (EcbParseError "SDMX-JSON response missing dimension values." None)
      end
    end
  end.

(** ** The decoder on a value that was not checked

    [parseSdmxJson] casts what [JSON.parse] returns to [SdmxJsonResponse]
    without looking at it, and [fetchAndParse] hands the value to
    [parseJsonResponse].  These are the same functions as above, run on a
    value of any shape: a property read of [null] or [undefined], a
    [findIndex] of what is no array, a loop over what is not iterable
    throw a [TypeError], and an observation holds whatever the text has
    at the places of the date, the identifiers and the rate. *)
Module Unchecked.

Module ExchangeRateObservation.
Record t := mk {
  date : Any.t;
  currency : Any.t;
  baseCurrency : Any.t;
  rate : Any.t
}.
End ExchangeRateObservation.
Abbreviation ExchangeRateObservation := ExchangeRateObservation.t.

Section Decoder.

Variable Number_toString : float -> string.

(** [(d) => d.id === id] *)
Definition hasId (id : string) (d : Any.t) : Result bool :=
  let* identifier := Any.read d Any.Key.id in
  Ok match identifier with
     | Some (Any.Str s) => String.eqb s id
     | _ => false
     end.

Definition findDimensionIndex (dims : option Any.t) (id : string) : Result Z :=
  let* index := Any.findIndex dims (hasId id) in
  if index =? -1 then
    Throw (EcbParseError
             ("Missing series dimension " ++ dquote ++ id ++ dquote
              ++ " in SDMX-JSON structure.") None)
  else Ok index.

Definition findObservationDimensionIndex (dims : option Any.t) (id : string)
  : Result Z :=
  let* index := Any.findIndex dims (hasId id) in
  if index =? -1 then
    Throw (EcbParseError
             ("Missing observation dimension " ++ dquote ++ id ++ dquote
              ++ " in SDMX-JSON structure.") None)
  else Ok index.

Section Loops.

Variables currencyDimIndex denomDimIndex : Z.
Variables currencyValues denomValues timeValues : Any.values.

(** [for (const [obsKey, obsValues] of Object.entries(seriesData.observations))] *)
Definition forObservation (currency baseCurrency : Any.t)
    (observations : list ExchangeRateObservation)
    (entry : string * Any.t) : Result (list ExchangeRateObservation) :=
  let '(obsKey, obsValues) := entry in
  let timeIdx := JS.Number obsKey in
  let date := Any.chain (Any.item Number_toString timeValues timeIdx) Any.Key.id in
  let* rate := Any.first obsValues in
  match date, rate with
  | Some d, Some r =>
    if negb (Any.truthy date) then Ok observations
    else match r with
         | Any.Null => Ok observations
         | _ =>
           Ok (observations ++ [ExchangeRateObservation.mk d currency baseCurrency r])%list
         end
  | _, _ => Ok observations
  end.

(** [for (const [seriesKey, seriesData] of Object.entries(series))] *)
Definition forSeries (observations : list ExchangeRateObservation)
    (entry : string * Any.t) : Result (list ExchangeRateObservation) :=
  let '(seriesKey, seriesData) := entry in
  let dimIndices := map JS.Number (JS.split ":" seriesKey) in
  let currencyIdx := JS.array_at dimIndices currencyDimIndex in
  let denomIdx := JS.array_at dimIndices denomDimIndex in
  match currencyIdx, denomIdx with
  | Some currencyIdx, Some denomIdx =>
    let currency :=
      Any.chain (Any.item Number_toString currencyValues currencyIdx) Any.Key.id in
    let baseCurrency :=
      Any.chain (Any.item Number_toString denomValues denomIdx) Any.Key.id in
    match currency, baseCurrency with
    | Some c, Some b =>
      if negb (Any.truthy currency) || negb (Any.truthy baseCurrency) then Ok observations
      else
        let* seriesObservations := Any.read seriesData Any.Key.observations in
        let* entries := Any.entriesOf seriesObservations in
        forOf (forObservation c b) entries observations
    | _, _ => Ok observations
    end
  | _, _ => Ok observations
  end.

(** [for (const dataSet of dataSets)] *)
Definition forDataSet (observations : list ExchangeRateObservation)
    (dataSet : Any.t) : Result (list ExchangeRateObservation) :=
  let* series := Any.read dataSet Any.Key.series in
  match series with
  | Some s =>
    if negb (Any.truthy series) then Ok observations
    else let* entries := Any.entries s in
         forOf forSeries entries observations
  | None => Ok observations
  end.

End Loops.

Definition parseJsonResponse (data : Any.t) : Result (list ExchangeRateObservation) :=
  let* dataSets := Any.read data Any.Key.dataSets in
  match dataSets with
  | None => Ok []
  | Some sets =>
    if negb (Any.truthy dataSets) || Any.lengthIsZero sets then Ok []
    else
      let* structure := Any.read data Any.Key.structure in
      if negb (Any.truthy (Any.chain structure Any.Key.dimensions)) then
        Throw (EcbParseError "SDMX-JSON response missing structure.dimensions." None)
      else
        let* dimensions := Any.readOf structure Any.Key.dimensions in
        let* seriesDims := Any.readOf dimensions Any.Key.series in
        let* obsDims := Any.readOf dimensions Any.Key.observation in
        let* currencyDimIndex := findDimensionIndex seriesDims "CURRENCY" in
        let* denomDimIndex := findDimensionIndex seriesDims "CURRENCY_DENOM" in
        let* timeDimIndex := findObservationDimensionIndex obsDims "TIME_PERIOD" in
        let* currencyDim := Any.element seriesDims currencyDimIndex in
        let* denomDim := Any.element seriesDims denomDimIndex in
        let* timeDim := Any.element obsDims timeDimIndex in
        let currencyValues := Any.valuesOf currencyDim in
        let denomValues := Any.valuesOf denomDim in
        let timeValues := Any.valuesOf timeDim in
        if negb (Any.hasValues currencyValues) || negb (Any.hasValues denomValues)
           || negb (Any.hasValues timeValues) then
          Throw (EcbParseError "SDMX-JSON response missing dimension values." None)
        else
          let* elements := Any.iterate sets in
          forOf (forDataSet currencyDimIndex denomDimIndex
                            currencyValues denomValues timeValues)
                elements []
  end.

End Decoder.

End Unchecked.

(** ** The declared types among the values

    A value of type [any] has the shape that a type of
    [src/types/index.ts] declares when it reads as a value of that type:
    an object with the declared properties, each of its declared type,
    whatever other properties it has.  The properties that the records
    above hold as options may be absent. *)

Fixpoint traverse {A B : Type} (f : A -> option B) (l : list A) : option (list B) :=
  match l with
  | [] => Some []
  | x :: r =>
    match f x, traverse f r with
    | Some y, Some ys => Some (y :: ys)
    | _, _ => None
    end
  end.

Definition asString (v : Any.t) : option string :=
  match v with
  | Any.Str s => Some s
  | _ => None
  end.

Definition asBoolean (v : Any.t) : option bool :=
  match v with
  | Any.Boolean b => Some b
  | _ => None
  end.

(** [number | null] *)
Definition asNumberOrNull (v : Any.t) : option (option float) :=
  match v with
  | Any.Null => Some None
  | Any.Number x => Some (Some x)
  | _ => None
  end.

(** [readonly T[]] *)
Definition asArray {A : Type} (f : Any.t -> option A) (v : Any.t) : option (list A) :=
  match v with
  | Any.Array _ elements => traverse f elements
  | _ => None
  end.

(** [Record<string, T>] *)
Definition asRecord {A : Type} (f : Any.t -> option A) (v : Any.t) : option (Dict A) :=
  match v with
  | Any.Object _ entries =>
    traverse (fun entry : string * Any.t =>
                option_map (pair (fst entry)) (f (snd entry)))
             entries
  | _ => None
  end.

(** A property [name: T] and a property [name?: T] of an object. *)
Definition property {A : Type} (f : Any.t -> option A)
    (entries : list (string * Any.t)) (name : string) : option A :=
  optChain (JS.Map_get entries name) f.

Definition optionalProperty {A : Type} (f : Any.t -> option A)
    (entries : list (string * Any.t)) (name : string) : option (option A) :=
  match JS.Map_get entries name with
  | None => Some None
  | Some v => option_map Some (f v)
  end.

Definition asSdmxValue (v : Any.t) : option SdmxValue :=
  match v with
  | Any.Object _ entries =>
    match optionalProperty asString entries "id",
          property asString entries "name",
          optionalProperty asString entries "start",
          optionalProperty asString entries "end" with
    | Some id, Some name, Some start, Some end_ =>
      Some (SdmxValue.mk id name start end_)
    | _, _, _, _ => None
    end
  | _ => None
  end.

Definition asSdmxDimension (v : Any.t) : option SdmxDimension :=
  match v with
  | Any.Object _ entries =>
    match property asString entries "id",
          property asString entries "name",
          optionalProperty asString entries "role",
          optionalProperty (asArray asSdmxValue) entries "values" with
    | Some id, Some name, Some role, Some values =>
      Some (SdmxDimension.mk id name role values)
    | _, _, _, _ => None
    end
  | _ => None
  end.

Definition asSdmxSeries (v : Any.t) : option SdmxSeries :=
  match v with
  | Any.Object _ entries =>
    match property (asArray asNumberOrNull) entries "attributes",
          property (asRecord (asArray asNumberOrNull)) entries "observations" with
    | Some attributes, Some observations =>
      Some (SdmxSeries.mk attributes observations)
    | _, _ => None
    end
  | _ => None
  end.

Definition asSdmxDataSet (v : Any.t) : option SdmxDataSet :=
  match v with
  | Any.Object _ entries =>
    match optionalProperty asString entries "action",
          optionalProperty asString entries "validFrom",
          optionalProperty (asRecord asSdmxSeries) entries "series" with
    | Some action, Some validFrom, Some series =>
      Some (SdmxDataSet.mk action validFrom series)
    | _, _, _ => None
    end
  | _ => None
  end.

Definition asSdmxDimensions (v : Any.t) : option SdmxDimensions :=
  match v with
  | Any.Object _ entries =>
    match property (asArray asSdmxDimension) entries "series",
          property (asArray asSdmxDimension) entries "observation" with
    | Some series, Some observation => Some (SdmxDimensions.mk series observation)
    | _, _ => None
    end
  | _ => None
  end.

Definition asSdmxAttributes (v : Any.t) : option SdmxAttributes :=
  match v with
  | Any.Object _ entries =>
    match optionalProperty (asArray asSdmxDimension) entries "series",
          optionalProperty (asArray asSdmxDimension) entries "observation" with
    | Some series, Some observation => Some (SdmxAttributes.mk series observation)
    | _, _ => None
    end
  | _ => None
  end.

Definition asSdmxStructure (v : Any.t) : option SdmxStructure :=
  match v with
  | Any.Object _ entries =>
    match optionalProperty asString entries "name",
          optionalProperty asSdmxDimensions entries "dimensions",
          optionalProperty asSdmxAttributes entries "attributes" with
    | Some name, Some dimensions, Some attributes =>
      Some (SdmxStructure.mk name dimensions attributes)
    | _, _, _ => None
    end
  | _ => None
  end.

Definition asSdmxSender (v : Any.t) : option SdmxSender :=
  match v with
  | Any.Object _ entries => option_map SdmxSender.mk (property asString entries "id")
  | _ => None
  end.

Definition asSdmxHeader (v : Any.t) : option SdmxHeader :=
  match v with
  | Any.Object _ entries =>
    match property asString entries "id",
          property asBoolean entries "test",
          property asString entries "prepared",
          property asSdmxSender entries "sender" with
    | Some id, Some test, Some prepared, Some sender =>
      Some (SdmxHeader.mk id test prepared sender)
    | _, _, _, _ => None
    end
  | _ => None
  end.

(** The document that a value is, when the value has the shape that
    [SdmxJsonResponse] declares. *)
Definition asSdmxJsonResponse (v : Any.t) : option SdmxJsonResponse :=
  match v with
  | Any.Object _ entries =>
    match property asSdmxHeader entries "header",
          optionalProperty (asArray asSdmxDataSet) entries "dataSets",
          optionalProperty asSdmxStructure entries "structure" with
    | Some header, Some dataSets, Some structure =>
      Some (SdmxJsonResponse.mk header dataSets structure)
    | _, _, _ => None
    end
  | _ => None
  end.

(** An observation of the declared type, as the value it is. *)
Definition unchecked (o : ExchangeRateObservation) : Unchecked.ExchangeRateObservation :=
  Unchecked.ExchangeRateObservation.mk
    (Any.Str (ExchangeRateObservation.date o))
    (Any.Str (ExchangeRateObservation.currency o))
    (Any.Str (ExchangeRateObservation.baseCurrency o))
    (Any.Number (ExchangeRateObservation.rate o)).

(** An observation that has the declared type: three strings and a
    number. *)
Definition asExchangeRateObservation (o : Unchecked.ExchangeRateObservation)
  : option ExchangeRateObservation :=
  match Unchecked.ExchangeRateObservation.date o,
        Unchecked.ExchangeRateObservation.currency o,
        Unchecked.ExchangeRateObservation.baseCurrency o,
        Unchecked.ExchangeRateObservation.rate o with
  | Any.Str date, Any.Str currency, Any.Str baseCurrency, Any.Number rate =>
    Some (ExchangeRateObservation.mk date currency baseCurrency rate)
  | _, _, _, _ => None
  end.

(** ** The values that [JSON.parse] gives for the serialization of a value
    of a declared type

    An absent optional property is not written. *)

Definition field {A : Type} (name : string) (f : A -> Any.t) (a : option A)
  : list (string * Any.t) :=
  match a with
  | Some x => [(name, f x)]
  | None => []
  end.

Definition ofNumberOrNull (x : option float) : Any.t :=
  match x with
  | Some x => Any.Number x
  | None => Any.Null
  end.

Definition ofArray {A : Type} (f : A -> Any.t) (l : list A) : Any.t :=
  Any.Array 0 (map f l).

Definition ofRecord {A : Type} (f : A -> Any.t) (o : Dict A) : Any.t :=
  Any.Object 0 (map (fun entry : string * A => (fst entry, f (snd entry))) o).

Definition ofSdmxValue (v : SdmxValue) : Any.t :=
  Any.Object 0
    (field "id" Any.Str (SdmxValue.id v)
     ++ [("name", Any.Str (SdmxValue.name v))]
     ++ field "start" Any.Str (SdmxValue.start v)
     ++ field "end" Any.Str (SdmxValue.end_ v))%list.

Definition ofSdmxDimension (d : SdmxDimension) : Any.t :=
  Any.Object 0
    ([("id", Any.Str (SdmxDimension.id d)); ("name", Any.Str (SdmxDimension.name d))]
     ++ field "role" Any.Str (SdmxDimension.role d)
     ++ field "values" (ofArray ofSdmxValue) (SdmxDimension.values d))%list.

Definition ofSdmxSeries (s : SdmxSeries) : Any.t :=
  Any.Object 0
    [("attributes", ofArray ofNumberOrNull (SdmxSeries.attributes s));
     ("observations", ofRecord (ofArray ofNumberOrNull) (SdmxSeries.observations s))].

Definition ofSdmxDataSet (d : SdmxDataSet) : Any.t :=
  Any.Object 0
    (field "action" Any.Str (SdmxDataSet.action d)
     ++ field "validFrom" Any.Str (SdmxDataSet.validFrom d)
     ++ field "series" (ofRecord ofSdmxSeries) (SdmxDataSet.series d))%list.

Definition ofSdmxDimensions (d : SdmxDimensions) : Any.t :=
  Any.Object 0
    [("series", ofArray ofSdmxDimension (SdmxDimensions.series d));
     ("observation", ofArray ofSdmxDimension (SdmxDimensions.observation d))].

Definition ofSdmxAttributes (a : SdmxAttributes) : Any.t :=
  Any.Object 0
    (field "series" (ofArray ofSdmxDimension) (SdmxAttributes.series a)
     ++ field "observation" (ofArray ofSdmxDimension) (SdmxAttributes.observation a))%list.

Definition ofSdmxStructure (s : SdmxStructure) : Any.t :=
  Any.Object 0
    (field "name" Any.Str (SdmxStructure.name s)
     ++ field "dimensions" ofSdmxDimensions (SdmxStructure.dimensions s)
     ++ field "attributes" ofSdmxAttributes (SdmxStructure.attributes s))%list.

Definition ofSdmxHeader (h : SdmxHeader) : Any.t :=
  Any.Object 0
    [("id", Any.Str (SdmxHeader.id h));
     ("test", Any.Boolean (SdmxHeader.test h));
     ("prepared", Any.Str (SdmxHeader.prepared h));
     ("sender", Any.Object 0 [("id", Any.Str (SdmxSender.id (SdmxHeader.sender h)))])].

Definition ofSdmxJsonResponse (r : SdmxJsonResponse) : Any.t :=
  Any.Object 0
    ([("header", ofSdmxHeader (SdmxJsonResponse.header r))]
     ++ field "dataSets" (ofArray ofSdmxDataSet) (SdmxJsonResponse.dataSets r)
     ++ field "structure" ofSdmxStructure (SdmxJsonResponse.structure r))%list.

(** The functions above give every array and object the identity 0;
    [JSON.parse] makes a new object for each of them.  [renumber] gives
    them identities of their own, in the order of the text, from [next]
    on, and returns the first identity that is left. *)
Fixpoint renumber (next : N) (v : Any.t) : Any.t * N :=
  match v with
  | Any.Array _ elements =>
    let '(elements', next') :=
      (fix each (n : N) (l : list Any.t) : list Any.t * N :=
         match l with
         | [] => ([], n)
         | x :: r =>
           let '(x', n') := renumber n x in
           let '(r', n'') := each n' r in
           (x' :: r', n'')
         end) (next + 1)%N elements in
    (Any.Array next elements', next')
  | Any.Object _ entries =>
    let '(entries', next') :=
      (fix each (n : N) (l : list (string * Any.t)) : list (string * Any.t) * N :=
         match l with
         | [] => ([], n)
         | (k, x) :: r =>
           let '(x', n') := renumber n x in
           let '(r', n'') := each n' r in
           ((k, x') :: r', n'')
         end) (next + 1)%N entries in
    (Any.Object next entries', next')
  | _ => (v, next)
  end.

(** What [JSON.parse(JSON.stringify(r))] returns for a response [r] of the
    declared type whose numbers are finite and other than [-0], the
    numbers that a JSON text can write. *)
Definition parsed (r : SdmxJsonResponse) : Any.t :=
  fst (renumber 0 (ofSdmxJsonResponse r)).

(** The client's state ([src/client.ts], [src/services/http-fetcher.ts]). *)

(** [HttpFetcher]: [get(url)] resolves to the response text or rejects. *)
Definition HttpFetcher : Type := string -> Result string.

Module EcbClient.
Record t := mk {
  baseUrl : string;
  baseCurrency : string;
  fetcher : HttpFetcher
}.
End EcbClient.
Abbreviation EcbClient := EcbClient.t.

(** The runtime services the sources call and this development does not
    define: [Number::toString], [JSON.parse] and the WHATWG [URL] class. *)
Section Runtime.

Variable Number_toString : float -> string.

(** [JSON.parse(raw)]: the value that the text denotes, or the message of
    the [SyntaxError] thrown. *)
Variable JSON_parse : string -> Any.t + string.

(** [new URL(s)], then [searchParams.set(k, v)] for each pair in turn,
    then [toString()]; [None] is the [TypeError] thrown when [s] is no
    valid URL. *)
Variable URL_toString : string -> list (string * string) -> option string.

(** [parseSdmxJson] returns the value as [JSON.parse] gave it: the cast
    [as SdmxJsonResponse] is a statement to the type checker and does
    nothing when the program runs. *)
Definition parseSdmxJson (raw : string) : Result Any.t :=
  match JSON_parse raw with
  | inl json => Ok json
  | inr message =>
    Throw (EcbParseError "Failed to parse ECB JSON response."
                         (Some ("SyntaxError", message)))
  end.

(* ------------------------------------------------------------------ *)
(** * [src/utils/validation.ts] *)
(* ------------------------------------------------------------------ *)

Definition isDigit (c : ascii) : bool :=
  let n := N_of_ascii c in ((48 <=? n) && (n <=? 57))%N.

Definition isUpper (c : ascii) : bool :=
  let n := N_of_ascii c in ((65 <=? n) && (n <=? 90))%N.

(** [/^\d{4}-\d{2}-\d{2}$/.test(s)] *)
Definition ISO_DATE_REGEX_test (s : string) : bool :=
  match list_ascii_of_string s with
  | [y1; y2; y3; y4; h1; m1; m2; h2; d1; d2] =>
    isDigit y1 && isDigit y2 && isDigit y3 && isDigit y4
    && Ascii.eqb h1 "-" && isDigit m1 && isDigit m2
    && Ascii.eqb h2 "-" && isDigit d1 && isDigit d2
  | _ => false
  end.

(** [/^[A-Z]{3}$/.test(s)] *)
Definition CURRENCY_REGEX_test (s : string) : bool :=
  match list_ascii_of_string s with
  | [a; b; c] => isUpper a && isUpper b && isUpper c
  | _ => false
  end.

(** The loop of [validateQuery] over the currencies: the first code that
    fails the test throws. *)
Fixpoint validateCurrencies (currencies : list string) : Result unit :=
  match currencies with
  | [] => Ok tt
  | currency :: rest =>
    if negb (CURRENCY_REGEX_test currency) then
      Throw (EcbValidationError
               ("Invalid currency code " ++ dquote ++ currency ++ dquote
                ++ ". Must be a 3-letter ISO 4217 code."))
    else validateCurrencies rest
  end.

Definition validateQuery (query : ExchangeRateQuery) : Result unit :=
  let startDate := ExchangeRateQuery.startDate query in
  match ExchangeRateQuery.currencies query with
  | [] => Throw (EcbValidationError "At least one currency must be specified.")
  | currencies =>
    let* _ := validateCurrencies currencies in
    if negb (ISO_DATE_REGEX_test startDate) then
      Throw (EcbValidationError
               ("Invalid startDate " ++ dquote ++ startDate ++ dquote
                ++ ". Expected format: YYYY-MM-DD."))
    else
      let* _ :=
        match ExchangeRateQuery.endDate query with
        | Some endDate =>
          if negb (ISO_DATE_REGEX_test endDate) then
            Throw (EcbValidationError
                     ("Invalid endDate " ++ dquote ++ endDate ++ dquote
                      ++ ". Expected format: YYYY-MM-DD."))
          else if JS.ltb endDate startDate then
            Throw (EcbValidationError
                     ("startDate " ++ dquote ++ startDate ++ dquote
                      ++ " must not be after endDate " ++ dquote ++ endDate
                      ++ dquote ++ "."))
          else Ok tt
        | None => Ok tt
        end in
      match ExchangeRateQuery.baseCurrency query with
      | Some baseCurrency =>
        if negb (CURRENCY_REGEX_test baseCurrency) then
          Throw (EcbValidationError
                   ("Invalid baseCurrency " ++ dquote ++ baseCurrency ++ dquote
                    ++ ". Must be a 3-letter ISO 4217 code."))
        else Ok tt
      | None => Ok tt
      end
  end.

(* ------------------------------------------------------------------ *)
(** * [src/utils/url-builder.ts] *)
(* ------------------------------------------------------------------ *)

Definition DEFAULT_BASE_URL : string := "https://data-api.ecb.europa.eu/service".

(** [a ?? b] *)
Definition nullish {T : Type} (a : option T) (b : T) : T :=
  match a with
  | Some x => x
  | None => b
  end.

Definition buildExchangeRateUrl (query : ExchangeRateQuery) (baseUrl : string)
  : Result string :=
  let frequency :=
    nullish (option_map Frequency.toString (ExchangeRateQuery.frequency query)) "D" in
  let currencyKey := JS.join "+" (ExchangeRateQuery.currencies query) in
  let baseCurrency := nullish (ExchangeRateQuery.baseCurrency query) "EUR" in
  let seriesKey :=
    frequency ++ "." ++ currencyKey ++ "." ++ baseCurrency ++ ".SP00.A" in
  match URL_toString (baseUrl ++ "/data/EXR/" ++ seriesKey)
          (("startPeriod", ExchangeRateQuery.startDate query)
           :: match ExchangeRateQuery.endDate query with
              | Some endDate => [("endPeriod", endDate)]
              | None => []
              end) with
  | Some url => Ok url
  | None => Throw (RuntimeError "TypeError" "Invalid URL")
  end.

(* ------------------------------------------------------------------ *)
(** * [src/client.ts] *)
(* ------------------------------------------------------------------ *)

Definition DEFAULT_BASE_CURRENCY : string := "EUR".

(** [EcbClient.withFetcher(fetcher, config)]; [new EcbClient(config)] is
    the same client with the [FetchHttpFetcher] of the configuration. *)
Definition withFetcher (fetcher : HttpFetcher) (config : EcbClientConfig) : EcbClient :=
  EcbClient.mk
    (nullish (EcbClientConfig.baseUrl config) DEFAULT_BASE_URL)
    (nullish (EcbClientConfig.baseCurrency config) DEFAULT_BASE_CURRENCY)
    fetcher.

Section Methods.

Variable this : EcbClient.

Definition resolveQuery (query : ExchangeRateQuery) : ExchangeRateQuery :=
  match ExchangeRateQuery.baseCurrency query with
  | Some _ => query
  | None =>
    ExchangeRateQuery.mk
      (ExchangeRateQuery.currencies query)
      (ExchangeRateQuery.startDate query)
      (ExchangeRateQuery.endDate query)
      (ExchangeRateQuery.frequency query)
      (Some (EcbClient.baseCurrency this))
  end.

Definition fetchAndParse (query : ExchangeRateQuery)
  : Result (list Unchecked.ExchangeRateObservation) :=
  let* url := buildExchangeRateUrl query (EcbClient.baseUrl this) in
  let* raw := EcbClient.fetcher this url in
  let* json := parseSdmxJson raw in
  let* observations := Unchecked.parseJsonResponse Number_toString json in
  if (List.length observations =? 0)%nat then
    Throw (new_EcbNoDataError (ExchangeRateQuery.currencies query)
                              (ExchangeRateQuery.startDate query)
                              (ExchangeRateQuery.endDate query))
  else Ok observations.

(** The base of a result:
    [observations[0]?.baseCurrency ?? query.baseCurrency ?? this.baseCurrency]. *)
Definition deriveBase (observations : list Unchecked.ExchangeRateObservation)
                      (query : ExchangeRateQuery) : Any.t :=
  Any.coalesce
    (optChain (JS.array_at observations 0)
              (fun obs => Some (Unchecked.ExchangeRateObservation.baseCurrency obs)))
    (Any.Str (nullish (ExchangeRateQuery.baseCurrency query)
                      (EcbClient.baseCurrency this))).

Definition getSingleCurrencyRates (query : ExchangeRateQuery)
  : Result ExchangeRateResult :=
  let resolved := resolveQuery query in
  let* _ := validateQuery resolved in
  let* observations := fetchAndParse resolved in
  let rates :=
    fold_left
      (fun rates obs =>
         Any.Map_set rates (Unchecked.ExchangeRateObservation.date obs)
                           (Unchecked.ExchangeRateObservation.rate obs))
      observations [] in
  let base := deriveBase observations resolved in
  Ok (ExchangeRateResult.mk
        base
        rates
        (hd "" (ExchangeRateQuery.currencies resolved))).

(** One iteration of the loop of [transformToMultiCurrencyResult]: the
    object under the date, a new one when there is none, takes the rate
    under the name that the currency converts to; the conversion of a
    currency that is no string can throw. *)
Definition groupRate (rates : Any.Map PlainObject)
    (obs : Unchecked.ExchangeRateObservation) : Result (Any.Map PlainObject) :=
  let dateRates :=
    nullish (Any.Map_get rates (Unchecked.ExchangeRateObservation.date obs))
            PlainObject.empty in
  let* name :=
    Any.ToPropertyKey Number_toString (Unchecked.ExchangeRateObservation.currency obs) in
  Ok (Any.Map_set rates (Unchecked.ExchangeRateObservation.date obs)
        (PlainObject.assign dateRates name (Unchecked.ExchangeRateObservation.rate obs))).

Definition transformToMultiCurrencyResult
    (observations : list Unchecked.ExchangeRateObservation) (query : ExchangeRateQuery)
  : Result ExchangeRatesResult :=
  let* rates := forOf groupRate observations [] in
  let base := deriveBase observations query in
  Ok (ExchangeRatesResult.mk base rates (ExchangeRateQuery.currencies query)).

Definition getRate (currency date : string) : Result ExchangeRateResult :=
  getSingleCurrencyRates
    (ExchangeRateQuery.mk [currency] date (Some date) None None).

Definition getRateHistory (currency startDate endDate : string)
    (frequency : option Frequency) : Result ExchangeRateResult :=
  getSingleCurrencyRates
    (ExchangeRateQuery.mk [currency] startDate (Some endDate)
                          (Some (nullish frequency Frequency.D)) None).

Definition getRates (query : ExchangeRateQuery) : Result ExchangeRatesResult :=
  let resolved := resolveQuery query in
  let* _ := validateQuery resolved in
  let* observations := fetchAndParse resolved in
  transformToMultiCurrencyResult observations resolved.

Definition getObservations (query : ExchangeRateQuery)
  : Result (list Unchecked.ExchangeRateObservation) :=
  let resolved := resolveQuery query in
  let* _ := validateQuery resolved in
  fetchAndParse resolved.

(** [convert]: the [catch] turns an [EcbNoDataError] into [null] ([None])
    and rethrows the rest.  Destructuring the first entry of an empty map
    would throw a [TypeError]; the product converts the rate to a number,
    which throws for an object that does not convert. *)
Definition convert (amount : float) (currency date : string)
  : Result (option ConversionResult) :=
  match getRate currency date with
  | Throw error =>
    if instanceof_EcbNoDataError error then Ok None else Throw error
  | Ok result =>
    match Any.Map_first (ExchangeRateResult.rates result) with
    | Some (actualDate, rate) =>
      let* factor := Any.ToNumber Number_toString rate in
      Ok (Some (ConversionResult.mk
                  (JS.Math_round (amount * factor * 100) / 100)%float
                  rate
                  actualDate
                  currency))
    | None => Throw (TypeError "undefined is not iterable")
    end
  end.

End Methods.

End Runtime.

(* ------------------------------------------------------------------ *)
(** * [src/__tests__/fixtures.ts] *)
(* ------------------------------------------------------------------ *)

(** [{ id, name }] *)
Definition value (id name : string) : SdmxValue :=
  SdmxValue.mk (Some id) name None None.

(** [{ id, name, values }] *)
Definition dimension (id name : string) (values : list SdmxValue) : SdmxDimension :=
  SdmxDimension.mk id name None (Some values).

Definition TIME_PERIOD_DIMENSION : SdmxDimension :=
  SdmxDimension.mk "TIME_PERIOD" "Time period or range" (Some "time")
    (Some [value "2025-01-15" "2025-01-15"; value "2025-01-16" "2025-01-16"]).

(** SDMX-JSON response for D.USD.EUR.SP00.A with 2 daily observations. *)
Definition SINGLE_CURRENCY_RESPONSE : SdmxJsonResponse :=
  SdmxJsonResponse.mk
    (SdmxHeader.mk "test-single" false "2026-02-07T21:00:00.000+00:00"
                   (SdmxSender.mk "ECB"))
    (Some
       [SdmxDataSet.mk (Some "Replace") None
          (Some
             [("0:0:0:0:0",
               SdmxSeries.mk
                 [Some 0%float; None; Some 0%float]
                 [("0", [Some 1.03%float; Some 0%float; Some 0%float; None; None]);
                  ("1", [Some 1.0303%float; Some 0%float; Some 0%float; None; None])])])])
    (Some
       (SdmxStructure.mk (Some "Exchange Rates")
          (Some
             (SdmxDimensions.mk
                [dimension "FREQ" "Frequency" [value "D" "Daily"];
                 dimension "CURRENCY" "Currency" [value "USD" "US dollar"];
                 dimension "CURRENCY_DENOM" "Currency denominator" [value "EUR" "Euro"];
                 dimension "EXR_TYPE" "Exchange rate type" [value "SP00" "Spot"];
                 dimension "EXR_SUFFIX" "Series variation" [value "A" "Average"]]
                [TIME_PERIOD_DIMENSION]))
          None)).

(** Multi-currency response: USD + GBP, 2 dates each. *)
Definition MULTI_CURRENCY_RESPONSE : SdmxJsonResponse :=
  SdmxJsonResponse.mk
    (SdmxHeader.mk "test-multi" false "2026-02-07T21:00:00.000+00:00"
                   (SdmxSender.mk "ECB"))
    (Some
       [SdmxDataSet.mk (Some "Replace") None
          (Some
             [("0:0:0:0:0",
               SdmxSeries.mk []
                 [("0", [Some 1.03%float; Some 0%float]);
                  ("1", [Some 1.0303%float; Some 0%float])]);
              ("0:1:0:0:0",
               SdmxSeries.mk []
                 [("0", [Some 0.8442%float; Some 0%float]);
                  ("1", [Some 0.8451%float; Some 0%float])])])])
    (Some
       (SdmxStructure.mk (Some "Exchange Rates")
          (Some
             (SdmxDimensions.mk
                [dimension "FREQ" "Frequency" [value "D" "Daily"];
                 dimension "CURRENCY" "Currency"
                   [value "USD" "US dollar"; value "GBP" "Pound sterling"];
                 dimension "CURRENCY_DENOM" "Currency denominator" [value "EUR" "Euro"];
                 dimension "EXR_TYPE" "Exchange rate type" [value "SP00" "Spot"];
                 dimension "EXR_SUFFIX" "Series variation" [value "A" "Average"]]
                [TIME_PERIOD_DIMENSION]))
          None)).

(** [MockFetcher]: every URL resolves to the serialized response. *)
Definition MockFetcher (serialized : string) : HttpFetcher :=
  fun _url => Ok serialized.

(* ------------------------------------------------------------------ *)
(** * The specification's vocabulary *)
(* ------------------------------------------------------------------ *)

(** Definitions written from the specification's words, against which the
    functions above are compared. *)

(** "The zero-based position of the first dimension whose identifier
    equals the target" (section 4.1). *)
Fixpoint firstPosition (dims : list SdmxDimension) (target : string) : option nat :=
  match dims with
  | [] => None
  | d :: rest =>
    if String.eqb (SdmxDimension.id d) target then Some O
    else option_map S (firstPosition rest target)
  end.

(** A dimension with that identifier exists in the list. *)
Definition hasDimension (dims : list SdmxDimension) (target : string) : Prop :=
  exists d, In d dims /\ SdmxDimension.id d = target.

(** The value vocabulary of the dimension with that identifier. *)
Definition vocabulary (dims : list SdmxDimension) (target : string)
  : option (list SdmxValue) :=
  optChain (find (fun d => String.eqb (SdmxDimension.id d) target) dims)
           SdmxDimension.values.

(** The error of section 4.1: it names the identifier and the list. *)
Definition missingDimension (list_name target : string) : Exception :=
  EcbParseError
    ("Missing " ++ list_name ++ " dimension " ++ dquote ++ target ++ dquote
     ++ " in SDMX-JSON structure.") None.

(** What the structural checks of section 4.2 (steps 2 to 4) establish:
    the positions of CURRENCY and CURRENCY_DENOM among the series
    dimensions, of TIME_PERIOD among the observation dimensions, and the
    three vocabularies. *)
Record Resolved := {
  currencyPosition : nat;
  denomPosition : nat;
  timePosition : nat;
  currencyVocabulary : list SdmxValue;
  denomVocabulary : list SdmxValue;
  timeVocabulary : list SdmxValue
}.

Definition resolve (structure : option SdmxStructure) : option Resolved :=
  match optChain structure SdmxStructure.dimensions with
  | None => None
  | Some dims =>
    let seriesDims := SdmxDimensions.series dims in
    let obsDims := SdmxDimensions.observation dims in
    match firstPosition seriesDims "CURRENCY",
          firstPosition seriesDims "CURRENCY_DENOM",
          firstPosition obsDims "TIME_PERIOD",
          vocabulary seriesDims "CURRENCY",
          vocabulary seriesDims "CURRENCY_DENOM",
          vocabulary obsDims "TIME_PERIOD" with
    | Some c, Some d, Some t, Some cv, Some dv, Some tv =>
      Some (Build_Resolved c d t cv dv tv)
    | _, _, _, _, _, _ => None
    end
  end.

(** A well-shaped document: the structural checks pass. *)
Definition wellShaped (structure : option SdmxStructure) : Prop :=
  exists R, resolve structure = Some R.

(** A malformed structure, by the cases the specification lists. *)
Definition malformed (structure : option SdmxStructure) : Prop :=
  optChain structure SdmxStructure.dimensions = None
  \/ exists dims,
       optChain structure SdmxStructure.dimensions = Some dims
       /\ (~ hasDimension (SdmxDimensions.series dims) "CURRENCY"
           \/ ~ hasDimension (SdmxDimensions.series dims) "CURRENCY_DENOM"
           \/ ~ hasDimension (SdmxDimensions.observation dims) "TIME_PERIOD"
           \/ vocabulary (SdmxDimensions.series dims) "CURRENCY" = None
           \/ vocabulary (SdmxDimensions.series dims) "CURRENCY_DENOM" = None
           \/ vocabulary (SdmxDimensions.observation dims) "TIME_PERIOD" = None).

(** The segment of a series key at a position, when the key has one. *)
Definition segment (seriesKey : string) (position : nat) : option string :=
  nth_error (JS.split ":" seriesKey) position.

(** The identifier a key (an index written as a string) selects in a
    vocabulary: none when the index is out of the vocabulary, when the
    value there has no [id], or when that [id] is empty. *)
Definition selects (vocab : list SdmxValue) (key : string) : option string :=
  match optChain (JS.array_get vocab (JS.Number key)) SdmxValue.id with
  | Some (String _ _ as identifier) => Some identifier
  | _ => None
  end.

(** The rate of an observation tuple: its first element, when there is one
    and it is not null. *)
Definition rateOf (tuple : list (option float)) : option float :=
  match tuple with
  | Some r :: _ => Some r
  | _ => None
  end.

(** The currency and base currency a series key selects. *)
Definition seriesIdentifiers (R : Resolved) (seriesKey : string)
  : option (string * string) :=
  match optChain (segment seriesKey (currencyPosition R)) (selects (currencyVocabulary R)),
        optChain (segment seriesKey (denomPosition R)) (selects (denomVocabulary R)) with
  | Some c, Some b => Some (c, b)
  | _, _ => None
  end.

(** The observation of section 3 that a (series key, observation key,
    tuple) triple stands for, when its three identifiers resolve and its
    rate is present. *)
Definition crossReference (R : Resolved)
    (p : string * string * list (option float)) : option ExchangeRateObservation :=
  let '(seriesKey, obsKey, tuple) := p in
  match seriesIdentifiers R seriesKey, selects (timeVocabulary R) obsKey, rateOf tuple with
  | Some (c, b), Some d, Some r => Some (ExchangeRateObservation.mk d c b r)
  | _, _, _ => None
  end.

(** A pair "with in-vocabulary indices and a non-null rate". *)
Definition inVocabulary (R : Resolved)
    (p : string * string * list (option float)) : bool :=
  let '(seriesKey, obsKey, tuple) := p in
  match optChain (segment seriesKey (currencyPosition R)) (selects (currencyVocabulary R)),
        optChain (segment seriesKey (denomPosition R)) (selects (denomVocabulary R)),
        selects (timeVocabulary R) obsKey,
        rateOf tuple with
  | Some _, Some _, Some _, Some _ => true
  | _, _, _, _ => false
  end.

(** The (series, observation) pairs of a series, a data set, a list of
    data sets, in document order. *)
Definition seriesPairs (entry : string * SdmxSeries)
  : list (string * string * list (option float)) :=
  map (fun o => (fst entry, fst o, snd o)) (SdmxSeries.observations (snd entry)).

Definition dataSetPairs (dataSet : SdmxDataSet)
  : list (string * string * list (option float)) :=
  match SdmxDataSet.series dataSet with
  | Some series => flat_map seriesPairs series
  | None => []
  end.

Definition pairs (dataSets : list SdmxDataSet)
  : list (string * string * list (option float)) :=
  flat_map dataSetPairs dataSets.

(** Keeping the results of a partial function. *)
Definition filterMap {X Y : Type} (f : X -> option Y) (l : list X) : list Y :=
  flat_map (fun x => match f x with Some y => [y] | None => [] end) l.

(** A document with the given data sets and structure. *)
Definition document (header : SdmxHeader) (dataSets : list SdmxDataSet)
    (structure : option SdmxStructure) : SdmxJsonResponse :=
  SdmxJsonResponse.mk header (Some dataSets) structure.

(** The base-currency rule of section 6: the base currency of the first
    observation when there is one and it has that field; otherwise that of
    the query when it states one; otherwise that of the client. *)
Definition baseRule (observations : list Unchecked.ExchangeRateObservation)
    (queryBase : option string) (clientBase : string) : Any.t :=
  let requested :=
    match queryBase with
    | Some b => Any.Str b
    | None => Any.Str clientBase
    end in
  match observations with
  | first :: _ =>
    match Unchecked.ExchangeRateObservation.baseCurrency first with
    | Any.Null => requested
    | base => base
    end
  | [] => requested
  end.

(** The test of the resolver: the dimension has the identifier. *)
Definition named (target : string) (d : SdmxDimension) : bool :=
  String.eqb (SdmxDimension.id d) target.

(** The three loops, started from the [observations] collected so far,
    with the positions and vocabularies the checks resolved. *)
Definition decodeFrom (R : Resolved) (dataSets : list SdmxDataSet)
    (observations : list ExchangeRateObservation) : list ExchangeRateObservation :=
  fold_left
    (forDataSet (Z.of_nat (currencyPosition R)) (Z.of_nat (denomPosition R))
                (currencyVocabulary R) (denomVocabulary R) (timeVocabulary R))
    dataSets observations.


(** [obs.find((o) => o.currency === currency && o.date === date)?.rate], the
    lookup of the parser's tests. *)
Definition rateFor (observations : list ExchangeRateObservation)
    (currency date : string) : option float :=
  option_map ExchangeRateObservation.rate
    (find (fun o => String.eqb (ExchangeRateObservation.currency o) currency
                    && String.eqb (ExchangeRateObservation.date o) date)
          observations).

(** The response of the test "throws EcbParseError for missing CURRENCY
    dimension": the single-currency response with empty dimension lists. *)
Definition BAD_RESPONSE : SdmxJsonResponse :=
  SdmxJsonResponse.mk
    (SdmxJsonResponse.header SINGLE_CURRENCY_RESPONSE)
    (SdmxJsonResponse.dataSets SINGLE_CURRENCY_RESPONSE)
    (Some (SdmxStructure.mk None (Some (SdmxDimensions.mk [] [])) None)).

(** The structure of the fixtures, and its header. *)
Definition EXR_STRUCTURE : option SdmxStructure :=
  SdmxJsonResponse.structure MULTI_CURRENCY_RESPONSE.

Definition TEST_HEADER : SdmxHeader :=
  SdmxJsonResponse.header MULTI_CURRENCY_RESPONSE.

(** What the structural checks resolve in that structure. *)
Definition EXR_RESOLVED : Resolved :=
  Build_Resolved 1 2 0
    [value "USD" "US dollar"; value "GBP" "Pound sterling"]
    [value "EUR" "Euro"]
    [value "2025-01-15" "2025-01-15"; value "2025-01-16" "2025-01-16"].

(** The number of series dimensions of a structure. *)
Definition seriesDimensionCount (structure : option SdmxStructure) : nat :=
  match optChain structure SdmxStructure.dimensions with
  | Some dims => List.length (SdmxDimensions.series dims)
  | None => O
  end.

(** Data sets in which one data set holds the series [entries] between the
    series [pre] and the series [post]. *)
Definition withSeries (before : list SdmxDataSet)
    (action validFrom : option string) (pre entries post : Dict SdmxSeries)
    (after : list SdmxDataSet) : list SdmxDataSet :=
  (before ++ SdmxDataSet.mk action validFrom (Some (pre ++ entries ++ post)) :: after)%list.

(** A series with two observations, as in the fixtures. *)
Definition USD_SERIES : SdmxSeries :=
  SdmxSeries.mk [] [("0", [Some 1.03%float; Some 0%float]);
                    ("1", [Some 1.0303%float; Some 0%float])].

(** Entries as the upstream provider does not send them: keys with a
    non-numeric segment, too few and too many segments, indices out of the
    vocabularies, observation keys that are no index, an empty tuple and a
    null rate; and a vocabulary value without [id]. *)
Definition ODD_STRUCTURE : option SdmxStructure :=
  Some
    (SdmxStructure.mk None
       (Some
          (SdmxDimensions.mk
             [dimension "FREQ" "Frequency" [value "D" "Daily"];
              dimension "CURRENCY" "Currency"
                [value "USD" "US dollar"; SdmxValue.mk None "no id" None None];
              dimension "CURRENCY_DENOM" "Currency denominator" [value "EUR" "Euro"]]
             [TIME_PERIOD_DIMENSION]))
       None).

Definition ODD_DATASETS : list SdmxDataSet :=
  [SdmxDataSet.mk None None None;
   SdmxDataSet.mk None None
     (Some
        [("0", USD_SERIES);
         ("0:x:0", USD_SERIES);
         ("0:0", USD_SERIES);
         ("0:7:0", USD_SERIES);
         ("0:1:0", USD_SERIES);
         ("0:0:9", USD_SERIES);
         ("0:-1:0", USD_SERIES);
         ("0:0.5:0", USD_SERIES);
         ("0:0:0:0:0:0",
          SdmxSeries.mk []
            [("0", [None; Some 3%float]);
             ("1", []);
             ("5", [Some 2%float]);
             ("zero", [Some 1%float]);
             ("01", [Some 4%float])])])].

(** A segment selects no identifier in a vocabulary, by the two cases of
    section 4.2: the index is out of the vocabulary, or the value there
    has no [id]. *)
Definition selectsNoIdentifier (vocab : list SdmxValue) (key : string) : Prop :=
  JS.array_get vocab (JS.Number key) = None
  \/ exists v, JS.array_get vocab (JS.Number key) = Some v /\ SdmxValue.id v = None.

(** The single-currency response with a series key of three segments, and
    the same response without that series. *)
Definition SHORT_KEY_RESPONSE : SdmxJsonResponse :=
  document TEST_HEADER
    (withSeries [] (Some "Replace") None [] [("0:0:0", USD_SERIES)] [] [])
    (SdmxJsonResponse.structure SINGLE_CURRENCY_RESPONSE).

Definition NO_SERIES_RESPONSE : SdmxJsonResponse :=
  document TEST_HEADER
    (withSeries [] (Some "Replace") None [] [] [] [])
    (SdmxJsonResponse.structure SINGLE_CURRENCY_RESPONSE).

(** ** Test doubles of the client's tests ([src/client.test.ts]) *)

(** [{ ...SINGLE_CURRENCY_RESPONSE, dataSets: [] }] *)
Definition EMPTY_RESPONSE : SdmxJsonResponse :=
  SdmxJsonResponse.mk
    (SdmxJsonResponse.header SINGLE_CURRENCY_RESPONSE)
    (Some [])
    (SdmxJsonResponse.structure SINGLE_CURRENCY_RESPONSE).

(** The tests serialize a fixture with [JSON.stringify] and the client
    parses it back.  The serialized text is stood for by the fixture's
    name, and [JSON.parse] by the function that reads the name; any other
    text is not JSON. *)
Definition test_JSON_parse (raw : string) : Any.t + string :=
  if String.eqb raw "SINGLE_CURRENCY_RESPONSE" then inl (parsed SINGLE_CURRENCY_RESPONSE)
  else if String.eqb raw "MULTI_CURRENCY_RESPONSE" then inl (parsed MULTI_CURRENCY_RESPONSE)
  else if String.eqb raw "EMPTY_RESPONSE" then inl (parsed EMPTY_RESPONSE)
  else inr "Unexpected token".

(** A stand-in for the URL class on the URLs of the tests: the address,
    then the parameters. *)
Definition test_URL_toString (address : string) (params : list (string * string))
  : option string :=
  Some (address ++ "?" ++ JS.join "&" (map (fun p => fst p ++ "=" ++ snd p) params)).

(** [EcbClient.withFetcher(new MockFetcher(response))] *)
Definition testClient (serialized : string) : EcbClient :=
  withFetcher (MockFetcher serialized) (EcbClientConfig.mk None None None).

(** The query that [getRate(currency, date)] validates and sends. *)
Definition rateQuery (this : EcbClient) (currency date : string) : ExchangeRateQuery :=
  resolveQuery this (ExchangeRateQuery.mk [currency] date (Some date) None None).

(** The decimal numeral of a natural number: the keys the provider sends. *)
Definition decimal (n : nat) : string :=
  DecimalString.NilZero.string_of_uint (Nat.to_uint n).

(** Every value of the three vocabularies carries its own, non-empty,
    string identifier (section 3). *)
Definition identified (R : Resolved) : Prop :=
  forall v,
    In v (currencyVocabulary R ++ denomVocabulary R ++ timeVocabulary R)%list ->
    JS.truthy (SdmxValue.id v) = true.

(** The value a key (an index written as a string) reads in a vocabulary. *)
Definition valueAt (vocab : list SdmxValue) (key : string) : option SdmxValue :=
  JS.array_get vocab (JS.Number key).

(** A pair whose three indices are within their vocabularies and whose
    rate is not null. *)
Definition indexed (R : Resolved) (p : string * string * list (option float)) : bool :=
  let '(seriesKey, obsKey, tuple) := p in
  match optChain (segment seriesKey (currencyPosition R)) (valueAt (currencyVocabulary R)),
        optChain (segment seriesKey (denomPosition R)) (valueAt (denomVocabulary R)),
        valueAt (timeVocabulary R) obsKey,
        rateOf tuple with
  | Some _, Some _, Some _, Some _ => true
  | _, _, _, _ => false
  end.

(** The digits of a numeral, most significant first, and the character
    code of a digit. *)
Fixpoint digitsOf (d : Decimal.uint) : list N :=
  match d with
  | Decimal.Nil => []
  | Decimal.D0 d => 0%N :: digitsOf d
  | Decimal.D1 d => 1%N :: digitsOf d
  | Decimal.D2 d => 2%N :: digitsOf d
  | Decimal.D3 d => 3%N :: digitsOf d
  | Decimal.D4 d => 4%N :: digitsOf d
  | Decimal.D5 d => 5%N :: digitsOf d
  | Decimal.D6 d => 6%N :: digitsOf d
  | Decimal.D7 d => 7%N :: digitsOf d
  | Decimal.D8 d => 8%N :: digitsOf d
  | Decimal.D9 d => 9%N :: digitsOf d
  end.

Definition digitCode (v : N) : N := (48 + v)%N.

(** The 53-bit mantissa and the exponent of a positive integer that has at
    most 53 bits. *)
Definition normalised (p : positive) : positive * Z :=
  match 53 - Zpos (digits2_pos p) with
  | Zpos k => (Pos.iter xO p k, - Zpos k)
  | _ => (p, 0)
  end.

(** The identifier of the value at an index of a vocabulary, when there is
    a value there and its identifier is present and not empty. *)
Definition identifierAt (vocab : list SdmxValue) (index : nat) : option string :=
  match optChain (nth_error vocab index) SdmxValue.id with
  | Some (String _ _ as identifier) => Some identifier
  | _ => None
  end.

(** A series key as the provider writes it: decimal indices joined by
    colons. *)
Definition seriesKeyOf (index : nat) (indices : list nat) : string :=
  JS.join ":" (map decimal (index :: indices)).

(* ------------------------------------------------------------------ *)
(** * Queries, dates and codes as the validation reads them *)
(* ------------------------------------------------------------------ *)

(** An upper-case letter of the ASCII alphabet, a decimal digit. *)
Definition upperCase (c : ascii) : Prop := (65 <= N_of_ascii c <= 90)%N.

Definition decimalDigit (c : ascii) : Prop := (48 <= N_of_ascii c <= 57)%N.

(** A currency code: three upper-case letters. *)
Definition currencyCode (s : string) : Prop :=
  exists a b c,
    s = String a (String b (String c ""))
    /\ upperCase a /\ upperCase b /\ upperCase c.

(** A date written YYYY-MM-DD: four digits, two digits and two digits,
    with hyphens between them. *)
Definition isoDate (s : string) : Prop :=
  exists y1 y2 y3 y4 m1 m2 d1 d2,
    s = String y1 (String y2 (String y3 (String y4 (String "-"
          (String m1 (String m2 (String "-" (String d1 (String d2 "")))))))))
    /\ Forall decimalDigit [y1; y2; y3; y4; m1; m2; d1; d2].

(** The number that decimal digits write. *)
Definition numeral (digits : list ascii) : N :=
  fold_left (fun n c => n * 10 + (N_of_ascii c - 48))%N digits 0%N.

(** The year, the month and the day of a date written YYYY-MM-DD. *)
Definition year (s : string) : N := numeral (firstn 4 (list_ascii_of_string s)).

Definition month (s : string) : N :=
  numeral (firstn 2 (skipn 5 (list_ascii_of_string s))).

Definition day (s : string) : N :=
  numeral (firstn 2 (skipn 8 (list_ascii_of_string s))).

(** The first date is earlier than the second: an earlier year, or the
    same year and an earlier month, or the same year and month and an
    earlier day. *)
Definition earlier (s t : string) : Prop :=
  (year s < year t
   \/ (year s = year t
       /\ (month s < month t \/ (month s = month t /\ day s < day t))))%N.

(** The messages of [validateQuery]. *)
Definition invalidCurrency (currency : string) : Exception :=
  EcbValidationError
    ("Invalid currency code " ++ dquote ++ currency ++ dquote
     ++ ". Must be a 3-letter ISO 4217 code.").

Definition invalidStartDate (startDate : string) : Exception :=
  EcbValidationError
    ("Invalid startDate " ++ dquote ++ startDate ++ dquote
     ++ ". Expected format: YYYY-MM-DD.").

Definition invalidEndDate (endDate : string) : Exception :=
  EcbValidationError
    ("Invalid endDate " ++ dquote ++ endDate ++ dquote
     ++ ". Expected format: YYYY-MM-DD.").

Definition startAfterEnd (startDate endDate : string) : Exception :=
  EcbValidationError
    ("startDate " ++ dquote ++ startDate ++ dquote
     ++ " must not be after endDate " ++ dquote ++ endDate ++ dquote ++ ".").

Definition invalidBaseCurrency (baseCurrency : string) : Exception :=
  EcbValidationError
    ("Invalid baseCurrency " ++ dquote ++ baseCurrency ++ dquote
     ++ ". Must be a 3-letter ISO 4217 code.").

(* ------------------------------------------------------------------ *)
(** * Reading the results of the client *)
(* ------------------------------------------------------------------ *)

(** The own property [name] of the object that the rates of a
    multi-currency result hold under a date. *)
Definition rateAt (rates : Any.Map PlainObject) (date : Any.t) (name : string)
  : option Any.t :=
  optChain (Any.Map_get rates date)
           (fun dateRates => JS.Map_get (PlainObject.own dateRates) name).

(** What the tests of the decoder let through: a date, a currency and a
    base currency that are truthy, and a rate that is not [null]. *)
Definition tested (o : Unchecked.ExchangeRateObservation) : Prop :=
  Any.truthy (Some (Unchecked.ExchangeRateObservation.date o)) = true
  /\ Any.truthy (Some (Unchecked.ExchangeRateObservation.currency o)) = true
  /\ Any.truthy (Some (Unchecked.ExchangeRateObservation.baseCurrency o)) = true
  /\ Unchecked.ExchangeRateObservation.rate o <> Any.Null.

(** An observation of the declared type: three strings and a number. *)
Definition declared (o : Unchecked.ExchangeRateObservation) : Prop :=
  exists o', o = unchecked o'.

(** The last observation of a list for a date. *)
Definition lastOn (date : Any.t) (observations : list Unchecked.ExchangeRateObservation)
  : option Unchecked.ExchangeRateObservation :=
  find (fun o => Any.SameValueZero (Unchecked.ExchangeRateObservation.date o) date)
       (rev observations).

(** The name of the property that a currency stands for is [name]. *)
Definition named_by (Number_toString : float -> string) (name : string)
    (currency : Any.t) : bool :=
  match Any.ToPropertyKey Number_toString currency with
  | Ok k => String.eqb k name
  | Throw _ => false
  end.

(** The last observation of a list for a date and for a currency that
    stands for a property name. *)
Definition lastOf (Number_toString : float -> string) (date : Any.t) (name : string)
    (observations : list Unchecked.ExchangeRateObservation)
  : option Unchecked.ExchangeRateObservation :=
  find (fun o => Any.SameValueZero (Unchecked.ExchangeRateObservation.date o) date
                 && named_by Number_toString name
                             (Unchecked.ExchangeRateObservation.currency o))
       (rev observations).

(** The keys of a map, in the order of its entries. *)
Definition Map_keys {V : Type} (m : Any.Map V) : list Any.t := map fst m.

(** The distinct keys of a list, each at its first occurrence. *)
Fixpoint distinct (l : list Any.t) : list Any.t :=
  match l with
  | [] => []
  | x :: r => x :: filter (fun y => negb (Any.SameValueZero y x)) (distinct r)
  end.

(** No two keys of a list are the same key of a map. *)
Fixpoint distinctKeys (l : list Any.t) : Prop :=
  match l with
  | [] => True
  | x :: r => Forall (fun y => Any.SameValueZero x y = false) r /\ distinctKeys r
  end.

(** The date range in the message of [EcbNoDataError]: the start date
    alone when there is no end date, an empty one, or the start date
    again. *)
Definition dateRange (startDate : string) (endDate : option string) : string :=
  match endDate with
  | None => startDate
  | Some "" => startDate
  | Some e => if String.eqb e startDate then startDate else startDate ++ " to " ++ e
  end.

(** The message of [EcbNoDataError]. *)
Definition noDataMessage (currencies : list string) (startDate : string)
    (endDate : option string) : string :=
  "No exchange rate data available for " ++ JS.join ", " currencies
  ++ " on " ++ dateRange startDate endDate
  ++ ". The ECB does not publish rates on weekends, holidays, or future dates.".

(* ------------------------------------------------------------------ *)
(** * Reading the decoder *)
(* ------------------------------------------------------------------ *)

(** The identifiers that the values of a vocabulary carry. *)
Definition identifiers (vocab : list SdmxValue) : list string :=
  flat_map (fun v => match SdmxValue.id v with
                     | Some identifier => [identifier]
                     | None => []
                     end) vocab.

(** A data set in which the series keep no attributes and every
    observation tuple keeps its first element only. *)
Definition rateOnly (dataSet : SdmxDataSet) : SdmxDataSet :=
  SdmxDataSet.mk
    (SdmxDataSet.action dataSet)
    (SdmxDataSet.validFrom dataSet)
    (option_map
       (map (fun entry : string * SdmxSeries =>
               (fst entry,
                SdmxSeries.mk []
                  (map (fun o : string * list (option float) => (fst o, firstn 1 (snd o)))
                       (SdmxSeries.observations (snd entry))))))
       (SdmxDataSet.series dataSet)).

(* ------------------------------------------------------------------ *)
(** * [src/services/http-fetcher.ts] *)
(* ------------------------------------------------------------------ *)

(** [error.name] and [error.message]: each subclass of [EcbError] sets its
    own name in its constructor. *)
Definition errorName (e : Exception) : string :=
  match e with
  | EcbApiError _ _ _ => "EcbApiError"
  | EcbNetworkError _ _ => "EcbNetworkError"
  | EcbParseError _ _ => "EcbParseError"
  | EcbValidationError _ => "EcbValidationError"
  | EcbNoDataError _ _ _ _ => "EcbNoDataError"
  | RuntimeError name _ => name
  end.

Definition errorMessage (e : Exception) : string :=
  match e with
  | EcbApiError message _ _ => message
  | EcbNetworkError message _ => message
  | EcbParseError message _ => message
  | EcbValidationError message => message
  | EcbNoDataError message _ _ _ => message
  | RuntimeError _ message => message
  end.

(** [error instanceof EcbApiError], [error instanceof EcbNetworkError]. *)
Definition instanceof_EcbApiError (e : Exception) : bool :=
  match e with
  | EcbApiError _ _ _ => true
  | _ => false
  end.

Definition instanceof_EcbNetworkError (e : Exception) : bool :=
  match e with
  | EcbNetworkError _ _ => true
  | _ => false
  end.

(** What a [catch] clause receives: an instance of [Error], or any other
    value, of which the code reads [String(error)] only; that conversion
    returns a string or throws. *)
Inductive Thrown :=
| ThrownError (e : Exception)
| ThrownValue (image : Result string).

(** The [cause] kept of what was caught: the name and the message of an
    [Error]; for another value, no name and its string. *)
Definition causeOf (error : Thrown) : option (string * string) :=
  match error with
  | ThrownError e => Some (errorName e, errorMessage e)
  | ThrownValue (Ok image) => Some ("", image)
  | ThrownValue (Throw _) => None
  end.

(** The outcome of awaiting a promise: the value it is fulfilled with, or
    what it is rejected with. *)
Inductive Promise (A : Type) : Type :=
| Fulfilled (a : A)
| Rejected (error : Thrown).

Arguments Fulfilled {A} a.
Arguments Rejected {A} error.

(** The part of a [Response] that [get] reads; [text] is the outcome of
    [response.text()]. *)
Module Response.
Record t := mk {
  ok : bool;
  status : float;
  statusText : string;
  text : Promise string
}.
End Response.
Abbreviation Response := Response.t.

(** The second argument of [fetch], for a type of abort signals. *)
Module RequestInit.
Record t (AbortSignal : Type) := mk {
  method : string;
  headers : list (string * string);
  signal : AbortSignal
}.
End RequestInit.
Abbreviation RequestInit := RequestInit.t.

(** [typeof globalThis.fetch], by the outcome of the promise it returns. *)
Definition Fetch (AbortSignal : Type) : Type :=
  string -> RequestInit AbortSignal -> Promise Response.

Module FetchHttpFetcher.
Record t (AbortSignal : Type) := mk {
  fetchFn : Fetch AbortSignal;
  timeoutMs : float
}.
End FetchHttpFetcher.
Abbreviation FetchHttpFetcher := FetchHttpFetcher.t.

(** The runtime services of the fetcher, which this development does not
    define: the conversion of a number in a template string
    ([Number::toString]); the abort signals, with the signal of a new
    [AbortController] that a timer aborts after a delay unless it is
    cleared, and [AbortSignal.any]; and the global [fetch]. *)
Section Fetcher.

Variable Number_toString : float -> string.

Variable AbortSignal : Type.
Variable timeoutSignal : float -> AbortSignal.
Variable AbortSignal_any : list AbortSignal -> AbortSignal.
Variable globalThis_fetch : Fetch AbortSignal.

(** [new EcbApiError(statusCode, statusText, body)]
    ([src/errors/index.ts]). *)
Definition new_EcbApiError (statusCode : float) (statusText : string)
    (body : option string) : Exception :=
  EcbApiError
    ("ECB API returned " ++ Number_toString statusCode ++ " " ++ statusText
     ++ (if JS.truthy body then ": " ++ nullish body "" else ""))
    statusCode statusText.

(** [new FetchHttpFetcher(fetchFn, timeoutMs)], with the defaults of the
    two parameters. *)
Definition new_FetchHttpFetcher (fetchFn : option (Fetch AbortSignal))
    (timeoutMs : option float) : FetchHttpFetcher AbortSignal :=
  FetchHttpFetcher.mk (nullish fetchFn globalThis_fetch) (nullish timeoutMs 30000%float).

(** The [try] block of [get]: the text it returns, or what it throws. *)
Definition attempt (this : FetchHttpFetcher AbortSignal) (url : string)
    (signal : AbortSignal) : Promise string :=
  match FetchHttpFetcher.fetchFn this url
          (RequestInit.mk "GET" [("Accept", "application/json")] signal) with
  | Fulfilled response =>
    if negb (Response.ok response) then
      let body := match Response.text response with
                  | Fulfilled text => text
                  | Rejected _ => ""
                  end in
      Rejected (ThrownError
                  (new_EcbApiError (Response.status response)
                                   (Response.statusText response) (Some body)))
    else Response.text response
  | Rejected error => Rejected error
  end.

(** [get(url, externalSignal)]: the [try] block, then the [catch] clause
    on what it threw.  The [finally] clause clears the timer. *)
Definition get (this : FetchHttpFetcher AbortSignal) (url : string)
    (externalSignal : option AbortSignal) : Result string :=
  let signal :=
    match externalSignal with
    | Some external =>
      AbortSignal_any [external; timeoutSignal (FetchHttpFetcher.timeoutMs this)]
    | None => timeoutSignal (FetchHttpFetcher.timeoutMs this)
    end in
  match attempt this url signal with
  | Fulfilled text => Ok text
  | Rejected error =>
    match error with
    | ThrownError e =>
      if instanceof_EcbApiError e then Throw e
      else if String.eqb (errorName e) "AbortError" then
        Throw (EcbNetworkError
                 ("Request timed out after "
                  ++ Number_toString (FetchHttpFetcher.timeoutMs this)
                  ++ "ms: " ++ url)
                 (causeOf error))
      else
        Throw (EcbNetworkError
                 ("Network request failed for " ++ url ++ ": " ++ errorMessage e)
                 (causeOf error))
    | ThrownValue (Ok image) =>
      Throw (EcbNetworkError
               ("Network request failed for " ++ url ++ ": " ++ image)
               (causeOf error))
    | ThrownValue (Throw e) => Throw e
    end
  end.

(** [new EcbClient(config)] ([src/client.ts]); the [fetchFn] of the
    configuration is given beside the other options. *)
Definition new_EcbClient (config : EcbClientConfig)
    (configFetchFn : option (Fetch AbortSignal)) : EcbClient :=
  EcbClient.mk
    (nullish (EcbClientConfig.baseUrl config) DEFAULT_BASE_URL)
    (nullish (EcbClientConfig.baseCurrency config) DEFAULT_BASE_CURRENCY)
    (fun url =>
       get (new_FetchHttpFetcher configFetchFn (EcbClientConfig.timeoutMs config))
           url None).

End Fetcher.

(** A thrown value that the [catch] clause of [get] can report: an
    [Error], or a value whose conversion to a string returns. *)
Definition reportable (error : Thrown) : Prop :=
  match error with
  | ThrownValue (Throw _) => False
  | _ => True
  end.

(** A [fetch] whose rejections, and those of the [text()] of its
    responses, are reportable. *)
Definition rejectsReportably {AbortSignal : Type} (fetchFn : Fetch AbortSignal) : Prop :=
  forall url request,
    match fetchFn url request with
    | Rejected error => reportable error
    | Fulfilled response =>
      match Response.text response with
      | Rejected error => reportable error
      | Fulfilled _ => True
      end
    end.

(** An instance of [EcbError]: it has a [code]. *)
Definition instanceof_EcbError (e : Exception) : bool :=
  match code e with
  | Some _ => true
  | None => false
  end.

(** Stand-ins for the runtime of the fetcher in the examples: a number is
    printed as the decimal numeral of the index it denotes (the examples
    print whole numbers only), and there is one abort signal. *)
Definition test_Number_toString (x : float) : string :=
  match JS.toArrayIndex x with
  | Some i => decimal (Z.to_nat i)
  | None => "NaN"
  end.

(** A [fetch] that answers every request with a response. *)
Definition MockFetch (response : Response) : Fetch unit :=
  fun _url _init => Fulfilled response.

(** [new FetchHttpFetcher(fetchFn)] in the examples. *)
Definition testFetcher (fetchFn : Fetch unit) : FetchHttpFetcher unit :=
  new_FetchHttpFetcher fetchFn (Some fetchFn) None.

(** The request that [get] makes: a GET that accepts JSON, with the
    signal of the timeout, joined to the caller's signal when there is
    one. *)
Definition requestOf {AbortSignal : Type}
    (timeoutSignal : float -> AbortSignal)
    (AbortSignal_any : list AbortSignal -> AbortSignal)
    (this : FetchHttpFetcher AbortSignal) (externalSignal : option AbortSignal)
  : RequestInit AbortSignal :=
  RequestInit.mk "GET" [("Accept", "application/json")]
    match externalSignal with
    | Some external =>
      AbortSignal_any [external; timeoutSignal (FetchHttpFetcher.timeoutMs this)]
    | None => timeoutSignal (FetchHttpFetcher.timeoutMs this)
    end.

(* ------------------------------------------------------------------ *)
(** * A response as the provider sends it *)
(* ------------------------------------------------------------------ *)

(** One series of a response: its key joins the decimal indices of its
    dimension values with colons, and each of its observations stands
    under the decimal index of its date, as the tuple of its rate and its
    flags.  An entry is the index of the date, the rate and the flags. *)
Definition providerSeries (index : nat) (indices : list nat)
    (attributes : list (option float))
    (entries : list (nat * float * list (option float))) : string * SdmxSeries :=
  (seriesKeyOf index indices,
   SdmxSeries.mk attributes
     (map (fun entry : nat * float * list (option float) =>
             let '(time, rate, flags) := entry in
             (decimal time, Some rate :: flags))
          entries)).

(** The index of the date and the rate of an entry. *)
Definition entryTime (entry : nat * float * list (option float)) : nat :=
  fst (fst entry).

Definition entryRate (entry : nat * float * list (option float)) : float :=
  snd (fst entry).


(* ------------------------------------------------------------------ *)
(** * The decoder on values of the declared types *)
(* ------------------------------------------------------------------ *)

(** A [Result] of observations of the declared type, as the values they
    are. *)
Definition uncheckedResult (r : Result (list ExchangeRateObservation))
  : Result (list Unchecked.ExchangeRateObservation) :=
  match r with
  | Ok observations => Ok (map unchecked observations)
  | Throw e => Throw e
  end.

(* ------------------------------------------------------------------ *)
(** * Series keys that are not well formed *)
(* ------------------------------------------------------------------ *)

(** Series under the keys that the provider does not send: a key with
    three segments that are no numerals, the second and the third apart,
    and a key with eight segments, under a structure of five series
    dimensions. *)
Definition STRAY_KEY_DATASETS : list SdmxDataSet :=
  [SdmxDataSet.mk None None
     (Some [("x:0:0:y:z", USD_SERIES); ("0:0:0:0:0:0:0:0", USD_SERIES)])].

(** A series key with a segment that is no numeral: [Number] gives [NaN]
    for it. *)
Definition nonNumericSegment (seriesKey : string) : Prop :=
  exists segment,
    In segment (JS.split ":" seriesKey)
    /\ PrimFloat.is_nan (JS.Number segment) = true.

(** A series key with more segments than the structure has series
    dimensions. *)
Definition tooManySegments (structure : option SdmxStructure) (seriesKey : string)
  : Prop :=
  (seriesDimensionCount structure < List.length (JS.split ":" seriesKey))%nat.

(* ------------------------------------------------------------------ *)
(** * Numbers as fractions, and rounding *)
(* ------------------------------------------------------------------ *)

(** The number that a finite binary64 value is, as a fraction: the
    mantissa times a power of two, or over one. *)
Definition exact (x : float) : option Q :=
  match Prim2SF x with
  | S754_zero _ => Some (inject_Z 0)
  | S754_finite s m e =>
    let v := if s then Zneg m else Zpos m in
    Some (if 0 <=? e then inject_Z (v * 2 ^ e)
          else Qmake v (2 ^ Z.to_pos (- e))%positive)
  | _ => None
  end.

(** The integer nearest to a fraction, a tie going up. *)
Definition nearest (q : Q) : Z := Qfloor (q + (1 # 2))%Q.

(** The number is the integer [n]. *)
Definition isInteger (x : float) (n : Z) : Prop :=
  match exact x with
  | Some q => (q == inject_Z n)%Q
  | None => False
  end.

(** "The product amount*rate rounded to two decimals", in hundredths: the
    integer nearest to a hundred times the product of the two numbers. *)
Definition hundredths (amount rate : float) : option Z :=
  match exact amount, exact rate with
  | Some a, Some r => Some (nearest (a * r * inject_Z 100)%Q)
  | _, _ => None
  end.

(** The hundredths nearest to a number. *)
Definition hundredthsOf (x : float) : option Z :=
  option_map (fun q => nearest (q * inject_Z 100)%Q) (exact x).

(* ------------------------------------------------------------------ *)
(** * Values that have not the declared shape *)
(* ------------------------------------------------------------------ *)

(** Values of a JSON text that have not the declared shape: data sets
    that hold [null]; a CURRENCY vocabulary whose identifiers are a number
    and an object with a property "toString", under which series stand. *)
Definition NULL_DATASET_VALUE : Any.t :=
  fst (renumber 0
         (Any.Object 0
            ([("dataSets", Any.Array 0 [Any.Null])]
             ++ field "structure" ofSdmxStructure EXR_STRUCTURE)%list)).

Definition ODD_IDENTIFIERS_VALUE : Any.t :=
  let identified (id : Any.t) := Any.Object 0 [("id", id)] in
  let dimension (id : string) (values : list Any.t) :=
    Any.Object 0 [("id", Any.Str id); ("values", Any.Array 0 values)] in
  let series (rate : float) :=
    Any.Object 0
      [("observations", Any.Object 0 [("0", Any.Array 0 [Any.Number rate])])] in
  fst (renumber 0
         (Any.Object 0
            [("dataSets",
              Any.Array 0
                [Any.Object 0
                   [("series",
                     Any.Object 0 [("0:0", series 1.5%float); ("1:0", series 2.5%float)])]]);
             ("structure",
              Any.Object 0
                [("dimensions",
                  Any.Object 0
                    [("series",
                      Any.Array 0
                        [dimension "CURRENCY"
                           [identified (Any.Number 840);
                            identified (Any.Object 0 [("toString", Any.Null)])];
                         dimension "CURRENCY_DENOM" [identified (Any.Str "EUR")]]);
                     ("observation",
                      Any.Array 0
                        [dimension "TIME_PERIOD"
                           [identified (Any.Str "2025-01-15")]])])])])).


(** Case analysis on a digit [v], known to be below 10 by [Hv]. *)
Ltac digit_cases v Hv :=
  let H := fresh in
  assert (H : (v = 0 \/ v = 1 \/ v = 2 \/ v = 3 \/ v = 4 \/ v = 5 \/ v = 6
               \/ v = 7 \/ v = 8 \/ v = 9)%N) by lia;
  clear Hv;
  repeat (destruct H as [H|H]; [subst v|]); [..|subst v].

Open Scope list_scope.

(* ------------------------------------------------------------------ *)
(** * The runtime on the inputs of this library *)
(* ------------------------------------------------------------------ *)

(** [Number] on the strings a key can be: numerals in the four radices,
    white space, signs, exponents, and what is no numeral. *)
Example Number_numerals :
  map JS.Number ["0"; "1"; "12"; "007"; ""; "  3 "; "1e2"; "2.5"; ".5"; "5.";
                 "0x10"; "0b101"; "0o17"; "-0"; "+4"; "Infinity"; "1e400"]
  = [0; 1; 12; 7; 0; 3; 100; 2.5; 0.5; 5;
     16; 5; 15; -0; 4; infinity; infinity]%float.
Proof. reflexivity. Qed.

Example Number_not_a_number :
  map JS.Number ["x"; "1 2"; "1_0"; "0x"; "-0x10"; "1e"; "."; "12px"; "NaN"; "zero"]
  = [nan; nan; nan; nan; nan; nan; nan; nan; nan; nan].
Proof. reflexivity. Qed.

(** [Number] rounds a decimal literal to the nearest binary64 value, as the
    parser of floating-point literals does. *)
Example Number_rates :
  map JS.Number ["1.03"; "1.0303"; "0.8442"; "0.8451"; "0.1"; "5e-324";
                 "1.7976931348623157e308"; "9007199254740993"]
  = [1.03; 1.0303; 0.8442; 0.8451; 0.1; 5e-324;
     1.7976931348623157e308; 9007199254740992]%float.
Proof. reflexivity. Qed.

(** A number is an index of an array when it is a non-negative integer. *)
Example toArrayIndex_examples :
  map JS.toArrayIndex [0; -0; 1; 7; 1.5; -1; nan; infinity; 4294967296]%float
  = [Some 0; Some 0; Some 1; Some 7; None; None; None; None; Some 4294967296].
Proof. reflexivity. Qed.

(** ** Decimal keys are indices

    A key the provider sends is the decimal numeral of an index.  [Number]
    reads the numeral as the binary64 value of that integer, and indexing
    an array by that value reads the element at the integer. *)

Lemma digits2_pos_size (p : positive) : digits2_pos p = Pos.size p.
Proof. induction p; simpl; congruence. Qed.

Lemma digits2_pos_bound (p : positive) :
  Zpos p < 2 ^ 53 -> Zpos (digits2_pos p) <= 53.
Proof.
  intros H. rewrite digits2_pos_size.
  pose proof (Pos.size_le p) as Hle.
  assert (H2 : 2 ^ Zpos (Pos.size p) <= 2 * Zpos p).
  { change (2 * Zpos p) with (Zpos p~0). rewrite <- Pos2Z.inj_pow. now apply Pos2Z.pos_le_pos. }
  destruct (Z.le_gt_cases (Zpos (Pos.size p)) 53) as [Hc|Hc]; [exact Hc|].
  exfalso.
  assert (2 ^ 54 <= 2 ^ Zpos (Pos.size p)) by (apply Z.pow_le_mono_r; lia).
  lia.
Qed.

Lemma digits2_pos_iter (p k : positive) :
  digits2_pos (Pos.iter xO p k) = (digits2_pos p + k)%positive.
Proof.
  induction k as [|k IH] using Pos.peano_ind.
  - simpl. lia.
  - rewrite Pos.iter_succ. simpl. rewrite IH. lia.
Qed.

Lemma iter_xO_value (p k : positive) :
  Zpos (Pos.iter xO p k) = Zpos p * 2 ^ Zpos k.
Proof.
  change (Pos.iter xO p k) with (shift_pos k p).
  rewrite shift_pos_correct. apply Z.mul_comm.
Qed.

(** A mantissa that fits the format at its exponent is left as it is. *)
Lemma binary_round_aux_exact (s : bool) (m : positive) (e : Z) :
  Zpos (digits2_pos m) <= 53 -> -1074 <= e -> e <= 971 ->
  binary_round_aux prec emax s (Zpos m) e loc_Exact = S754_finite s m e.
Proof.
  intros Hd He1 He2.
  assert (Hshift : forall l, shr_fexp prec emax (Zpos m) e l
                             = (shr_record_of_loc (Zpos m) l, e)).
  { intros l. unfold shr_fexp, shr, fexp, SpecFloat.emin, Zdigits2, prec, emax.
    destruct (Z.max (Z.pos (digits2_pos m) + e - 53) (3 - 1024 - 53) - e) eqn:E;
      try reflexivity.
    exfalso. lia. }
  unfold binary_round_aux. rewrite Hshift. simpl. rewrite Hshift. simpl.
  destruct (Z.leb_spec e 971); [reflexivity|lia].
Qed.

Lemma normalised_digits (p : positive) :
  Zpos (digits2_pos p) <= 53 ->
  Zpos (digits2_pos (fst (normalised p))) = 53
  /\ -52 <= snd (normalised p) <= 0
  /\ Zpos (fst (normalised p)) = Zpos p * 2 ^ (- snd (normalised p)).
Proof.
  intros Hd. unfold normalised.
  destruct (53 - Zpos (digits2_pos p)) as [|k|k] eqn:E; simpl fst; simpl snd.
  - split; [lia|]. split; [lia|]. simpl. lia.
  - rewrite digits2_pos_iter, iter_xO_value.
    split; [lia|]. split; [lia|reflexivity].
  - lia.
Qed.

Lemma binary_round_integer (p : positive) :
  Zpos (digits2_pos p) <= 53 ->
  binary_round prec emax false p 0
  = S754_finite false (fst (normalised p)) (snd (normalised p)).
Proof.
  intros Hd. destruct (normalised_digits p Hd) as [H53 [He Hv]].
  unfold binary_round, shl_align, fexp, SpecFloat.emin, prec, emax.
  replace (Z.max (Z.pos (digits2_pos p) + 0 - 53) (3 - 1024 - 53) - 0)
    with (- (53 - Zpos (digits2_pos p))) by lia.
  unfold normalised in *.
  destruct (53 - Zpos (digits2_pos p)) as [|k|k] eqn:E; simpl Z.opp; cbv iota.
  - simpl fst in *; simpl snd in *. apply binary_round_aux_exact; lia.
  - simpl fst in *; simpl snd in *.
    replace (Z.max (Z.pos (digits2_pos p) + 0 - 53) (3 - 1024 - 53)) with (Zneg k) by lia.
    apply binary_round_aux_exact; lia.
  - lia.
Qed.

Lemma binary_round_normalised (m : positive) (e : Z) :
  Zpos (digits2_pos m) = 53 -> -52 <= e <= 0 ->
  binary_round prec emax false m e = S754_finite false m e.
Proof.
  intros Hd He.
  unfold binary_round, shl_align, fexp, SpecFloat.emin, prec, emax.
  replace (Z.max (Z.pos (digits2_pos m) + e - 53) (3 - 1024 - 53) - e) with 0 by lia.
  apply binary_round_aux_exact; lia.
Qed.

(** The number an integer mantissa at exponent 0 denotes, as the primitive
    conversions read it back. *)
Lemma Prim2SF_integer (p : positive) :
  Zpos p < 2 ^ 53 ->
  Prim2SF (SF2Prim (S754_finite false p 0))
  = S754_finite false (fst (normalised p)) (snd (normalised p)).
Proof.
  intros Hp. pose proof (digits2_pos_bound Hp) as Hd.
  destruct (normalised_digits p Hd) as [H53 [He Hv]].
  unfold SF2Prim. rewrite Z_ldexp_spec, of_uint63_spec.
  rewrite Uint63.of_Z_spec, Z.mod_small.
  - simpl binary_normalize. rewrite (binary_round_integer p Hd).
    simpl SFldexp. rewrite Z.add_0_r. now apply binary_round_normalised.
  - split; [lia|]. apply Z.lt_trans with (2 ^ 53); [exact Hp|reflexivity].
Qed.

(** An integer below 2^53, held as a mantissa at exponent 0, is the array
    index of its value. *)
Lemma toArrayIndex_integer (p : positive) :
  Zpos p < 2 ^ 53 ->
  JS.toArrayIndex (SF2Prim (S754_finite false p 0)) = Some (Zpos p).
Proof.
  intros Hp. unfold JS.toArrayIndex. rewrite (Prim2SF_integer Hp).
  pose proof (digits2_pos_bound Hp) as Hd.
  destruct (normalised_digits p Hd) as [H53 [He Hv]].
  destruct (Z.leb_spec 0 (snd (normalised p))) as [H0|H0].
  - replace (snd (normalised p)) with 0 in * by lia.
    simpl in Hv. rewrite Hv. f_equal. simpl. lia.
  - rewrite Hv, Z.mod_mul, Z.eqb_refl by (apply Z.pow_nonzero; lia).
    now rewrite Z.div_mul by (apply Z.pow_nonzero; lia).
Qed.

Lemma digitsOf_digits (d : Decimal.uint) : Forall (fun v => (v < 10)%N) (digitsOf d).
Proof. induction d; simpl; constructor; auto; lia. Qed.

Lemma bytes_string_of_uint (d : Decimal.uint) :
  JS.bytes (NilEmpty.string_of_uint d) = map digitCode (digitsOf d).
Proof.
  unfold JS.bytes. induction d; simpl; [reflexivity|..]; now rewrite IHd.
Qed.

Lemma digitsValue_of_uint_acc (d : Decimal.uint) (acc : nat) :
  fold_left (fun a v => a * Z.of_N 10 + Z.of_N v) (digitsOf d) (Z.of_nat acc)
  = Z.of_nat (Nat.of_uint_acc d acc).
Proof.
  revert acc. induction d; intros acc; simpl; [reflexivity|..];
    rewrite <- IHd; f_equal; rewrite ?Nat.tail_mul_spec; lia.
Qed.

Lemma digitsValue_of_uint (d : Decimal.uint) :
  JS.digitsValue 10 (digitsOf d) = Z.of_nat (Nat.of_uint d).
Proof. apply (digitsValue_of_uint_acc d 0). Qed.

Lemma decode_ascii (l : list N) (fuel : nat) :
  Forall (fun b => (b < 128)%N) l -> (List.length l <= fuel)%nat ->
  JS.decode fuel l = l.
Proof.
  revert l. induction fuel as [|fuel IH]; intros l Hl Hf.
  - destruct l; [reflexivity|simpl in Hf; lia].
  - destruct l as [|b r]; [reflexivity|]. inversion Hl as [|? ? Hb Hr]; subst.
    simpl. destruct (N.ltb_spec b 128); [|lia].
    f_equal. apply IH; [exact Hr|simpl in Hf; lia].
Qed.

Lemma digitCode_ascii (vs : list N) :
  Forall (fun v => (v < 10)%N) vs -> Forall (fun b => (b < 128)%N) (map digitCode vs).
Proof.
  intros H. apply Forall_map. eapply Forall_impl; [|exact H].
  intros v Hv. unfold digitCode. cbv beta in *. lia.
Qed.

Lemma digitCode_not_space (v : N) :
  (v < 10)%N -> JS.isStrWhiteSpaceChar (digitCode v) = false.
Proof.
  intros Hv. unfold JS.isStrWhiteSpaceChar, digitCode.
  repeat match goal with
         | |- context [N.eqb ?a ?b] => destruct (N.eqb_spec a b); [lia|]
         | |- context [N.leb ?a ?b] => destruct (N.leb_spec a b); [lia|]
         end.
  reflexivity.
Qed.

Lemma dropWhiteSpace_digits (vs : list N) :
  Forall (fun v => (v < 10)%N) vs ->
  JS.dropWhiteSpace (map digitCode vs) = map digitCode vs.
Proof.
  intros H. destruct vs as [|v vs]; [reflexivity|].
  inversion H; subst. simpl. now rewrite digitCode_not_space.
Qed.

Lemma trim_digits (vs : list N) :
  Forall (fun v => (v < 10)%N) vs -> JS.trim (map digitCode vs) = map digitCode vs.
Proof.
  intros H. unfold JS.trim. rewrite dropWhiteSpace_digits by exact H.
  rewrite <- map_rev, dropWhiteSpace_digits by now apply Forall_rev.
  now rewrite map_rev, rev_involutive.
Qed.

Lemma digitValue_digitCode (v : N) :
  (v < 10)%N -> JS.digitValue 10 (digitCode v) = Some v.
Proof.
  intros Hv. unfold JS.digitValue, digitCode.
  destruct (N.leb_spec 48 (48 + v)); [|lia].
  destruct (N.leb_spec (48 + v) 57); [|lia]. simpl andb. cbv iota.
  replace (48 + v - 48)%N with v by lia.
  destruct (N.ltb_spec v 10); [reflexivity|lia].
Qed.

Lemma takeDigits_digits (vs : list N) :
  Forall (fun v => (v < 10)%N) vs -> JS.takeDigits 10 (map digitCode vs) = (vs, []).
Proof.
  induction 1 as [|v vs Hv Hvs IH]; simpl; [reflexivity|].
  now rewrite digitValue_digitCode, IH.
Qed.

Lemma parseNonDecimal_digits (vs : list N) :
  Forall (fun v => (v < 10)%N) vs ->
  JS.parseNonDecimalIntegerLiteral (map digitCode vs) = None.
Proof.
  intros H. destruct vs as [|v [|w vs]]; [reflexivity| |].
  - inversion H as [|? ? Hv _]; subst. digit_cases v Hv; reflexivity.
  - inversion H as [|? ? Hv H']; subst. inversion H' as [|? ? Hw _]; subst.
    digit_cases v Hv; try reflexivity. digit_cases w Hw; reflexivity.
Qed.

Lemma parseUnsigned_digits (v : N) (vs : list N) :
  Forall (fun v => (v < 10)%N) (v :: vs) ->
  JS.parseStrUnsignedDecimalLiteral (map digitCode (v :: vs))
  = Some (JS.MagDecimal (JS.digitsValue 10 (v :: vs)) 0).
Proof.
  intros H. unfold JS.parseStrUnsignedDecimalLiteral.
  destruct (list_eq_dec N.eq_dec (map digitCode (v :: vs)) (JS.bytes "Infinity"))
    as [E|_].
  - exfalso. inversion H as [|? ? Hv _]; subst. simpl in E.
    injection E as E _. unfold digitCode in E. lia.
  - rewrite (takeDigits_digits H). reflexivity.
Qed.

Lemma parseStrNumericLiteral_digits (v : N) (vs : list N) :
  Forall (fun v => (v < 10)%N) (v :: vs) ->
  JS.parseStrNumericLiteral (map digitCode (v :: vs))
  = Some (SF2Prim (JS.roundDecimal false (JS.digitsValue 10 (v :: vs)) 0)).
Proof.
  intros H. unfold JS.parseStrNumericLiteral.
  rewrite (parseNonDecimal_digits H), (parseUnsigned_digits H).
  inversion H as [|? ? Hv _]; subst.
  change (map digitCode (v :: vs)) with (digitCode v :: map digitCode vs).
  digit_cases v Hv; reflexivity.
Qed.

Lemma Number_digits (v : N) (vs : list N) (s : string) :
  Forall (fun v => (v < 10)%N) (v :: vs) ->
  JS.bytes s = map digitCode (v :: vs) ->
  JS.Number s = SF2Prim (JS.roundDecimal false (JS.digitsValue 10 (v :: vs)) 0).
Proof.
  intros H Hs. unfold JS.Number, JS.codePoints. rewrite Hs.
  rewrite decode_ascii by (apply digitCode_ascii; exact H) || reflexivity.
  rewrite (trim_digits H).
  change (map digitCode (v :: vs)) with (digitCode v :: map digitCode vs) at 1.
  cbv iota.
  change (digitCode v :: map digitCode vs) with (map digitCode (v :: vs)).
  now rewrite (parseStrNumericLiteral_digits H).
Qed.

Lemma roundDecimal_integer (p : positive) :
  Zpos p < 2 ^ 53 -> JS.roundDecimal false (Zpos p) 0 = S754_finite false p 0.
Proof.
  intros Hp. unfold JS.roundDecimal. simpl Z.leb. cbv iota.
  rewrite Z.pow_0_r, Z.mul_1_r.
  apply binary_round_aux_exact; [now apply digits2_pos_bound|lia|lia].
Qed.

(** The decimal numeral of a number below 2^53 denotes that number as an
    array index. *)
Theorem Number_decimal_index (n : nat) :
  Z.of_nat n < 2 ^ 53 ->
  JS.toArrayIndex (JS.Number (decimal n)) = Some (Z.of_nat n).
Proof.
  intros Hn.
  assert (Hnum : exists v vs,
             Forall (fun v => (v < 10)%N) (v :: vs)
             /\ JS.bytes (decimal n) = map digitCode (v :: vs)
             /\ JS.digitsValue 10 (v :: vs) = Z.of_nat n).
  { unfold decimal, NilZero.string_of_uint.
    pose proof (DecimalNat.Unsigned.of_to n) as Hof.
    destruct (digitsOf (Nat.to_uint n)) as [|v vs] eqn:Ed.
    - assert (E : Nat.to_uint n = Decimal.Nil)
        by (destruct (Nat.to_uint n); simpl in Ed; congruence).
      rewrite E in *. simpl in Hof. subst n.
      exists 0%N, []. repeat split. constructor; [lia|constructor].
    - exists v, vs. rewrite <- Ed, digitsValue_of_uint, Hof.
      split; [apply digitsOf_digits|]. split; [|reflexivity].
      rewrite <- bytes_string_of_uint.
      destruct (Nat.to_uint n); simpl in Ed; try discriminate; reflexivity. }
  destruct Hnum as [v [vs [Hd [Hb Hv]]]].
  rewrite (Number_digits _ Hd Hb), Hv.
  destruct (Z.of_nat n) as [|p|p] eqn:E; [reflexivity| |lia].
  rewrite (roundDecimal_integer Hn). now apply toArrayIndex_integer.
Qed.

(** So the key [n] reads the [n]th value of a vocabulary, and nothing when
    the vocabulary is shorter. *)
Lemma array_get_decimal {X : Type} (a : list X) (n : nat) :
  Z.of_nat n < 2 ^ 53 -> JS.array_get a (JS.Number (decimal n)) = nth_error a n.
Proof.
  intros Hn. unfold JS.array_get. rewrite (Number_decimal_index _ Hn).
  destruct (Z.ltb_spec (Z.of_nat n) (Z.of_nat (List.length a))) as [H|H].
  - now rewrite Nat2Z.id.
  - symmetry. apply nth_error_None. lia.
Qed.

(** ** Keys as the provider writes them *)

Lemma split_no_separator (sep : ascii) (s : string) :
  ~ In sep (list_ascii_of_string s) -> JS.split sep s = [s].
Proof.
  induction s as [|c s IH]; simpl; [reflexivity|]. intros H.
  destruct (Ascii.eqb_spec c sep) as [E|E]; [exfalso; apply H; now left|].
  rewrite IH; [reflexivity|]. intros Hin. apply H. now right.
Qed.

Lemma split_app_separator (sep : ascii) (s rest : string) :
  ~ In sep (list_ascii_of_string s) ->
  JS.split sep (s ++ String sep rest)%string = s :: JS.split sep rest.
Proof.
  induction s as [|c s IH]; simpl; intros H.
  - now rewrite Ascii.eqb_refl.
  - destruct (Ascii.eqb_spec c sep) as [E|E]; [exfalso; apply H; now left|].
    rewrite IH; [reflexivity|]. intros Hin. apply H. now right.
Qed.

Lemma split_join (sep : ascii) (x : string) (l : list string) :
  Forall (fun s => ~ In sep (list_ascii_of_string s)) (x :: l) ->
  JS.split sep (JS.join (String sep "") (x :: l)) = x :: l.
Proof.
  revert x. induction l as [|y l IH]; intros x H.
  - simpl. apply split_no_separator. now inversion H.
  - inversion H as [|? ? Hx Hl]; subst.
    change (JS.join (String sep "") (x :: y :: l))
      with (x ++ String sep (JS.join (String sep "") (y :: l)))%string.
    rewrite split_app_separator by exact Hx. f_equal. now apply IH.
Qed.

Lemma decimal_digits (n : nat) :
  exists vs, Forall (fun v => (v < 10)%N) vs /\ JS.bytes (decimal n) = map digitCode vs.
Proof.
  unfold decimal, NilZero.string_of_uint.
  destruct (Nat.to_uint n) as [|d|d|d|d|d|d|d|d|d|d] eqn:E;
    [exists [0%N]; split; [repeat constructor; lia|reflexivity]|..];
    rewrite <- E; exists (digitsOf (Nat.to_uint n));
    (split; [apply digitsOf_digits|rewrite E; apply bytes_string_of_uint]).
Qed.

Lemma decimal_no_colon (n : nat) : ~ In ":"%char (list_ascii_of_string (decimal n)).
Proof.
  destruct (decimal_digits n) as [vs [Hvs Hb]]. intros Hin.
  apply (in_map N_of_ascii) in Hin. fold (JS.bytes (decimal n)) in Hin.
  rewrite Hb in Hin. apply in_map_iff in Hin. destruct Hin as [v [Hv Hin]].
  rewrite Forall_forall in Hvs. apply Hvs in Hin. unfold digitCode in Hv.
  change (N_of_ascii ":") with 58%N in Hv. cbv beta in Hin. lia.
Qed.

(** The segments of a key that joins decimal indices with colons are the
    numerals of the indices. *)
Lemma segment_join_decimal (i : nat) (indices : list nat) (position : nat) :
  segment (seriesKeyOf i indices) position
  = option_map decimal (nth_error (i :: indices) position).
Proof.
  unfold segment, seriesKeyOf. change (map decimal (i :: indices)) with (decimal i :: map decimal indices).
  rewrite (@split_join ":"%char).
  - change (decimal i :: map decimal indices) with (map decimal (i :: indices)).
    apply nth_error_map.
  - change (decimal i :: map decimal indices) with (map decimal (i :: indices)).
    apply Forall_map. apply Forall_forall. intros n _. apply decimal_no_colon.
Qed.

(** The identifier the numeral of an index selects is the identifier of
    the value at that index, when it has one that is not empty. *)
Lemma selects_decimal (vocab : list SdmxValue) (n : nat) :
  Z.of_nat n < 2 ^ 53 ->
  selects vocab (decimal n)
  = identifierAt vocab n.
Proof.
  intros Hn. unfold selects, identifierAt. now rewrite (array_get_decimal vocab n Hn).
Qed.

(** What a pair stands for, read with plain indices: the key of the series
    is [i0:i1:...], the key of the observation is [t]; the observation has
    the identifiers at index [i_CURRENCY], [i_CURRENCY_DENOM] and [t] of the
    three vocabularies. *)
Lemma crossReference_indices (R : Resolved) (i : nat) (indices : list nat) (t : nat)
    (tuple : list (option float)) :
  Forall (fun n => Z.of_nat n < 2 ^ 53) (t :: i :: indices) ->
  crossReference R (seriesKeyOf i indices, decimal t, tuple)
  = match optChain (nth_error (i :: indices) (currencyPosition R))
                   (identifierAt (currencyVocabulary R)),
          optChain (nth_error (i :: indices) (denomPosition R))
                   (identifierAt (denomVocabulary R)),
          identifierAt (timeVocabulary R) t,
          rateOf tuple with
    | Some c, Some b, Some d, Some r => Some (ExchangeRateObservation.mk d c b r)
    | _, _, _, _ => None
    end.
Proof.
  intros H. inversion H as [|? ? Ht Hi]; subst.
  assert (Hseg : forall vocab position,
             optChain (segment (seriesKeyOf i indices) position) (selects vocab)
             = optChain (nth_error (i :: indices) position) (identifierAt vocab)).
  { intros vocab position. rewrite segment_join_decimal.
    destruct (nth_error (i :: indices) position) as [n|] eqn:E; [|reflexivity].
    simpl. apply selects_decimal. rewrite Forall_forall in Hi.
    apply Hi. eapply nth_error_In. exact E. }
  unfold crossReference, seriesIdentifiers. rewrite !Hseg, (selects_decimal _ t Ht).
  destruct (optChain (nth_error (i :: indices) (currencyPosition R))
                     (identifierAt (currencyVocabulary R)));
    destruct (optChain (nth_error (i :: indices) (denomPosition R))
                       (identifierAt (denomVocabulary R)));
    destruct (identifierAt (timeVocabulary R) t); destruct (rateOf tuple); reflexivity.
Qed.

(** [Math.round] on halves and near them. *)
Example Math_round_examples :
  map JS.Math_round [0.5; 1.5; 2.5; -0.5; -1.5; -2.5; 0.49999999999999994;
                     3432.9900000000002; 103; -0.2]%float
  = [1; 2; 3; -0; -1; -2; 0; 3433; 103; -0]%float.
Proof. reflexivity. Qed.

Example split_examples :
  map (JS.split ":") ["0:0:0:0:0"; ""; ":"; "a:"; "abc"]
  = [["0"; "0"; "0"; "0"; "0"]; [""]; [""; ""]; ["a"; ""]; ["abc"]].
Proof. reflexivity. Qed.

(* ------------------------------------------------------------------ *)
(** * The dimension resolver *)
(* ------------------------------------------------------------------ *)

Lemma findIndex_range {X : Type} (p : X -> bool) (l : list X) :
  JS.findIndex p l = -1 \/ 0 <= JS.findIndex p l < Z.of_nat (List.length l).
Proof.
  induction l as [|x l IH]; simpl; [now left|].
  destruct (p x); [right; lia|].
  destruct (Z.eqb_spec (JS.findIndex p l) (-1)) as [E|E]; [now left|].
  right. destruct IH as [IH|IH]; [contradiction|lia].
Qed.

Lemma findIndex_firstPosition (dims : list SdmxDimension) (target : string) :
  JS.findIndex (named target) dims =
  match firstPosition dims target with
  | Some i => Z.of_nat i
  | None => -1
  end.
Proof.
  induction dims as [|d dims IH]; simpl; [reflexivity|].
  unfold named at 1. destruct (String.eqb (SdmxDimension.id d) target); [reflexivity|].
  rewrite IH. destruct (firstPosition dims target) as [i|]; simpl.
  - destruct (Z.eqb_spec (Z.of_nat i) (-1)); lia.
  - reflexivity.
Qed.

Lemma findDimensionIndex_firstPosition (dims : list SdmxDimension) (target : string) :
  findDimensionIndex dims target =
  match firstPosition dims target with
  | Some i => Ok (Z.of_nat i)
  | None => Throw (missingDimension "series" target)
  end.
Proof.
  unfold findDimensionIndex. fold (named target).
  rewrite findIndex_firstPosition.
  destruct (firstPosition dims target) as [i|]; simpl.
  - destruct (Z.eqb_spec (Z.of_nat i) (-1)); [lia|reflexivity].
  - reflexivity.
Qed.

Lemma findObservationDimensionIndex_firstPosition
    (dims : list SdmxDimension) (target : string) :
  findObservationDimensionIndex dims target =
  match firstPosition dims target with
  | Some i => Ok (Z.of_nat i)
  | None => Throw (missingDimension "observation" target)
  end.
Proof.
  unfold findObservationDimensionIndex. fold (named target).
  rewrite findIndex_firstPosition.
  destruct (firstPosition dims target) as [i|]; simpl.
  - destruct (Z.eqb_spec (Z.of_nat i) (-1)); [lia|reflexivity].
  - reflexivity.
Qed.

(** [firstPosition] is what its name says: the dimension there has the
    identifier, and no dimension before it has. *)
Lemma firstPosition_Some (dims : list SdmxDimension) (target : string) (i : nat) :
  firstPosition dims target = Some i <->
  (exists d, nth_error dims i = Some d /\ SdmxDimension.id d = target)
  /\ (forall j d, (j < i)%nat -> nth_error dims j = Some d -> SdmxDimension.id d <> target).
Proof.
  revert i. induction dims as [|d dims IH]; intros i; simpl.
  - split; [discriminate|]. intros [[x [Hx _]] _]. destruct i; discriminate.
  - destruct (String.eqb_spec (SdmxDimension.id d) target) as [E|E].
    + split.
      * intros [= <-]. split; [exists d; auto|]. intros j x Hj. lia.
      * intros [_ Hmin]. destruct i as [|i]; [reflexivity|].
        exfalso. apply (Hmin O d); [lia|reflexivity|exact E].
    + destruct (firstPosition dims target) as [k|] eqn:Hk; simpl.
      * split.
        -- intros [= <-]. destruct (proj1 (IH k) eq_refl) as [Hex Hmin].
           split; [exact Hex|].
           intros [|j] x Hj Hx; simpl in Hx.
           ++ now injection Hx as <-.
           ++ apply (Hmin j x); [lia|exact Hx].
        -- intros [[x [Hx Hid]] Hmin]. destruct i as [|i]; simpl in Hx.
           ++ injection Hx as <-. contradiction.
           ++ enough (Some k = Some i) by congruence.
              apply IH. split; [exists x; auto|].
              intros j y Hj Hy. apply (Hmin (S j) y); [lia|exact Hy].
      * split; [discriminate|].
        intros [[x [Hx Hid]] Hmin]. destruct i as [|i]; simpl in Hx.
        -- injection Hx as <-. contradiction.
        -- exfalso. enough (None = Some i) by discriminate.
           apply IH. split; [exists x; auto|].
           intros j y Hj Hy. apply (Hmin (S j) y); [lia|exact Hy].
Qed.

Lemma firstPosition_None (dims : list SdmxDimension) (target : string) :
  firstPosition dims target = None <-> ~ hasDimension dims target.
Proof.
  unfold hasDimension. induction dims as [|d dims IH]; simpl.
  - split; [intros _ [x [[] _]]|reflexivity].
  - destruct (String.eqb_spec (SdmxDimension.id d) target) as [E|E].
    + split; [discriminate|]. intros H. exfalso. apply H. exists d. auto.
    + destruct (firstPosition dims target) as [k|]; simpl.
      * split; [discriminate|]. intros H. exfalso.
        destruct IH as [_ IH]. enough (Some k = None) by discriminate.
        apply IH. intros [x [Hin Hx]]. apply H. exists x. auto.
      * split; [|reflexivity]. intros _ [x [[<-|Hin] Hx]]; [contradiction|].
        destruct IH as [IH _]. apply (IH eq_refl). exists x. auto.
Qed.

Lemma find_firstPosition (dims : list SdmxDimension) (target : string) :
  find (named target) dims =
  match firstPosition dims target with
  | Some i => nth_error dims i
  | None => None
  end.
Proof.
  induction dims as [|d dims IH]; simpl; [reflexivity|].
  unfold named at 1.
  destruct (String.eqb_spec (SdmxDimension.id d) target) as [E|E]; [reflexivity|].
  rewrite IH. destruct (firstPosition dims target); reflexivity.
Qed.

Lemma firstPosition_nth (dims : list SdmxDimension) (target : string) (i : nat) :
  firstPosition dims target = Some i -> exists d, nth_error dims i = Some d.
Proof.
  intros H. apply firstPosition_Some in H. destruct H as [[d [Hd _]] _]. eauto.
Qed.

Lemma array_at_of_nat {X : Type} (l : list X) (i : nat) :
  JS.array_at l (Z.of_nat i) = nth_error l i.
Proof.
  unfold JS.array_at. destruct (Z.ltb_spec (Z.of_nat i) 0); [lia|].
  now rewrite Nat2Z.id.
Qed.

Lemma vocabulary_at (dims : list SdmxDimension) (target : string) (i : nat) :
  firstPosition dims target = Some i ->
  optChain (JS.array_at dims (Z.of_nat i)) SdmxDimension.values = vocabulary dims target.
Proof.
  intros H. unfold vocabulary. fold (named target).
  now rewrite find_firstPosition, H, array_at_of_nat.
Qed.

Lemma vocabulary_hasDimension (dims : list SdmxDimension) (target : string) :
  vocabulary dims target <> None -> hasDimension dims target.
Proof.
  unfold vocabulary. fold (named target). rewrite find_firstPosition.
  destruct (firstPosition dims target) as [i|] eqn:H; [|now intros []].
  intros _. apply firstPosition_Some in H. destruct H as [[d [Hd Hid]] _].
  exists d. split; [eapply nth_error_In; eauto|exact Hid].
Qed.

(* ------------------------------------------------------------------ *)
(** * The structural checks of [parseJsonResponse] *)
(* ------------------------------------------------------------------ *)

Lemma parseJsonResponse_no_dataSets (data : SdmxJsonResponse) :
  SdmxJsonResponse.dataSets data = None \/ SdmxJsonResponse.dataSets data = Some [] ->
  parseJsonResponse data = Ok [].
Proof.
  unfold parseJsonResponse. intros [-> | ->]; reflexivity.
Qed.

(** Past the checks, the result is what the loops collect. *)
Lemma parseJsonResponse_resolved (header : SdmxHeader) (dataSets : list SdmxDataSet)
    (structure : option SdmxStructure) (R : Resolved) :
  resolve structure = Some R ->
  parseJsonResponse (document header dataSets structure) = Ok (decodeFrom R dataSets []).
Proof.
  unfold resolve, parseJsonResponse, document, decodeFrom. simpl.
  destruct dataSets as [|dataSet dataSets]; [reflexivity|].
  destruct (optChain structure SdmxStructure.dimensions) as [dims|]; [|discriminate].
  rewrite !findDimensionIndex_firstPosition, findObservationDimensionIndex_firstPosition.
  destruct (firstPosition (SdmxDimensions.series dims) "CURRENCY") as [c|] eqn:Hc;
    [|discriminate].
  destruct (firstPosition (SdmxDimensions.series dims) "CURRENCY_DENOM") as [d|] eqn:Hd;
    [|discriminate].
  destruct (firstPosition (SdmxDimensions.observation dims) "TIME_PERIOD") as [t|] eqn:Ht;
    [|discriminate].
  simpl bind.
  rewrite (vocabulary_at _ _ Hc), (vocabulary_at _ _ Hd), (vocabulary_at _ _ Ht).
  destruct (vocabulary (SdmxDimensions.series dims) "CURRENCY") as [cv|]; [|discriminate].
  destruct (vocabulary (SdmxDimensions.series dims) "CURRENCY_DENOM") as [dv|];
    [|discriminate].
  destruct (vocabulary (SdmxDimensions.observation dims) "TIME_PERIOD") as [tv|];
    [|discriminate].
  intros [= <-]. reflexivity.
Qed.

(** When a check fails, the error depends on the structure alone. *)
Lemma parseJsonResponse_unresolved (structure : option SdmxStructure) :
  resolve structure = None ->
  exists message,
    forall header dataSet dataSets,
      parseJsonResponse (document header (dataSet :: dataSets) structure)
      = Throw (EcbParseError message None).
Proof.
  unfold resolve, parseJsonResponse, document. simpl.
  destruct (optChain structure SdmxStructure.dimensions) as [dims|];
    [|intros _; eexists; reflexivity].
  rewrite !findDimensionIndex_firstPosition, findObservationDimensionIndex_firstPosition.
  destruct (firstPosition (SdmxDimensions.series dims) "CURRENCY") as [c|] eqn:Hc;
    [|intros _; eexists; reflexivity].
  destruct (firstPosition (SdmxDimensions.series dims) "CURRENCY_DENOM") as [d|] eqn:Hd;
    [|intros _; eexists; reflexivity].
  destruct (firstPosition (SdmxDimensions.observation dims) "TIME_PERIOD") as [t|] eqn:Ht;
    [|intros _; eexists; reflexivity].
  simpl bind.
  rewrite (vocabulary_at _ _ Hc), (vocabulary_at _ _ Hd), (vocabulary_at _ _ Ht).
  destruct (vocabulary (SdmxDimensions.series dims) "CURRENCY") as [cv|];
    [|intros _; eexists; reflexivity].
  destruct (vocabulary (SdmxDimensions.series dims) "CURRENCY_DENOM") as [dv|];
    [|intros _; eexists; reflexivity].
  destruct (vocabulary (SdmxDimensions.observation dims) "TIME_PERIOD") as [tv|];
    [discriminate|intros _; eexists; reflexivity].
Qed.

Lemma malformed_unresolved (structure : option SdmxStructure) :
  malformed structure <-> resolve structure = None.
Proof.
  unfold malformed, resolve. split.
  - intros [-> | [dims [-> H]]]; [reflexivity|].
    destruct H as [H|[H|[H|[H|[H|H]]]]];
      try (apply firstPosition_None in H); rewrite H;
      repeat match goal with |- context [match ?x with _ => _ end] => destruct x end;
      reflexivity.
  - destruct (optChain structure SdmxStructure.dimensions) as [dims|]; [|now left].
    intros H. right. exists dims. split; [reflexivity|].
    destruct (firstPosition (SdmxDimensions.series dims) "CURRENCY") eqn:Hc;
      [|left; now apply firstPosition_None].
    destruct (firstPosition (SdmxDimensions.series dims) "CURRENCY_DENOM") eqn:Hd;
      [|right; left; now apply firstPosition_None].
    destruct (firstPosition (SdmxDimensions.observation dims) "TIME_PERIOD") eqn:Ht;
      [|right; right; left; now apply firstPosition_None].
    destruct (vocabulary (SdmxDimensions.series dims) "CURRENCY"); [|tauto].
    destruct (vocabulary (SdmxDimensions.series dims) "CURRENCY_DENOM"); [|tauto].
    destruct (vocabulary (SdmxDimensions.observation dims) "TIME_PERIOD"); [|tauto].
    discriminate.
Qed.

(* ------------------------------------------------------------------ *)
(** * The loops of [parseJsonResponse] *)
(* ------------------------------------------------------------------ *)

Lemma fold_left_appends {X Y : Type} (f : list Y -> X -> list Y) (g : X -> list Y) :
  (forall acc x, f acc x = acc ++ g x) ->
  forall l acc, fold_left f l acc = acc ++ flat_map g l.
Proof.
  intros Hf. induction l as [|x l IH]; intros acc; simpl.
  - now rewrite app_nil_r.
  - now rewrite IH, Hf, app_assoc.
Qed.

Lemma filterMap_app {X Y : Type} (f : X -> option Y) (l1 l2 : list X) :
  filterMap f (l1 ++ l2) = filterMap f l1 ++ filterMap f l2.
Proof. unfold filterMap. apply flat_map_app. Qed.

Lemma filterMap_flat_map {X Y W : Type} (f : X -> option Y) (g : W -> list X)
    (l : list W) :
  filterMap f (flat_map g l) = flat_map (fun w => filterMap f (g w)) l.
Proof.
  induction l as [|w l IH]; simpl; [reflexivity|].
  now rewrite filterMap_app, IH.
Qed.

Lemma filterMap_length {X Y : Type} (f : X -> option Y) (l : list X) :
  List.length (filterMap f l)
  = List.length (filter (fun x => match f x with Some _ => true | None => false end) l).
Proof.
  induction l as [|x l IH]; simpl; [reflexivity|].
  destruct (f x); simpl; now rewrite IH.
Qed.

Lemma flat_map_nil {X Y : Type} (g : X -> list Y) (l : list X) :
  (forall x, g x = []) -> flat_map g l = [].
Proof.
  intros Hg. induction l as [|x l IH]; simpl; [reflexivity|]. now rewrite Hg, IH.
Qed.

Section LoopSteps.

Variable R : Resolved.

(** One turn of the innermost loop appends the observation of its entry,
    or nothing. *)
Lemma forObservation_step (c b : string) (acc : list ExchangeRateObservation)
    (obsKey : string) (tuple : list (option float)) :
  forObservation (timeVocabulary R) c b acc (obsKey, tuple)
  = acc ++ match selects (timeVocabulary R) obsKey, rateOf tuple with
           | Some d, Some r => [ExchangeRateObservation.mk d c b r]
           | _, _ => []
           end.
Proof.
  unfold forObservation, selects, rateOf, JS.array_at. simpl.
  destruct (optChain (JS.array_get (timeVocabulary R) (JS.Number obsKey)) SdmxValue.id)
    as [[|a s]|];
    destruct tuple as [|[r|] tuple]; simpl; now rewrite ?app_nil_r.
Qed.

(** One turn of the loop over the series appends the observations of the
    pairs of that series: none when its key selects no currency or no base
    currency. *)
Lemma forSeries_step (acc : list ExchangeRateObservation) (entry : string * SdmxSeries) :
  forSeries (Z.of_nat (currencyPosition R)) (Z.of_nat (denomPosition R))
            (currencyVocabulary R) (denomVocabulary R) (timeVocabulary R) acc entry
  = acc ++ filterMap (crossReference R) (seriesPairs entry).
Proof.
  destruct entry as [seriesKey seriesData].
  unfold forSeries, seriesPairs, Object_entries. simpl fst; simpl snd.
  rewrite !array_at_of_nat, !nth_error_map.
  unfold filterMap. rewrite flat_map_concat_map, map_map, <- flat_map_concat_map.
  unfold crossReference. simpl fst; simpl snd.
  unfold seriesIdentifiers, segment, selects.
  set (cv := currencyVocabulary R). set (dv := denomVocabulary R).
  set (tv := timeVocabulary R).
  destruct (nth_error (JS.split ":" seriesKey) (currencyPosition R)) as [sc|]; simpl;
    [|now rewrite flat_map_nil, app_nil_r].
  destruct (nth_error (JS.split ":" seriesKey) (denomPosition R)) as [sd|]; simpl.
  2:{ rewrite flat_map_nil, app_nil_r; [reflexivity|]. intros o.
      now destruct (optChain (JS.array_get cv (JS.Number sc)) SdmxValue.id) as [[|? ?]|]. }
  destruct (optChain (JS.array_get cv (JS.Number sc)) SdmxValue.id) as [[|c0 c]|];
    destruct (optChain (JS.array_get dv (JS.Number sd)) SdmxValue.id) as [[|b0 b]|];
    simpl; try (now rewrite flat_map_nil, app_nil_r).
  rewrite (fold_left_appends (forObservation tv (String c0 c) (String b0 b))
             (fun o => match selects tv (fst o), rateOf (snd o) with
                       | Some d, Some r =>
                         [ExchangeRateObservation.mk d (String c0 c) (String b0 b) r]
                       | _, _ => []
                       end)).
  - f_equal. apply flat_map_ext. intros [k t]. simpl. unfold selects.
    destruct (optChain (JS.array_get tv (JS.Number k)) SdmxValue.id) as [[|? ?]|];
      destruct (rateOf t); reflexivity.
  - intros acc' [k t]. apply forObservation_step.
Qed.

Lemma forDataSet_step (acc : list ExchangeRateObservation) (dataSet : SdmxDataSet) :
  forDataSet (Z.of_nat (currencyPosition R)) (Z.of_nat (denomPosition R))
             (currencyVocabulary R) (denomVocabulary R) (timeVocabulary R) acc dataSet
  = acc ++ filterMap (crossReference R) (dataSetPairs dataSet).
Proof.
  unfold forDataSet, dataSetPairs, Object_entries.
  destruct (SdmxDataSet.series dataSet) as [series|]; [|now rewrite app_nil_r].
  rewrite filterMap_flat_map. apply fold_left_appends. apply forSeries_step.
Qed.

(** The loops append, to what was collected, the observations of the
    pairs of the data sets, in document order. *)
Lemma decodeFrom_pairs (dataSets : list SdmxDataSet)
    (acc : list ExchangeRateObservation) :
  decodeFrom R dataSets acc = acc ++ filterMap (crossReference R) (pairs dataSets).
Proof.
  unfold decodeFrom, pairs. rewrite filterMap_flat_map.
  apply fold_left_appends. apply forDataSet_step.
Qed.

End LoopSteps.

(** A pair yields an observation exactly when its indices are in the
    vocabularies and its rate is not null. *)
Lemma crossReference_inVocabulary (R : Resolved)
    (p : string * string * list (option float)) :
  inVocabulary R p = match crossReference R p with Some _ => true | None => false end.
Proof.
  destruct p as [[sk ok] t]. unfold inVocabulary, crossReference, seriesIdentifiers.
  destruct (optChain (segment sk (currencyPosition R)) (selects (currencyVocabulary R)));
    [|reflexivity].
  destruct (optChain (segment sk (denomPosition R)) (selects (denomVocabulary R)));
    [|reflexivity].
  destruct (selects (timeVocabulary R) ok); [|reflexivity].
  destruct (rateOf t); reflexivity.
Qed.

Lemma filterMap_inVocabulary (R : Resolved)
    (l : list (string * string * list (option float))) :
  filterMap (crossReference R) l
  = filterMap (crossReference R) (filter (inVocabulary R) l).
Proof.
  induction l as [|p l IH]; simpl; [reflexivity|].
  rewrite crossReference_inVocabulary.
  destruct (crossReference R p) as [o|] eqn:E; simpl; [|exact IH].
  now rewrite E, IH.
Qed.

(** The only exception [parseJsonResponse] raises is [EcbParseError]. *)
Lemma parseJsonResponse_throws (data : SdmxJsonResponse) (e : Exception) :
  parseJsonResponse data = Throw e -> instanceof_EcbParseError e = true.
Proof.
  destruct data as [header [dataSets|] structure]; [|discriminate].
  destruct dataSets as [|dataSet dataSets]; [discriminate|].
  change (SdmxJsonResponse.mk header (Some (dataSet :: dataSets)) structure)
    with (document header (dataSet :: dataSets) structure).
  destruct (resolve structure) as [R|] eqn:HR.
  - now rewrite (parseJsonResponse_resolved _ _ _ HR).
  - destruct (parseJsonResponse_unresolved _ HR) as [message H].
    rewrite H. now intros [= <-].
Qed.

(** [parseSdmxJson] returns what [JSON.parse] returns and wraps what it
    throws. *)
Lemma parseSdmxJson_wraps (JSON_parse : string -> Any.t + string)
    (raw : string) :
  match JSON_parse raw with
  | inl json => parseSdmxJson JSON_parse raw = Ok json
  | inr message =>
    parseSdmxJson JSON_parse raw
    = Throw (EcbParseError "Failed to parse ECB JSON response."
                           (Some ("SyntaxError", message)))
  end.
Proof. unfold parseSdmxJson. now destruct (JSON_parse raw). Qed.

(** The parser's tests on the fixtures. *)
Example parseJsonResponse_single_currency :
  parseJsonResponse SINGLE_CURRENCY_RESPONSE
  = Ok [ExchangeRateObservation.mk "2025-01-15" "USD" "EUR" 1.03%float;
        ExchangeRateObservation.mk "2025-01-16" "USD" "EUR" 1.0303%float].
Proof. reflexivity. Qed.

(** ** One series among the others *)

Lemma pairs_app (l1 l2 : list SdmxDataSet) : pairs (l1 ++ l2) = pairs l1 ++ pairs l2.
Proof. unfold pairs. apply flat_map_app. Qed.

Lemma pairs_withSeries (before : list SdmxDataSet) (action validFrom : option string)
    (pre entries post : Dict SdmxSeries) (after : list SdmxDataSet) :
  pairs (withSeries before action validFrom pre entries post after)
  = pairs before
    ++ flat_map seriesPairs pre
    ++ flat_map seriesPairs entries
    ++ flat_map seriesPairs post
    ++ pairs after.
Proof.
  unfold withSeries. rewrite pairs_app. f_equal.
  unfold pairs at 1. simpl. unfold dataSetPairs at 1. simpl.
  now rewrite !flat_map_app, <- !app_assoc.
Qed.

(** What a document with one series singled out decodes to. *)
Lemma parseJsonResponse_withSeries (header : SdmxHeader)
    (structure : option SdmxStructure) (R : Resolved)
    (before : list SdmxDataSet) (action validFrom : option string)
    (pre entries post : Dict SdmxSeries) (after : list SdmxDataSet) :
  resolve structure = Some R ->
  parseJsonResponse
    (document header (withSeries before action validFrom pre entries post after) structure)
  = Ok (filterMap (crossReference R) (pairs before ++ flat_map seriesPairs pre)
        ++ filterMap (crossReference R) (flat_map seriesPairs entries)
        ++ filterMap (crossReference R) (flat_map seriesPairs post ++ pairs after)).
Proof.
  intros HR. rewrite (parseJsonResponse_resolved _ _ _ HR), decodeFrom_pairs.
  rewrite pairs_withSeries. simpl. now rewrite !filterMap_app, <- !app_assoc.
Qed.

Lemma seriesPairs_skipped (R : Resolved) (seriesKey : string) (seriesData : SdmxSeries) :
  seriesIdentifiers R seriesKey = None ->
  filterMap (crossReference R) (flat_map seriesPairs [(seriesKey, seriesData)]) = [].
Proof.
  intros H. simpl. rewrite app_nil_r. unfold seriesPairs, filterMap. simpl.
  rewrite flat_map_concat_map, map_map, <- flat_map_concat_map.
  apply flat_map_nil. intros o. simpl. now rewrite H.
Qed.

Lemma segment_short (seriesKey : string) (position : nat) :
  (List.length (JS.split ":" seriesKey) <= position)%nat <->
  segment seriesKey position = None.
Proof. unfold segment. symmetry. apply nth_error_None. Qed.

Lemma selectsNoIdentifier_selects (vocab : list SdmxValue) (key : string) :
  selectsNoIdentifier vocab key -> selects vocab key = None.
Proof.
  unfold selects. intros [-> | [v [-> Hv]]]; simpl; [reflexivity|now rewrite Hv].
Qed.

Lemma Forall2_map_r {X Y : Type} (P : X -> Y -> Prop) (g : X -> Y) (l : list X) :
  (forall x, P x (g x)) -> Forall2 P l (map g l).
Proof.
  intros H. induction l as [|x l IH]; simpl; constructor; auto.
Qed.

(** The observations of a series whose key selects a currency and a base
    currency, entry by entry. *)
Lemma seriesPairs_resolved (R : Resolved) (seriesKey : string) (seriesData : SdmxSeries)
    (c b : string) :
  seriesIdentifiers R seriesKey = Some (c, b) ->
  filterMap (crossReference R) (flat_map seriesPairs [(seriesKey, seriesData)])
  = concat
      (map (fun o => match selects (timeVocabulary R) (fst o), rateOf (snd o) with
                     | Some d, Some r => [ExchangeRateObservation.mk d c b r]
                     | _, _ => []
                     end)
           (SdmxSeries.observations seriesData)).
Proof.
  intros H. simpl. rewrite app_nil_r. unfold seriesPairs, filterMap. simpl.
  rewrite flat_map_concat_map, map_map. f_equal. apply map_ext. intros [k t]. simpl.
  rewrite H. now destruct (selects (timeVocabulary R) k), (rateOf t).
Qed.

Lemma rateOf_first (tuple : list (option float)) :
  rateOf tuple = match JS.array_at tuple 0 with
                 | Some (Some r) => Some r
                 | _ => None
                 end.
Proof. now destruct tuple as [|[r|] tuple]. Qed.

(* ------------------------------------------------------------------ *)
(** * The errors of [validateQuery] *)
(* ------------------------------------------------------------------ *)

(** [validateQuery] raises nothing but [EcbValidationError]. *)
Lemma validateCurrencies_throws (currencies : list string) (e : Exception) :
  validateCurrencies currencies = Throw e -> exists message, e = EcbValidationError message.
Proof.
  induction currencies as [|c l IH]; simpl; [discriminate|].
  destruct (CURRENCY_REGEX_test c); simpl; [exact IH|].
  intros [= <-]. eauto.
Qed.

Lemma validateQuery_throws (query : ExchangeRateQuery) (e : Exception) :
  validateQuery query = Throw e -> exists message, e = EcbValidationError message.
Proof.
  unfold validateQuery.
  destruct (ExchangeRateQuery.currencies query) as [|c l] eqn:Hc;
    [intros [= <-]; eauto|].
  destruct (validateCurrencies (c :: l)) as [[]|e'] eqn:Hv; cbn [bind];
    [|intros [= <-]; eapply validateCurrencies_throws; eauto].
  destruct (ISO_DATE_REGEX_test (ExchangeRateQuery.startDate query)); cbn [negb];
    [|intros [= <-]; eauto].
  destruct (ExchangeRateQuery.endDate query) as [endDate|].
  - destruct (ISO_DATE_REGEX_test endDate); cbn [negb bind];
      [|intros [= <-]; eauto].
    destruct (JS.ltb endDate (ExchangeRateQuery.startDate query)); cbn [bind];
      [intros [= <-]; eauto|].
    destruct (ExchangeRateQuery.baseCurrency query) as [b|]; [|discriminate].
    destruct (CURRENCY_REGEX_test b); cbn [negb]; [discriminate|intros [= <-]; eauto].
  - cbn [bind].
    destruct (ExchangeRateQuery.baseCurrency query) as [b|]; [|discriminate].
    destruct (CURRENCY_REGEX_test b); cbn [negb]; [discriminate|intros [= <-]; eauto].
Qed.

(* ------------------------------------------------------------------ *)
(** * The decoder on a value of the declared shape *)
(* ------------------------------------------------------------------ *)

Lemma forOf_throw {A B : Type} (body : B -> A -> Result B) (l : list A) (e : Exception) :
  fold_left (fun state x => let* b := state in body b x) l (Throw e) = Throw e.
Proof. induction l as [|x l IH]; simpl; [reflexivity|exact IH]. Qed.

Lemma forOf_cons {A B : Type} (body : B -> A -> Result B) (x : A) (l : list A) (init : B) :
  forOf body (x :: l) init = let* b := body init x in forOf body l b.
Proof.
  unfold forOf. simpl. destruct (body init x) as [b|e]; simpl; [reflexivity|].
  apply forOf_throw.
Qed.

Lemma forOf_nil {A B : Type} (body : B -> A -> Result B) (init : B) :
  forOf body [] init = Ok init.
Proof. reflexivity. Qed.

Lemma traverse_cons {A B : Type} (f : A -> option B) (x : A) (l : list A) (l' : list B) :
  traverse f (x :: l) = Some l' ->
  exists y ys, f x = Some y /\ traverse f l = Some ys /\ l' = y :: ys.
Proof.
  simpl. destruct (f x) as [y|]; [|discriminate].
  destruct (traverse f l) as [ys|]; [|discriminate].
  intros [= <-]. eauto.
Qed.

Lemma traverse_nil {A B : Type} (f : A -> option B) (l : list A) :
  traverse f l = Some [] -> l = [].
Proof.
  destruct l as [|x l]; [reflexivity|]. intros H.
  apply traverse_cons in H. destruct H as [y [ys [_ [_ H]]]]. discriminate.
Qed.

Lemma traverse_nth_error {A B : Type} (f : A -> option B) (l : list A) (l' : list B) :
  traverse f l = Some l' ->
  forall n,
    match nth_error l n with
    | Some x => exists y, f x = Some y /\ nth_error l' n = Some y
    | None => nth_error l' n = None
    end.
Proof.
  revert l'. induction l as [|x l IH]; intros l' H n.
  - injection H as <-. now destruct n.
  - apply traverse_cons in H. destruct H as [y [ys [Hx [Hl ->]]]].
    destruct n as [|n]; simpl; [eauto|]. apply (IH _ Hl).
Qed.

Lemma traverse_length {A B : Type} (f : A -> option B) (l : list A) (l' : list B) :
  traverse f l = Some l' -> List.length l' = List.length l.
Proof.
  revert l'. induction l as [|x l IH]; intros l' H.
  - now injection H as <-.
  - apply traverse_cons in H. destruct H as [y [ys [_ [Hl ->]]]].
    simpl. f_equal. now apply IH.
Qed.

Lemma traverse_array_at {A B : Type} (f : A -> option B) (l : list A) (l' : list B) (i : Z) :
  traverse f l = Some l' ->
  match JS.array_at l i with
  | Some x => exists y, f x = Some y /\ JS.array_at l' i = Some y
  | None => JS.array_at l' i = None
  end.
Proof.
  intros H. unfold JS.array_at. destruct (i <? 0); [reflexivity|].
  apply (traverse_nth_error _ _ H).
Qed.

Lemma traverse_array_get {A B : Type} (f : A -> option B) (l : list A) (l' : list B)
    (x : float) :
  traverse f l = Some l' ->
  match JS.array_get l x with
  | Some v => exists y, f v = Some y /\ JS.array_get l' x = Some y
  | None => JS.array_get l' x = None
  end.
Proof.
  intros H. unfold JS.array_get. rewrite (traverse_length _ _ H).
  destruct (JS.toArrayIndex x) as [i|]; [|reflexivity].
  destruct (i <? Z.of_nat (List.length l)); [|reflexivity].
  apply (traverse_nth_error _ _ H).
Qed.

(** A loop over values that have a declared shape is the loop over the
    values they are, when each iteration is. *)
Lemma forOf_traverse {A A' B B' : Type} (f : A -> option A')
    (dyn : B -> A -> Result B) (typed : B' -> A' -> B') (emb : B' -> B) :
  (forall acc x x', f x = Some x' -> dyn (emb acc) x = Ok (emb (typed acc x'))) ->
  forall l l' acc,
    traverse f l = Some l' ->
    forOf dyn l (emb acc) = Ok (emb (fold_left typed l' acc)).
Proof.
  intros Hstep l. induction l as [|x l IH]; intros l' acc H.
  - now injection H as <-.
  - apply traverse_cons in H. destruct H as [y [ys [Hx [Hl ->]]]].
    rewrite forOf_cons, (Hstep _ _ _ Hx). simpl. now apply IH.
Qed.

(** What the properties of a value of a declared shape are. *)
Lemma optionalProperty_Some {A : Type} (f : Any.t -> option A)
    (entries : list (string * Any.t)) (name : string) (o : option A) :
  optionalProperty f entries name = Some o ->
  match o with
  | None => JS.Map_get entries name = None
  | Some x => exists v, JS.Map_get entries name = Some v /\ f v = Some x
  end.
Proof.
  unfold optionalProperty. destruct (JS.Map_get entries name) as [v|].
  - destruct (f v) as [x|] eqn:E; [|discriminate]. intros [= <-]. eauto.
  - now intros [= <-].
Qed.

Lemma property_Some {A : Type} (f : Any.t -> option A)
    (entries : list (string * Any.t)) (name : string) (x : A) :
  property f entries name = Some x ->
  exists v, JS.Map_get entries name = Some v /\ f v = Some x.
Proof.
  unfold property. destruct (JS.Map_get entries name) as [v|]; [|discriminate].
  simpl. eauto.
Qed.

Lemma asArray_Some {A : Type} (f : Any.t -> option A) (v : Any.t) (l : list A) :
  asArray f v = Some l ->
  exists ref elements, v = Any.Array ref elements /\ traverse f elements = Some l.
Proof. destruct v; try discriminate. simpl. eauto. Qed.

Lemma asRecord_Some {A : Type} (f : Any.t -> option A) (v : Any.t) (o : Dict A) :
  asRecord f v = Some o ->
  exists ref entries,
    v = Any.Object ref entries
    /\ traverse (fun entry : string * Any.t =>
                   option_map (pair (fst entry)) (f (snd entry))) entries
       = Some o.
Proof. destruct v; try discriminate. simpl. eauto. Qed.

Lemma asString_Some (v : Any.t) (s : string) : asString v = Some s -> v = Any.Str s.
Proof. destruct v; try discriminate. now intros [= <-]. Qed.

Lemma asNumberOrNull_Some (v : Any.t) (x : option float) :
  asNumberOrNull v = Some x -> v = ofNumberOrNull x.
Proof. destruct v; try discriminate; now intros [= <-]. Qed.

Lemma asSdmxValue_id (v : Any.t) (value : SdmxValue) :
  asSdmxValue v = Some value ->
  Any.chain (Some v) Any.Key.id = option_map Any.Str (SdmxValue.id value).
Proof.
  destruct v as [| | | |ref elements|ref entries]; try discriminate. simpl.
  destruct (optionalProperty asString entries "id") as [id|] eqn:Eid; [|discriminate].
  destruct (property asString entries "name"); [|discriminate].
  destruct (optionalProperty asString entries "start"); [|discriminate].
  destruct (optionalProperty asString entries "end"); [|discriminate].
  intros [= <-]. simpl. apply optionalProperty_Some in Eid.
  destruct id as [id|].
  - destruct Eid as [w [-> Hw]]. apply asString_Some in Hw. now subst.
  - now rewrite Eid.
Qed.

Lemma asSdmxDimension_Some (v : Any.t) (d : SdmxDimension) :
  asSdmxDimension v = Some d ->
  exists ref entries,
    v = Any.Object ref entries
    /\ JS.Map_get entries "id" = Some (Any.Str (SdmxDimension.id d))
    /\ match SdmxDimension.values d with
       | None => JS.Map_get entries "values" = None
       | Some values =>
         exists r elements,
           JS.Map_get entries "values" = Some (Any.Array r elements)
           /\ traverse asSdmxValue elements = Some values
       end.
Proof.
  destruct v as [| | | |ref elements|ref entries]; try discriminate. simpl.
  destruct (property asString entries "id") as [id|] eqn:Eid; [|discriminate].
  destruct (property asString entries "name"); [|discriminate].
  destruct (optionalProperty asString entries "role"); [|discriminate].
  destruct (optionalProperty (asArray asSdmxValue) entries "values") as [values|] eqn:Ev;
    [|discriminate].
  intros [= <-]. simpl. exists ref, entries. split; [reflexivity|].
  apply property_Some in Eid. destruct Eid as [w [Hw Hs]]. apply asString_Some in Hs.
  subst w. split; [exact Hw|].
  apply optionalProperty_Some in Ev. destruct values as [values|]; [|exact Ev].
  destruct Ev as [w [Hw' Ha]]. apply asArray_Some in Ha.
  destruct Ha as [r [elements [-> Ht]]]. eauto.
Qed.

Lemma findIndex_declared (id : string) (elements : list Any.t) (dims : list SdmxDimension) :
  traverse asSdmxDimension elements = Some dims ->
  Any.findIndex_from (Unchecked.hasId id) elements
  = Ok (JS.findIndex (fun d => String.eqb (SdmxDimension.id d) id) dims).
Proof.
  revert dims. induction elements as [|x l IH]; intros dims H.
  - now injection H as <-.
  - apply traverse_cons in H. destruct H as [d [ds [Hx [Hl ->]]]].
    apply asSdmxDimension_Some in Hx. destruct Hx as [ref [entries [-> [Hid _]]]].
    cbn [Any.findIndex_from JS.findIndex]. unfold Unchecked.hasId at 1.
    cbn [Any.read Any.get Any.Key.toString bind]. rewrite Hid. cbn [bind].
    destruct (String.eqb (SdmxDimension.id d) id); [reflexivity|].
    rewrite (IH _ Hl). reflexivity.
Qed.

Lemma findDimensionIndex_declared (id : string) (ref : N) (elements : list Any.t)
    (dims : list SdmxDimension) :
  traverse asSdmxDimension elements = Some dims ->
  Unchecked.findDimensionIndex (Some (Any.Array ref elements)) id
  = findDimensionIndex dims id.
Proof.
  intros H. unfold Unchecked.findDimensionIndex, findDimensionIndex, Any.findIndex.
  rewrite (findIndex_declared id _ H). simpl.
  now destruct (JS.findIndex _ dims =? -1).
Qed.

Lemma findObservationDimensionIndex_declared (id : string) (ref : N)
    (elements : list Any.t) (dims : list SdmxDimension) :
  traverse asSdmxDimension elements = Some dims ->
  Unchecked.findObservationDimensionIndex (Some (Any.Array ref elements)) id
  = findObservationDimensionIndex dims id.
Proof.
  intros H.
  unfold Unchecked.findObservationDimensionIndex, findObservationDimensionIndex,
    Any.findIndex.
  rewrite (findIndex_declared id _ H). simpl.
  now destruct (JS.findIndex _ dims =? -1).
Qed.

(** The values of the dimension at an index. *)
Lemma valuesOf_declared (elements : list Any.t) (dims : list SdmxDimension) (i : Z) :
  traverse asSdmxDimension elements = Some dims ->
  match optChain (JS.array_at dims i) SdmxDimension.values with
  | Some values =>
    exists r vs,
      Any.valuesOf (JS.array_at elements i) = Any.Values (Any.Array r vs)
      /\ traverse asSdmxValue vs = Some values
  | None => Any.valuesOf (JS.array_at elements i) = Any.NoValues
  end.
Proof.
  intros H. pose proof (traverse_array_at _ _ i H) as Hat.
  destruct (JS.array_at elements i) as [x|].
  - destruct Hat as [d [Hx ->]]. simpl.
    apply asSdmxDimension_Some in Hx. destruct Hx as [ref [entries [-> [_ Hv]]]].
    simpl. destruct (SdmxDimension.values d) as [values|].
    + destruct Hv as [r [vs [-> Ht]]]. eauto.
    + now rewrite Hv.
  - now rewrite Hat.
Qed.

(** The identifier that an index reads in a vocabulary. *)
Lemma identifier_declared (Number_toString : float -> string) (r : N)
    (vs : list Any.t) (values : list SdmxValue) (x : float) :
  traverse asSdmxValue vs = Some values ->
  Any.chain (Any.item Number_toString (Any.Values (Any.Array r vs)) x) Any.Key.id
  = option_map Any.Str (optChain (JS.array_get values x) SdmxValue.id).
Proof.
  intros H. simpl. pose proof (traverse_array_get _ _ x H) as Hget.
  destruct (JS.array_get vs x) as [v|].
  - destruct Hget as [value [Hv ->]]. simpl. now apply asSdmxValue_id.
  - now rewrite Hget.
Qed.

Lemma truthy_Str (o : option string) :
  Any.truthy (option_map Any.Str o) = JS.truthy o.
Proof. destruct o as [[|c s]|]; reflexivity. Qed.

Section Loops.

Variable Number_toString : float -> string.
Variables currencyDimIndex denomDimIndex : Z.
Variables rc rd rt : N.
Variables currencyElements denomElements timeElements : list Any.t.
Variables currencyValues denomValues timeValues : list SdmxValue.
Hypothesis Hcurrency : traverse asSdmxValue currencyElements = Some currencyValues.
Hypothesis Hdenom : traverse asSdmxValue denomElements = Some denomValues.
Hypothesis Htime : traverse asSdmxValue timeElements = Some timeValues.

Lemma forObservation_declared (c b : string) (acc : list ExchangeRateObservation)
    (entry : string * Any.t) (entry' : string * list (option float)) :
  option_map (pair (fst entry)) (asArray asNumberOrNull (snd entry)) = Some entry' ->
  Unchecked.forObservation Number_toString (Any.Values (Any.Array rt timeElements))
    (Any.Str c) (Any.Str b) (map unchecked acc) entry
  = Ok (map unchecked (forObservation timeValues c b acc entry')).
Proof.
  destruct entry as [k tv]. simpl fst. simpl snd.
  destruct (asArray asNumberOrNull tv) as [tuple|] eqn:Et; [|discriminate].
  intros [= <-]. apply asArray_Some in Et. destruct Et as [ref [elements [-> Ht]]].
  unfold Unchecked.forObservation, forObservation.
  rewrite (identifier_declared Number_toString rt _ (JS.Number k) Htime).
  cbn [Any.first bind].
  pose proof (traverse_array_at _ _ 0 Ht) as Hat.
  destruct (optChain (JS.array_get timeValues (JS.Number k)) SdmxValue.id) as [d|] eqn:Ed.
  - cbn [option_map].
    destruct (JS.array_at elements 0) as [x|].
    + destruct Hat as [y [Hy ->]]. apply asNumberOrNull_Some in Hy. subst x.
      change (Some (Any.Str d)) with (option_map Any.Str (Some d)).
      rewrite truthy_Str.
      destruct y as [y|]; cbn [ofNumberOrNull]; destruct (JS.truthy (Some d));
        cbn [negb]; try reflexivity.
      now rewrite map_app.
    + rewrite Hat. reflexivity.
  - cbn [option_map]. destruct (JS.array_at elements 0); reflexivity.
Qed.

Lemma forSeries_declared (acc : list ExchangeRateObservation)
    (entry : string * Any.t) (entry' : string * SdmxSeries) :
  option_map (pair (fst entry)) (asSdmxSeries (snd entry)) = Some entry' ->
  Unchecked.forSeries Number_toString currencyDimIndex denomDimIndex
    (Any.Values (Any.Array rc currencyElements))
    (Any.Values (Any.Array rd denomElements))
    (Any.Values (Any.Array rt timeElements))
    (map unchecked acc) entry
  = Ok (map unchecked
          (forSeries currencyDimIndex denomDimIndex
                     currencyValues denomValues timeValues acc entry')).
Proof.
  destruct entry as [k sv]. simpl fst. simpl snd.
  destruct (asSdmxSeries sv) as [series|] eqn:Es; [|discriminate].
  intros [= <-]. unfold Unchecked.forSeries, forSeries.
  destruct (JS.array_at (map JS.Number (JS.split ":" k)) currencyDimIndex) as [ci|];
    [|reflexivity].
  destruct (JS.array_at (map JS.Number (JS.split ":" k)) denomDimIndex) as [di|];
    [|reflexivity].
  rewrite (identifier_declared Number_toString rc _ ci Hcurrency).
  rewrite (identifier_declared Number_toString rd _ di Hdenom).
  destruct (optChain (JS.array_get currencyValues ci) SdmxValue.id) as [c|] eqn:Ec;
    [|reflexivity].
  destruct (optChain (JS.array_get denomValues di) SdmxValue.id) as [b|] eqn:Eb;
    [|reflexivity].
  cbn [option_map].
  change (Some (Any.Str c)) with (option_map Any.Str (Some c)).
  change (Some (Any.Str b)) with (option_map Any.Str (Some b)).
  rewrite !truthy_Str.
  destruct (negb (JS.truthy (Some c)) || negb (JS.truthy (Some b))); [reflexivity|].
  destruct sv as [| | | |ref elements|ref entries]; try discriminate.
  simpl in Es.
  destruct (property (asArray asNumberOrNull) entries "attributes"); [|discriminate].
  destruct (property (asRecord (asArray asNumberOrNull)) entries "observations")
    as [observations|] eqn:Eo; [|discriminate].
  injection Es as <-. cbn [SdmxSeries.observations Object_entries].
  apply property_Some in Eo. destruct Eo as [ov [Hov Ho]].
  apply asRecord_Some in Ho. destruct Ho as [r [oEntries [-> Ht]]].
  cbn [Any.read Any.get Any.Key.toString bind]. rewrite Hov.
  cbn [Any.entriesOf Any.entries bind].
  refine (@forOf_traverse _ _ _ _ _ _ _ (map unchecked) _ _ _ _ Ht).
  intros acc' x x' Hx. now apply forObservation_declared.
Qed.

Lemma forDataSet_declared (acc : list ExchangeRateObservation)
    (v : Any.t) (dataSet : SdmxDataSet) :
  asSdmxDataSet v = Some dataSet ->
  Unchecked.forDataSet Number_toString currencyDimIndex denomDimIndex
    (Any.Values (Any.Array rc currencyElements))
    (Any.Values (Any.Array rd denomElements))
    (Any.Values (Any.Array rt timeElements))
    (map unchecked acc) v
  = Ok (map unchecked
          (forDataSet currencyDimIndex denomDimIndex
                      currencyValues denomValues timeValues acc dataSet)).
Proof.
  destruct v as [| | | |ref elements|ref entries]; try discriminate. simpl.
  destruct (optionalProperty asString entries "action"); [|discriminate].
  destruct (optionalProperty asString entries "validFrom"); [|discriminate].
  destruct (optionalProperty (asRecord asSdmxSeries) entries "series") as [series|] eqn:Es;
    [|discriminate].
  intros [= <-]. unfold Unchecked.forDataSet, forDataSet.
  cbn [Any.read Any.get Any.Key.toString bind SdmxDataSet.series].
  apply optionalProperty_Some in Es. destruct series as [series|].
  - destruct Es as [sv [-> Hs]]. apply asRecord_Some in Hs.
    destruct Hs as [r [sEntries [-> Ht]]]. cbn [Any.truthy negb Any.entries bind].
    unfold Object_entries.
    refine (@forOf_traverse _ _ _ _ _ _ _ (map unchecked) _ _ _ _ Ht).
    intros acc' x x' Hx. now apply forSeries_declared.
  - now rewrite Es.
Qed.

End Loops.

(** On a value that has the shape that [SdmxJsonResponse] declares, the
    decoder does what it does on the document that the value is: it
    returns the same observations, or throws the same [EcbParseError], and
    throws no [TypeError]. *)
Lemma parseJsonResponse_declared (Number_toString : float -> string)
    (v : Any.t) (data : SdmxJsonResponse) :
  asSdmxJsonResponse v = Some data ->
  Unchecked.parseJsonResponse Number_toString v = uncheckedResult (parseJsonResponse data).
Proof.
  destruct v as [| | | |ref elements|ref entries]; try discriminate. simpl.
  destruct (property asSdmxHeader entries "header") as [header|]; [|discriminate].
  destruct (optionalProperty (asArray asSdmxDataSet) entries "dataSets")
    as [dataSets|] eqn:Ed; [|discriminate].
  destruct (optionalProperty asSdmxStructure entries "structure")
    as [structure|] eqn:Es; [|discriminate].
  intros [= <-]. unfold Unchecked.parseJsonResponse, parseJsonResponse.
  cbn [Any.read Any.get Any.Key.toString bind
       SdmxJsonResponse.dataSets SdmxJsonResponse.structure].
  apply optionalProperty_Some in Ed. destruct dataSets as [dataSets|];
    [|now rewrite Ed].
  destruct Ed as [dv [Ed Hd]]. apply asArray_Some in Hd.
  destruct Hd as [rd [dEls [-> Hd]]]. rewrite Ed.
  cbn [Any.truthy negb orb Any.lengthIsZero].
  destruct dataSets as [|dataSet dataSets].
  { apply traverse_nil in Hd. now subst. }
  destruct dEls as [|dEl dEls]; [discriminate|].
  cbv iota.
  apply optionalProperty_Some in Es. destruct structure as [structure|].
  2:{ rewrite Es. reflexivity. }
  destruct Es as [sv [Es Hs]]. rewrite Es.
  destruct sv as [| | | |r0 e0|rs sEntries]; try discriminate.
  simpl in Hs.
  destruct (optionalProperty asString sEntries "name"); [|discriminate].
  destruct (optionalProperty asSdmxDimensions sEntries "dimensions")
    as [dimensions|] eqn:Edim; [|discriminate].
  destruct (optionalProperty asSdmxAttributes sEntries "attributes"); [|discriminate].
  injection Hs as <-.
  cbn [Any.chain Any.readOf Any.read Any.get Any.Key.toString optChain
       SdmxStructure.dimensions].
  apply optionalProperty_Some in Edim. destruct dimensions as [dimensions|].
  2:{ rewrite Edim. reflexivity. }
  destruct Edim as [dimv [Edim Hdim]]. rewrite Edim.
  destruct dimv as [| | | |r1 e1|rdim dimEntries]; try discriminate.
  simpl in Hdim.
  destruct (property (asArray asSdmxDimension) dimEntries "series")
    as [seriesDims|] eqn:Eseries; [|discriminate].
  destruct (property (asArray asSdmxDimension) dimEntries "observation")
    as [obsDims|] eqn:Eobs; [|discriminate].
  injection Hdim as <-.
  apply property_Some in Eseries. destruct Eseries as [sdv [Hsdv Hsd]].
  apply asArray_Some in Hsd. destruct Hsd as [r2 [sdEls [-> Hsd]]].
  apply property_Some in Eobs. destruct Eobs as [odv [Hodv Hod]].
  apply asArray_Some in Hod. destruct Hod as [r3 [odEls [-> Hod]]].
  cbn [Any.truthy negb Any.readOf Any.read Any.get Any.Key.toString bind
       SdmxDimensions.series SdmxDimensions.observation].
  rewrite Hsdv, Hodv. cbn [bind].
  rewrite (findDimensionIndex_declared "CURRENCY" r2 _ Hsd).
  destruct (findDimensionIndex seriesDims "CURRENCY") as [ci|e]; [|reflexivity].
  cbn [bind].
  rewrite (findDimensionIndex_declared "CURRENCY_DENOM" r2 _ Hsd).
  destruct (findDimensionIndex seriesDims "CURRENCY_DENOM") as [di|e]; [|reflexivity].
  cbn [bind].
  rewrite (findObservationDimensionIndex_declared "TIME_PERIOD" r3 _ Hod).
  destruct (findObservationDimensionIndex obsDims "TIME_PERIOD") as [ti|e]; [|reflexivity].
  cbn [bind Any.element].
  pose proof (valuesOf_declared _ ci Hsd) as Hc.
  pose proof (valuesOf_declared _ di Hsd) as Hden.
  pose proof (valuesOf_declared _ ti Hod) as Ht.
  destruct (optChain (JS.array_at seriesDims ci) SdmxDimension.values) as [cv|].
  2:{ rewrite Hc. reflexivity. }
  destruct Hc as [rc [cEls [-> Hc]]].
  destruct (optChain (JS.array_at seriesDims di) SdmxDimension.values) as [dv|].
  2:{ rewrite Hden. reflexivity. }
  destruct Hden as [rdn [dnEls [-> Hden]]].
  destruct (optChain (JS.array_at obsDims ti) SdmxDimension.values) as [tv|].
  2:{ rewrite Ht. reflexivity. }
  destruct Ht as [rt [tEls [-> Ht]]].
  cbn [Any.hasValues Any.truthy negb orb Any.iterate bind].
  unfold uncheckedResult.
  change (@nil Unchecked.ExchangeRateObservation) with (map unchecked []).
  refine (@forOf_traverse _ _ _ _ _ _ _ (map unchecked) _ _ _ _ Hd).
  intros acc x x' Hx. now apply forDataSet_declared.
Qed.

(* ------------------------------------------------------------------ *)
(** * The keys of a [Map] *)
(* ------------------------------------------------------------------ *)

(** ** The equality of numbers *)

(** Two numbers are equal for [===] when both are zeros or both are the
    same number, which is not [NaN]. *)
Lemma SFeqb_true (a b : spec_float) :
  SFeqb a b = true
  <-> (exists s t, a = S754_zero s /\ b = S754_zero t)
      \/ (a = b /\ a <> S754_nan /\ forall s, a <> S754_zero s).
Proof.
  unfold SFeqb. split.
  - destruct a as [s| s| |s m e], b as [t| t| |t n f]; simpl;
      try discriminate; try (destruct s; discriminate); try (destruct t; discriminate).
    + intros _. left. eauto.
    + destruct s, t; try discriminate; intros _; right;
        (split; [reflexivity|split; [discriminate|intros; discriminate]]).
    + intros H. right.
      assert (E : s = t /\ e = f /\ m = n).
      { destruct s, t; try discriminate.
        - destruct (Z.compare_spec e f) as [->|_|_]; try discriminate.
          destruct (Pos.compare_cont Eq m n) eqn:Ec; try discriminate.
          apply Pos.compare_eq in Ec. auto.
        - destruct (Z.compare_spec e f) as [->|_|_]; try discriminate.
          destruct (Pos.compare_cont Eq m n) eqn:Ec; try discriminate.
          apply Pos.compare_eq in Ec. auto. }
      destruct E as [-> [-> ->]].
      split; [reflexivity|split; [discriminate|intros; discriminate]].
  - intros [[s [t [-> ->]]]|[<- [Hn Hz]]]; [reflexivity|].
    destruct a as [s| s| |s m e]; simpl.
    + exfalso. now apply (Hz s).
    + now destruct s.
    + contradiction.
    + rewrite Z.compare_refl.
      change (Pos.compare_cont Eq m m) with (Pos.compare m m).
      rewrite Pos.compare_refl. now destruct s.
Qed.

Lemma float_eqb_sym (x y : float) : PrimFloat.eqb x y = PrimFloat.eqb y x.
Proof.
  rewrite !eqb_spec.
  destruct (SFeqb (Prim2SF x) (Prim2SF y)) eqn:E, (SFeqb (Prim2SF y) (Prim2SF x)) eqn:F;
    try reflexivity.
  - apply SFeqb_true in E. rewrite <- F. symmetry. apply SFeqb_true.
    destruct E as [[s [t [E1 E2]]]|[E [Hn Hz]]]; [left; eauto|right].
    rewrite <- E. auto.
  - apply SFeqb_true in F. rewrite <- E. apply SFeqb_true.
    destruct F as [[s [t [E1 E2]]]|[F [Hn Hz]]]; [left; eauto|right].
    rewrite <- F. auto.
Qed.

Lemma float_eqb_trans (x y z : float) :
  PrimFloat.eqb x y = true -> PrimFloat.eqb y z = true -> PrimFloat.eqb x z = true.
Proof.
  rewrite !eqb_spec, !SFeqb_true.
  intros [[s [t [E1 E2]]]|[E [Hn Hz]]] [[s' [t' [F1 F2]]]|[F [Hn' Hz']]].
  - left. eauto.
  - exfalso. apply (Hz' t). exact E2.
  - exfalso. apply (Hz s'). congruence.
  - right. split; [congruence|auto].
Qed.

Lemma float_eqb_not_nan (x y : float) :
  PrimFloat.eqb x y = true -> PrimFloat.is_nan x = false /\ PrimFloat.is_nan y = false.
Proof.
  intros H. unfold PrimFloat.is_nan.
  assert (H' : PrimFloat.eqb y x = true) by now rewrite float_eqb_sym.
  now rewrite (@float_eqb_trans x y x H H'), (@float_eqb_trans y x y H' H).
Qed.

(** ** [SameValueZero] is an equivalence *)

Lemma SameValueZero_refl (a : Any.t) : Any.SameValueZero a a = true.
Proof.
  destruct a as [|b|x|s|r l|r l]; simpl.
  - reflexivity.
  - now destruct b.
  - unfold PrimFloat.is_nan. now destruct (PrimFloat.eqb x x).
  - apply String.eqb_refl.
  - apply N.eqb_refl.
  - apply N.eqb_refl.
Qed.

Lemma SameValueZero_sym (a b : Any.t) :
  Any.SameValueZero a b = Any.SameValueZero b a.
Proof.
  destruct a as [|a|x|s|r l|r l], b as [|b|y|t|q k|q k]; simpl; try reflexivity.
  - now destruct a, b.
  - rewrite (float_eqb_sym x y). f_equal. apply andb_comm.
  - apply String.eqb_sym.
  - apply N.eqb_sym.
  - apply N.eqb_sym.
Qed.

Lemma SameValueZero_trans (a b c : Any.t) :
  Any.SameValueZero a b = true -> Any.SameValueZero b c = true ->
  Any.SameValueZero a c = true.
Proof.
  destruct a as [|a|x|s|r l|r l], b as [|b|y|t|q k|q k]; simpl; try discriminate;
    destruct c as [|c|z|u|p j|p j]; simpl; try discriminate; try reflexivity.
  - destruct a, b, c; simpl; congruence.
  - intros H1 H2. apply orb_true_iff in H1, H2. apply orb_true_iff.
    destruct H1 as [H1|H1], H2 as [H2|H2].
    + left. exact (@float_eqb_trans x y z H1 H2).
    + apply andb_true_iff in H2. destruct H2 as [Hy _].
      apply float_eqb_not_nan in H1. destruct H1 as [_ H1]. congruence.
    + apply andb_true_iff in H1. destruct H1 as [_ Hy].
      apply float_eqb_not_nan in H2. destruct H2 as [H2 _]. congruence.
    + apply andb_true_iff in H1, H2. right. apply andb_true_iff. tauto.
  - intros H1 H2. apply String.eqb_eq in H1, H2. apply String.eqb_eq. congruence.
  - intros H1 H2. apply N.eqb_eq in H1, H2. apply N.eqb_eq. congruence.
  - intros H1 H2. apply N.eqb_eq in H1, H2. apply N.eqb_eq. congruence.
Qed.

(** Equal keys are equal to the same keys. *)
Lemma SameValueZero_left (a b c : Any.t) :
  Any.SameValueZero a b = true -> Any.SameValueZero a c = Any.SameValueZero b c.
Proof.
  intros H.
  destruct (Any.SameValueZero a c) eqn:E, (Any.SameValueZero b c) eqn:F; try reflexivity.
  - rewrite <- F. symmetry. apply (@SameValueZero_trans b a c); [|exact E].
    now rewrite SameValueZero_sym.
  - rewrite <- E. apply (@SameValueZero_trans a b c); assumption.
Qed.

Lemma SameValueZero_right (a b c : Any.t) :
  Any.SameValueZero a b = true -> Any.SameValueZero c a = Any.SameValueZero c b.
Proof.
  intros H. rewrite (SameValueZero_sym c a), (SameValueZero_sym c b).
  now apply SameValueZero_left.
Qed.

(** Strings are the same key when they are the same string. *)
Lemma SameValueZero_Str (s : string) (b : Any.t) :
  Any.SameValueZero (Any.Str s) b = true -> b = Any.Str s.
Proof.
  destruct b; simpl; try discriminate. intros H. apply String.eqb_eq in H. now subst.
Qed.

(** A map stores a key as it is given, unless the key is [-0]; a truthy
    key is not. *)
Lemma Map_key_same (k : Any.t) : Any.SameValueZero (Any.Map_key k) k = true.
Proof.
  destruct k as [|b|x|s|r l|r l]; try apply SameValueZero_refl.
  unfold Any.Map_key. destruct (PrimFloat.eqb x 0) eqn:E; [|apply SameValueZero_refl].
  simpl. now rewrite (float_eqb_sym 0 x), E.
Qed.

Lemma Map_key_truthy (k : Any.t) : Any.truthy (Some k) = true -> Any.Map_key k = k.
Proof.
  destruct k as [|b|x|s|r l|r l]; try reflexivity. simpl.
  destruct (PrimFloat.eqb x 0); [discriminate|reflexivity].
Qed.

(** ** Reading and writing *)

Lemma Any_Map_get_set {V : Type} (m : Any.Map V) (k k' : Any.t) (v : V) :
  Any.Map_get (Any.Map_set m k v) k'
  = if Any.SameValueZero k k' then Some v else Any.Map_get m k'.
Proof.
  induction m as [|[k0 v0] m IH]; simpl.
  - now rewrite (@SameValueZero_left _ _ k' (Map_key_same k)).
  - destruct (Any.SameValueZero k0 k) eqn:Hk; simpl.
    + rewrite (@SameValueZero_left _ _ k' Hk).
      now destruct (Any.SameValueZero k k').
    + rewrite IH. destruct (Any.SameValueZero k0 k') eqn:Hk'; [|reflexivity].
      destruct (Any.SameValueZero k k') eqn:Hkk'; [|reflexivity].
      exfalso. rewrite (@SameValueZero_right _ _ k0 Hkk') in Hk.
      congruence.
Qed.

Lemma Any_Map_get_same {V : Type} (m : Any.Map V) (k k' : Any.t) :
  Any.SameValueZero k k' = true -> Any.Map_get m k = Any.Map_get m k'.
Proof.
  intros H. induction m as [|[k0 v0] m IH]; simpl; [reflexivity|].
  now rewrite (@SameValueZero_right _ _ k0 H), IH.
Qed.

(** The keys of a map that hold a key. *)
Lemma Any_Map_get_keys {V : Type} (m : Any.Map V) (k : Any.t) :
  Any.Map_get m k <> None
  <-> exists k0, In k0 (Map_keys m) /\ Any.SameValueZero k0 k = true.
Proof.
  unfold Map_keys. induction m as [|[k0 v0] m IH]; simpl.
  - split; [congruence|]. intros [k0 [[] _]].
  - destruct (Any.SameValueZero k0 k) eqn:Hk.
    + split; [|discriminate]. intros _. exists k0. auto.
    + rewrite IH. split.
      * intros [k1 [Hin H]]. eauto.
      * intros [k1 [[<-|Hin] H]]; [congruence|eauto].
Qed.

Lemma Any_Map_keys_set {V : Type} (m : Any.Map V) (k : Any.t) (v : V) :
  Map_keys (Any.Map_set m k v)
  = if existsb (fun k0 => Any.SameValueZero k0 k) (Map_keys m)
    then Map_keys m else Map_keys m ++ [Any.Map_key k].
Proof.
  unfold Map_keys. induction m as [|[k0 v0] m IH]; simpl; [reflexivity|].
  destruct (Any.SameValueZero k0 k); simpl; [reflexivity|].
  rewrite IH. now destruct (existsb (fun k1 => Any.SameValueZero k1 k) (map fst m)).
Qed.

Lemma existsb_same (l : list Any.t) (a b : Any.t) :
  Any.SameValueZero a b = true ->
  existsb (fun k => Any.SameValueZero k a) l = existsb (fun k => Any.SameValueZero k b) l.
Proof.
  intros H. induction l as [|x l IH]; simpl; [reflexivity|].
  now rewrite (@SameValueZero_right _ _ x H), IH.
Qed.

Lemma filter_filter {X : Type} (p q : X -> bool) (l : list X) :
  filter p (filter q l) = filter (fun x => p x && q x) l.
Proof.
  induction l as [|x l IH]; simpl; [reflexivity|].
  destruct (q x); simpl; rewrite ?andb_true_r, ?andb_false_r;
    [destruct (p x); now rewrite IH|exact IH].
Qed.

Lemma forOf_app {A B : Type} (body : B -> A -> Result B) (l l' : list A) (init : B) :
  forOf body (l ++ l') init = let* b := forOf body l init in forOf body l' b.
Proof.
  revert init. induction l as [|x l IH]; intros init; [reflexivity|].
  simpl app. rewrite !forOf_cons. destruct (body init x) as [b|e]; simpl; [apply IH|].
  reflexivity.
Qed.

(** A loop whose iterations do not throw is a fold. *)
Lemma forOf_pure {A B : Type} (step : B -> A -> B) (l : list A) (init : B) :
  forOf (fun b x => Ok (step b x)) l init = Ok (fold_left step l init).
Proof.
  revert init. induction l as [|x l IH]; intros init; [reflexivity|].
  rewrite forOf_cons. simpl. apply IH.
Qed.

(** What holds of the state at the start and is kept by every iteration
    holds at the end. *)
Lemma forOf_invariant {A B : Type} (P : B -> Prop) (body : B -> A -> Result B) :
  (forall b x b', P b -> body b x = Ok b' -> P b') ->
  forall l init result, P init -> forOf body l init = Ok result -> P result.
Proof.
  intros Hstep. induction l as [|x l IH]; intros init result Hinit H.
  - now injection H as <-.
  - rewrite forOf_cons in H. destruct (body init x) as [b|e] eqn:Hx; [|discriminate].
    simpl in H. apply (IH b); [|exact H]. now apply (Hstep init x).
Qed.

(** A loop that sets one key at each turn leaves the keys it found,
    followed by the new ones in the order of their first occurrence. *)
Lemma forOf_keys_order {V X : Type} (step : Any.Map V -> X -> Result (Any.Map V))
    (key : X -> Any.t) (l : list X) :
  (forall m x m',
      In x l ->
      step m x = Ok m' ->
      Map_keys m'
      = if existsb (fun k => Any.SameValueZero k (key x)) (Map_keys m)
        then Map_keys m else Map_keys m ++ [key x]) ->
  forall m m',
    forOf step l m = Ok m' ->
    Map_keys m'
    = Map_keys m
      ++ filter (fun d => negb (existsb (fun k => Any.SameValueZero k d) (Map_keys m)))
                (distinct (map key l)).
Proof.
  induction l as [|x l IH]; intros Hstep m m' H.
  - injection H as <-. simpl. now rewrite app_nil_r.
  - rewrite forOf_cons in H. destruct (step m x) as [m1|e] eqn:Hx; [|discriminate].
    simpl in H.
    rewrite (IH (fun m x m' Hin => Hstep m x m' (or_intror Hin)) _ _ H).
    rewrite (Hstep _ _ _ (or_introl eq_refl) Hx). simpl map. simpl distinct.
    simpl filter.
    destruct (existsb (fun k => Any.SameValueZero k (key x)) (Map_keys m)) eqn:Hin; simpl.
    + f_equal. rewrite filter_filter. apply filter_ext. intros d.
      destruct (Any.SameValueZero d (key x)) eqn:Hd; simpl.
      * now rewrite (@existsb_same _ _ _ Hd), Hin.
      * now rewrite andb_true_r.
    + rewrite <- app_assoc. simpl. do 2 f_equal.
      rewrite filter_filter. apply filter_ext. intros d.
      rewrite existsb_app. simpl. rewrite orb_false_r, negb_orb.
      now rewrite (SameValueZero_sym (key x) d).
Qed.

Lemma distinct_empty_map (l : list Any.t) :
  filter (fun d => negb (existsb (fun k => Any.SameValueZero k d) [])) (distinct l)
  = distinct l.
Proof.
  simpl. induction (distinct l) as [|x r IH]; simpl; [reflexivity|]. now rewrite IH.
Qed.

(** ** Keys that are all different *)

Lemma distinctKeys_app (l : list Any.t) (k : Any.t) :
  distinctKeys l -> existsb (fun k0 => Any.SameValueZero k0 k) l = false ->
  distinctKeys (l ++ [k]).
Proof.
  induction l as [|x l IH]; simpl; intros H Hk.
  - split; [constructor|exact I].
  - destruct H as [Hx Hl]. apply orb_false_iff in Hk. destruct Hk as [Hxk Hk].
    split; [|now apply IH].
    apply Forall_app. split; [exact Hx|]. constructor; [exact Hxk|constructor].
Qed.

Lemma distinctKeys_set {V : Type} (m : Any.Map V) (k : Any.t) (v : V) :
  distinctKeys (Map_keys m) -> distinctKeys (Map_keys (Any.Map_set m k v)).
Proof.
  intros H. rewrite Any_Map_keys_set.
  destruct (existsb (fun k0 => Any.SameValueZero k0 k) (Map_keys m)) eqn:E; [exact H|].
  apply distinctKeys_app; [exact H|].
  rewrite <- E. apply existsb_same. apply Map_key_same.
Qed.

Lemma find_the_one {X : Type} (p : X -> bool) (l : list X) (o : X) :
  In o l -> p o = true -> (forall x, In x l -> p x = true -> x = o) ->
  find p l = Some o.
Proof.
  induction l as [|x l IH]; simpl; [intros []|].
  intros Hin Hp Hone. destruct (p x) eqn:Hx.
  - f_equal. apply Hone; auto.
  - destruct Hin as [->|Hin]; [congruence|]. apply IH; auto.
Qed.

Lemma distinctKeys_one {X : Type} (key : X -> Any.t) (l : list X) (x o : X) :
  distinctKeys (map key l) -> In x l -> In o l ->
  Any.SameValueZero (key x) (key o) = true -> x = o.
Proof.
  induction l as [|y l IH]; simpl; [intros _ []|].
  intros [Hy Hl] Hx Ho E. rewrite Forall_forall in Hy.
  destruct Hx as [->|Hx], Ho as [->|Ho]; [reflexivity| | |now apply IH].
  - exfalso. rewrite (Hy (key o)) in E; [discriminate|]. now apply in_map.
  - exfalso. rewrite SameValueZero_sym, (Hy (key x)) in E; [discriminate|].
    now apply in_map.
Qed.

(** The keys that [distinct] keeps are keys of the list, and every key of
    the list is the same key as one of them. *)
Lemma distinct_In (l : list Any.t) (k : Any.t) :
  In k (distinct l) -> In k l.
Proof.
  induction l as [|x l IH]; simpl; [tauto|].
  intros [<-|H]; [now left|]. right. apply IH. now apply filter_In in H.
Qed.

Lemma distinct_covers (l : list Any.t) (k : Any.t) :
  In k l -> exists k0, In k0 (distinct l) /\ Any.SameValueZero k0 k = true.
Proof.
  induction l as [|x l IH]; simpl; [tauto|].
  intros [<-|H].
  - exists x. split; [now left|apply SameValueZero_refl].
  - destruct (IH H) as [k0 [Hin Hk]].
    destruct (Any.SameValueZero k0 x) eqn:E.
    + exists x. split; [now left|].
      rewrite <- Hk. symmetry. now apply SameValueZero_left.
    + exists k0. split; [|exact Hk]. right. apply filter_In. now rewrite E.
Qed.

Lemma distinct_distinctKeys (l : list Any.t) : distinctKeys (distinct l).
Proof.
  induction l as [|x l IH]; simpl; [exact I|]. split.
  - apply Forall_forall. intros y Hy. apply filter_In in Hy. destruct Hy as [_ Hy].
    apply negb_true_iff in Hy. now rewrite SameValueZero_sym.
  - clear -IH. induction (distinct l) as [|y r IHr]; simpl; [exact I|].
    destruct IH as [Hy Hr].
    destruct (negb (Any.SameValueZero y x)); simpl; [|now apply IHr].
    split; [|now apply IHr].
    rewrite Forall_forall in *. intros z Hz. apply Hy.
    now apply filter_In in Hz.
Qed.

(** Keys that are strings are different keys when they are different
    strings. *)
Lemma distinctKeys_NoDup (l : list Any.t) :
  Forall (fun k => exists s, k = Any.Str s) l -> distinctKeys l -> NoDup l.
Proof.
  induction l as [|x l IH]; simpl; intros Hs H; [constructor|].
  inversion Hs as [|? ? [s ->] Hl]; subst. destruct H as [Hx Hd].
  constructor; [|now apply IH].
  intros Hin. rewrite Forall_forall in Hx. specialize (Hx _ Hin).
  simpl in Hx. now rewrite String.eqb_refl in Hx.
Qed.

(* ------------------------------------------------------------------ *)
(** * What the decoder returns on any value *)
(* ------------------------------------------------------------------ *)

Section Tested.

Variable Number_toString : float -> string.

Lemma forObservation_tested (timeValues : Any.values) (c b : Any.t)
    (acc acc' : list Unchecked.ExchangeRateObservation) (entry : string * Any.t) :
  Any.truthy (Some c) = true -> Any.truthy (Some b) = true ->
  Forall tested acc ->
  Unchecked.forObservation Number_toString timeValues c b acc entry = Ok acc' ->
  Forall tested acc'.
Proof.
  intros Hc Hb Hacc. destruct entry as [k tv]. unfold Unchecked.forObservation.
  destruct (Any.first tv) as [rate|e]; [|discriminate]. cbn [bind].
  destruct (Any.chain (Any.item Number_toString timeValues (JS.Number k)) Any.Key.id)
    as [d|] eqn:Ed; [|now intros [= <-]].
  destruct rate as [r|]; [|now intros [= <-]].
  destruct (Any.truthy (Some d)) eqn:Hd; cbn [negb]; [|now intros [= <-]].
  destruct r; intros [= <-]; try exact Hacc;
    (apply Forall_app; split; [exact Hacc|]; constructor; [|constructor];
     repeat split; try assumption; discriminate).
Qed.

Lemma forSeries_tested (ci di : Z) (cv dv tv : Any.values)
    (acc acc' : list Unchecked.ExchangeRateObservation) (entry : string * Any.t) :
  Forall tested acc ->
  Unchecked.forSeries Number_toString ci di cv dv tv acc entry = Ok acc' ->
  Forall tested acc'.
Proof.
  intros Hacc. destruct entry as [k sd]. unfold Unchecked.forSeries.
  destruct (JS.array_at (map JS.Number (JS.split ":" k)) ci) as [x|]; [|now intros [= <-]].
  destruct (JS.array_at (map JS.Number (JS.split ":" k)) di) as [y|]; [|now intros [= <-]].
  destruct (Any.chain (Any.item Number_toString cv x) Any.Key.id) as [c|];
    [|now intros [= <-]].
  destruct (Any.chain (Any.item Number_toString dv y) Any.Key.id) as [b|];
    [|now intros [= <-]].
  destruct (Any.truthy (Some c)) eqn:Hc; cbn [negb orb]; [|now intros [= <-]].
  destruct (Any.truthy (Some b)) eqn:Hb; cbn [negb orb]; [|now intros [= <-]].
  destruct (Any.read sd Any.Key.observations) as [o|e]; [|discriminate]. cbn [bind].
  destruct (Any.entriesOf o) as [entries|e]; [|discriminate]. cbn [bind].
  apply forOf_invariant; [|exact Hacc].
  intros a e a' Ha. now apply forObservation_tested.
Qed.

Lemma forDataSet_tested (ci di : Z) (cv dv tv : Any.values)
    (acc acc' : list Unchecked.ExchangeRateObservation) (dataSet : Any.t) :
  Forall tested acc ->
  Unchecked.forDataSet Number_toString ci di cv dv tv acc dataSet = Ok acc' ->
  Forall tested acc'.
Proof.
  intros Hacc. unfold Unchecked.forDataSet.
  destruct (Any.read dataSet Any.Key.series) as [series|e]; [|discriminate]. cbn [bind].
  destruct series as [s|]; [|now intros [= <-]].
  destruct (Any.truthy (Some s)); cbn [negb]; [|now intros [= <-]].
  destruct (Any.entries s) as [entries|e]; [|discriminate]. cbn [bind].
  apply forOf_invariant; [|exact Hacc].
  intros a e a' Ha. now apply forSeries_tested.
Qed.

(** Every observation that the decoder returns passed its tests. *)
Lemma parseJsonResponse_tested (data : Any.t)
    (observations : list Unchecked.ExchangeRateObservation) :
  Unchecked.parseJsonResponse Number_toString data = Ok observations ->
  Forall tested observations.
Proof.
  unfold Unchecked.parseJsonResponse.
  destruct (Any.read data Any.Key.dataSets) as [dataSets|e]; [|discriminate]. cbn [bind].
  destruct dataSets as [sets|]; [|now intros [= <-]].
  destruct (negb (Any.truthy (Some sets)) || Any.lengthIsZero sets); [now intros [= <-]|].
  destruct (Any.read data Any.Key.structure) as [structure|e]; [|discriminate].
  cbn [bind].
  destruct (negb (Any.truthy (Any.chain structure Any.Key.dimensions))); [discriminate|].
  destruct (Any.readOf structure Any.Key.dimensions) as [dimensions|e]; [|discriminate].
  cbn [bind].
  destruct (Any.readOf dimensions Any.Key.series) as [seriesDims|e]; [|discriminate].
  cbn [bind].
  destruct (Any.readOf dimensions Any.Key.observation) as [obsDims|e]; [|discriminate].
  cbn [bind].
  destruct (Unchecked.findDimensionIndex seriesDims "CURRENCY") as [ci|e]; [|discriminate].
  cbn [bind].
  destruct (Unchecked.findDimensionIndex seriesDims "CURRENCY_DENOM") as [di|e];
    [|discriminate].
  cbn [bind].
  destruct (Unchecked.findObservationDimensionIndex obsDims "TIME_PERIOD") as [ti|e];
    [|discriminate].
  cbn [bind].
  destruct (Any.element seriesDims ci) as [cd|e]; [|discriminate]. cbn [bind].
  destruct (Any.element seriesDims di) as [dd|e]; [|discriminate]. cbn [bind].
  destruct (Any.element obsDims ti) as [td|e]; [|discriminate]. cbn [bind].
  destruct (negb (Any.hasValues (Any.valuesOf cd)) || negb (Any.hasValues (Any.valuesOf dd))
            || negb (Any.hasValues (Any.valuesOf td))); [discriminate|].
  destruct (Any.iterate sets) as [elements|e]; [|discriminate]. cbn [bind].
  apply forOf_invariant; [|constructor].
  intros a e a' Ha. now apply forDataSet_tested.
Qed.

End Tested.

(** The exceptions of the decoder on any value: the [EcbParseError] of
    its structural checks, and the [TypeError] of the runtime. *)
Lemma forOf_throws {A B : Type} (Q : Exception -> Prop) (body : B -> A -> Result B) :
  (forall b x e, body b x = Throw e -> Q e) ->
  forall l init e, forOf body l init = Throw e -> Q e.
Proof.
  intros Hstep. induction l as [|x l IH]; intros init e H; [discriminate|].
  rewrite forOf_cons in H. destruct (body init x) as [b|e'] eqn:Hx.
  - simpl in H. now apply (IH b).
  - simpl in H. injection H as <-. now apply (Hstep init x).
Qed.

Section Throws.

Variable Number_toString : float -> string.

Lemma read_throws (v : Any.t) (k : Any.Key.t) (e : Exception) :
  Any.read v k = Throw e -> errorName e = "TypeError".
Proof. destruct v; try discriminate. now intros [= <-]. Qed.

Lemma readOf_throws (v : option Any.t) (k : Any.Key.t) (e : Exception) :
  Any.readOf v k = Throw e -> errorName e = "TypeError".
Proof. destruct v as [v|]; [apply read_throws|now intros [= <-]]. Qed.

Lemma entries_throws (v : Any.t) (e : Exception) :
  Any.entries v = Throw e -> errorName e = "TypeError".
Proof. destruct v; try discriminate. now intros [= <-]. Qed.

Lemma forObservation_throws (tv : Any.values) (c b : Any.t)
    (acc : list Unchecked.ExchangeRateObservation) (entry : string * Any.t)
    (e : Exception) :
  Unchecked.forObservation Number_toString tv c b acc entry = Throw e ->
  errorName e = "TypeError".
Proof.
  destruct entry as [k v]. unfold Unchecked.forObservation.
  destruct (Any.first v) as [rate|e'] eqn:E.
  - cbn [bind].
    destruct (Any.chain (Any.item Number_toString tv (JS.Number k)) Any.Key.id) as [d|];
      [|discriminate].
    destruct rate as [r|]; [|discriminate].
    destruct (negb (Any.truthy (Some d))); [discriminate|]. now destruct r.
  - cbn [bind]. intros [= <-]. destruct v; try discriminate. now injection E as <-.
Qed.

Lemma forSeries_throws (ci di : Z) (cv dv tv : Any.values)
    (acc : list Unchecked.ExchangeRateObservation) (entry : string * Any.t)
    (e : Exception) :
  Unchecked.forSeries Number_toString ci di cv dv tv acc entry = Throw e ->
  errorName e = "TypeError".
Proof.
  destruct entry as [k sd]. unfold Unchecked.forSeries.
  destruct (JS.array_at (map JS.Number (JS.split ":" k)) ci) as [x|]; [|discriminate].
  destruct (JS.array_at (map JS.Number (JS.split ":" k)) di) as [y|]; [|discriminate].
  destruct (Any.chain (Any.item Number_toString cv x) Any.Key.id) as [c|]; [|discriminate].
  destruct (Any.chain (Any.item Number_toString dv y) Any.Key.id) as [b|]; [|discriminate].
  destruct (negb (Any.truthy (Some c)) || negb (Any.truthy (Some b))); [discriminate|].
  destruct (Any.read sd Any.Key.observations) as [o|e'] eqn:Er; cbn [bind].
  2:{ intros [= <-]. now apply read_throws in Er. }
  destruct (Any.entriesOf o) as [entries|e'] eqn:Ee; cbn [bind].
  2:{ intros [= <-]. destruct o as [o|]; [now apply entries_throws in Ee|].
      now injection Ee as <-. }
  apply (@forOf_throws _ _ (fun e => errorName e = "TypeError")).
  intros a0 x0 e0. apply forObservation_throws.
Qed.

Lemma forDataSet_throws (ci di : Z) (cv dv tv : Any.values)
    (acc : list Unchecked.ExchangeRateObservation) (dataSet : Any.t) (e : Exception) :
  Unchecked.forDataSet Number_toString ci di cv dv tv acc dataSet = Throw e ->
  errorName e = "TypeError".
Proof.
  unfold Unchecked.forDataSet.
  destruct (Any.read dataSet Any.Key.series) as [series|e'] eqn:Er; cbn [bind].
  2:{ intros [= <-]. now apply read_throws in Er. }
  destruct series as [s|]; [|discriminate].
  destruct (negb (Any.truthy (Some s))); [discriminate|].
  destruct (Any.entries s) as [entries|e'] eqn:Ee; cbn [bind].
  2:{ intros [= <-]. now apply entries_throws in Ee. }
  apply (@forOf_throws _ _ (fun e => errorName e = "TypeError")).
  intros a0 x0 e0. apply forSeries_throws.
Qed.

Lemma findIndex_throws (dims : option Any.t) (id : string) (e : Exception) :
  Any.findIndex dims (Unchecked.hasId id) = Throw e -> errorName e = "TypeError".
Proof.
  destruct dims as [[| | | |r l|r l]|]; simpl; try (now intros [= <-]).
  induction l as [|x l IH]; simpl; [discriminate|].
  unfold Unchecked.hasId at 1.
  destruct (Any.read x Any.Key.id) as [i|e'] eqn:Er; cbn [bind].
  2:{ intros [= <-]. now apply read_throws in Er. }
  destruct (match i with Some (Any.Str s) => String.eqb s id | _ => false end);
    [discriminate|].
  destruct (Any.findIndex_from (Unchecked.hasId id) l) as [j|e']; cbn [bind];
    [discriminate|].
  intros [= <-]. now apply IH.
Qed.

Lemma findDimensionIndex_throws (dims : option Any.t) (id : string) (e : Exception) :
  Unchecked.findDimensionIndex dims id = Throw e ->
  instanceof_EcbParseError e = true \/ errorName e = "TypeError".
Proof.
  unfold Unchecked.findDimensionIndex.
  destruct (Any.findIndex dims (Unchecked.hasId id)) as [i|e'] eqn:E; cbn [bind].
  - destruct (i =? -1); [|discriminate]. intros [= <-]. now left.
  - intros [= <-]. right. now apply findIndex_throws in E.
Qed.

Lemma findObservationDimensionIndex_throws (dims : option Any.t) (id : string)
    (e : Exception) :
  Unchecked.findObservationDimensionIndex dims id = Throw e ->
  instanceof_EcbParseError e = true \/ errorName e = "TypeError".
Proof.
  unfold Unchecked.findObservationDimensionIndex.
  destruct (Any.findIndex dims (Unchecked.hasId id)) as [i|e'] eqn:E; cbn [bind].
  - destruct (i =? -1); [|discriminate]. intros [= <-]. now left.
  - intros [= <-]. right. now apply findIndex_throws in E.
Qed.

Lemma element_throws (v : option Any.t) (i : Z) (e : Exception) :
  Any.element v i = Throw e -> errorName e = "TypeError".
Proof. destruct v as [[]|]; try discriminate; now intros [= <-]. Qed.

Lemma iterate_throws (v : Any.t) (e : Exception) :
  Any.iterate v = Throw e -> errorName e = "TypeError".
Proof. destruct v; try discriminate; now intros [= <-]. Qed.

Lemma parseJsonResponse_throws_any (data : Any.t) (e : Exception) :
  Unchecked.parseJsonResponse Number_toString data = Throw e ->
  instanceof_EcbParseError e = true \/ errorName e = "TypeError".
Proof.
  unfold Unchecked.parseJsonResponse.
  destruct (Any.read data Any.Key.dataSets) as [dataSets|e'] eqn:E1; cbn [bind].
  2:{ intros [= <-]. right. now apply read_throws in E1. }
  destruct dataSets as [sets|]; [|discriminate].
  destruct (negb (Any.truthy (Some sets)) || Any.lengthIsZero sets); [discriminate|].
  destruct (Any.read data Any.Key.structure) as [structure|e'] eqn:E2; cbn [bind].
  2:{ intros [= <-]. right. now apply read_throws in E2. }
  destruct (negb (Any.truthy (Any.chain structure Any.Key.dimensions)));
    [intros [= <-]; now left|].
  destruct (Any.readOf structure Any.Key.dimensions) as [dimensions|e'] eqn:E3;
    cbn [bind].
  2:{ intros [= <-]. right. now apply readOf_throws in E3. }
  destruct (Any.readOf dimensions Any.Key.series) as [seriesDims|e'] eqn:E4; cbn [bind].
  2:{ intros [= <-]. right. now apply readOf_throws in E4. }
  destruct (Any.readOf dimensions Any.Key.observation) as [obsDims|e'] eqn:E5;
    cbn [bind].
  2:{ intros [= <-]. right. now apply readOf_throws in E5. }
  destruct (Unchecked.findDimensionIndex seriesDims "CURRENCY") as [ci|e'] eqn:E6;
    cbn [bind].
  2:{ intros [= <-]. now apply findDimensionIndex_throws in E6. }
  destruct (Unchecked.findDimensionIndex seriesDims "CURRENCY_DENOM") as [di|e'] eqn:E7;
    cbn [bind].
  2:{ intros [= <-]. now apply findDimensionIndex_throws in E7. }
  destruct (Unchecked.findObservationDimensionIndex obsDims "TIME_PERIOD")
    as [ti|e'] eqn:E8; cbn [bind].
  2:{ intros [= <-]. now apply findObservationDimensionIndex_throws in E8. }
  destruct (Any.element seriesDims ci) as [cd|e'] eqn:E9; cbn [bind].
  2:{ intros [= <-]. right. now apply element_throws in E9. }
  destruct (Any.element seriesDims di) as [dd|e'] eqn:E10; cbn [bind].
  2:{ intros [= <-]. right. now apply element_throws in E10. }
  destruct (Any.element obsDims ti) as [td|e'] eqn:E11; cbn [bind].
  2:{ intros [= <-]. right. now apply element_throws in E11. }
  destruct (negb (Any.hasValues (Any.valuesOf cd)) || negb (Any.hasValues (Any.valuesOf dd))
            || negb (Any.hasValues (Any.valuesOf td))); [intros [= <-]; now left|].
  destruct (Any.iterate sets) as [elements|e'] eqn:E12; cbn [bind].
  2:{ intros [= <-]. right. now apply iterate_throws in E12. }
  intros H. right. revert H.
  apply (@forOf_throws _ _ (fun e => errorName e = "TypeError")).
  intros a0 x0 e0. apply forDataSet_throws.
Qed.

End Throws.

(* ------------------------------------------------------------------ *)
(** * The client *)
(* ------------------------------------------------------------------ *)

Section ClientLemmas.

Variable Number_toString : float -> string.
Variable JSON_parse : string -> Any.t + string.
Variable URL_toString : string -> list (string * string) -> option string.
Variable this : EcbClient.

(** The stages of [fetchAndParse] when it resolves; it never resolves to
    an empty list. *)
Lemma fetchAndParse_Ok (query : ExchangeRateQuery)
    (observations : list Unchecked.ExchangeRateObservation) :
  fetchAndParse Number_toString JSON_parse URL_toString this query = Ok observations ->
  exists url raw json,
    buildExchangeRateUrl URL_toString query (EcbClient.baseUrl this) = Ok url
    /\ EcbClient.fetcher this url = Ok raw
    /\ JSON_parse raw = inl json
    /\ Unchecked.parseJsonResponse Number_toString json = Ok observations
    /\ observations <> [].
Proof.
  unfold fetchAndParse, parseSdmxJson.
  destruct (buildExchangeRateUrl URL_toString query (EcbClient.baseUrl this))
    as [url|] eqn:Hurl; [|discriminate]. cbn [bind].
  destruct (EcbClient.fetcher this url) as [raw|] eqn:Hraw; [|discriminate].
  cbn [bind].
  destruct (JSON_parse raw) as [json|] eqn:Hjson; [|discriminate]. cbn [bind].
  destruct (Unchecked.parseJsonResponse Number_toString json) as [l|] eqn:Hl;
    [|discriminate].
  cbn [bind]. destruct l; simpl; [discriminate|]. intros [= <-].
  exists url, raw, json. do 4 (split; [assumption || reflexivity|]). discriminate.
Qed.

Lemma fetchAndParse_nonempty (query : ExchangeRateQuery)
    (observations : list Unchecked.ExchangeRateObservation) :
  fetchAndParse Number_toString JSON_parse URL_toString this query = Ok observations ->
  observations <> [].
Proof.
  intros H. apply fetchAndParse_Ok in H.
  now destruct H as [url [raw [json [_ [_ [_ [_ H]]]]]]].
Qed.

Lemma fetchAndParse_tested (query : ExchangeRateQuery)
    (observations : list Unchecked.ExchangeRateObservation) :
  fetchAndParse Number_toString JSON_parse URL_toString this query = Ok observations ->
  Forall tested observations.
Proof.
  intros H. apply fetchAndParse_Ok in H.
  destruct H as [url [raw [json [_ [_ [_ [H _]]]]]]].
  now apply parseJsonResponse_tested in H.
Qed.

Lemma deriveBase_baseRule (observations : list Unchecked.ExchangeRateObservation)
    (query : ExchangeRateQuery) :
  deriveBase this observations query
  = baseRule observations (ExchangeRateQuery.baseCurrency query)
             (EcbClient.baseCurrency this).
Proof.
  unfold deriveBase, baseRule. destruct observations as [|o l]; simpl.
  - now destruct (ExchangeRateQuery.baseCurrency query).
  - destruct (Unchecked.ExchangeRateObservation.baseCurrency o);
      try reflexivity.
    now destruct (ExchangeRateQuery.baseCurrency query).
Qed.

Lemma baseRule_resolveQuery (observations : list Unchecked.ExchangeRateObservation)
    (query : ExchangeRateQuery) :
  baseRule observations (ExchangeRateQuery.baseCurrency (resolveQuery this query))
           (EcbClient.baseCurrency this)
  = baseRule observations (ExchangeRateQuery.baseCurrency query)
             (EcbClient.baseCurrency this).
Proof.
  unfold resolveQuery, baseRule.
  now destruct (ExchangeRateQuery.baseCurrency query) eqn:E; simpl; rewrite ?E.
Qed.

End ClientLemmas.

(** ** The rates of a single-currency result *)

Section Rates.

(** The body of the loop of [getSingleCurrencyRates]. *)
Local Abbreviation setRate :=
  (fun (rates : Any.Map Any.t) (obs : Unchecked.ExchangeRateObservation) =>
     Any.Map_set rates (Unchecked.ExchangeRateObservation.date obs)
                       (Unchecked.ExchangeRateObservation.rate obs)).

(** A date that passed the test of the decoder is stored as it is. *)
Lemma tested_key (o : Unchecked.ExchangeRateObservation) :
  tested o ->
  Any.Map_key (Unchecked.ExchangeRateObservation.date o)
  = Unchecked.ExchangeRateObservation.date o.
Proof. intros [H _]. now apply Map_key_truthy. Qed.

(** The rates map keeps, as its first entry, the date it was first given. *)
Lemma rates_first (l : list Unchecked.ExchangeRateObservation) (k v : Any.t)
    (m : Any.Map Any.t) :
  exists v' rest, fold_left setRate l ((k, v) :: m) = (k, v') :: rest.
Proof.
  revert v m. induction l as [|o l IH]; intros v m; simpl; [eauto|].
  destruct (Any.SameValueZero k (Unchecked.ExchangeRateObservation.date o)); apply IH.
Qed.

Lemma rates_get (l : list Unchecked.ExchangeRateObservation) (m : Any.Map Any.t)
    (date : Any.t) :
  Any.Map_get (fold_left setRate l m) date
  = match lastOn date l with
    | Some o => Some (Unchecked.ExchangeRateObservation.rate o)
    | None => Any.Map_get m date
    end.
Proof.
  unfold lastOn. induction l as [|o l IH] using rev_ind; [reflexivity|].
  rewrite fold_left_app, rev_app_distr. simpl.
  rewrite Any_Map_get_set.
  destruct (Any.SameValueZero (Unchecked.ExchangeRateObservation.date o) date);
    [reflexivity|exact IH].
Qed.

Lemma rates_order (l : list Unchecked.ExchangeRateObservation) :
  Forall tested l ->
  Map_keys (fold_left setRate l [])
  = distinct (map Unchecked.ExchangeRateObservation.date l).
Proof.
  intros Hl.
  assert (H : forOf (fun m o => Ok (setRate m o)) l [] = Ok (fold_left setRate l []))
    by apply forOf_pure.
  eapply eq_trans;
    [eapply (@forOf_keys_order _ _ _ Unchecked.ExchangeRateObservation.date l);
     [|exact H]|].
  - intros m o m' Hin [= <-]. rewrite Any_Map_keys_set, tested_key; [reflexivity|].
    rewrite Forall_forall in Hl. now apply Hl.
  - apply distinct_empty_map.
Qed.

Lemma rates_distinctKeys (l : list Unchecked.ExchangeRateObservation)
    (m : Any.Map Any.t) :
  distinctKeys (Map_keys m) -> distinctKeys (Map_keys (fold_left setRate l m)).
Proof.
  revert m. induction l as [|o l IH]; intros m H; [exact H|].
  simpl. apply IH. now apply distinctKeys_set.
Qed.

End Rates.

(** ** The rates of a multi-currency result *)

(** An assignment changes the own property of its name, and that one
    only; the name "__proto__" apart, it leaves the value there. *)
Lemma Map_get_set {V : Type} (m : JS.Map V) (k k' : string) (v : V) :
  JS.Map_get (JS.Map_set m k v) k'
  = if String.eqb k k' then Some v else JS.Map_get m k'.
Proof.
  induction m as [|[k0 v0] m IH]; simpl.
  - reflexivity.
  - destruct (String.eqb_spec k0 k) as [->|Hk]; simpl.
    + now destruct (String.eqb k k').
    + rewrite IH. destruct (String.eqb_spec k0 k') as [->|Hk'];
        [|reflexivity].
      destruct (String.eqb_spec k k'); [congruence|reflexivity].
Qed.

Lemma own_assign (o : PlainObject) (k name : string) (v : Any.t) :
  name <> "__proto__" ->
  JS.Map_get (PlainObject.own (PlainObject.assign o k v)) name
  = if String.eqb k name then Some v else JS.Map_get (PlainObject.own o) name.
Proof.
  intros Hname. unfold PlainObject.assign.
  destruct (PlainObject.hasOwn (PlainObject.own o) k); [apply Map_get_set|].
  destruct (String.eqb_spec k "__proto__") as [->|Hk]; simpl andb.
  - destruct (String.eqb_spec "__proto__" name) as [E|_]; [congruence|].
    destruct (PlainObject.reachesAccessor o).
    + now destruct v.
    + cbn [PlainObject.own]. rewrite Map_get_set.
      destruct (String.eqb_spec "__proto__" name); [congruence|reflexivity].
  - apply Map_get_set.
Qed.

Section DateRates.

Variable Number_toString : float -> string.

Lemma groupRate_Ok (m m' : Any.Map PlainObject) (o : Unchecked.ExchangeRateObservation) :
  groupRate Number_toString m o = Ok m' ->
  exists name,
    Any.ToPropertyKey Number_toString (Unchecked.ExchangeRateObservation.currency o)
    = Ok name
    /\ m' = Any.Map_set m (Unchecked.ExchangeRateObservation.date o)
              (PlainObject.assign
                 (nullish (Any.Map_get m (Unchecked.ExchangeRateObservation.date o))
                          PlainObject.empty)
                 name (Unchecked.ExchangeRateObservation.rate o)).
Proof.
  unfold groupRate.
  destruct (Any.ToPropertyKey Number_toString
              (Unchecked.ExchangeRateObservation.currency o)) as [name|];
    [|discriminate].
  cbn [bind]. intros [= <-]. eauto.
Qed.

Lemma rateAt_group (m m' : Any.Map PlainObject) (o : Unchecked.ExchangeRateObservation)
    (date : Any.t) (name : string) :
  name <> "__proto__" ->
  groupRate Number_toString m o = Ok m' ->
  rateAt m' date name
  = if Any.SameValueZero (Unchecked.ExchangeRateObservation.date o) date
       && named_by Number_toString name (Unchecked.ExchangeRateObservation.currency o)
    then Some (Unchecked.ExchangeRateObservation.rate o)
    else rateAt m date name.
Proof.
  intros Hname H. apply groupRate_Ok in H. destruct H as [k [Hk ->]].
  unfold rateAt, named_by. rewrite Hk, Any_Map_get_set.
  destruct (Any.SameValueZero (Unchecked.ExchangeRateObservation.date o) date) eqn:Hd;
    [|reflexivity].
  cbn [optChain andb]. rewrite (own_assign _ _ _ Hname).
  destruct (String.eqb k name); [reflexivity|].
  rewrite (@Any_Map_get_same _ m _ _ Hd).
  now destruct (Any.Map_get m date).
Qed.

Lemma dateRates_get (l : list Unchecked.ExchangeRateObservation)
    (m m' : Any.Map PlainObject) (date : Any.t) (name : string) :
  name <> "__proto__" ->
  forOf (groupRate Number_toString) l m = Ok m' ->
  rateAt m' date name
  = match lastOf Number_toString date name l with
    | Some o => Some (Unchecked.ExchangeRateObservation.rate o)
    | None => rateAt m date name
    end.
Proof.
  intros Hname. unfold lastOf. revert m'.
  induction l as [|o l IH] using rev_ind; intros m' H.
  - now injection H as <-.
  - rewrite forOf_app in H.
    destruct (forOf (groupRate Number_toString) l m) as [m1|] eqn:H1; [|discriminate].
    cbn [bind] in H. rewrite forOf_cons in H.
    destruct (groupRate Number_toString m1 o) as [m2|] eqn:H2; [|discriminate].
    cbn [bind] in H. injection H as <-.
    rewrite rev_app_distr. simpl rev. simpl app. simpl find.
    rewrite (@rateAt_group _ _ _ date _ Hname H2).
    destruct (Any.SameValueZero (Unchecked.ExchangeRateObservation.date o) date
              && named_by Number_toString name
                          (Unchecked.ExchangeRateObservation.currency o));
      [reflexivity|now apply IH].
Qed.

Lemma groupRate_keys (m m' : Any.Map PlainObject)
    (o : Unchecked.ExchangeRateObservation) :
  groupRate Number_toString m o = Ok m' ->
  Map_keys m'
  = if existsb (fun k => Any.SameValueZero k (Unchecked.ExchangeRateObservation.date o))
               (Map_keys m)
    then Map_keys m
    else Map_keys m ++ [Any.Map_key (Unchecked.ExchangeRateObservation.date o)].
Proof.
  intros H. apply groupRate_Ok in H. destruct H as [k [_ ->]]. apply Any_Map_keys_set.
Qed.

Lemma dateRates_order (l : list Unchecked.ExchangeRateObservation)
    (m' : Any.Map PlainObject) :
  Forall tested l ->
  forOf (groupRate Number_toString) l [] = Ok m' ->
  Map_keys m' = distinct (map Unchecked.ExchangeRateObservation.date l).
Proof.
  intros Hl H.
  eapply eq_trans;
    [eapply (@forOf_keys_order _ _ _ Unchecked.ExchangeRateObservation.date l);
     [|exact H]|].
  - intros m o m1 Hin Ho. rewrite (@groupRate_keys _ _ _ Ho), tested_key; [reflexivity|].
    rewrite Forall_forall in Hl. now apply Hl.
  - apply distinct_empty_map.
Qed.

Lemma dateRates_distinctKeys (l : list Unchecked.ExchangeRateObservation)
    (m m' : Any.Map PlainObject) :
  distinctKeys (Map_keys m) ->
  forOf (groupRate Number_toString) l m = Ok m' ->
  distinctKeys (Map_keys m').
Proof.
  intros Hm.
  apply (@forOf_invariant _ _ (fun m : Any.Map PlainObject => distinctKeys (Map_keys m)));
    [|exact Hm].
  intros b x b' Hb Hx. apply groupRate_Ok in Hx. destruct Hx as [k [_ ->]].
  now apply distinctKeys_set.
Qed.

(** The loop ends when every currency converts to a property name. *)
Lemma dateRates_Ok (l : list Unchecked.ExchangeRateObservation)
    (m : Any.Map PlainObject) :
  Forall (fun o => exists name,
              Any.ToPropertyKey Number_toString
                (Unchecked.ExchangeRateObservation.currency o) = Ok name) l ->
  exists m', forOf (groupRate Number_toString) l m = Ok m'.
Proof.
  intros H. revert m. induction H as [|o l [name Ho] Hl IH]; intros m.
  - eexists. reflexivity.
  - rewrite forOf_cons. unfold groupRate at 1. rewrite Ho. cbn [bind]. apply IH.
Qed.

(** A currency that does not convert makes the loop throw the
    [TypeError] of the conversion. *)
Lemma dateRates_throws (l : list Unchecked.ExchangeRateObservation)
    (m : Any.Map PlainObject) (e : Exception) :
  forOf (groupRate Number_toString) l m = Throw e ->
  exists o,
    In o l
    /\ Any.ToPropertyKey Number_toString (Unchecked.ExchangeRateObservation.currency o)
       = Throw e.
Proof.
  revert m. induction l as [|o l IH]; intros m H; [discriminate|].
  rewrite forOf_cons in H. unfold groupRate at 1 in H.
  destruct (Any.ToPropertyKey Number_toString
              (Unchecked.ExchangeRateObservation.currency o)) as [name|e'] eqn:Ho.
  - cbn [bind] in H. destruct (IH _ H) as [o' [Hin Ho']]. exists o'. split; [now right|].
    exact Ho'.
  - cbn [bind] in H. injection H as <-. exists o. split; [now left|exact Ho].
Qed.

End DateRates.

(* ------------------------------------------------------------------ *)
(** * [Math.round] *)
(* ------------------------------------------------------------------ *)

(** The mantissa of a number is below 2^53. *)
Lemma Prim2SF_mantissa (x : float) (s : bool) (m : positive) (e : Z) :
  Prim2SF x = S754_finite s m e -> Zpos m < 2 ^ 53 /\ -1074 <= e.
Proof.
  intros H. pose proof (Prim2SF_valid x) as Hv. rewrite H in Hv.
  unfold valid_binary, bounded, canonical_mantissa, fexp, SpecFloat.emin, prec, emax in Hv.
  apply andb_true_iff in Hv. destruct Hv as [Hc _]. apply Z.eqb_eq in Hc.
  rewrite digits2_pos_size in Hc.
  pose proof (Pos.size_gt m) as Hgt.
  assert (Hs : Zpos (Pos.size m) <= 53) by lia.
  split; [|lia].
  apply Z.lt_le_trans with (2 ^ Zpos (Pos.size m)).
  - rewrite <- Pos2Z.inj_pow. now apply Pos2Z.pos_lt_pos.
  - apply Z.pow_le_mono_r; lia.
Qed.

(** The number that [binary_normalize] makes of an integer below 2^53 in
    size, and its reading. *)
Lemma binary_round_signed (s : bool) (p : positive) :
  Zpos (digits2_pos p) <= 53 ->
  binary_round prec emax s p 0
  = S754_finite s (fst (normalised p)) (snd (normalised p)).
Proof.
  intros Hd. destruct (normalised_digits p Hd) as [H53 [He Hv]].
  unfold binary_round, shl_align, fexp, SpecFloat.emin, prec, emax.
  replace (Z.max (Z.pos (digits2_pos p) + 0 - 53) (3 - 1024 - 53) - 0)
    with (- (53 - Zpos (digits2_pos p))) by lia.
  unfold normalised in *.
  destruct (53 - Zpos (digits2_pos p)) as [|k|k] eqn:E; simpl Z.opp; cbv iota.
  - simpl fst in *; simpl snd in *. apply binary_round_aux_exact; lia.
  - simpl fst in *; simpl snd in *.
    replace (Z.max (Z.pos (digits2_pos p) + 0 - 53) (3 - 1024 - 53)) with (Zneg k) by lia.
    apply binary_round_aux_exact; lia.
  - lia.
Qed.

Lemma Prim2SF_normalize (s : bool) (p : positive) :
  Zpos p < 2 ^ 53 ->
  Prim2SF (SF2Prim (binary_normalize prec emax (if s then Zneg p else Zpos p) 0 false))
  = S754_finite s (fst (normalised p)) (snd (normalised p)).
Proof.
  intros Hp. pose proof (digits2_pos_bound Hp) as Hd.
  destruct (normalised_digits p Hd) as [H53 [He Hv]].
  assert (E : binary_normalize prec emax (if s then Zneg p else Zpos p) 0 false
              = S754_finite s (fst (normalised p)) (snd (normalised p))).
  { destruct s; simpl binary_normalize; now apply binary_round_signed. }
  rewrite E. apply Prim2SF_SF2Prim.
  unfold valid_binary, bounded, canonical_mantissa, fexp, SpecFloat.emin, prec, emax.
  apply andb_true_iff. split; [apply Z.eqb_eq|apply Z.leb_le]; lia.
Qed.

(** The integer of size below 2^53 that [binary_normalize] was given is
    the number it makes. *)
Lemma isInteger_normalize (n : Z) :
  n <> 0 -> Z.abs n < 2 ^ 53 ->
  isInteger (SF2Prim (binary_normalize prec emax n 0 false)) n.
Proof.
  intros Hn Hb. unfold isInteger, exact.
  destruct n as [|p|p]; [contradiction| |].
  - rewrite (@Prim2SF_normalize false p Hb).
    pose proof (digits2_pos_bound Hb) as Hd.
    destruct (normalised_digits p Hd) as [H53 [He Hv]].
    destruct (Z.leb_spec 0 (snd (normalised p))) as [H0|H0].
    + assert (E : snd (normalised p) = 0) by lia. rewrite E in *.
      simpl in Hv. rewrite Hv. unfold Qeq. simpl. lia.
    + unfold Qeq. cbn [Qnum Qden inject_Z]. rewrite Pos2Z.inj_pow.
      rewrite Z2Pos.id by lia. rewrite Hv. lia.
  - rewrite (@Prim2SF_normalize true p Hb).
    pose proof (digits2_pos_bound Hb) as Hd.
    destruct (normalised_digits p Hd) as [H53 [He Hv]].
    destruct (Z.leb_spec 0 (snd (normalised p))) as [H0|H0].
    + assert (E : snd (normalised p) = 0) by lia. rewrite E in *.
      simpl in Hv. unfold Qeq. cbn [Qnum Qden inject_Z].
      change (Z.neg (fst (normalised p))) with (- Zpos (fst (normalised p))).
      rewrite Hv. change (Z.neg p) with (- Zpos p). simpl Z.pow. lia.
    + unfold Qeq. cbn [Qnum Qden inject_Z]. rewrite Pos2Z.inj_pow.
      rewrite Z2Pos.id by lia.
      change (Z.neg (fst (normalised p))) with (- Zpos (fst (normalised p))).
      rewrite Hv. change (Z.neg p) with (- Zpos p). lia.
Qed.

(** [Math.round] gives the integer nearest to a finite number, a tie
    going up; it leaves [NaN] and the infinities as they are. *)
Lemma Math_round_nearest (x : float) :
  match exact x with
  | Some q => isInteger (JS.Math_round x) (nearest q)
  | None => JS.Math_round x = x
  end.
Proof.
  unfold exact, JS.Math_round.
  destruct (Prim2SF x) as [s|s| |s m e] eqn:Hx; try reflexivity.
  - (* zero *)
    unfold isInteger, exact. rewrite Hx. reflexivity.
  - destruct (Prim2SF_mantissa x Hx) as [Hm He].
    destruct (Z.leb_spec 0 e) as [H0|H0].
    + (* an integer already *)
      unfold isInteger, exact. rewrite Hx.
      destruct (Z.leb_spec 0 e) as [_|]; [|lia].
      unfold nearest. unfold Qeq. cbn [Qnum Qden inject_Z Qplus Qfloor].
      rewrite !Z.mul_1_r.
      replace ((if s then Z.neg m else Z.pos m) * 2 ^ e * 2 + 1)
        with (1 + ((if s then Z.neg m else Z.pos m) * 2 ^ e) * 2) by lia.
      rewrite Z.div_add by lia. reflexivity.
    + set (d := 2 ^ (- e)).
      set (v := if s then Z.neg m else Z.pos m).
      assert (Hd : 2 <= d).
      { unfold d. change 2 with (2 ^ 1) at 1. apply Z.pow_le_mono_r; lia. }
      assert (Hpos : Zpos (2 ^ Z.to_pos (- e)) = d).
      { rewrite Pos2Z.inj_pow. rewrite Z2Pos.id by lia. reflexivity. }
      assert (En : nearest (Qmake v (2 ^ Z.to_pos (- e))%positive)
                   = (2 * v + d) / (2 * d)).
      { unfold nearest. cbn [Qplus Qfloor Qnum Qden].
        rewrite Pos2Z.inj_mul, Hpos. f_equal; lia. }
      rewrite En.
      set (n := (2 * v + d) / (2 * d)).
      assert (Hn : Z.abs n < 2 ^ 53).
      { assert (Hv : - 2 ^ 53 < v < 2 ^ 53) by (unfold v; destruct s; lia).
        assert (Hl : - 2 ^ 52 <= n).
        { unfold n. apply Z.div_le_lower_bound; [lia|]. nia. }
        assert (Hu : n < 2 ^ 52 + 1).
        { unfold n. apply Z.div_lt_upper_bound; [lia|]. nia. }
        lia. }
      destruct (Z.eqb_spec n 0) as [E|E].
      * rewrite E. unfold isInteger, exact. now destruct s.
      * now apply isInteger_normalize.
Qed.

(* ------------------------------------------------------------------ *)
(** * The first rate, and the conversions *)
(* ------------------------------------------------------------------ *)

(** Induction on a value, with the elements of an array. *)
Lemma Any_ind_elements (P : Any.t -> Prop) :
  P Any.Null ->
  (forall b, P (Any.Boolean b)) ->
  (forall x, P (Any.Number x)) ->
  (forall s, P (Any.Str s)) ->
  (forall ref elements, Forall P elements -> P (Any.Array ref elements)) ->
  (forall ref entries, P (Any.Object ref entries)) ->
  forall v, P v.
Proof.
  intros HNull HBoolean HNumber HStr HArray HObject.
  fix IH 1. intros [|b|x|s|ref elements|ref entries].
  - exact HNull.
  - apply HBoolean.
  - apply HNumber.
  - apply HStr.
  - apply HArray. induction elements as [|x r IHr]; constructor; [apply IH|exact IHr].
  - apply HObject.
Qed.

(** A rate lookup that resolves has at least one rate, the first of them
    under the date of the first decoded observation: the rate of the last
    decoded observation with that date. *)
Lemma getSingleCurrencyRates_first
    (Number_toString : float -> string) (JSON_parse : string -> Any.t + string)
    (URL_toString : string -> list (string * string) -> option string)
    (this : EcbClient) (query : ExchangeRateQuery) (result : ExchangeRateResult) :
  getSingleCurrencyRates Number_toString JSON_parse URL_toString this query = Ok result ->
  exists first observations rate rest,
    fetchAndParse Number_toString JSON_parse URL_toString this (resolveQuery this query)
    = Ok (first :: observations)
    /\ ExchangeRateResult.rates result
       = (Unchecked.ExchangeRateObservation.date first, rate) :: rest
    /\ exists last,
         lastOn (Unchecked.ExchangeRateObservation.date first) (first :: observations)
         = Some last
         /\ In last (first :: observations)
         /\ rate = Unchecked.ExchangeRateObservation.rate last.
Proof.
  unfold getSingleCurrencyRates.
  destruct (validateQuery (resolveQuery this query)); [|discriminate]. cbn [bind].
  destruct (fetchAndParse Number_toString JSON_parse URL_toString this
              (resolveQuery this query)) as [l|] eqn:Hf; [|discriminate].
  cbn [bind].
  pose proof (fetchAndParse_nonempty _ _ _ _ _ Hf) as Hne.
  pose proof (fetchAndParse_tested _ _ _ _ _ Hf) as Ht.
  destruct l as [|o l]; [contradiction|].
  intros [= <-]. cbn [ExchangeRateResult.rates].
  pose proof (rates_get (o :: l) [] (Unchecked.ExchangeRateObservation.date o)) as Hget.
  cbn [fold_left Any.Map_set] in *.
  inversion Ht as [|? ? Ho _]; subst.
  rewrite (tested_key Ho) in *.
  destruct (rates_first l (Unchecked.ExchangeRateObservation.date o)
              (Unchecked.ExchangeRateObservation.rate o) []) as [v' [rest H]].
  rewrite H in *. cbn [Any.Map_get] in Hget. rewrite SameValueZero_refl in Hget.
  exists o, l, v', rest. split; [reflexivity|]. split; [reflexivity|].
  destruct (lastOn (Unchecked.ExchangeRateObservation.date o) (o :: l)) as [last|] eqn:Hl.
  - exists last. split; [reflexivity|]. split; [|congruence].
    unfold lastOn in Hl. apply find_some in Hl. destruct Hl as [Hl _].
    now apply in_rev in Hl.
  - discriminate Hget.
Qed.

(** A [TypeError] is none of the errors of the library. *)
Lemma TypeError_classes (e : Exception) :
  errorName e = "TypeError" ->
  instanceof_EcbNoDataError e = false /\ instanceof_EcbError e = false.
Proof. destruct e; try discriminate. intros _. split; reflexivity. Qed.

(** The conversions throw a [TypeError] only. *)
Lemma ToString_throws (Number_toString : float -> string) (v : Any.t) (e : Exception) :
  Any.ToString Number_toString v = Throw e -> errorName e = "TypeError".
Proof.
  revert e. induction v as [| | | |ref elements IH|ref entries] using Any_ind_elements;
    intros e; try discriminate.
  - destruct b; discriminate.
  - cbn [Any.ToString]. induction elements as [|x r IHr]; [discriminate|].
    inversion IH as [|? ? Hx Hr]; subst.
    destruct (match x with
              | Any.Null => Ok ""
              | _ => Any.ToString Number_toString x
              end) as [head|e'] eqn:Eh; cbn [bind].
    + destruct r as [|y r]; [discriminate|].
      match goal with
      | |- context [bind ?t _] => destruct t as [tail|e'] eqn:Et
      end; cbn [bind]; [discriminate|].
      intros [= <-]. now apply IHr.
    + intros [= <-]. destruct x; try discriminate; now apply Hx.
  - cbn [Any.ToString]. destruct (JS.Map_get entries "toString"); [|discriminate].
    now intros [= <-].
Qed.

Lemma ToNumber_throws (Number_toString : float -> string) (v : Any.t) (e : Exception) :
  Any.ToNumber Number_toString v = Throw e -> errorName e = "TypeError".
Proof.
  destruct v; try discriminate.
  - destruct b; discriminate.
  - unfold Any.ToNumber.
    destruct (Any.ToString Number_toString (Any.Array ref elements)) eqn:E;
      [discriminate|].
    intros [= <-]. now apply ToString_throws in E.
  - unfold Any.ToNumber.
    destruct (Any.ToString Number_toString (Any.Object ref entries)) eqn:E;
      [discriminate|].
    intros [= <-]. now apply ToString_throws in E.
Qed.

(** ** Keys that are strings *)

(** Among strings, the keys of a map are distinct when no string is there
    twice. *)
Lemma NoDup_distinctKeys (l : list Any.t) :
  Forall (fun k => exists s, k = Any.Str s) l -> NoDup l -> distinctKeys l.
Proof.
  intros Hs Hnd. induction Hnd as [|x r Hx Hnd IH]; [exact I|].
  inversion Hs as [|? ? [s ->] Hr]; subst. split; [|now apply IH].
  apply Forall_forall. intros y Hy.
  destruct (Any.SameValueZero (Any.Str s) y) eqn:E; [|reflexivity].
  apply SameValueZero_Str in E. subst y. contradiction.
Qed.

Lemma distinct_In_Str (l : list Any.t) (k : Any.t) :
  Forall (fun k => exists s, k = Any.Str s) l ->
  In k (distinct l) <-> In k l.
Proof.
  intros Hs. split; [apply distinct_In|].
  intros Hk. destruct (distinct_covers l k Hk) as [k0 [H0 E]].
  rewrite Forall_forall in Hs. destruct (Hs k Hk) as [s ->].
  rewrite SameValueZero_sym in E. apply SameValueZero_Str in E. now subst k0.
Qed.

Lemma distinct_Str (l : list Any.t) :
  Forall (fun k => exists s, k = Any.Str s) l ->
  Forall (fun k => exists s, k = Any.Str s) (distinct l).
Proof.
  intros Hs. rewrite Forall_forall in *. intros k Hk. apply Hs.
  now apply distinct_In.
Qed.

(** The dates of observations of the declared type are strings. *)
Lemma declared_dates (observations : list Unchecked.ExchangeRateObservation) :
  Forall declared observations ->
  Forall (fun k => exists s, k = Any.Str s)
         (map Unchecked.ExchangeRateObservation.date observations).
Proof.
  intros H. induction H as [|o l [o' ->] Hl IH]; constructor; [|exact IH].
  now exists (ExchangeRateObservation.date o').
Qed.

(** ** The keys of the grouping, whatever the dates are *)

Lemma NoDup_map_one {X K : Type} (key : X -> K) (l : list X) (x o : X) :
  NoDup (map key l) -> In x l -> In o l -> key x = key o -> x = o.
Proof.
  induction l as [|y l IH]; simpl; [intros _ []|].
  intros H Hx Ho E. inversion H as [|? ? Hy Hl]; subst.
  destruct Hx as [->|Hx], Ho as [->|Ho]; [reflexivity| | |now apply IH].
  - exfalso. apply Hy. rewrite E. now apply in_map.
  - exfalso. apply Hy. rewrite <- E. now apply in_map.
Qed.

Lemma dateRates_keys_order (Number_toString : float -> string)
    (l : list Unchecked.ExchangeRateObservation) (m' : Any.Map PlainObject) :
  forOf (groupRate Number_toString) l [] = Ok m' ->
  Map_keys m'
  = distinct (map (fun o => Any.Map_key (Unchecked.ExchangeRateObservation.date o)) l).
Proof.
  intros H.
  eapply eq_trans;
    [eapply (@forOf_keys_order _ _ _
               (fun o => Any.Map_key (Unchecked.ExchangeRateObservation.date o)) l);
     [|exact H]|].
  - intros m o m1 Hin Ho. rewrite (@groupRate_keys _ _ _ _ Ho).
    now rewrite (@existsb_same (Map_keys m) _ _
                   (Map_key_same (Unchecked.ExchangeRateObservation.date o))).
  - apply distinct_empty_map.
Qed.

(** The date of an observation of the declared type is the key it is
    stored under. *)
Lemma declared_key (o : Unchecked.ExchangeRateObservation) :
  declared o ->
  Any.Map_key (Unchecked.ExchangeRateObservation.date o)
  = Unchecked.ExchangeRateObservation.date o.
Proof. now intros [o' ->]. Qed.

Lemma declared_currency (Number_toString : float -> string)
    (o : Unchecked.ExchangeRateObservation) :
  declared o ->
  exists name,
    Unchecked.ExchangeRateObservation.currency o = Any.Str name
    /\ Any.ToPropertyKey Number_toString (Unchecked.ExchangeRateObservation.currency o)
       = Ok name.
Proof. intros [o' ->]. eexists. split; reflexivity. Qed.

(** ** Vocabularies whose values all carry an identifier *)

Lemma array_get_In {X : Type} (a : list X) (x : float) (v : X) :
  JS.array_get a x = Some v -> In v a.
Proof.
  unfold JS.array_get. destruct (JS.toArrayIndex x) as [i|]; [|discriminate].
  destruct (i <? Z.of_nat (List.length a)); [|discriminate].
  apply nth_error_In.
Qed.

Lemma selects_identified (vocab : list SdmxValue) (key : string) :
  (forall v, In v vocab -> JS.truthy (SdmxValue.id v) = true) ->
  match selects vocab key, valueAt vocab key with
  | Some _, Some _ | None, None => True
  | _, _ => False
  end.
Proof.
  intros Hid. unfold selects, valueAt.
  destruct (JS.array_get vocab (JS.Number key)) as [v|] eqn:Hv; simpl; [|exact I].
  apply array_get_In in Hv. apply Hid in Hv.
  now destruct (SdmxValue.id v) as [[|a s]|].
Qed.

Lemma optChain_selects_identified (vocab : list SdmxValue) (o : option string) :
  (forall v, In v vocab -> JS.truthy (SdmxValue.id v) = true) ->
  match optChain o (selects vocab), optChain o (valueAt vocab) with
  | Some _, Some _ | None, None => True
  | _, _ => False
  end.
Proof.
  intros Hid. destruct o as [s|]; simpl; [|exact I].
  now apply selects_identified.
Qed.

Lemma inVocabulary_indexed (R : Resolved) (p : string * string * list (option float)) :
  identified R -> inVocabulary R p = indexed R p.
Proof.
  intros Hid. destruct p as [[sk ok] t]. unfold inVocabulary, indexed.
  assert (Hc := @optChain_selects_identified (currencyVocabulary R)
                  (segment sk (currencyPosition R))).
  assert (Hd := @optChain_selects_identified (denomVocabulary R)
                  (segment sk (denomPosition R))).
  assert (Ht := @selects_identified (timeVocabulary R) ok).
  destruct (optChain (segment sk (currencyPosition R)) (selects (currencyVocabulary R)));
    destruct (optChain (segment sk (currencyPosition R)) (valueAt (currencyVocabulary R)));
    try (exfalso; apply Hc; intros v Hv; apply Hid; rewrite !in_app_iff; tauto);
    try reflexivity;
    destruct (optChain (segment sk (denomPosition R)) (selects (denomVocabulary R)));
    destruct (optChain (segment sk (denomPosition R)) (valueAt (denomVocabulary R)));
    try (exfalso; apply Hd; intros v Hv; apply Hid; rewrite !in_app_iff; tauto);
    try reflexivity;
    destruct (selects (timeVocabulary R) ok);
    destruct (valueAt (timeVocabulary R) ok);
    try (exfalso; apply Ht; intros v Hv; apply Hid; rewrite !in_app_iff; tauto);
    reflexivity.
Qed.

(* ------------------------------------------------------------------ *)
(** * The properties of the specification *)
(* ------------------------------------------------------------------ *)

(** C1. For every document whose structure passes the structural checks,
    [parseJsonResponse] returns exactly one observation for each (series,
    observation) pair with in-vocabulary indices and a non-null rate: N
    observations for N such pairs, in document order.  The currency and
    the base currency of each are the identifiers that the segments of the
    series key at the CURRENCY and CURRENCY_DENOM positions select in their
    vocabularies, its date is the identifier the observation key selects
    in the TIME_PERIOD vocabulary, and its rate is the first element of
    the tuple.  An index is in a vocabulary when it selects an identifier
    there; when every value of the vocabularies carries its identifier,
    that is when the index is within the vocabulary.  For the keys the
    provider writes (decimal indices, joined by colons in a series key),
    the segment at a position is the numeral of the index there, and the
    identifier a numeral selects is the one of the value at that index.
    On the two-currency two-date fixture it returns 4 observations, with
    USD/2025-01-15 -> 1.03, GBP/2025-01-15 -> 0.8442 and GBP/2025-01-16 ->
    0.8451. *)
Theorem C1_one_observation_per_valid_pair :
  (forall header dataSets structure R,
      resolve structure = Some R ->
      exists observations,
        parseJsonResponse (document header dataSets structure) = Ok observations
        /\ List.length observations
           = List.length (filter (inVocabulary R) (pairs dataSets))
        /\ Forall2
             (fun p o =>
                let '(seriesKey, obsKey, tuple) := p in
                optChain (segment seriesKey (currencyPosition R))
                         (selects (currencyVocabulary R))
                = Some (ExchangeRateObservation.currency o)
                /\ optChain (segment seriesKey (denomPosition R))
                            (selects (denomVocabulary R))
                   = Some (ExchangeRateObservation.baseCurrency o)
                /\ selects (timeVocabulary R) obsKey
                   = Some (ExchangeRateObservation.date o)
                /\ rateOf tuple = Some (ExchangeRateObservation.rate o))
             (filter (inVocabulary R) (pairs dataSets)) observations)
  /\ (forall header dataSets structure R,
         resolve structure = Some R ->
         identified R ->
         exists observations,
           parseJsonResponse (document header dataSets structure) = Ok observations
           /\ List.length observations
              = List.length (filter (indexed R) (pairs dataSets)))
  /\ (forall vocab index,
         Z.of_nat index < 2 ^ 53 ->
         selects vocab (decimal index) = identifierAt vocab index)
  /\ (forall index indices position,
         segment (seriesKeyOf index indices) position
         = option_map decimal (nth_error (index :: indices) position))
  /\ exists observations,
       parseJsonResponse MULTI_CURRENCY_RESPONSE = Ok observations
       /\ List.length observations = 4%nat
       /\ rateFor observations "USD" "2025-01-15" = Some 1.03%float
       /\ rateFor observations "GBP" "2025-01-15" = Some 0.8442%float
       /\ rateFor observations "GBP" "2025-01-16" = Some 0.8451%float.
Proof.
  split; [|split; [|split; [exact selects_decimal|split; [exact segment_join_decimal|]]]].
  - intros header dataSets structure R HR.
    rewrite (parseJsonResponse_resolved _ _ _ HR), decodeFrom_pairs. simpl.
    eexists. split; [reflexivity|].
    rewrite filterMap_inVocabulary.
    assert (Hall : Forall (fun p => inVocabulary R p = true)
                          (filter (inVocabulary R) (pairs dataSets))).
    { apply Forall_forall. intros p Hp. now apply filter_In in Hp. }
    induction (filter (inVocabulary R) (pairs dataSets)) as [|[[sk ok] t] l IH].
    + split; [reflexivity|constructor].
    + inversion Hall as [|p l' Hp Hl]; subst.
      destruct (IH Hl) as [Hlen Hrel]. clear IH Hall.
      unfold inVocabulary in Hp. simpl.
      unfold seriesIdentifiers.
      destruct (optChain (segment sk (currencyPosition R))
                         (selects (currencyVocabulary R))) as [c|] eqn:Ec;
        [|discriminate].
      destruct (optChain (segment sk (denomPosition R))
                         (selects (denomVocabulary R))) as [b|] eqn:Eb;
        [|discriminate].
      destruct (selects (timeVocabulary R) ok) as [d|] eqn:Ed; [|discriminate].
      destruct (rateOf t) as [r|] eqn:Er; [|discriminate].
      simpl. split; [now rewrite Hlen|].
      constructor; [|exact Hrel]. now rewrite Ec, Eb.
  - intros header dataSets structure R HR Hid.
    rewrite (parseJsonResponse_resolved _ _ _ HR), decodeFrom_pairs. simpl.
    eexists. split; [reflexivity|].
    rewrite filterMap_length. f_equal. apply filter_ext. intros p.
    now rewrite <- crossReference_inVocabulary, inVocabulary_indexed.
  - eexists. split; [reflexivity|]. repeat split.
Qed.

(** The general statement at the two-currency fixture: its four pairs are
    all in the vocabularies. *)
Lemma C1_witness :
  resolve EXR_STRUCTURE = Some EXR_RESOLVED
  /\ exists observations,
       parseJsonResponse MULTI_CURRENCY_RESPONSE = Ok observations
       /\ List.length observations = 4%nat.
Proof.
  split; [reflexivity|].
  destruct (proj1 C1_one_observation_per_valid_pair TEST_HEADER
              (nullish (SdmxJsonResponse.dataSets MULTI_CURRENCY_RESPONSE) [])
              EXR_STRUCTURE EXR_RESOLVED eq_refl)
    as [observations [H [Hlen _]]].
  exists observations. split; [exact H|]. rewrite Hlen. reflexivity.
Defined.

(** C2. [parseJsonResponse] returns the empty list, and raises nothing,
    whenever [dataSets] is absent or empty, whatever the structure is.  For
    a document with at least one data set it raises [EcbParseError] when
    [structure.dimensions] is absent, when CURRENCY or CURRENCY_DENOM is
    missing from the series dimensions, when TIME_PERIOD is missing from
    the observation dimensions, or when one of the three vocabularies is
    missing; the error is determined by the structure alone, so it is
    raised whatever the data sets contain and before any series is read. *)
Theorem C2_no_data_or_structural_error :
  (forall data,
      SdmxJsonResponse.dataSets data = None
      \/ SdmxJsonResponse.dataSets data = Some [] ->
      parseJsonResponse data = Ok [])
  /\ (forall structure,
         malformed structure ->
         exists message,
           forall header dataSet dataSets,
             parseJsonResponse (document header (dataSet :: dataSets) structure)
             = Throw (EcbParseError message None)).
Proof.
  split.
  - apply parseJsonResponse_no_dataSets.
  - intros structure H. apply parseJsonResponse_unresolved.
    now apply malformed_unresolved.
Qed.

(** The parser's test "throws EcbParseError for missing CURRENCY
    dimension", and its test "returns empty array for empty dataSets" on a
    response that has no structure at all. *)
Lemma C2_witness :
  (exists message,
      parseJsonResponse BAD_RESPONSE = Throw (EcbParseError message None))
  /\ parseJsonResponse (SdmxJsonResponse.mk TEST_HEADER (Some []) None) = Ok [].
Proof.
  split.
  - destruct (proj2 C2_no_data_or_structural_error
                (SdmxJsonResponse.structure BAD_RESPONSE)) as [message H].
    + right. eexists. split; [reflexivity|]. left.
      intros [d [[] _]].
    + exists message. apply (H (SdmxJsonResponse.header BAD_RESPONSE)).
  - apply (proj1 C2_no_data_or_structural_error). now right.
Defined.

(** C3, as the specification states it, fails: a series whose key has a
    segment count different from the number of series dimensions is not
    skipped when the key reaches the CURRENCY and CURRENCY_DENOM positions.
    The structure has five series dimensions, with CURRENCY at position 1
    and CURRENCY_DENOM at position 2; the key "0:0:0" has three segments;
    its two observations are returned, and without the series nothing is. *)
Lemma C3_counterexample :
  wellShaped (SdmxJsonResponse.structure SHORT_KEY_RESPONSE)
  /\ seriesDimensionCount (SdmxJsonResponse.structure SHORT_KEY_RESPONSE) = 5%nat
  /\ List.length (JS.split ":" "0:0:0") = 3%nat
  /\ parseJsonResponse SHORT_KEY_RESPONSE
     = Ok [ExchangeRateObservation.mk "2025-01-15" "USD" "EUR" 1.03%float;
           ExchangeRateObservation.mk "2025-01-16" "USD" "EUR" 1.0303%float]
  /\ parseJsonResponse NO_SERIES_RESPONSE = Ok [].
Proof.
  split; [eexists; reflexivity|]. repeat split.
Qed.

(** C3, amended.  For every well-shaped document and every series whose
    key has so few colon-separated segments that it has none at the
    resolved CURRENCY position or none at the resolved CURRENCY_DENOM
    position, [parseJsonResponse] skips that series: it returns, without
    raising, what it returns for the document without the series. *)
Theorem C3_skips_series_whose_key_is_too_short
    (header : SdmxHeader) (structure : option SdmxStructure) (R : Resolved)
    (before : list SdmxDataSet) (action validFrom : option string)
    (pre post : Dict SdmxSeries) (after : list SdmxDataSet)
    (seriesKey : string) (seriesData : SdmxSeries) :
  resolve structure = Some R ->
  (List.length (JS.split ":" seriesKey) <= currencyPosition R)%nat
  \/ (List.length (JS.split ":" seriesKey) <= denomPosition R)%nat ->
  exists observations,
    parseJsonResponse
      (document header
         (withSeries before action validFrom pre [(seriesKey, seriesData)] post after)
         structure)
    = Ok observations
    /\ parseJsonResponse
         (document header (withSeries before action validFrom pre [] post after) structure)
       = Ok observations.
Proof.
  intros HR Hshort.
  rewrite !(@parseJsonResponse_withSeries header structure R before action validFrom
             pre _ post after HR).
  rewrite seriesPairs_skipped.
  - eexists. split; reflexivity.
  - unfold seriesIdentifiers.
    destruct Hshort as [H|H]; apply segment_short in H; rewrite H; simpl;
      [reflexivity|].
    now destruct (optChain (segment seriesKey (currencyPosition R))
                           (selects (currencyVocabulary R))).
Qed.

(** The key "0" in the fixture's structure: one segment, CURRENCY at
    position 1. *)
Lemma C3_witness :
  exists observations,
    parseJsonResponse
      (document TEST_HEADER
         (withSeries [] None None [("0:0:0:0:0", USD_SERIES)] [("0", USD_SERIES)] [] [])
         EXR_STRUCTURE)
    = Ok observations
    /\ parseJsonResponse
         (document TEST_HEADER
            (withSeries [] None None [("0:0:0:0:0", USD_SERIES)] [] [] [])
            EXR_STRUCTURE)
       = Ok observations.
Proof.
  assert (HR : exists R, resolve EXR_STRUCTURE = Some R /\ currencyPosition R = 1%nat)
    by (eexists; split; reflexivity).
  destruct HR as [R [HR Hc]].
  apply (@C3_skips_series_whose_key_is_too_short
           TEST_HEADER EXR_STRUCTURE R [] None None [("0:0:0:0:0", USD_SERIES)] [] []
           "0" USD_SERIES HR).
  left. rewrite Hc. simpl. lia.
Defined.

(** C4. For every well-shaped document and every series whose key has no
    segment at the resolved CURRENCY or CURRENCY_DENOM position, or whose
    segment at either position selects no identifier in the corresponding
    vocabulary (index out of range, or value without an [id]),
    [parseJsonResponse] skips the whole series and raises nothing: it
    returns what it returns for the document without the series. *)
Theorem C4_skips_series_without_identifiers
    (header : SdmxHeader) (structure : option SdmxStructure) (R : Resolved)
    (before : list SdmxDataSet) (action validFrom : option string)
    (pre post : Dict SdmxSeries) (after : list SdmxDataSet)
    (seriesKey : string) (seriesData : SdmxSeries) :
  resolve structure = Some R ->
  segment seriesKey (currencyPosition R) = None
  \/ segment seriesKey (denomPosition R) = None
  \/ (exists s, segment seriesKey (currencyPosition R) = Some s
                /\ selectsNoIdentifier (currencyVocabulary R) s)
  \/ (exists s, segment seriesKey (denomPosition R) = Some s
                /\ selectsNoIdentifier (denomVocabulary R) s) ->
  exists observations,
    parseJsonResponse
      (document header
         (withSeries before action validFrom pre [(seriesKey, seriesData)] post after)
         structure)
    = Ok observations
    /\ parseJsonResponse
         (document header (withSeries before action validFrom pre [] post after) structure)
       = Ok observations.
Proof.
  intros HR Hnone.
  rewrite !(@parseJsonResponse_withSeries header structure R before action validFrom
             pre _ post after HR).
  rewrite seriesPairs_skipped.
  - eexists. split; reflexivity.
  - unfold seriesIdentifiers.
    destruct Hnone as [H|[H|[[s [H Hs]]|[s [H Hs]]]]]; rewrite H; simpl;
      try (apply selectsNoIdentifier_selects in Hs; rewrite Hs);
      try reflexivity;
      now destruct (optChain (segment seriesKey (currencyPosition R))
                             (selects (currencyVocabulary R))).
Qed.

(** The key "0:1:0" in the structure whose second currency value has no
    [id]. *)
Lemma C4_witness :
  exists observations,
    parseJsonResponse
      (document TEST_HEADER
         (withSeries [] None None [("0:0:0", USD_SERIES)] [("0:1:0", USD_SERIES)] [] [])
         ODD_STRUCTURE)
    = Ok observations
    /\ parseJsonResponse
         (document TEST_HEADER
            (withSeries [] None None [("0:0:0", USD_SERIES)] [] [] [])
            ODD_STRUCTURE)
       = Ok observations.
Proof.
  assert (HR : exists R, resolve ODD_STRUCTURE = Some R
                         /\ currencyPosition R = 1%nat
                         /\ currencyVocabulary R
                            = [value "USD" "US dollar"; SdmxValue.mk None "no id" None None])
    by (eexists; repeat split).
  destruct HR as [R [HR [Hc Hv]]].
  apply (@C4_skips_series_without_identifiers
           TEST_HEADER ODD_STRUCTURE R [] None None [("0:0:0", USD_SERIES)] [] []
           "0:1:0" USD_SERIES HR).
  right; right; left. exists "1". rewrite Hc, Hv. split; [reflexivity|].
  right. eexists. split; reflexivity.
Defined.

(** C5. Within a series whose currency and base-currency identifiers
    resolved, every (observation key, tuple) entry is handled on its own,
    in turn: when the TIME_PERIOD vocabulary yields no date at the parsed
    key (none, or an empty one), or when the first element of the tuple is
    null or absent, that entry emits nothing and the entries after it are
    still processed; otherwise it emits the observation with that date,
    the currency and base currency of the series, and that rate.  What the
    rest of the document contributes, before and after, does not depend on
    the series. *)
Theorem C5_each_observation_on_its_own
    (header : SdmxHeader) (structure : option SdmxStructure) (R : Resolved)
    (before : list SdmxDataSet) (action validFrom : option string)
    (pre post : Dict SdmxSeries) (after : list SdmxDataSet)
    (seriesKey currency baseCurrency : string) :
  resolve structure = Some R ->
  seriesIdentifiers R seriesKey = Some (currency, baseCurrency) ->
  exists front back,
    forall seriesData,
    exists emitted,
      parseJsonResponse
        (document header
           (withSeries before action validFrom pre [(seriesKey, seriesData)] post after)
           structure)
      = Ok (front ++ concat emitted ++ back)
      /\ Forall2
           (fun entry out =>
              ((selects (timeVocabulary R) (fst entry) = None
                \/ JS.array_at (snd entry) 0 = None
                \/ JS.array_at (snd entry) 0 = Some None)
               /\ out = [])
              \/ (exists date rate,
                     selects (timeVocabulary R) (fst entry) = Some date
                     /\ JS.array_at (snd entry) 0 = Some (Some rate)
                     /\ out = [ExchangeRateObservation.mk date currency baseCurrency rate]))
           (Object_entries (SdmxSeries.observations seriesData)) emitted.
Proof.
  intros HR Hids. do 2 eexists. intros seriesData. eexists.
  rewrite (@parseJsonResponse_withSeries header structure R before action validFrom
             pre _ post after HR).
  rewrite (@seriesPairs_resolved R seriesKey seriesData currency baseCurrency Hids).
  split; [reflexivity|].
  apply Forall2_map_r. intros [k t]. simpl. rewrite rateOf_first.
  destruct (selects (timeVocabulary R) k) as [d|]; [|left; auto].
  destruct (JS.array_at t 0) as [[r|]|]; [|left; auto|left; auto].
  right. exists d, r. auto.
Qed.

(** The last series of the document of odd entries: of its five entries,
    only the last has a date and a rate. *)
Lemma C5_witness :
  exists front back emitted,
    parseJsonResponse (document TEST_HEADER ODD_DATASETS ODD_STRUCTURE)
    = Ok (front ++ concat emitted ++ back)
    /\ List.length emitted = 5%nat.
Proof.
  assert (HR : exists R, resolve ODD_STRUCTURE = Some R
                         /\ seriesIdentifiers R "0:0:0:0:0:0" = Some ("USD", "EUR"))
    by (eexists; split; reflexivity).
  destruct HR as [R [HR Hids]].
  destruct (@C5_each_observation_on_its_own
              TEST_HEADER ODD_STRUCTURE R
              [SdmxDataSet.mk None None None] None None
              [("0", USD_SERIES); ("0:x:0", USD_SERIES); ("0:0", USD_SERIES);
               ("0:7:0", USD_SERIES); ("0:1:0", USD_SERIES); ("0:0:9", USD_SERIES);
               ("0:-1:0", USD_SERIES); ("0:0.5:0", USD_SERIES)]
              [] [] "0:0:0:0:0:0" "USD" "EUR" HR Hids)
    as [front [back H]].
  destruct (H (SdmxSeries.mk []
                 [("0", [None; Some 3%float]); ("1", []); ("5", [Some 2%float]);
                  ("zero", [Some 1%float]); ("01", [Some 4%float])]))
    as [emitted [Hparse Hall]].
  exists front, back, emitted. split; [exact Hparse|].
  apply Forall2_length in Hall. now rewrite <- Hall.
Defined.

(** C7. In the single-currency result ([getSingleCurrencyRates]) and in the
    multi-currency result ([transformToMultiCurrencyResult], and [getRates]
    which calls it), the base is the base currency of the first decoded
    observation when there is one; otherwise the base currency of the
    query when it states one; otherwise the base currency the client was
    configured with, which is "EUR" when the configuration states none.
    The single-currency result is always built; the multi-currency one is
    built unless an observation has a currency that does not convert to a
    property name, which then is the [TypeError] thrown, and which no
    observation of the declared type has. *)
Theorem C7_base_currency
    (Number_toString : float -> string)
    (JSON_parse : string -> Any.t + string)
    (URL_toString : string -> list (string * string) -> option string)
    (this : EcbClient) :
  (forall query observations,
      validateQuery (resolveQuery this query) = Ok tt ->
      fetchAndParse Number_toString JSON_parse URL_toString this (resolveQuery this query)
      = Ok observations ->
      exists result,
        getSingleCurrencyRates Number_toString JSON_parse URL_toString this query
        = Ok result
        /\ ExchangeRateResult.base result
           = baseRule observations (ExchangeRateQuery.baseCurrency query)
                      (EcbClient.baseCurrency this))
  /\ (forall observations query,
         match transformToMultiCurrencyResult Number_toString this observations query with
         | Ok result =>
           ExchangeRatesResult.base result
           = baseRule observations (ExchangeRateQuery.baseCurrency query)
                      (EcbClient.baseCurrency this)
         | Throw e =>
           exists o,
             In o observations
             /\ Any.ToPropertyKey Number_toString
                  (Unchecked.ExchangeRateObservation.currency o) = Throw e
             /\ ~ declared o
         end)
  /\ (forall query observations,
         validateQuery (resolveQuery this query) = Ok tt ->
         fetchAndParse Number_toString JSON_parse URL_toString this (resolveQuery this query)
         = Ok observations ->
         match getRates Number_toString JSON_parse URL_toString this query with
         | Ok result =>
           ExchangeRatesResult.base result
           = baseRule observations (ExchangeRateQuery.baseCurrency query)
                      (EcbClient.baseCurrency this)
         | Throw e =>
           exists o,
             In o observations
             /\ Any.ToPropertyKey Number_toString
                  (Unchecked.ExchangeRateObservation.currency o) = Throw e
             /\ ~ declared o
         end)
  /\ (forall fetcher config,
         EcbClient.baseCurrency (withFetcher fetcher config)
         = match EcbClientConfig.baseCurrency config with
           | Some b => b
           | None => "EUR"
           end).
Proof.
  assert (Hmulti : forall observations query,
             match transformToMultiCurrencyResult Number_toString this observations query
             with
             | Ok result =>
               ExchangeRatesResult.base result
               = baseRule observations (ExchangeRateQuery.baseCurrency query)
                          (EcbClient.baseCurrency this)
             | Throw e =>
               exists o,
                 In o observations
                 /\ Any.ToPropertyKey Number_toString
                      (Unchecked.ExchangeRateObservation.currency o) = Throw e
                 /\ ~ declared o
             end).
  { intros observations query. unfold transformToMultiCurrencyResult.
    destruct (forOf (groupRate Number_toString) observations []) as [rates|e] eqn:H;
      cbn [bind ExchangeRatesResult.base].
    - apply deriveBase_baseRule.
    - apply dateRates_throws in H. destruct H as [o [Hin Ho]].
      exists o. split; [exact Hin|]. split; [exact Ho|].
      intros [o' ->]. discriminate Ho. }
  repeat split.
  - intros query observations Hv Hf. unfold getSingleCurrencyRates.
    rewrite Hv, Hf. cbn [bind]. eexists. split; [reflexivity|].
    cbn [ExchangeRateResult.base].
    now rewrite deriveBase_baseRule, baseRule_resolveQuery.
  - exact Hmulti.
  - intros query observations Hv Hf. unfold getRates.
    rewrite Hv, Hf. cbn [bind].
    specialize (Hmulti observations (resolveQuery this query)).
    now rewrite baseRule_resolveQuery in Hmulti.
Qed.

(** The client's test "derives base from parsed response, not hardcoded",
    with a client configured for USD and a query that asks for GBP: the
    base is the EUR of the response. *)
Lemma C7_witness :
  exists result,
    getSingleCurrencyRates test_Number_toString test_JSON_parse test_URL_toString
      (withFetcher (MockFetcher "SINGLE_CURRENCY_RESPONSE")
                   (EcbClientConfig.mk None None (Some "USD")))
      (ExchangeRateQuery.mk ["USD"] "2025-01-15" (Some "2025-01-15") None (Some "GBP"))
    = Ok result
    /\ ExchangeRateResult.base result = Any.Str "EUR".
Proof.
  destruct (proj1 (C7_base_currency test_Number_toString test_JSON_parse test_URL_toString
                     (withFetcher (MockFetcher "SINGLE_CURRENCY_RESPONSE")
                                  (EcbClientConfig.mk None None (Some "USD"))))
              (ExchangeRateQuery.mk ["USD"] "2025-01-15" (Some "2025-01-15") None
                                    (Some "GBP"))
              (map unchecked
                 [ExchangeRateObservation.mk "2025-01-15" "USD" "EUR" 1.03%float;
                  ExchangeRateObservation.mk "2025-01-16" "USD" "EUR" 1.0303%float])
              eq_refl eq_refl)
    as [result [H Hbase]].
  exists result. split; [exact H|exact Hbase].
Defined.

(** C8. The series-dimension lookup and the observation-dimension lookup
    are one algorithm.  On every dimension list and target identifier both
    return the zero-based position of the first dimension whose identifier
    equals the target; both fail exactly when no dimension has that
    identifier, and then the error names the identifier and the list that
    was searched (series or observation). *)
Theorem C8_dimension_lookups_agree (dims : list SdmxDimension) (target : string) :
  match firstPosition dims target with
  | Some i =>
    findDimensionIndex dims target = Ok (Z.of_nat i)
    /\ findObservationDimensionIndex dims target = Ok (Z.of_nat i)
    /\ (exists d, nth_error dims i = Some d /\ SdmxDimension.id d = target)
    /\ (forall j d, (j < i)%nat -> nth_error dims j = Some d ->
                    SdmxDimension.id d <> target)
  | None =>
    findDimensionIndex dims target = Throw (missingDimension "series" target)
    /\ findObservationDimensionIndex dims target
       = Throw (missingDimension "observation" target)
    /\ ~ hasDimension dims target
  end.
Proof.
  rewrite findDimensionIndex_firstPosition, findObservationDimensionIndex_firstPosition.
  destruct (firstPosition dims target) as [i|] eqn:H.
  - apply firstPosition_Some in H. destruct H as [Hat Hfirst]. auto.
  - apply firstPosition_None in H. auto.
Qed.

(** C9, as the specification states it, fails: a series key with a
    non-numeric segment and a series key with too many segments are not
    filtered out.  Under the structure of the fixtures (five series
    dimensions, CURRENCY second, CURRENCY_DENOM third) the series under the
    key x:0:0:y:z and the series under a key of eight segments are both
    decoded, each to its two observations: the loop reads the second and
    the third segment only. *)
Lemma C9_counterexample :
  resolve EXR_STRUCTURE = Some EXR_RESOLVED
  /\ seriesDimensionCount EXR_STRUCTURE = 5%nat
  /\ nonNumericSegment "x:0:0:y:z"
  /\ tooManySegments EXR_STRUCTURE "0:0:0:0:0:0:0:0"
  /\ asSdmxJsonResponse (parsed (document TEST_HEADER STRAY_KEY_DATASETS EXR_STRUCTURE))
     = Some (document TEST_HEADER STRAY_KEY_DATASETS EXR_STRUCTURE)
  /\ parseJsonResponse (document TEST_HEADER STRAY_KEY_DATASETS EXR_STRUCTURE)
     = Ok [ExchangeRateObservation.mk "2025-01-15" "USD" "EUR" 1.03%float;
           ExchangeRateObservation.mk "2025-01-16" "USD" "EUR" 1.0303%float;
           ExchangeRateObservation.mk "2025-01-15" "USD" "EUR" 1.03%float;
           ExchangeRateObservation.mk "2025-01-16" "USD" "EUR" 1.0303%float]
  /\ Unchecked.parseJsonResponse test_Number_toString
       (parsed (document TEST_HEADER STRAY_KEY_DATASETS EXR_STRUCTURE))
     = Ok (map unchecked
             [ExchangeRateObservation.mk "2025-01-15" "USD" "EUR" 1.03%float;
              ExchangeRateObservation.mk "2025-01-16" "USD" "EUR" 1.0303%float;
              ExchangeRateObservation.mk "2025-01-15" "USD" "EUR" 1.03%float;
              ExchangeRateObservation.mk "2025-01-16" "USD" "EUR" 1.0303%float]).
Proof.
  split; [reflexivity|]. split; [reflexivity|].
  split; [exists "x"; split; [now left|reflexivity]|].
  split; [unfold tooManySegments; cbn; lia|].
  split; [reflexivity|]. split; reflexivity.
Qed.

(** C9, amended.  Once the structural checks succeed (dimensions present, the three
    positions resolved, the three vocabularies present), the loops over the
    series and the observations are total on content of the declared
    types.  On a JSON value that has the shape that [SdmxJsonResponse]
    declares, whatever its data sets hold, [parseJsonResponse] returns a
    list and throws nothing, no [TypeError] either; what it returns are,
    in document order, the observations of the pairs whose lookups all
    succeed: the segments of the series key at the CURRENCY and the
    CURRENCY_DENOM position select identifiers, the observation key
    selects a date, and the first element of the tuple is a rate.  Every
    other entry is dropped by a test for [undefined] or [null]. *)
Theorem C9_total_past_the_checks
    (Number_toString : float -> string) (json : Any.t)
    (header : SdmxHeader) (dataSets : option (list SdmxDataSet))
    (structure : option SdmxStructure) (R : Resolved) :
  asSdmxJsonResponse json = Some (SdmxJsonResponse.mk header dataSets structure) ->
  resolve structure = Some R ->
  (forall e, Unchecked.parseJsonResponse Number_toString json <> Throw e)
  /\ (forall e, parseJsonResponse (SdmxJsonResponse.mk header dataSets structure) <> Throw e)
  /\ exists observations,
       parseJsonResponse (SdmxJsonResponse.mk header dataSets structure) = Ok observations
       /\ Unchecked.parseJsonResponse Number_toString json
          = Ok (map unchecked observations)
       /\ observations
          = filterMap (crossReference R)
              (filter (inVocabulary R) (pairs (nullish dataSets []))).
Proof.
  intros Hjson HR.
  assert (H : parseJsonResponse (SdmxJsonResponse.mk header dataSets structure)
              = Ok (filterMap (crossReference R) (pairs (nullish dataSets [])))).
  { destruct dataSets as [ds|]; [|reflexivity].
    change (SdmxJsonResponse.mk header (Some ds) structure) with (document header ds structure).
    rewrite (parseJsonResponse_resolved _ _ _ HR). now rewrite decodeFrom_pairs. }
  rewrite (parseJsonResponse_declared Number_toString _ Hjson), H.
  cbn [uncheckedResult].
  split; [discriminate|]. split; [discriminate|].
  eexists. split; [reflexivity|]. split; [reflexivity|].
  apply filterMap_inVocabulary.
Qed.

(** The document of odd entries: the checks pass, nothing is thrown, and
    the one observation whose lookups all succeed is returned. *)
Lemma C9_witness :
  exists observations,
    Unchecked.parseJsonResponse test_Number_toString
      (parsed (SdmxJsonResponse.mk TEST_HEADER (Some ODD_DATASETS) ODD_STRUCTURE))
    = Ok (map unchecked observations)
    /\ observations = [ExchangeRateObservation.mk "2025-01-16" "USD" "EUR" 4%float].
Proof.
  assert (HR : exists R, resolve ODD_STRUCTURE = Some R) by (eexists; reflexivity).
  destruct HR as [R HR].
  destruct (@C9_total_past_the_checks test_Number_toString
              (parsed (SdmxJsonResponse.mk TEST_HEADER (Some ODD_DATASETS) ODD_STRUCTURE))
              TEST_HEADER (Some ODD_DATASETS) ODD_STRUCTURE R eq_refl HR)
    as [_ [_ [observations [H [Hu _]]]]].
  exists observations. split; [exact Hu|].
  enough (E : Ok observations
              = Ok [ExchangeRateObservation.mk "2025-01-16" "USD" "EUR" 4%float])
    by now injection E.
  rewrite <- H. reflexivity.
Defined.

(** C10, as the specification states it, fails: the amount is not the
    product of the amount and the rate rounded to two decimals.  The
    client of the single-currency fixture converts at the rate 1.03.  For
    the amount 70.5 the product is above 72.615 and rounds to 72.62, that
    is 7262 hundredths; [convert] returns 72.61, since the binary64
    product of 70.5, 1.03 and 100 is below 7261.5.  For the amount 1e307
    the product is a finite number, below the largest binary64 number;
    [convert] returns Infinity, since the product with 100 overflows. *)
Lemma C10_counterexample :
  convert test_Number_toString test_JSON_parse test_URL_toString
          (testClient "SINGLE_CURRENCY_RESPONSE") 70.5 "USD" "2025-01-15"
  = Ok (Some (ConversionResult.mk 72.61 (Any.Number 1.03) (Any.Str "2025-01-15") "USD"))
  /\ hundredths 70.5 1.03 = Some 7262
  /\ hundredthsOf 72.61 = Some 7261
  /\ convert test_Number_toString test_JSON_parse test_URL_toString
             (testClient "SINGLE_CURRENCY_RESPONSE") 1e307 "USD" "2025-01-15"
     = Ok (Some (ConversionResult.mk infinity (Any.Number 1.03) (Any.Str "2025-01-15")
                                     "USD"))
  /\ exact infinity = None
  /\ exists n,
       hundredths 1e307 1.03 = Some n
       /\ n < 100 * (2 ^ 1024 - 2 ^ 971).
Proof.
  split; [reflexivity|]. split; [reflexivity|]. split; [reflexivity|].
  split; [reflexivity|]. split; [reflexivity|].
  eexists. split; [reflexivity|]. vm_compute. reflexivity.
Qed.

(** C10, amended.  [convert] returns [null] exactly when the rate lookup
    ([getRate]) fails with [EcbNoDataError], which, when the response was
    fetched and parsed, is when the decoded observation list is empty.
    Every other failure of the lookup comes out of [convert] as it is:
    the validation error, the error of the URL or of the fetcher
    (network, HTTP), the parse error of the text and the error of the
    decoder.  When the lookup succeeds, [convert] takes the date and the
    rate of the first entry of the rates map (the date of the first
    decoded observation, whatever date was asked for, with the rate of the
    last decoded observation of that date), and returns that rate, that
    date, the currency and the amount
    [Math.round(amount * rate * 100) / 100]: the binary64 quotient by 100
    of the integer nearest, a tie going up, to the binary64 product of
    the amount, the rate and 100; when that product is [NaN] or infinite,
    it is the amount.  The product converts the rate to a number, which
    throws a [TypeError] for an object that does not convert. *)
Theorem C10_convert
    (Number_toString : float -> string)
    (JSON_parse : string -> Any.t + string)
    (URL_toString : string -> list (string * string) -> option string)
    (this : EcbClient) (amount : float) (currency date : string) :
  match getRate Number_toString JSON_parse URL_toString this currency date with
  | Throw error =>
    if instanceof_EcbNoDataError error
    then convert Number_toString JSON_parse URL_toString this amount currency date
         = Ok None
    else convert Number_toString JSON_parse URL_toString this amount currency date
         = Throw error
  | Ok result =>
    exists first observations rate rest,
      fetchAndParse Number_toString JSON_parse URL_toString this
                    (rateQuery this currency date)
      = Ok (first :: observations)
      /\ ExchangeRateResult.rates result
         = (Unchecked.ExchangeRateObservation.date first, rate) :: rest
      /\ option_map Unchecked.ExchangeRateObservation.rate
           (lastOn (Unchecked.ExchangeRateObservation.date first)
                   (first :: observations))
         = Some rate
      /\ match Any.ToNumber Number_toString rate with
         | Ok factor =>
           let product := (amount * factor * 100)%float in
           convert Number_toString JSON_parse URL_toString this amount currency date
           = Ok (Some (ConversionResult.mk
                         (JS.Math_round product / 100)%float
                         rate
                         (Unchecked.ExchangeRateObservation.date first)
                         currency))
           /\ match exact product with
              | Some q => isInteger (JS.Math_round product) (nearest q)
              | None => JS.Math_round product = product
              end
         | Throw e =>
           convert Number_toString JSON_parse URL_toString this amount currency date
           = Throw e
           /\ errorName e = "TypeError"
         end
  end
  /\ (convert Number_toString JSON_parse URL_toString this amount currency date = Ok None
      <-> exists message currencies startDate endDate,
            getRate Number_toString JSON_parse URL_toString this currency date
            = Throw (EcbNoDataError message currencies startDate endDate))
  /\ (forall e,
         validateQuery (rateQuery this currency date) = Throw e ->
         convert Number_toString JSON_parse URL_toString this amount currency date
         = Throw e)
  /\ (forall e,
         validateQuery (rateQuery this currency date) = Ok tt ->
         buildExchangeRateUrl URL_toString (rateQuery this currency date)
                              (EcbClient.baseUrl this) = Throw e ->
         convert Number_toString JSON_parse URL_toString this amount currency date
         = Throw e)
  /\ (forall url,
         validateQuery (rateQuery this currency date) = Ok tt ->
         buildExchangeRateUrl URL_toString (rateQuery this currency date)
                              (EcbClient.baseUrl this) = Ok url ->
         (forall e,
             EcbClient.fetcher this url = Throw e ->
             instanceof_EcbNoDataError e = false ->
             convert Number_toString JSON_parse URL_toString this amount currency date
             = Throw e)
         /\ (forall raw,
                EcbClient.fetcher this url = Ok raw ->
                (forall message,
                    JSON_parse raw = inr message ->
                    convert Number_toString JSON_parse URL_toString this amount
                            currency date
                    = Throw (EcbParseError "Failed to parse ECB JSON response."
                                           (Some ("SyntaxError", message))))
                /\ (forall json,
                       JSON_parse raw = inl json ->
                       (forall e,
                           Unchecked.parseJsonResponse Number_toString json = Throw e ->
                           convert Number_toString JSON_parse URL_toString this amount
                                   currency date
                           = Throw e)
                       /\ (convert Number_toString JSON_parse URL_toString this amount
                                   currency date
                           = Ok None
                           <-> Unchecked.parseJsonResponse Number_toString json
                               = Ok [])))).
Proof.
  assert (Hmain :
    match getRate Number_toString JSON_parse URL_toString this currency date with
    | Throw error =>
      if instanceof_EcbNoDataError error
      then convert Number_toString JSON_parse URL_toString this amount currency date
           = Ok None
      else convert Number_toString JSON_parse URL_toString this amount currency date
           = Throw error
    | Ok result =>
      exists first observations rate rest,
        fetchAndParse Number_toString JSON_parse URL_toString this
                      (rateQuery this currency date)
        = Ok (first :: observations)
        /\ ExchangeRateResult.rates result
           = (Unchecked.ExchangeRateObservation.date first, rate) :: rest
        /\ option_map Unchecked.ExchangeRateObservation.rate
             (lastOn (Unchecked.ExchangeRateObservation.date first)
                     (first :: observations))
           = Some rate
        /\ match Any.ToNumber Number_toString rate with
           | Ok factor =>
             let product := (amount * factor * 100)%float in
             convert Number_toString JSON_parse URL_toString this amount currency date
             = Ok (Some (ConversionResult.mk
                           (JS.Math_round product / 100)%float
                           rate
                           (Unchecked.ExchangeRateObservation.date first)
                           currency))
             /\ match exact product with
                | Some q => isInteger (JS.Math_round product) (nearest q)
                | None => JS.Math_round product = product
                end
           | Throw e =>
             convert Number_toString JSON_parse URL_toString this amount currency date
             = Throw e
             /\ errorName e = "TypeError"
           end
    end).
  { unfold convert.
    destruct (getRate Number_toString JSON_parse URL_toString this currency date)
      as [result|error] eqn:Hg.
    - unfold getRate in Hg.
      destruct (getSingleCurrencyRates_first _ _ _ _ _ Hg)
        as [first [observations [rate [rest [Hf [Hr [last [Hl [_ ->]]]]]]]]].
      exists first, observations, (Unchecked.ExchangeRateObservation.rate last), rest.
      rewrite Hr. cbn [Any.Map_first].
      split; [exact Hf|]. split; [reflexivity|]. split; [now rewrite Hl|].
      destruct (Any.ToNumber Number_toString
                  (Unchecked.ExchangeRateObservation.rate last))
        as [factor|e] eqn:Hn; cbn [bind].
      + split; [reflexivity|]. apply Math_round_nearest.
      + split; [reflexivity|]. now apply ToNumber_throws in Hn.
    - now destruct (instanceof_EcbNoDataError error). }
  split; [exact Hmain|]. split.
  { destruct (getRate Number_toString JSON_parse URL_toString this currency date)
      as [result|error].
    - destruct Hmain as [first [observations [rate [rest [_ [_ [_ H]]]]]]].
      destruct (Any.ToNumber Number_toString rate) as [factor|e].
      + destruct H as [-> _]. split; [discriminate|].
        intros [m [c [s [e H]]]]. discriminate.
      + destruct H as [-> _]. split; [discriminate|].
        intros [m [c [s [e' H]]]]. discriminate.
    - destruct error; simpl in Hmain; rewrite Hmain;
        (split; [try discriminate; intros _; eauto
                |intros [m [c [s [e H]]]]; try discriminate; reflexivity]). }
  clear Hmain.
  unfold convert, getRate, getSingleCurrencyRates, fetchAndParse, parseSdmxJson.
  fold (rateQuery this currency date).
  split; [|split; [|intros url Hv Hu; split; [|intros raw Hfetch; split;
                                               [|intros json Hj; split]]]].
  - intros e Hv. rewrite Hv. cbn [bind].
    destruct (validateQuery_throws _ Hv) as [message ->]. reflexivity.
  - intros e Hv Hu. rewrite Hv. cbn [bind]. rewrite Hu. cbn [bind].
    unfold buildExchangeRateUrl in Hu.
    destruct (URL_toString _ _); [discriminate|]. now injection Hu as <-.
  - intros e Hfetch He. rewrite Hv. cbn [bind]. rewrite Hu. cbn [bind].
    rewrite Hfetch. cbn [bind]. now rewrite He.
  - intros message Hj. rewrite Hv. cbn [bind]. rewrite Hu. cbn [bind].
    rewrite Hfetch. cbn [bind]. rewrite Hj. cbn [bind]. reflexivity.
  - intros e Hp. rewrite Hv. cbn [bind]. rewrite Hu. cbn [bind].
    rewrite Hfetch. cbn [bind]. rewrite Hj. cbn [bind]. rewrite Hp. cbn [bind].
    apply parseJsonResponse_throws_any in Hp.
    destruct Hp as [Hp|Hp]; destruct e; try discriminate; reflexivity.
  - rewrite Hv. cbn [bind]. rewrite Hu. cbn [bind]. rewrite Hfetch. cbn [bind].
    rewrite Hj. cbn [bind].
    destruct (Unchecked.parseJsonResponse Number_toString json) as [[|o l]|e] eqn:Hp;
      cbn [bind].
    + simpl. tauto.
    + cbn [List.length Nat.eqb bind].
      cbn [ExchangeRateResult.rates fold_left Any.Map_set].
      destruct (rates_first l (Any.Map_key (Unchecked.ExchangeRateObservation.date o))
                  (Unchecked.ExchangeRateObservation.rate o) []) as [v' [rest H]].
      rewrite H. cbn [Any.Map_first].
      destruct (Any.ToNumber Number_toString v'); cbn [bind]; split; discriminate.
    + apply parseJsonResponse_throws_any in Hp.
      destruct Hp as [Hp|Hp]; destruct e; try discriminate; simpl; split; discriminate.
Qed.

(** The client's tests of [convert]: 100 at the single-currency fixture,
    asked for 2025-01-16, is converted at the rate of the first entry,
    2025-01-15; the empty response gives [null]. *)
Lemma C10_witness :
  convert test_Number_toString test_JSON_parse test_URL_toString
          (testClient "SINGLE_CURRENCY_RESPONSE") 100 "USD" "2025-01-16"
  = Ok (Some (ConversionResult.mk 103 (Any.Number 1.03) (Any.Str "2025-01-15") "USD"))
  /\ isInteger (JS.Math_round (100 * 1.03 * 100)) 10300
  /\ convert test_Number_toString test_JSON_parse test_URL_toString
             (testClient "EMPTY_RESPONSE") 100 "USD" "2025-01-18"
     = Ok None.
Proof.
  split; [|split].
  - pose proof (proj1 (C10_convert test_Number_toString test_JSON_parse
                         test_URL_toString
                         (testClient "SINGLE_CURRENCY_RESPONSE")
                         100 "USD" "2025-01-16")) as H.
    destruct H as [first [observations [rate [rest [_ [Hr [_ Hc]]]]]]].
    cbn [ExchangeRateResult.rates] in Hr.
    injection Hr as Hdate Hrate _.
    rewrite <- Hrate in Hc. cbn [Any.ToNumber] in Hc. destruct Hc as [Hc _].
    rewrite Hc, <- Hdate. reflexivity.
  - pose proof (proj1 (C10_convert test_Number_toString test_JSON_parse
                         test_URL_toString
                         (testClient "SINGLE_CURRENCY_RESPONSE")
                         100 "USD" "2025-01-16")) as H.
    destruct H as [first [observations [rate [rest [_ [Hr [_ Hc]]]]]]].
    cbn [ExchangeRateResult.rates] in Hr.
    injection Hr as Hdate Hrate _.
    rewrite <- Hrate in Hc. cbn [Any.ToNumber] in Hc. destruct Hc as [_ Hc].
    exact Hc.
  - destruct (proj2 (proj2 (proj2 (proj2
                (C10_convert test_Number_toString test_JSON_parse test_URL_toString
                   (testClient "EMPTY_RESPONSE") 100 "USD" "2025-01-18"))))
                _ eq_refl eq_refl) as [_ Hraw].
    destruct (Hraw _ eq_refl) as [_ Hjson].
    destruct (Hjson _ eq_refl) as [_ Hnone].
    apply Hnone. reflexivity.
Defined.

(* ------------------------------------------------------------------ *)
(** * The two patterns of [validateQuery] *)
(* ------------------------------------------------------------------ *)

Lemma isUpper_upperCase (c : ascii) : isUpper c = true <-> upperCase c.
Proof.
  unfold isUpper, upperCase. cbv zeta.
  rewrite andb_true_iff, !N.leb_le. tauto.
Qed.

Lemma isDigit_decimalDigit (c : ascii) : isDigit c = true <-> decimalDigit c.
Proof.
  unfold isDigit, decimalDigit. cbv zeta.
  rewrite andb_true_iff, !N.leb_le. tauto.
Qed.

(** [CURRENCY_REGEX] matches the currency codes. *)
Lemma CURRENCY_REGEX_currencyCode (s : string) :
  CURRENCY_REGEX_test s = true <-> currencyCode s.
Proof.
  unfold CURRENCY_REGEX_test, currencyCode. split.
  - destruct s as [|a [|b [|c [|d s]]]]; simpl; try discriminate.
    rewrite !andb_true_iff, !isUpper_upperCase. intros [[Ha Hb] Hc].
    exists a, b, c. auto.
  - intros [a [b [c [-> [Ha [Hb Hc]]]]]]. simpl.
    rewrite !andb_true_iff, !isUpper_upperCase. auto.
Qed.

(** [ISO_DATE_REGEX] matches the dates written YYYY-MM-DD. *)
Lemma ISO_DATE_REGEX_isoDate (s : string) :
  ISO_DATE_REGEX_test s = true <-> isoDate s.
Proof.
  unfold ISO_DATE_REGEX_test, isoDate. split.
  - destruct s as [|y1 [|y2 [|y3 [|y4 [|h1 [|m1 [|m2 [|h2 [|d1 [|d2 [|x s]]]]]]]]]]];
      simpl; try discriminate.
    rewrite !andb_true_iff, !isDigit_decimalDigit.
    intros [[[[[[[[[H1 H2] H3] H4] Hh1] H5] H6] Hh2] H7] H8].
    apply Ascii.eqb_eq in Hh1, Hh2. subst h1 h2.
    exists y1, y2, y3, y4, m1, m2, d1, d2. split; [reflexivity|].
    repeat (constructor; [assumption|]). constructor.
  - intros [y1 [y2 [y3 [y4 [m1 [m2 [d1 [d2 [-> H]]]]]]]]]. simpl.
    repeat match goal with
           | H : Forall _ (_ :: _) |- _ => inversion H; clear H; subst
           end.
    rewrite !andb_true_iff, !isDigit_decimalDigit.
    repeat match goal with |- _ /\ _ => split end; try assumption; reflexivity.
Qed.

(** On dates written YYYY-MM-DD the order of strings is the order of
    dates. *)
Lemma ltb_earlier (s t : string) :
  isoDate s -> isoDate t -> (JS.ltb s t = true <-> earlier s t).
Proof.
  intros [y1 [y2 [y3 [y4 [m1 [m2 [d1 [d2 [-> Hs]]]]]]]]]
         [z1 [z2 [z3 [z4 [n1 [n2 [e1 [e2 [-> Ht]]]]]]]]].
  repeat match goal with
         | H : Forall _ (_ :: _) |- _ => inversion H; clear H; subst
         | H : Forall _ [] |- _ => clear H
         end.
  unfold earlier, year, month, day, numeral, decimalDigit in *.
  cbn [list_ascii_of_string firstn skipn fold_left JS.ltb].
  change (N_of_ascii "-") with 45%N.
  cbn [N.ltb N.compare Pos.compare Pos.compare_cont].
  repeat match goal with
         | H : (48 <= N_of_ascii ?c <= 57)%N |- _ =>
           let v := fresh "v" in
           let E := fresh "E" in
           let Hv := fresh "Hv" in
           assert (exists v, N_of_ascii c = (v + 48)%N /\ (v <= 9)%N)
             as [v [E Hv]] by (exists (N_of_ascii c - 48)%N; lia);
           clear H; rewrite E; clear E
         end.
  rewrite !N.add_sub.
  repeat match goal with
         | |- context [if (?a <? ?b)%N then _ else _] =>
           destruct (N.ltb_spec a b); cbv iota
         end;
    (split; [intros E; try discriminate E; lia|intros E; try reflexivity; lia]).
Qed.

Lemma earlier_irrefl (s : string) : ~ earlier s s.
Proof. unfold earlier. lia. Qed.

(** The loop over the currencies accepts the lists of currency codes, and
    stops at the first string that is none. *)
Lemma validateCurrencies_accepts (currencies : list string) :
  validateCurrencies currencies = Ok tt <-> Forall currencyCode currencies.
Proof.
  induction currencies as [|c l IH]; simpl.
  - split; [constructor|reflexivity].
  - destruct (CURRENCY_REGEX_test c) eqn:E; simpl.
    + rewrite IH. apply CURRENCY_REGEX_currencyCode in E.
      split; [now constructor|now inversion 1].
    + split; [discriminate|]. inversion 1 as [|? ? Hc _]; subst.
      apply CURRENCY_REGEX_currencyCode in Hc. congruence.
Qed.

Lemma validateCurrencies_first (pre post : list string) (c : string) :
  Forall currencyCode pre -> ~ currencyCode c ->
  validateCurrencies (pre ++ c :: post) = Throw (invalidCurrency c).
Proof.
  intros Hpre Hc. induction Hpre as [|x l Hx _ IH]; simpl.
  - destruct (CURRENCY_REGEX_test c) eqn:E; [|reflexivity].
    apply CURRENCY_REGEX_currencyCode in E. contradiction.
  - apply CURRENCY_REGEX_currencyCode in Hx. now rewrite Hx.
Qed.

Lemma ISO_DATE_REGEX_not (s : string) : ISO_DATE_REGEX_test s = false <-> ~ isoDate s.
Proof.
  rewrite <- ISO_DATE_REGEX_isoDate. now destruct (ISO_DATE_REGEX_test s).
Qed.

Lemma CURRENCY_REGEX_not (s : string) : CURRENCY_REGEX_test s = false <-> ~ currencyCode s.
Proof.
  rewrite <- CURRENCY_REGEX_currencyCode. now destruct (CURRENCY_REGEX_test s).
Qed.

(** [validateQuery] past the test of the currencies. *)
Lemma validateQuery_currencies (query : ExchangeRateQuery) :
  ExchangeRateQuery.currencies query <> [] ->
  Forall currencyCode (ExchangeRateQuery.currencies query) ->
  validateQuery query
  = let startDate := ExchangeRateQuery.startDate query in
    if negb (ISO_DATE_REGEX_test startDate) then Throw (invalidStartDate startDate)
    else
      let* _ :=
        match ExchangeRateQuery.endDate query with
        | Some endDate =>
          if negb (ISO_DATE_REGEX_test endDate) then Throw (invalidEndDate endDate)
          else if JS.ltb endDate startDate then Throw (startAfterEnd startDate endDate)
          else Ok tt
        | None => Ok tt
        end in
      match ExchangeRateQuery.baseCurrency query with
      | Some baseCurrency =>
        if negb (CURRENCY_REGEX_test baseCurrency)
        then Throw (invalidBaseCurrency baseCurrency)
        else Ok tt
      | None => Ok tt
      end.
Proof.
  intros Hne Hall. unfold validateQuery.
  destruct (ExchangeRateQuery.currencies query) as [|c l]; [contradiction|].
  apply validateCurrencies_accepts in Hall. rewrite Hall. reflexivity.
Qed.

(* ------------------------------------------------------------------ *)
(** * The characters of a series key *)
(* ------------------------------------------------------------------ *)

Lemma list_ascii_of_string_append (s t : string) :
  list_ascii_of_string (s ++ t)%string = list_ascii_of_string s ++ list_ascii_of_string t.
Proof. induction s as [|c s IH]; simpl; [reflexivity|now rewrite IH]. Qed.

(** A character of a joined list is one of the separator or one of an
    element. *)
Lemma join_characters (sep : string) (l : list string) (c : ascii) :
  In c (list_ascii_of_string (JS.join sep l)) ->
  In c (list_ascii_of_string sep)
  \/ exists s, In s l /\ In c (list_ascii_of_string s).
Proof.
  induction l as [|x l IH]; [intros []|].
  destruct l as [|y l].
  - simpl. intros H. right. exists x. auto.
  - change (JS.join sep (x :: y :: l)) with (x ++ sep ++ JS.join sep (y :: l))%string.
    rewrite !list_ascii_of_string_append, !in_app_iff.
    intros [H|[H|H]].
    + right. exists x. split; [now left|exact H].
    + now left.
    + destruct (IH H) as [H'|[s [Hs Hc]]]; [now left|].
      right. exists s. split; [now right|exact Hc].
Qed.

Lemma currencyCode_characters (s : string) (c : ascii) :
  currencyCode s -> In c (list_ascii_of_string s) -> upperCase c.
Proof.
  intros [x [y [z [-> [Hx [Hy Hz]]]]]]. simpl.
  intros [<-|[<-|[<-|[]]]]; assumption.
Qed.

(** A currency code holds neither of the separators of a series key. *)
Lemma currencyCode_no_separator (s : string) (sep : ascii) :
  (N_of_ascii sep < 65)%N -> currencyCode s -> ~ In sep (list_ascii_of_string s).
Proof.
  intros Hsep Hs Hin. apply (@currencyCode_characters s sep Hs) in Hin.
  unfold upperCase in Hin. lia.
Qed.

Lemma Frequency_no_dot (f : Frequency) :
  ~ In "."%char (list_ascii_of_string (Frequency.toString f)).
Proof. destruct f; simpl; intros [H|[]]; discriminate. Qed.

Lemma ltb_irrefl (s : string) : JS.ltb s s = false.
Proof.
  induction s as [|c s IH]; simpl; [reflexivity|].
  now rewrite N.ltb_irrefl.
Qed.

(** The codes of an accepted query. *)
Lemma validateQuery_codes (query : ExchangeRateQuery) :
  validateQuery query = Ok tt ->
  ExchangeRateQuery.currencies query <> []
  /\ Forall currencyCode (ExchangeRateQuery.currencies query)
  /\ (forall baseCurrency,
         ExchangeRateQuery.baseCurrency query = Some baseCurrency ->
         currencyCode baseCurrency).
Proof.
  intros H.
  assert (Hne : ExchangeRateQuery.currencies query <> []).
  { intros E. unfold validateQuery in H. now rewrite E in H. }
  assert (Hall : Forall currencyCode (ExchangeRateQuery.currencies query)).
  { apply validateCurrencies_accepts. unfold validateQuery in H.
    destruct (ExchangeRateQuery.currencies query) as [|c l]; [contradiction|].
    destruct (validateCurrencies (c :: l)) as [[]|]; [reflexivity|discriminate]. }
  split; [exact Hne|]. split; [exact Hall|].
  rewrite (validateQuery_currencies query Hne Hall) in H. cbv zeta in H.
  destruct (ISO_DATE_REGEX_test (ExchangeRateQuery.startDate query)); [|discriminate].
  cbn [negb] in H. intros b E. rewrite E in H.
  destruct (ExchangeRateQuery.endDate query) as [endDate|];
    [destruct (ISO_DATE_REGEX_test endDate); [|discriminate];
     destruct (JS.ltb endDate (ExchangeRateQuery.startDate query)); [discriminate|]|];
    cbn [negb bind] in H;
    (destruct (CURRENCY_REGEX_test b) eqn:Hb; [|discriminate]);
    now apply CURRENCY_REGEX_currencyCode.
Qed.

(* ------------------------------------------------------------------ *)
(** * What the decoder returns *)
(* ------------------------------------------------------------------ *)

Lemma filterMap_In {X Y : Type} (f : X -> option Y) (l : list X) (y : Y) :
  In y (filterMap f l) <-> exists x, In x l /\ f x = Some y.
Proof.
  unfold filterMap. rewrite in_flat_map. split.
  - intros [x [Hx Hy]]. exists x. split; [exact Hx|].
    destruct (f x) as [y'|]; [|now destruct Hy].
    destruct Hy as [<-|[]]. reflexivity.
  - intros [x [Hx Hy]]. exists x. split; [exact Hx|]. rewrite Hy. now left.
Qed.

(** An identifier that a key selects is not empty and is carried by a
    value of the vocabulary. *)
Lemma selects_identifiers (vocab : list SdmxValue) (key identifier : string) :
  selects vocab key = Some identifier ->
  identifier <> "" /\ In identifier (identifiers vocab).
Proof.
  unfold selects, identifiers.
  destruct (JS.array_get vocab (JS.Number key)) as [v|] eqn:Hv; [|discriminate].
  simpl. destruct (SdmxValue.id v) as [[|c s]|] eqn:Hid; try discriminate.
  intros [= <-]. split; [discriminate|].
  apply in_flat_map. exists v. split; [now apply array_get_In in Hv|].
  rewrite Hid. now left.
Qed.

Lemma crossReference_identifiers (R : Resolved)
    (p : string * string * list (option float)) (o : ExchangeRateObservation) :
  crossReference R p = Some o ->
  (ExchangeRateObservation.date o <> ""
   /\ In (ExchangeRateObservation.date o) (identifiers (timeVocabulary R)))
  /\ (ExchangeRateObservation.currency o <> ""
      /\ In (ExchangeRateObservation.currency o) (identifiers (currencyVocabulary R)))
  /\ (ExchangeRateObservation.baseCurrency o <> ""
      /\ In (ExchangeRateObservation.baseCurrency o) (identifiers (denomVocabulary R)))
  /\ rateOf (snd p) = Some (ExchangeRateObservation.rate o).
Proof.
  destruct p as [[sk ok] t]. unfold crossReference, seriesIdentifiers.
  destruct (segment sk (currencyPosition R)) as [sc|]; [|discriminate].
  destruct (segment sk (denomPosition R)) as [sd|]; simpl;
    [|now destruct (selects (currencyVocabulary R) sc)].
  destruct (selects (currencyVocabulary R) sc) as [c|] eqn:Hc; [|discriminate].
  destruct (selects (denomVocabulary R) sd) as [b|] eqn:Hb; [|discriminate].
  destruct (selects (timeVocabulary R) ok) as [d|] eqn:Hd; [|discriminate].
  destruct (rateOf t) as [r|]; [|discriminate].
  intros [= <-]. simpl.
  apply selects_identifiers in Hc, Hb, Hd. auto.
Qed.

(** The pairs of the data sets that keep the rates only. *)
Lemma pairs_rateOnly (dataSets : list SdmxDataSet) :
  pairs (map rateOnly dataSets)
  = map (fun p : string * string * list (option float) =>
           (fst (fst p), snd (fst p), firstn 1 (snd p)))
        (pairs dataSets).
Proof.
  unfold pairs. induction dataSets as [|dataSet dataSets IH]; [reflexivity|].
  simpl. rewrite IH, map_app. f_equal.
  unfold dataSetPairs, rateOnly. simpl.
  destruct (SdmxDataSet.series dataSet) as [series|]; [|reflexivity]. simpl.
  induction series as [|[k s] series IHs]; [reflexivity|].
  simpl. rewrite IHs, map_app. f_equal.
  unfold seriesPairs. simpl. rewrite !map_map. reflexivity.
Qed.

Lemma crossReference_rateOnly (R : Resolved) (p : string * string * list (option float)) :
  crossReference R (fst (fst p), snd (fst p), firstn 1 (snd p)) = crossReference R p.
Proof.
  destruct p as [[sk ok] t]. simpl. unfold crossReference.
  now destruct t as [|[r|] t].
Qed.

Lemma filterMap_map {X Y W : Type} (f : X -> option Y) (g : W -> X) (l : list W) :
  filterMap f (map g l) = filterMap (fun w => f (g w)) l.
Proof.
  unfold filterMap. rewrite flat_map_concat_map, map_map, <- flat_map_concat_map.
  reflexivity.
Qed.

Lemma filterMap_ext {X Y : Type} (f g : X -> option Y) (l : list X) :
  (forall x, f x = g x) -> filterMap f l = filterMap g l.
Proof.
  intros H. unfold filterMap. apply flat_map_ext. intros x. now rewrite H.
Qed.

(* ------------------------------------------------------------------ *)
(** * The errors of the client *)
(* ------------------------------------------------------------------ *)

(** The classes of the errors of [getObservations], given those of the
    fetcher and those of the decoder. *)
Lemma getObservations_throws_classes
    (Number_toString : float -> string)
    (JSON_parse : string -> Any.t + string)
    (URL_toString : string -> list (string * string) -> option string)
    (this : EcbClient) (query : ExchangeRateQuery) (e : Exception)
    (P : Exception -> Prop) :
  (forall url e', EcbClient.fetcher this url = Throw e' -> P e') ->
  (forall message, P (EcbValidationError message)) ->
  (forall message cause, P (EcbParseError message cause)) ->
  (forall message currencies startDate endDate,
      P (EcbNoDataError message currencies startDate endDate)) ->
  P (RuntimeError "TypeError" "Invalid URL") ->
  (forall url raw json e',
      EcbClient.fetcher this url = Ok raw ->
      JSON_parse raw = inl json ->
      Unchecked.parseJsonResponse Number_toString json = Throw e' ->
      errorName e' = "TypeError" ->
      P e') ->
  getObservations Number_toString JSON_parse URL_toString this query = Throw e -> P e.
Proof.
  intros Hf Hv Hp Hn Hu Ht. unfold getObservations.
  destruct (validateQuery (resolveQuery this query)) as [[]|e'] eqn:Hq; cbn [bind].
  2:{ intros [= <-]. destruct (validateQuery_throws _ Hq) as [m ->]. apply Hv. }
  unfold fetchAndParse.
  destruct (buildExchangeRateUrl URL_toString (resolveQuery this query)
                                 (EcbClient.baseUrl this)) as [url|e'] eqn:Hb;
    cbn [bind].
  2:{ intros [= <-]. unfold buildExchangeRateUrl in Hb.
      destruct (URL_toString _ _); [discriminate|]. now injection Hb as <-. }
  destruct (EcbClient.fetcher this url) as [raw|e'] eqn:Hfetch; cbn [bind];
    [|intros [= <-]; eapply Hf; exact Hfetch].
  unfold parseSdmxJson.
  destruct (JSON_parse raw) as [json|message] eqn:Hjson; cbn [bind];
    [|intros [= <-]; apply Hp].
  destruct (Unchecked.parseJsonResponse Number_toString json) as [[|o l]|e'] eqn:Hj;
    cbn [bind].
  - cbn [List.length Nat.eqb]. intros [= <-]. apply Hn.
  - discriminate.
  - intros [= <-]. destruct (parseJsonResponse_throws_any _ _ Hj) as [Hc|Hc].
    + destruct e'; try discriminate. apply Hp.
    + exact (Ht url raw json e' Hfetch Hjson Hj Hc).
Qed.

(** [getSingleCurrencyRates] throws what [getObservations] throws. *)
Lemma query_methods_throw
    (Number_toString : float -> string)
    (JSON_parse : string -> Any.t + string)
    (URL_toString : string -> list (string * string) -> option string)
    (this : EcbClient) (query : ExchangeRateQuery) (e : Exception) :
  getSingleCurrencyRates Number_toString JSON_parse URL_toString this query = Throw e ->
  getObservations Number_toString JSON_parse URL_toString this query = Throw e.
Proof.
  unfold getSingleCurrencyRates, getObservations.
  destruct (validateQuery (resolveQuery this query)) as [[]|e']; cbn [bind];
    [|congruence].
  destruct (fetchAndParse Number_toString JSON_parse URL_toString this
              (resolveQuery this query)); cbn [bind]; congruence.
Qed.

(** [getRates] throws what [getObservations] throws, or the [TypeError] of
    a currency that does not convert to a property name. *)
Lemma getRates_throws
    (Number_toString : float -> string)
    (JSON_parse : string -> Any.t + string)
    (URL_toString : string -> list (string * string) -> option string)
    (this : EcbClient) (query : ExchangeRateQuery) (e : Exception) :
  getRates Number_toString JSON_parse URL_toString this query = Throw e ->
  getObservations Number_toString JSON_parse URL_toString this query = Throw e
  \/ exists observations o,
       getObservations Number_toString JSON_parse URL_toString this query
       = Ok observations
       /\ In o observations
       /\ Any.ToPropertyKey Number_toString
            (Unchecked.ExchangeRateObservation.currency o) = Throw e
       /\ errorName e = "TypeError".
Proof.
  unfold getRates, getObservations.
  destruct (validateQuery (resolveQuery this query)) as [[]|e']; cbn [bind];
    [|intros [= <-]; now left].
  destruct (fetchAndParse Number_toString JSON_parse URL_toString this
              (resolveQuery this query)) as [observations|e']; cbn [bind];
    [|intros [= <-]; now left].
  unfold transformToMultiCurrencyResult.
  destruct (forOf (groupRate Number_toString) observations []) as [rates|e'] eqn:Hr;
    cbn [bind]; [discriminate|].
  intros [= <-]. right. apply dateRates_throws in Hr. destruct Hr as [o [Ho He]].
  exists observations, o. split; [reflexivity|]. split; [exact Ho|].
  split; [exact He|]. now apply ToString_throws in He.
Qed.

(** When the value that [JSON.parse] returned has the shape that
    [SdmxJsonResponse] declares, the observations are of the declared
    type. *)
Lemma getObservations_declared
    (Number_toString : float -> string)
    (JSON_parse : string -> Any.t + string)
    (URL_toString : string -> list (string * string) -> option string)
    (this : EcbClient) (query : ExchangeRateQuery)
    (observations : list Unchecked.ExchangeRateObservation) :
  (forall raw json, JSON_parse raw = inl json -> asSdmxJsonResponse json <> None) ->
  getObservations Number_toString JSON_parse URL_toString this query = Ok observations ->
  Forall declared observations.
Proof.
  intros Hshape. unfold getObservations.
  destruct (validateQuery (resolveQuery this query)) as [[]|e']; cbn [bind];
    [|discriminate].
  intros H. apply fetchAndParse_Ok in H.
  destruct H as [url [raw [json [_ [_ [Hj [Hp _]]]]]]].
  specialize (Hshape raw json Hj).
  destruct (asSdmxJsonResponse json) as [data|] eqn:Hd; [|contradiction].
  rewrite (parseJsonResponse_declared Number_toString _ Hd) in Hp.
  destruct (parseJsonResponse data) as [l|]; [|discriminate].
  injection Hp as <-. apply Forall_forall. intros o Ho.
  apply in_map_iff in Ho. destruct Ho as [o' [<- _]]. now exists o'.
Qed.

(* ------------------------------------------------------------------ *)
(** * The fetcher *)
(* ------------------------------------------------------------------ *)

Section FetcherLemmas.

Variable Number_toString : float -> string.
Variable AbortSignal : Type.
Variable timeoutSignal : float -> AbortSignal.
Variable AbortSignal_any : list AbortSignal -> AbortSignal.

(** The [catch] clause of [get] on a reportable value: an [EcbApiError]
    goes through, anything else becomes an [EcbNetworkError]. *)
Lemma get_throws (this : FetchHttpFetcher AbortSignal) (url : string)
    (externalSignal : option AbortSignal) (e : Exception) :
  rejectsReportably (FetchHttpFetcher.fetchFn this) ->
  get Number_toString timeoutSignal AbortSignal_any this url externalSignal = Throw e ->
  instanceof_EcbApiError e = true \/ instanceof_EcbNetworkError e = true.
Proof.
  intros Hr. unfold get, attempt.
  match goal with
  | |- context [FetchHttpFetcher.fetchFn this url ?request] =>
    specialize (Hr url request);
      destruct (FetchHttpFetcher.fetchFn this url request) as [response|error]
  end.
  - destruct (Response.ok response); cbn [negb].
    + destruct (Response.text response) as [text|[e'|[image|e']]];
        [discriminate| | |contradiction].
      * destruct (instanceof_EcbApiError e') eqn:Ha; [intros [= <-]; now left|].
        destruct (String.eqb (errorName e') "AbortError"); intros [= <-]; now right.
      * intros [= <-]. now right.
    + cbn [instanceof_EcbApiError new_EcbApiError]. intros [= <-]. now left.
  - destruct error as [e'|[image|e']]; [| |contradiction].
    + destruct (instanceof_EcbApiError e') eqn:Ha; [intros [= <-]; now left|].
      destruct (String.eqb (errorName e') "AbortError"); intros [= <-]; now right.
    + intros [= <-]. now right.
Qed.

End FetcherLemmas.

(* ------------------------------------------------------------------ *)
(** * A response as the provider sends it *)
(* ------------------------------------------------------------------ *)

Lemma Any_Map_set_fresh {V : Type} (m : Any.Map V) (k : string) (v : V) :
  ~ In (Any.Str k) (Map_keys m) ->
  Any.Map_set m (Any.Str k) v = m ++ [(Any.Str k, v)].
Proof.
  unfold Map_keys. induction m as [|[k0 v0] m IH]; simpl; intros H; [reflexivity|].
  destruct (Any.SameValueZero k0 (Any.Str k)) eqn:E.
  - rewrite SameValueZero_sym in E. apply SameValueZero_Str in E.
    exfalso. apply H. now left.
  - rewrite IH; [reflexivity|]. intros Hin. apply H. now right.
Qed.

(** Setting distinct new string keys one after the other lists them in
    order. *)
Lemma fold_set_distinct {V X : Type} (key : X -> string) (val : X -> V) (l : list X) :
  forall m : Any.Map V,
    NoDup (Map_keys m ++ map (fun x => Any.Str (key x)) l) ->
    fold_left (fun m x => Any.Map_set m (Any.Str (key x)) (val x)) l m
    = m ++ map (fun x => (Any.Str (key x), val x)) l.
Proof.
  induction l as [|x l IH]; intros m H; simpl.
  - now rewrite app_nil_r.
  - simpl in H. apply NoDup_remove in H as [Hnd Hx].
    rewrite Any_Map_set_fresh by (intros Hin; apply Hx; apply in_app_iff; now left).
    rewrite IH.
    + now rewrite <- app_assoc.
    + unfold Map_keys in *. rewrite map_app. simpl. rewrite <- app_assoc. simpl.
      apply NoDup_Add with (a := Any.Str (key x))
                           (l := map fst m ++ map (fun x => Any.Str (key x)) l); [|].
      * apply Add_app.
      * split; [exact Hnd|exact Hx].
Qed.

(** The observations of a series of the provider, entry by entry. *)
Lemma providerSeries_observations (R : Resolved) (index : nat) (indices : list nat)
    (attributes : list (option float)) (currency baseCurrency : string) :
  Forall (fun n => Z.of_nat n < 2 ^ 53) (index :: indices) ->
  optChain (nth_error (index :: indices) (currencyPosition R))
           (identifierAt (currencyVocabulary R)) = Some currency ->
  optChain (nth_error (index :: indices) (denomPosition R))
           (identifierAt (denomVocabulary R)) = Some baseCurrency ->
  forall entries dates,
    Forall (fun entry => Z.of_nat (entryTime entry) < 2 ^ 53) entries ->
    map (fun entry => identifierAt (timeVocabulary R) (entryTime entry)) entries
    = map Some dates ->
    filterMap (crossReference R)
      (seriesPairs (providerSeries index indices attributes entries))
    = map (fun p => ExchangeRateObservation.mk (fst p) currency baseCurrency
                      (entryRate (snd p)))
          (combine dates entries).
Proof.
  intros Hi Hc Hb. unfold seriesPairs, providerSeries. cbn [fst snd SdmxSeries.observations].
  induction entries as [|[[t r] flags] entries IH]; intros dates Ht Hd.
  - now destruct dates.
  - destruct dates as [|d dates]; [discriminate|].
    cbn [map] in Hd. injection Hd as Hd0 Hd.
    inversion Ht as [|? ? Ht0 Ht']; subst.
    cbn [map combine fst snd]. unfold filterMap in *. cbn [flat_map].
    rewrite (IH dates Ht' Hd).
    rewrite crossReference_indices.
    + unfold entryTime, entryRate in *. cbn [fst snd] in *.
      rewrite Hc, Hb, Hd0. reflexivity.
    + constructor; assumption.
Qed.

Lemma combine_map_r {X Y W : Type} (f : Y -> W) (l : list X) (l' : list Y) :
  map (fun p => (fst p, f (snd p))) (combine l l') = combine l (map f l').
Proof.
  revert l'. induction l as [|x l IH]; intros [|y l']; simpl; [reflexivity..|].
  now rewrite IH.
Qed.

Lemma combine_fst {X Y : Type} (l : list X) (l' : list Y) :
  List.length l = List.length l' -> map fst (combine l l') = l.
Proof.
  revert l'. induction l as [|x l IH]; intros [|y l']; simpl; try discriminate;
    [reflexivity|].
  intros [= H]. now rewrite IH.
Qed.

Lemma fold_left_mapped {A B C : Type} (f : A -> B -> A) (g : C -> B) (l : list C)
    (init : A) :
  fold_left f (map g l) init = fold_left (fun a x => f a (g x)) l init.
Proof. revert init. induction l as [|x l IH]; intros init; simpl; auto. Qed.

Lemma NoDup_map_Str (l : list string) : NoDup l -> NoDup (map Any.Str l).
Proof.
  intros H. induction H as [|x l Hx Hl IH]; simpl; constructor; [|exact IH].
  intros Hin. apply in_map_iff in Hin. destruct Hin as [y [[= ->] Hy]]. contradiction.
Qed.

Lemma map_combine {A B C D : Type} (f : A -> C) (g : B -> D) (l : list A)
    (l' : list B) :
  map (fun p => (f (fst p), g (snd p))) (combine l l') = combine (map f l) (map g l').
Proof.
  revert l'. induction l as [|x l IH]; intros [|y l']; simpl; [reflexivity..|].
  now rewrite IH.
Qed.


(* ------------------------------------------------------------------ *)
(** * Further properties of the code *)
(* ------------------------------------------------------------------ *)

(** ** [src/utils/validation.ts] *)

(** X1. [validateQuery] accepts a query exactly when it names at least one
    currency, every currency is a code of three upper-case letters, the
    start date is written YYYY-MM-DD, the end date, when there is one, is
    written YYYY-MM-DD and is not earlier than the start date, and the
    base currency, when there is one, is a code of three upper-case
    letters.  The comparison of the two dates as strings is the
    comparison of their years, months and days. *)
Theorem validateQuery_accepts (query : ExchangeRateQuery) :
  validateQuery query = Ok tt
  <-> ExchangeRateQuery.currencies query <> []
      /\ Forall currencyCode (ExchangeRateQuery.currencies query)
      /\ isoDate (ExchangeRateQuery.startDate query)
      /\ (forall endDate,
             ExchangeRateQuery.endDate query = Some endDate ->
             isoDate endDate /\ ~ earlier endDate (ExchangeRateQuery.startDate query))
      /\ (forall baseCurrency,
             ExchangeRateQuery.baseCurrency query = Some baseCurrency ->
             currencyCode baseCurrency).
Proof.
  split.
  - intros H. destruct (validateQuery_codes query H) as [Hne [Hall Hb]].
    rewrite (validateQuery_currencies query Hne Hall) in H. cbv zeta in H.
    destruct (ISO_DATE_REGEX_test (ExchangeRateQuery.startDate query)) eqn:Hs;
      [|discriminate].
    apply ISO_DATE_REGEX_isoDate in Hs. cbn [negb] in H.
    split; [exact Hne|]. split; [exact Hall|]. split; [exact Hs|].
    split; [|exact Hb].
    intros endDate E. rewrite E in H.
    destruct (ISO_DATE_REGEX_test endDate) eqn:He; [|discriminate].
    apply ISO_DATE_REGEX_isoDate in He. cbn [negb] in H.
    split; [exact He|].
    rewrite <- (ltb_earlier He Hs).
    now destruct (JS.ltb endDate (ExchangeRateQuery.startDate query)).
  - intros [Hne [Hall [Hs [He Hb]]]].
    rewrite (validateQuery_currencies query Hne Hall). cbv zeta.
    apply ISO_DATE_REGEX_isoDate in Hs as Hs'. rewrite Hs'. cbn [negb].
    assert (Hbase : match ExchangeRateQuery.baseCurrency query with
                    | Some baseCurrency =>
                      if negb (CURRENCY_REGEX_test baseCurrency)
                      then Throw (invalidBaseCurrency baseCurrency)
                      else Ok tt
                    | None => Ok tt
                    end = Ok tt).
    { destruct (ExchangeRateQuery.baseCurrency query) as [b|]; [|reflexivity].
      specialize (Hb b eq_refl). apply CURRENCY_REGEX_currencyCode in Hb.
      now rewrite Hb. }
    destruct (ExchangeRateQuery.endDate query) as [endDate|]; [|exact Hbase].
    destruct (He endDate eq_refl) as [Hiso Hord].
    apply ISO_DATE_REGEX_isoDate in Hiso as Hiso'. rewrite Hiso'. cbn [negb].
    destruct (JS.ltb endDate (ExchangeRateQuery.startDate query)) eqn:Hlt.
    + apply (ltb_earlier Hiso Hs) in Hlt. contradiction.
    + exact Hbase.
Qed.

(** The queries of the tests "accepts valid query parameters" and
    "rejects startDate after endDate". *)
Lemma validateQuery_accepts_witness :
  validateQuery
    (ExchangeRateQuery.mk ["USD"; "GBP"] "2025-01-01" (Some "2025-01-31") None None)
  = Ok tt
  /\ earlier "2025-01-10" "2025-01-20"
  /\ validateQuery
       (ExchangeRateQuery.mk ["USD"] "2025-01-20" (Some "2025-01-10") None None)
     <> Ok tt.
Proof.
  split; [|split].
  - apply (proj2 (validateQuery_accepts
                    (ExchangeRateQuery.mk ["USD"; "GBP"] "2025-01-01" (Some "2025-01-31")
                                          None None))).
    split; [discriminate|]. split.
    { repeat constructor; do 3 eexists; (split; [reflexivity|]); cbv; repeat split; discriminate. }
    split.
    { do 8 eexists. split; [reflexivity|]. repeat constructor; cbv; discriminate. }
    split.
    { intros endDate [= <-]. split.
      - do 8 eexists. split; [reflexivity|]. repeat constructor; cbv; discriminate.
      - unfold earlier, year, month, day, numeral. simpl. lia. }
    discriminate.
  - unfold earlier, year, month, day, numeral. simpl. lia.
  - intros H.
    apply (proj1 (validateQuery_accepts
                    (ExchangeRateQuery.mk ["USD"] "2025-01-20" (Some "2025-01-10")
                                          None None))) in H.
    destruct H as [_ [_ [_ [H _]]]]. destruct (H _ eq_refl) as [_ Hord].
    apply Hord. unfold earlier, year, month, day, numeral. simpl. lia.
Defined.

(** X2. The error of [validateQuery] is that of the first test that
    fails, in the order of the code: no currency; the first string of the
    list that is no currency code, whatever follows it and whatever the
    dates are; then the start date; then the form of the end date; then
    the order of the two dates; then the base currency.  Each message
    quotes the offending value. *)
Theorem validateQuery_first_failure (query : ExchangeRateQuery) :
  let startDate := ExchangeRateQuery.startDate query in
  let accepted :=
    ExchangeRateQuery.currencies query <> []
    /\ Forall currencyCode (ExchangeRateQuery.currencies query) in
  (ExchangeRateQuery.currencies query = [] ->
   validateQuery query
   = Throw (EcbValidationError "At least one currency must be specified."))
  /\ (forall pre currency post,
         ExchangeRateQuery.currencies query = pre ++ currency :: post ->
         Forall currencyCode pre -> ~ currencyCode currency ->
         validateQuery query = Throw (invalidCurrency currency))
  /\ (accepted -> ~ isoDate startDate ->
      validateQuery query = Throw (invalidStartDate startDate))
  /\ (forall endDate,
         accepted -> isoDate startDate ->
         ExchangeRateQuery.endDate query = Some endDate ->
         (~ isoDate endDate -> validateQuery query = Throw (invalidEndDate endDate))
         /\ (isoDate endDate -> earlier endDate startDate ->
             validateQuery query = Throw (startAfterEnd startDate endDate)))
  /\ (forall baseCurrency,
         accepted -> isoDate startDate ->
         (forall endDate,
             ExchangeRateQuery.endDate query = Some endDate ->
             isoDate endDate /\ ~ earlier endDate startDate) ->
         ExchangeRateQuery.baseCurrency query = Some baseCurrency ->
         ~ currencyCode baseCurrency ->
         validateQuery query = Throw (invalidBaseCurrency baseCurrency)).
Proof.
  intros startDate accepted. subst startDate accepted.
  split; [|split; [|split; [|split]]].
  - intros E. unfold validateQuery. now rewrite E.
  - intros pre c post E Hpre Hc.
    pose proof (validateCurrencies_first post Hpre Hc) as H.
    unfold validateQuery. rewrite E.
    destruct pre; cbn [app] in *; now rewrite H.
  - intros [Hne Hall] Hs. rewrite (validateQuery_currencies query Hne Hall). cbv zeta.
    apply ISO_DATE_REGEX_not in Hs. now rewrite Hs.
  - intros endDate [Hne Hall] Hs E. rewrite (validateQuery_currencies query Hne Hall).
    cbv zeta. apply ISO_DATE_REGEX_isoDate in Hs as Hs'. rewrite Hs', E. cbn [negb].
    split.
    + intros He. apply ISO_DATE_REGEX_not in He. now rewrite He.
    + intros He Hord. apply (ltb_earlier He Hs) in Hord.
      apply ISO_DATE_REGEX_isoDate in He. now rewrite He, Hord.
  - intros b [Hne Hall] Hs He E Hb. rewrite (validateQuery_currencies query Hne Hall).
    cbv zeta. apply ISO_DATE_REGEX_isoDate in Hs as Hs'. rewrite Hs', E. cbn [negb].
    apply CURRENCY_REGEX_not in Hb. rewrite Hb. cbn [negb].
    destruct (ExchangeRateQuery.endDate query) as [endDate|]; [|reflexivity].
    destruct (He endDate eq_refl) as [Hiso Hord].
    apply ISO_DATE_REGEX_isoDate in Hiso as Hiso'. rewrite Hiso'. cbn [negb].
    destruct (JS.ltb endDate (ExchangeRateQuery.startDate query)) eqn:Hlt; [|reflexivity].
    apply (ltb_earlier Hiso Hs) in Hlt. contradiction.
Qed.

(** A query with two faults: the second currency is in lower case and the
    start date is no date.  The currency is reported. *)
Lemma validateQuery_first_failure_witness :
  validateQuery (ExchangeRateQuery.mk ["USD"; "gbp"; "x"] "01-15-2025" None None None)
  = Throw (invalidCurrency "gbp").
Proof.
  apply (proj1 (proj2 (validateQuery_first_failure
                         (ExchangeRateQuery.mk ["USD"; "gbp"; "x"] "01-15-2025"
                                               None None None)))
           ["USD"] "gbp" ["x"] eq_refl).
  - repeat constructor. do 3 eexists. split; [reflexivity|]. cbv. repeat split; discriminate.
  - intros [a [b [c [E [_ [_ Hc]]]]]]. injection E as <- <- <-.
    unfold upperCase in Hc. simpl in Hc. lia.
Defined.

(** ** [src/utils/url-builder.ts] *)

(** X3. For a query that [validateQuery] accepts, [buildExchangeRateUrl]
    gives the URL class the address [baseUrl/data/EXR/key] and the
    parameter startPeriod, followed by endPeriod exactly when the query
    has an end date, and returns what the URL class prints.  The key has
    exactly the five dot-separated parts of an EXR series key: the
    frequency (D when the query states none), the currencies joined by
    "+", the base currency (EUR when the query states none), SP00 and A;
    splitting the second part at "+" gives back the currencies of the
    query. *)
Theorem buildExchangeRateUrl_series_key
    (URL_toString : string -> list (string * string) -> option string)
    (query : ExchangeRateQuery) (baseUrl : string) :
  validateQuery query = Ok tt ->
  let frequency :=
    Frequency.toString (nullish (ExchangeRateQuery.frequency query) Frequency.D) in
  let currencyKey := JS.join "+" (ExchangeRateQuery.currencies query) in
  let baseCurrency := nullish (ExchangeRateQuery.baseCurrency query) "EUR" in
  let key :=
    (frequency ++ "." ++ currencyKey ++ "." ++ baseCurrency ++ ".SP00.A")%string in
  buildExchangeRateUrl URL_toString query baseUrl
  = match URL_toString (baseUrl ++ "/data/EXR/" ++ key)%string
            (("startPeriod", ExchangeRateQuery.startDate query)
             :: match ExchangeRateQuery.endDate query with
                | Some endDate => [("endPeriod", endDate)]
                | None => []
                end) with
    | Some url => Ok url
    | None => Throw (RuntimeError "TypeError" "Invalid URL")
    end
  /\ JS.split "." key = [frequency; currencyKey; baseCurrency; "SP00"; "A"]
  /\ JS.split "+" currencyKey = ExchangeRateQuery.currencies query.
Proof.
  intros H frequency currencyKey baseCurrency key.
  subst frequency currencyKey baseCurrency key.
  apply validateQuery_codes in H. destruct H as [Hne [Hall Hb]].
  assert (Hf : nullish (option_map Frequency.toString (ExchangeRateQuery.frequency query)) "D"
               = Frequency.toString (nullish (ExchangeRateQuery.frequency query) Frequency.D))
    by now destruct (ExchangeRateQuery.frequency query).
  split; [|split].
  - unfold buildExchangeRateUrl. now rewrite Hf.
  - cbn [String.append].
    rewrite !split_app_separator; [reflexivity| | |].
    + destruct (ExchangeRateQuery.baseCurrency query) as [b|] eqn:E; simpl.
      * apply currencyCode_no_separator; [simpl; lia|]. now apply Hb.
      * intros [H|[H|[H|[]]]]; discriminate.
    + intros Hin. apply join_characters in Hin. destruct Hin as [Hin|[s [Hs Hin]]].
      * simpl in Hin. destruct Hin as [Hin|[]]. discriminate.
      * rewrite Forall_forall in Hall.
        revert Hin. apply currencyCode_no_separator; [simpl; lia|]. now apply Hall.
    + apply Frequency_no_dot.
  - destruct (ExchangeRateQuery.currencies query) as [|c l]; [contradiction|].
    apply (@split_join "+"%char). apply Forall_forall. intros s Hs.
    rewrite Forall_forall in Hall.
    apply currencyCode_no_separator; [simpl; lia|]. now apply Hall.
Qed.

(** The query of the test "builds correct URL for multiple currencies with
    custom frequency". *)
Lemma buildExchangeRateUrl_series_key_witness :
  buildExchangeRateUrl test_URL_toString
    (ExchangeRateQuery.mk ["USD"; "GBP"; "JPY"] "2025-01-01" None
                          (Some Frequency.M) None)
    DEFAULT_BASE_URL
  = Ok ("https://data-api.ecb.europa.eu/service/data/EXR/M.USD+GBP+JPY.EUR.SP00.A"
        ++ "?startPeriod=2025-01-01")%string
  /\ JS.split "." "M.USD+GBP+JPY.EUR.SP00.A" = ["M"; "USD+GBP+JPY"; "EUR"; "SP00"; "A"]
  /\ JS.split "+" "USD+GBP+JPY" = ["USD"; "GBP"; "JPY"].
Proof.
  exact (@buildExchangeRateUrl_series_key test_URL_toString
           (ExchangeRateQuery.mk ["USD"; "GBP"; "JPY"] "2025-01-01" None
                                 (Some Frequency.M) None)
           DEFAULT_BASE_URL eq_refl).
Defined.

(** X4. The rates of a single-currency result ([getSingleCurrencyRates],
    behind [getRate] and [getRateHistory]): the map has one entry for each
    date of the decoded observations and no other, the dates standing in
    the order in which the observations first show them; under a date it
    holds the rate of the last decoded observation with that date,
    whatever the currency of that observation is, so that, when no two
    observations have the same date, the rate of each is found under its
    date; and the currency of the result is the first currency of the
    query.  Two dates are the same when they are the same key of a [Map];
    for observations of the declared type, whose dates are strings, that
    is when they are equal. *)
Theorem getSingleCurrencyRates_rates
    (Number_toString : float -> string)
    (JSON_parse : string -> Any.t + string)
    (URL_toString : string -> list (string * string) -> option string)
    (this : EcbClient) (query : ExchangeRateQuery) (result : ExchangeRateResult) :
  getSingleCurrencyRates Number_toString JSON_parse URL_toString this query = Ok result ->
  exists observations,
    fetchAndParse Number_toString JSON_parse URL_toString this (resolveQuery this query)
    = Ok observations
    /\ (forall date,
           Any.Map_get (ExchangeRateResult.rates result) date
           = option_map Unchecked.ExchangeRateObservation.rate (lastOn date observations))
    /\ (distinctKeys (map Unchecked.ExchangeRateObservation.date observations) ->
        forall o,
          In o observations ->
          Any.Map_get (ExchangeRateResult.rates result)
                      (Unchecked.ExchangeRateObservation.date o)
          = Some (Unchecked.ExchangeRateObservation.rate o))
    /\ Map_keys (ExchangeRateResult.rates result)
       = distinct (map Unchecked.ExchangeRateObservation.date observations)
    /\ (forall date,
           In date (Map_keys (ExchangeRateResult.rates result)) ->
           In date (map Unchecked.ExchangeRateObservation.date observations))
    /\ (forall date,
           In date (map Unchecked.ExchangeRateObservation.date observations) ->
           exists key,
             In key (Map_keys (ExchangeRateResult.rates result))
             /\ Any.SameValueZero key date = true)
    /\ distinctKeys (Map_keys (ExchangeRateResult.rates result))
    /\ (Forall declared observations ->
        NoDup (Map_keys (ExchangeRateResult.rates result))
        /\ (forall date,
               In date (Map_keys (ExchangeRateResult.rates result))
               <-> In date (map Unchecked.ExchangeRateObservation.date observations))
        /\ (NoDup (map Unchecked.ExchangeRateObservation.date observations) ->
            forall o,
              In o observations ->
              Any.Map_get (ExchangeRateResult.rates result)
                          (Unchecked.ExchangeRateObservation.date o)
              = Some (Unchecked.ExchangeRateObservation.rate o)))
    /\ hd_error (ExchangeRateQuery.currencies query)
       = Some (ExchangeRateResult.currency result).
Proof.
  unfold getSingleCurrencyRates.
  destruct (validateQuery (resolveQuery this query)) as [[]|] eqn:Hv; [|discriminate].
  cbn [bind].
  destruct (fetchAndParse Number_toString JSON_parse URL_toString this
              (resolveQuery this query)) as [observations|] eqn:Hf; [|discriminate].
  cbn [bind].
  pose proof (fetchAndParse_tested _ _ _ _ _ Hf) as Ht.
  intros [= <-]. exists observations.
  cbn [ExchangeRateResult.rates ExchangeRateResult.currency].
  assert (Hget : forall date,
             Any.Map_get
               (fold_left
                  (fun rates obs =>
                     Any.Map_set rates (Unchecked.ExchangeRateObservation.date obs)
                                 (Unchecked.ExchangeRateObservation.rate obs))
                  observations []) date
             = option_map Unchecked.ExchangeRateObservation.rate
                          (lastOn date observations)).
  { intros date. rewrite rates_get. now destruct (lastOn date observations). }
  assert (Hfound : distinctKeys (map Unchecked.ExchangeRateObservation.date observations) ->
                   forall o,
                     In o observations ->
                     Any.Map_get
                       (fold_left
                          (fun rates obs =>
                             Any.Map_set rates (Unchecked.ExchangeRateObservation.date obs)
                                         (Unchecked.ExchangeRateObservation.rate obs))
                          observations [])
                       (Unchecked.ExchangeRateObservation.date o)
                     = Some (Unchecked.ExchangeRateObservation.rate o)).
  { intros Hd o Ho. rewrite Hget. unfold lastOn.
    rewrite (@find_the_one _ _ (rev observations) o); [reflexivity| | |].
    - now apply in_rev in Ho.
    - apply SameValueZero_refl.
    - intros x Hx E. apply in_rev in Hx.
      exact (@distinctKeys_one _ Unchecked.ExchangeRateObservation.date
               observations x o Hd Hx Ho E). }
  split; [reflexivity|]. split; [exact Hget|]. split; [exact Hfound|].
  rewrite (rates_order Ht).
  split; [reflexivity|]. split; [intros date; apply distinct_In|].
  split; [intros date; apply distinct_covers|].
  split; [apply distinct_distinctKeys|]. split.
  - intros Hdecl. pose proof (declared_dates Hdecl) as Hs. split; [|split].
    + apply distinctKeys_NoDup; [now apply distinct_Str|apply distinct_distinctKeys].
    + intros date. now apply distinct_In_Str.
    + intros Hnd. apply Hfound. now apply NoDup_distinctKeys.
  - apply validateQuery_codes in Hv. destruct Hv as [Hne _].
    assert (E : ExchangeRateQuery.currencies (resolveQuery this query)
                = ExchangeRateQuery.currencies query).
    { unfold resolveQuery. now destruct (ExchangeRateQuery.baseCurrency query). }
    rewrite E in *.
    now destruct (ExchangeRateQuery.currencies query).
Qed.

(** A rate lookup answered with the two-currency response: the rates
    under the two dates are those of the second series, GBP, though USD
    was asked for. *)
Lemma getSingleCurrencyRates_rates_witness :
  exists result,
    getRate test_Number_toString test_JSON_parse test_URL_toString
            (testClient "MULTI_CURRENCY_RESPONSE") "USD" "2025-01-15"
    = Ok result
    /\ Any.Map_get (ExchangeRateResult.rates result) (Any.Str "2025-01-15")
       = Some (Any.Number 0.8442)
    /\ Any.Map_get (ExchangeRateResult.rates result) (Any.Str "2025-01-16")
       = Some (Any.Number 0.8451)
    /\ ExchangeRateResult.currency result = "USD".
Proof.
  eexists. split; [reflexivity|].
  destruct (@getSingleCurrencyRates_rates test_Number_toString test_JSON_parse
              test_URL_toString
              (testClient "MULTI_CURRENCY_RESPONSE")
              (ExchangeRateQuery.mk ["USD"] "2025-01-15" (Some "2025-01-15") None None)
              _ eq_refl)
    as [observations [Hf [Hget [_ [_ [_ [_ [_ [_ Hc]]]]]]]]].
  injection Hf as <-.
  split; [apply Hget|]. split; [apply Hget|reflexivity].
Defined.

(** X5. The rates of a multi-currency result
    ([transformToMultiCurrencyResult], behind [getRates]): the map has one
    entry for each date of the observations and no other, the dates
    standing in the order in which the observations first show them; the
    record under a date holds, as the own property named by a currency,
    the rate of the last observation with that date and that currency,
    and no property for a currency without observation on that date; so,
    when no two observations have the same date and currency, the rate of
    each is found under its date and its currency.  The property name
    "__proto__" is set apart: an assignment to it on an object literal
    writes no own property.  The result is built when every currency
    converts to a property name, as every string does.  Two dates are the
    same when they are the same key of a [Map], and a date is stored as
    the key it is: for observations of the declared type, whose dates are
    strings, the same dates are the equal ones and a date is its key. *)
Theorem transformToMultiCurrencyResult_rates
    (Number_toString : float -> string)
    (this : EcbClient) (observations : list Unchecked.ExchangeRateObservation)
    (query : ExchangeRateQuery) :
  ((forall o, In o observations ->
              exists name,
                Any.ToPropertyKey Number_toString
                  (Unchecked.ExchangeRateObservation.currency o) = Ok name) ->
   exists result,
     transformToMultiCurrencyResult Number_toString this observations query = Ok result)
  /\ (Forall declared observations ->
      exists result,
        transformToMultiCurrencyResult Number_toString this observations query
        = Ok result)
  /\ forall result,
       transformToMultiCurrencyResult Number_toString this observations query
       = Ok result ->
       (forall date currency,
           currency <> "__proto__" ->
           rateAt (ExchangeRatesResult.rates result) date currency
           = option_map Unchecked.ExchangeRateObservation.rate
                        (lastOf Number_toString date currency observations))
       /\ (forall o currency,
              In o observations ->
              Any.ToPropertyKey Number_toString
                (Unchecked.ExchangeRateObservation.currency o) = Ok currency ->
              currency <> "__proto__" ->
              (forall x,
                  In x observations ->
                  Any.SameValueZero (Unchecked.ExchangeRateObservation.date x)
                                    (Unchecked.ExchangeRateObservation.date o) = true ->
                  Any.ToPropertyKey Number_toString
                    (Unchecked.ExchangeRateObservation.currency x) = Ok currency ->
                  x = o) ->
              rateAt (ExchangeRatesResult.rates result)
                     (Unchecked.ExchangeRateObservation.date o) currency
              = Some (Unchecked.ExchangeRateObservation.rate o))
       /\ Map_keys (ExchangeRatesResult.rates result)
          = distinct (map (fun o => Any.Map_key (Unchecked.ExchangeRateObservation.date o))
                          observations)
       /\ distinctKeys (Map_keys (ExchangeRatesResult.rates result))
       /\ (Forall declared observations ->
           Map_keys (ExchangeRatesResult.rates result)
           = distinct (map Unchecked.ExchangeRateObservation.date observations)
           /\ (forall date,
                  In date (Map_keys (ExchangeRatesResult.rates result))
                  <-> In date (map Unchecked.ExchangeRateObservation.date observations))
           /\ NoDup (Map_keys (ExchangeRatesResult.rates result))
           /\ (NoDup (map (fun o => (Unchecked.ExchangeRateObservation.date o,
                                     Unchecked.ExchangeRateObservation.currency o))
                          observations) ->
               forall o currency,
                 In o observations ->
                 Unchecked.ExchangeRateObservation.currency o = Any.Str currency ->
                 currency <> "__proto__" ->
                 rateAt (ExchangeRatesResult.rates result)
                        (Unchecked.ExchangeRateObservation.date o) currency
                 = Some (Unchecked.ExchangeRateObservation.rate o)))
       /\ (Forall tested observations ->
           Map_keys (ExchangeRatesResult.rates result)
           = distinct (map Unchecked.ExchangeRateObservation.date observations))
       /\ ExchangeRatesResult.currencies result = ExchangeRateQuery.currencies query.
Proof.
  assert (Hbuilt : (forall o, In o observations ->
                      exists name,
                        Any.ToPropertyKey Number_toString
                          (Unchecked.ExchangeRateObservation.currency o) = Ok name) ->
                   exists result,
                     transformToMultiCurrencyResult Number_toString this observations query
                     = Ok result).
  { intros H. unfold transformToMultiCurrencyResult.
    destruct (@dateRates_Ok Number_toString observations [])
      as [rates Hr]; [now apply Forall_forall|].
    rewrite Hr. cbn [bind]. eexists. reflexivity. }
  split; [exact Hbuilt|]. split.
  { intros Hd. apply Hbuilt. intros o Ho. rewrite Forall_forall in Hd.
    destruct (declared_currency Number_toString (Hd o Ho)) as [name [_ H]]. eauto. }
  intros result. unfold transformToMultiCurrencyResult.
  destruct (forOf (groupRate Number_toString) observations []) as [rates|] eqn:Hr;
    [|discriminate].
  cbn [bind]. intros [= <-].
  cbn [ExchangeRatesResult.rates ExchangeRatesResult.currencies].
  assert (Hget : forall date currency,
             currency <> "__proto__" ->
             rateAt rates date currency
             = option_map Unchecked.ExchangeRateObservation.rate
                          (lastOf Number_toString date currency observations)).
  { intros date currency Hc. rewrite (@dateRates_get _ _ _ _ date currency Hc Hr).
    now destruct (lastOf Number_toString date currency observations). }
  assert (Hfound : forall o currency,
             In o observations ->
             Any.ToPropertyKey Number_toString
               (Unchecked.ExchangeRateObservation.currency o) = Ok currency ->
             currency <> "__proto__" ->
             (forall x,
                 In x observations ->
                 Any.SameValueZero (Unchecked.ExchangeRateObservation.date x)
                                   (Unchecked.ExchangeRateObservation.date o) = true ->
                 Any.ToPropertyKey Number_toString
                   (Unchecked.ExchangeRateObservation.currency x) = Ok currency ->
                 x = o) ->
             rateAt rates (Unchecked.ExchangeRateObservation.date o) currency
             = Some (Unchecked.ExchangeRateObservation.rate o)).
  { intros o currency Ho Hk Hc Hone. rewrite (Hget _ _ Hc). unfold lastOf.
    rewrite (@find_the_one _ _ (rev observations) o); [reflexivity| | |].
    - now apply in_rev in Ho.
    - unfold named_by. now rewrite SameValueZero_refl, Hk, String.eqb_refl.
    - intros x Hx E. apply in_rev in Hx. apply andb_true_iff in E.
      destruct E as [Ed Ec]. apply (Hone x Hx Ed).
      unfold named_by in Ec.
      destruct (Any.ToPropertyKey Number_toString
                  (Unchecked.ExchangeRateObservation.currency x)) as [k|];
        [|discriminate].
      apply String.eqb_eq in Ec. now subst k. }
  pose proof (@dateRates_keys_order _ _ _ Hr) as Hkeys.
  split; [exact Hget|]. split; [exact Hfound|]. split; [exact Hkeys|].
  split; [rewrite Hkeys; apply distinct_distinctKeys|].
  split; [|split; [|reflexivity]].
  - intros Hd.
    assert (E : map (fun o => Any.Map_key (Unchecked.ExchangeRateObservation.date o))
                    observations
                = map Unchecked.ExchangeRateObservation.date observations).
    { apply map_ext_in. intros o Ho. rewrite Forall_forall in Hd.
      now apply declared_key, Hd. }
    rewrite E in Hkeys. pose proof (declared_dates Hd) as Hs.
    split; [exact Hkeys|]. rewrite Hkeys. split; [|split].
    + intros date. now apply distinct_In_Str.
    + apply distinctKeys_NoDup; [now apply distinct_Str|apply distinct_distinctKeys].
    + intros Hnd o currency Ho Hc Hp. apply (Hfound o currency Ho); [now rewrite Hc|exact Hp|].
      intros x Hx Ed Ec.
      apply (@NoDup_map_one _ _
               (fun o => (Unchecked.ExchangeRateObservation.date o,
                          Unchecked.ExchangeRateObservation.currency o))
               observations x o Hnd Hx Ho).
      cbv beta. rewrite Forall_forall in Hd.
      destruct (Hd x Hx) as [x' ->]. destruct (Hd o Ho) as [o' ->].
      cbn [unchecked Unchecked.ExchangeRateObservation.date
           Unchecked.ExchangeRateObservation.currency] in *.
      apply SameValueZero_Str in Ed. injection Ed as Ed.
      injection Ec as Ec. injection Hc as Hc. now rewrite Ed, Ec, Hc.
  - intros Ht. rewrite Hkeys. f_equal. apply map_ext_in. intros o Ho.
    rewrite Forall_forall in Ht. now apply tested_key, Ht.
Qed.

(** The test "groups observations by date in multi-currency result". *)
Lemma transformToMultiCurrencyResult_rates_witness :
  exists result,
    getRates test_Number_toString test_JSON_parse test_URL_toString
      (testClient "MULTI_CURRENCY_RESPONSE")
      (ExchangeRateQuery.mk ["USD"; "GBP"] "2025-01-15" (Some "2025-01-16") None None)
    = Ok result
    /\ rateAt (ExchangeRatesResult.rates result) (Any.Str "2025-01-16") "USD"
       = Some (Any.Number 1.0303)
    /\ rateAt (ExchangeRatesResult.rates result) (Any.Str "2025-01-16") "GBP"
       = Some (Any.Number 0.8451)
    /\ rateAt (ExchangeRatesResult.rates result) (Any.Str "2025-01-16") "JPY" = None
    /\ Map_keys (ExchangeRatesResult.rates result)
       = [Any.Str "2025-01-15"; Any.Str "2025-01-16"].
Proof.
  eexists. split; [reflexivity|].
  match goal with
  | |- context [ExchangeRatesResult.rates ?r] =>
    destruct (proj2 (proj2 (transformToMultiCurrencyResult_rates
                              test_Number_toString
                              (testClient "MULTI_CURRENCY_RESPONSE")
                              (map unchecked
                                 [ExchangeRateObservation.mk "2025-01-15" "USD" "EUR" 1.03;
                                  ExchangeRateObservation.mk "2025-01-16" "USD" "EUR" 1.0303;
                                  ExchangeRateObservation.mk "2025-01-15" "GBP" "EUR" 0.8442;
                                  ExchangeRateObservation.mk "2025-01-16" "GBP" "EUR" 0.8451])
                              (resolveQuery (testClient "MULTI_CURRENCY_RESPONSE")
                                 (ExchangeRateQuery.mk ["USD"; "GBP"] "2025-01-15"
                                    (Some "2025-01-16") None None))))
                r eq_refl) as [Hget [_ [Hkeys _]]]
  end.
  split; [|split; [|split]];
    [rewrite Hget; [reflexivity|discriminate]..|].
  rewrite Hkeys. reflexivity.
Defined.

(** X6. Validation comes before the request.  When the query, completed
    with the base currency of the client, fails [validateQuery], each of
    [getObservations], [getRates] and [getSingleCurrencyRates] (so
    [getRate] and [getRateHistory]) throws that [EcbValidationError],
    whatever the base URL, the fetcher, the URL class and [JSON.parse]
    are: nothing of them is consulted. *)
Theorem validation_precedes_the_request
    (this : EcbClient) (query : ExchangeRateQuery) (e : Exception) :
  validateQuery (resolveQuery this query) = Throw e ->
  (exists message, e = EcbValidationError message)
  /\ forall Number_toString JSON_parse URL_toString baseUrl fetcher,
       let client := EcbClient.mk baseUrl (EcbClient.baseCurrency this) fetcher in
       getObservations Number_toString JSON_parse URL_toString client query = Throw e
       /\ getRates Number_toString JSON_parse URL_toString client query = Throw e
       /\ getSingleCurrencyRates Number_toString JSON_parse URL_toString client query = Throw e.
Proof.
  intros H. split; [now apply validateQuery_throws in H|].
  intros Number_toString JSON_parse URL_toString baseUrl fetcher client.
  assert (E : resolveQuery client query = resolveQuery this query) by reflexivity.
  unfold getObservations, getRates, getSingleCurrencyRates.
  rewrite E, H. auto.
Qed.

(** The test "rejects empty currencies in getRates", with a fetcher that
    would fail. *)
Lemma validation_precedes_the_request_witness :
  getRates test_Number_toString test_JSON_parse test_URL_toString
    (EcbClient.mk "no URL" "EUR" (fun _ => Throw (RuntimeError "Error" "not reached")))
    (ExchangeRateQuery.mk [] "2025-01-15" None None None)
  = Throw (EcbValidationError "At least one currency must be specified.").
Proof.
  apply (proj2 (@validation_precedes_the_request
                  (testClient "MULTI_CURRENCY_RESPONSE")
                  (ExchangeRateQuery.mk [] "2025-01-15" None None None)
                  _ eq_refl)
           test_Number_toString test_JSON_parse test_URL_toString "no URL"
           (fun _ => Throw (RuntimeError "Error" "not reached"))).
Defined.

(** X7. What [getRate(currency, date)] validates.  A currency that is no
    code of three upper-case letters is reported first; then a date that
    is not written YYYY-MM-DD; then a base currency of the client that is
    no code: the constructor accepts any string, and the fault shows at
    the first lookup.  Otherwise the query passes: its start and end are
    the same date, so the test of their order cannot fail. *)
Theorem getRate_validation
    (Number_toString : float -> string)
    (JSON_parse : string -> Any.t + string)
    (URL_toString : string -> list (string * string) -> option string)
    (this : EcbClient) (currency date : string) :
  (~ currencyCode currency ->
   getRate Number_toString JSON_parse URL_toString this currency date = Throw (invalidCurrency currency))
  /\ (currencyCode currency -> ~ isoDate date ->
      getRate Number_toString JSON_parse URL_toString this currency date = Throw (invalidStartDate date))
  /\ (currencyCode currency -> isoDate date ->
      ~ currencyCode (EcbClient.baseCurrency this) ->
      getRate Number_toString JSON_parse URL_toString this currency date
      = Throw (invalidBaseCurrency (EcbClient.baseCurrency this)))
  /\ (currencyCode currency -> isoDate date ->
      currencyCode (EcbClient.baseCurrency this) ->
      validateQuery (rateQuery this currency date) = Ok tt).
Proof.
  unfold rateQuery, getRate, getSingleCurrencyRates, resolveQuery, validateQuery.
  cbn [ExchangeRateQuery.baseCurrency ExchangeRateQuery.currencies
       ExchangeRateQuery.startDate ExchangeRateQuery.endDate validateCurrencies].
  rewrite ltb_irrefl.
  destruct (CURRENCY_REGEX_test currency) eqn:Ec;
    [apply CURRENCY_REGEX_currencyCode in Ec|apply CURRENCY_REGEX_not in Ec];
    (destruct (ISO_DATE_REGEX_test date) eqn:Ed;
     [apply ISO_DATE_REGEX_isoDate in Ed|apply ISO_DATE_REGEX_not in Ed]);
    (destruct (CURRENCY_REGEX_test (EcbClient.baseCurrency this)) eqn:Eb;
     [apply CURRENCY_REGEX_currencyCode in Eb|apply CURRENCY_REGEX_not in Eb]);
    cbn [negb bind];
    repeat split; intros; try contradiction; reflexivity.
Qed.

(** The test "rejects invalid currency code in getRate", and a client
    configured with the base currency "euro". *)
Lemma getRate_validation_witness :
  getRate test_Number_toString test_JSON_parse test_URL_toString (testClient "SINGLE_CURRENCY_RESPONSE")
          "invalid" "2025-01-15"
  = Throw (invalidCurrency "invalid")
  /\ getRate test_Number_toString test_JSON_parse test_URL_toString
       (withFetcher (MockFetcher "SINGLE_CURRENCY_RESPONSE")
                    (EcbClientConfig.mk None None (Some "euro")))
       "USD" "2025-01-15"
     = Throw (invalidBaseCurrency "euro").
Proof.
  split.
  - apply (proj1 (getRate_validation test_Number_toString test_JSON_parse test_URL_toString
                    (testClient "SINGLE_CURRENCY_RESPONSE") "invalid" "2025-01-15")).
    intros [a [b [c [E _]]]]. discriminate E.
  - apply (proj1 (proj2 (proj2 (getRate_validation test_Number_toString test_JSON_parse test_URL_toString
                    (withFetcher (MockFetcher "SINGLE_CURRENCY_RESPONSE")
                                 (EcbClientConfig.mk None None (Some "euro")))
                    "USD" "2025-01-15")))).
    + do 3 eexists. split; [reflexivity|]. cbv. repeat split; discriminate.
    + do 8 eexists. split; [reflexivity|]. repeat constructor; cbv; discriminate.
    + intros [a [b [c [E _]]]]. discriminate E.
Defined.

(** X8. The query methods are one pipeline.  [getRates] and
    [getSingleCurrencyRates] (so [getRate] and [getRateHistory]) fail when
    [getObservations] fails on the same query, with the same error, and
    [getSingleCurrencyRates] fails only then.  When [getObservations]
    returns observations, there is at least one, each has passed the
    tests of the decoder, [getRates] does what
    [transformToMultiCurrencyResult] does with them, which is to return
    their grouping when every currency converts to a property name, as
    every string does, and [getSingleCurrencyRates] returns a result with
    the rate of the first of them under its date. *)
Theorem query_methods_share_the_pipeline
    (Number_toString : float -> string)
    (JSON_parse : string -> Any.t + string)
    (URL_toString : string -> list (string * string) -> option string)
    (this : EcbClient) (query : ExchangeRateQuery) :
  match getObservations Number_toString JSON_parse URL_toString this query with
  | Ok observations =>
    observations <> []
    /\ Forall tested observations
    /\ getRates Number_toString JSON_parse URL_toString this query
       = transformToMultiCurrencyResult Number_toString this observations
                                        (resolveQuery this query)
    /\ (Forall declared observations ->
        exists result,
          getRates Number_toString JSON_parse URL_toString this query = Ok result)
    /\ (forall e,
           getRates Number_toString JSON_parse URL_toString this query = Throw e ->
           exists o,
             In o observations
             /\ Any.ToPropertyKey Number_toString
                  (Unchecked.ExchangeRateObservation.currency o) = Throw e
             /\ errorName e = "TypeError")
    /\ exists result,
         getSingleCurrencyRates Number_toString JSON_parse URL_toString this query
         = Ok result
         /\ forall first, hd_error observations = Some first ->
              Any.Map_get (ExchangeRateResult.rates result)
                          (Unchecked.ExchangeRateObservation.date first)
              <> None
  | Throw e =>
    getRates Number_toString JSON_parse URL_toString this query = Throw e
    /\ getSingleCurrencyRates Number_toString JSON_parse URL_toString this query
       = Throw e
  end.
Proof.
  unfold getObservations, getRates, getSingleCurrencyRates.
  destruct (validateQuery (resolveQuery this query)) as [[]|e]; cbn [bind]; [|auto].
  destruct (fetchAndParse Number_toString JSON_parse URL_toString this
              (resolveQuery this query)) as [observations|e] eqn:Hf; cbn [bind]; [|auto].
  split; [exact (fetchAndParse_nonempty _ _ _ _ _ Hf)|].
  split; [exact (fetchAndParse_tested _ _ _ _ _ Hf)|].
  split; [reflexivity|]. split; [|split].
  - intros Hd. unfold transformToMultiCurrencyResult.
    destruct (@dateRates_Ok Number_toString observations []) as [rates Hr].
    + apply Forall_forall. intros o Ho. rewrite Forall_forall in Hd.
      destruct (declared_currency Number_toString (Hd o Ho)) as [name [_ H]]. eauto.
    + rewrite Hr. cbn [bind]. eexists. reflexivity.
  - intros e. unfold transformToMultiCurrencyResult.
    destruct (forOf (groupRate Number_toString) observations []) as [rates|e'] eqn:Hr;
      cbn [bind]; [discriminate|].
    intros [= <-]. apply dateRates_throws in Hr. destruct Hr as [o [Ho He]].
    exists o. split; [exact Ho|]. split; [exact He|].
    now apply ToString_throws in He.
  - eexists. split; [reflexivity|].
    intros first Hfirst. cbn [ExchangeRateResult.rates].
    apply Any_Map_get_keys.
    exists (Unchecked.ExchangeRateObservation.date first).
    split; [|apply SameValueZero_refl].
    rewrite (rates_order (fetchAndParse_tested _ _ _ _ _ Hf)).
    destruct observations as [|o l]; [discriminate|].
    injection Hfirst as <-. now left.
Qed.

(** The test "returns raw observations": the three methods on the
    single-currency response.  And a response in which the identifier of
    a currency is an object with a property "toString": [getObservations]
    returns two observations and [getRates] throws a [TypeError]. *)
Lemma query_methods_share_the_pipeline_witness :
  (exists observations,
      getObservations test_Number_toString (fun _ => inl ODD_IDENTIFIERS_VALUE)
        test_URL_toString (testClient "ODD_IDENTIFIERS_VALUE")
        (ExchangeRateQuery.mk ["USD"] "2025-01-15" None None None)
      = Ok observations
      /\ List.length observations = 2%nat)
  /\ getRates test_Number_toString (fun _ => inl ODD_IDENTIFIERS_VALUE)
       test_URL_toString (testClient "ODD_IDENTIFIERS_VALUE")
       (ExchangeRateQuery.mk ["USD"] "2025-01-15" None None None)
     = Throw (TypeError "Cannot convert object to primitive value")
  /\ exists observations result,
    getObservations test_Number_toString test_JSON_parse test_URL_toString
      (testClient "SINGLE_CURRENCY_RESPONSE")
      (ExchangeRateQuery.mk ["USD"] "2025-01-15" (Some "2025-01-16") None None)
    = Ok observations
    /\ List.length observations = 2%nat
    /\ getRates test_Number_toString test_JSON_parse test_URL_toString
         (testClient "SINGLE_CURRENCY_RESPONSE")
         (ExchangeRateQuery.mk ["USD"] "2025-01-15" (Some "2025-01-16") None None)
       = Ok result
    /\ rateAt (ExchangeRatesResult.rates result) (Any.Str "2025-01-15") "USD"
       = Some (Any.Number 1.03).
Proof.
  split; [eexists; split; reflexivity|]. split; [reflexivity|].
  pose proof (query_methods_share_the_pipeline test_Number_toString test_JSON_parse
                test_URL_toString
                (testClient "SINGLE_CURRENCY_RESPONSE")
                (ExchangeRateQuery.mk ["USD"] "2025-01-15" (Some "2025-01-16") None None))
    as H.
  destruct (getObservations test_Number_toString test_JSON_parse test_URL_toString
              (testClient "SINGLE_CURRENCY_RESPONSE")
              (ExchangeRateQuery.mk ["USD"] "2025-01-15" (Some "2025-01-16") None None))
    as [observations|e] eqn:Hobs; [|discriminate Hobs].
  destruct H as [_ [_ [Hrates _]]].
  exists observations. eexists. split; [reflexivity|].
  injection Hobs as <-.
  split; [reflexivity|]. split; [rewrite Hrates; reflexivity|reflexivity].
Defined.

(** X9. Where an error of [getObservations] comes from, stage by stage:
    the validation ([EcbValidationError]); the URL class (its
    [TypeError]); the fetcher (whatever it throws, as it is); [JSON.parse]
    ([EcbParseError] with the [SyntaxError] as its cause); the decoder
    (an [EcbParseError], or a [TypeError] of the runtime, which it throws
    only on a value that has not the shape that [SdmxJsonResponse]
    declares, since the value that [JSON.parse] returned is cast and not
    checked); or a decoded list that is empty ([EcbNoDataError] with the
    currencies and the dates of the query).  There is no other error. *)
Theorem getObservations_errors
    (Number_toString : float -> string)
    (JSON_parse : string -> Any.t + string)
    (URL_toString : string -> list (string * string) -> option string)
    (this : EcbClient) (query : ExchangeRateQuery) (e : Exception) :
  getObservations Number_toString JSON_parse URL_toString this query = Throw e ->
  (validateQuery (resolveQuery this query) = Throw e
   /\ exists message, e = EcbValidationError message)
  \/ (validateQuery (resolveQuery this query) = Ok tt
      /\ ((buildExchangeRateUrl URL_toString (resolveQuery this query)
                                (EcbClient.baseUrl this) = Throw e
           /\ e = RuntimeError "TypeError" "Invalid URL")
          \/ exists url,
               buildExchangeRateUrl URL_toString (resolveQuery this query)
                                    (EcbClient.baseUrl this) = Ok url
               /\ (EcbClient.fetcher this url = Throw e
                   \/ exists raw,
                        EcbClient.fetcher this url = Ok raw
                        /\ ((exists message,
                                JSON_parse raw = inr message
                                /\ e = EcbParseError
                                         "Failed to parse ECB JSON response."
                                         (Some ("SyntaxError", message)))
                            \/ exists json,
                                 JSON_parse raw = inl json
                                 /\ ((Unchecked.parseJsonResponse Number_toString json
                                      = Throw e
                                      /\ (instanceof_EcbParseError e = true
                                          \/ (errorName e = "TypeError"
                                              /\ asSdmxJsonResponse json = None))
                                      /\ forall data,
                                           asSdmxJsonResponse json = Some data ->
                                           parseJsonResponse data = Throw e
                                           /\ instanceof_EcbParseError e = true)
                                     \/ (Unchecked.parseJsonResponse Number_toString json
                                         = Ok []
                                         /\ e = EcbNoDataError
                                                  (noDataMessage
                                                     (ExchangeRateQuery.currencies query)
                                                     (ExchangeRateQuery.startDate query)
                                                     (ExchangeRateQuery.endDate query))
                                                  (ExchangeRateQuery.currencies query)
                                                  (ExchangeRateQuery.startDate query)
                                                  (ExchangeRateQuery.endDate query))))))).
Proof.
  unfold getObservations.
  destruct (validateQuery (resolveQuery this query)) as [[]|e'] eqn:Hv; cbn [bind].
  2:{ intros [= <-]. left. split; [reflexivity|]. now apply validateQuery_throws in Hv. }
  intros H. right. split; [reflexivity|]. unfold fetchAndParse in H.
  destruct (buildExchangeRateUrl URL_toString (resolveQuery this query)
                                 (EcbClient.baseUrl this)) as [url|e'] eqn:Hu;
    cbn [bind] in H.
  2:{ injection H as <-. left. split; [reflexivity|].
      unfold buildExchangeRateUrl in Hu.
      destruct (URL_toString _ _); [discriminate|]. now injection Hu as <-. }
  right. exists url. split; [reflexivity|].
  destruct (EcbClient.fetcher this url) as [raw|e'] eqn:Hfetch; cbn [bind] in H;
    [|left; congruence].
  right. exists raw. split; [reflexivity|]. unfold parseSdmxJson in H.
  destruct (JSON_parse raw) as [json|message] eqn:Hj; cbn [bind] in H.
  2:{ injection H as <-. left. exists message. auto. }
  right. exists json. split; [reflexivity|].
  destruct (Unchecked.parseJsonResponse Number_toString json) as [[|o l]|e'] eqn:Hp;
    cbn [bind] in H.
  - right. split; [reflexivity|]. cbn [List.length Nat.eqb] in H.
    injection H as <-. unfold new_EcbNoDataError, noDataMessage, dateRange.
    assert (Ec : ExchangeRateQuery.currencies (resolveQuery this query)
                 = ExchangeRateQuery.currencies query).
    { unfold resolveQuery. now destruct (ExchangeRateQuery.baseCurrency query). }
    assert (Es : ExchangeRateQuery.startDate (resolveQuery this query)
                 = ExchangeRateQuery.startDate query).
    { unfold resolveQuery. now destruct (ExchangeRateQuery.baseCurrency query). }
    assert (Ee : ExchangeRateQuery.endDate (resolveQuery this query)
                 = ExchangeRateQuery.endDate query).
    { unfold resolveQuery. now destruct (ExchangeRateQuery.baseCurrency query). }
    rewrite Ec, Es, Ee.
    destruct (ExchangeRateQuery.endDate query) as [[|c s]|]; try reflexivity.
    cbn [JS.truthy andb].
    now destruct (String.eqb (String c s) (ExchangeRateQuery.startDate query)).
  - discriminate.
  - injection H as <-. left. split; [reflexivity|].
    assert (Hdecl : forall data,
               asSdmxJsonResponse json = Some data ->
               parseJsonResponse data = Throw e' /\ instanceof_EcbParseError e' = true).
    { intros data Hd. rewrite (parseJsonResponse_declared Number_toString _ Hd) in Hp.
      destruct (parseJsonResponse data) as [l|e2] eqn:Ht; [discriminate|].
      injection Hp as <-. split; [reflexivity|].
      now apply parseJsonResponse_throws in Ht. }
    split; [|exact Hdecl].
    destruct (asSdmxJsonResponse json) as [data|] eqn:Hd.
    + left. now apply (Hdecl data).
    + destruct (parseJsonResponse_throws_any _ _ Hp) as [Hc|Hc]; [now left|now right].
Qed.

(** The test "throws EcbNoDataError with currencies and date info"; and a
    response whose text is the JSON value [null]: the decoder throws the
    [TypeError] of reading a property of [null]. *)
Lemma getObservations_errors_witness :
  getObservations test_Number_toString test_JSON_parse test_URL_toString
    (testClient "EMPTY_RESPONSE")
    (ExchangeRateQuery.mk ["USD"; "GBP"] "2025-01-18" (Some "2025-01-19") None None)
  = Throw (EcbNoDataError
             ("No exchange rate data available for USD, GBP on 2025-01-18 to 2025-01-19."
              ++ " The ECB does not publish rates on weekends, holidays, or future dates.")
             ["USD"; "GBP"] "2025-01-18" (Some "2025-01-19"))
  /\ getObservations test_Number_toString (fun _ => inl Any.Null) test_URL_toString
       (testClient "null")
       (ExchangeRateQuery.mk ["USD"] "2025-01-15" None None None)
     = Throw (TypeError "Cannot read properties of null (reading 'dataSets')").
Proof.
  split; [|reflexivity].
  destruct (getObservations test_Number_toString test_JSON_parse test_URL_toString
              (testClient "EMPTY_RESPONSE")
              (ExchangeRateQuery.mk ["USD"; "GBP"] "2025-01-18" (Some "2025-01-19")
                                    None None)) as [l|e] eqn:H; [discriminate H|].
  destruct (@getObservations_errors test_Number_toString test_JSON_parse
              test_URL_toString
              (testClient "EMPTY_RESPONSE")
              (ExchangeRateQuery.mk ["USD"; "GBP"] "2025-01-18" (Some "2025-01-19")
                                    None None)
              e H)
    as [[Hv _]|[_ [[Hu _]|[url [Hu [Hf|[raw [Hf [[m [Hj _]]|[json [Hj [[Hp _]|[_ He]]]]]]]]]]]]].
  - discriminate Hv.
  - discriminate Hu.
  - injection Hu as <-. discriminate Hf.
  - injection Hu as <-. injection Hf as <-. discriminate Hj.
  - injection Hu as <-. injection Hf as <-. injection Hj as <-. discriminate Hp.
  - rewrite He. reflexivity.
Defined.

(** X10. [getRate(currency, date)] is [getRateHistory] from that date to
    the same date, and a history without frequency is the daily one: the
    three calls validate the same query, ask for the same URL and build
    the same result. *)
Theorem getRate_is_a_one_day_history
    (Number_toString : float -> string)
    (JSON_parse : string -> Any.t + string)
    (URL_toString : string -> list (string * string) -> option string)
    (this : EcbClient) (currency startDate endDate : string) :
  getRate Number_toString JSON_parse URL_toString this currency startDate
  = getRateHistory Number_toString JSON_parse URL_toString this currency startDate startDate None
  /\ getRateHistory Number_toString JSON_parse URL_toString this currency startDate endDate None
     = getRateHistory Number_toString JSON_parse URL_toString this currency startDate endDate
                      (Some Frequency.D).
Proof. split; reflexivity. Qed.

(** ** [src/parsers/sdmx-json-parser.ts] *)

(** X11. What [parseJsonResponse] returns is drawn from the structure.
    When it returns an observation, the structural checks have passed,
    and the date, the currency and the base currency of the observation
    are not empty and are identifiers that values of the TIME_PERIOD, the
    CURRENCY and the CURRENCY_DENOM dimension carry; its rate is the
    first element of an observation tuple of the data sets. *)
Theorem parseJsonResponse_identifiers (data : SdmxJsonResponse)
    (observations : list ExchangeRateObservation) :
  parseJsonResponse data = Ok observations ->
  forall o,
    In o observations ->
    exists R,
      resolve (SdmxJsonResponse.structure data) = Some R
      /\ (ExchangeRateObservation.date o <> ""
          /\ In (ExchangeRateObservation.date o) (identifiers (timeVocabulary R)))
      /\ (ExchangeRateObservation.currency o <> ""
          /\ In (ExchangeRateObservation.currency o) (identifiers (currencyVocabulary R)))
      /\ (ExchangeRateObservation.baseCurrency o <> ""
          /\ In (ExchangeRateObservation.baseCurrency o)
                (identifiers (denomVocabulary R)))
      /\ exists seriesKey obsKey tuple,
           In (seriesKey, obsKey, tuple)
              (pairs (nullish (SdmxJsonResponse.dataSets data) []))
           /\ rateOf tuple = Some (ExchangeRateObservation.rate o).
Proof.
  destruct data as [header [dataSets|] structure];
    [|intros [= <-] o []].
  destruct dataSets as [|dataSet dataSets]; [intros [= <-] o []|].
  change (SdmxJsonResponse.mk header (Some (dataSet :: dataSets)) structure)
    with (document header (dataSet :: dataSets) structure).
  cbn [SdmxJsonResponse.structure SdmxJsonResponse.dataSets document nullish].
  destruct (resolve structure) as [R|] eqn:HR.
  - rewrite (parseJsonResponse_resolved _ _ _ HR), decodeFrom_pairs. simpl app.
    intros [= <-] o Ho. apply filterMap_In in Ho. destruct Ho as [p [Hp Hx]].
    exists R. split; [reflexivity|].
    destruct (crossReference_identifiers _ _ Hx) as [Hd [Hc [Hb Hr]]].
    repeat (split; [assumption|]).
    destruct p as [[sk ok] t]. exists sk, ok, t. auto.
  - destruct (parseJsonResponse_unresolved _ HR) as [message H].
    now rewrite H.
Qed.

(** The document of odd entries: its one observation. *)
Lemma parseJsonResponse_identifiers_witness :
  exists R,
    resolve ODD_STRUCTURE = Some R
    /\ In "2025-01-16" (identifiers (timeVocabulary R))
    /\ In "USD" (identifiers (currencyVocabulary R))
    /\ In "EUR" (identifiers (denomVocabulary R)).
Proof.
  destruct (@parseJsonResponse_identifiers
              (SdmxJsonResponse.mk TEST_HEADER (Some ODD_DATASETS) ODD_STRUCTURE)
              [ExchangeRateObservation.mk "2025-01-16" "USD" "EUR" 4%float]
              eq_refl
              (ExchangeRateObservation.mk "2025-01-16" "USD" "EUR" 4%float)
              (or_introl eq_refl))
    as [R [HR [[_ Hd] [[_ Hc] [[_ Hb] _]]]]].
  exists R. auto.
Defined.

(** X12. The decoder keeps no state from one data set to the next, nor
    from one series to the next.  With a structure that passes the
    checks, the observations of data sets put one after the other are the
    observations of the first followed by those of the second; and,
    whatever the structure is, a data set decodes as the two data sets
    among which its series are divided. *)
Theorem parseJsonResponse_concatenates
    (header : SdmxHeader) (structure : option SdmxStructure) :
  (forall R first second,
      resolve structure = Some R ->
      exists l1 l2,
        parseJsonResponse (document header first structure) = Ok l1
        /\ parseJsonResponse (document header second structure) = Ok l2
        /\ parseJsonResponse (document header (first ++ second) structure)
           = Ok (l1 ++ l2))
  /\ (forall action validFrom series1 series2,
         parseJsonResponse
           (document header
              [SdmxDataSet.mk action validFrom (Some (series1 ++ series2))] structure)
         = parseJsonResponse
             (document header
                [SdmxDataSet.mk action validFrom (Some series1);
                 SdmxDataSet.mk action validFrom (Some series2)] structure)).
Proof.
  split.
  - intros R first second HR. do 2 eexists.
    rewrite !(parseJsonResponse_resolved _ _ _ HR), !decodeFrom_pairs.
    simpl app. rewrite pairs_app, filterMap_app. auto.
  - intros action validFrom series1 series2.
    destruct (resolve structure) as [R|] eqn:HR.
    + rewrite !(parseJsonResponse_resolved _ _ _ HR), !decodeFrom_pairs.
      unfold pairs, dataSetPairs. simpl. now rewrite flat_map_app, !app_nil_r.
    + destruct (parseJsonResponse_unresolved _ HR) as [message H].
      now rewrite !H.
Qed.

(** The two series of the two-currency response, in two data sets. *)
Lemma parseJsonResponse_concatenates_witness :
  exists l1 l2,
    parseJsonResponse
      (document TEST_HEADER
         [SdmxDataSet.mk None None (Some [("0:0:0:0:0", USD_SERIES)])] EXR_STRUCTURE)
    = Ok l1
    /\ parseJsonResponse
         (document TEST_HEADER
            [SdmxDataSet.mk None None (Some [("0:1:0:0:0", USD_SERIES)])] EXR_STRUCTURE)
       = Ok l2
    /\ parseJsonResponse
         (document TEST_HEADER
            [SdmxDataSet.mk None None (Some [("0:0:0:0:0", USD_SERIES)]);
             SdmxDataSet.mk None None (Some [("0:1:0:0:0", USD_SERIES)])] EXR_STRUCTURE)
       = Ok (l1 ++ l2).
Proof.
  apply (proj1 (parseJsonResponse_concatenates TEST_HEADER EXR_STRUCTURE)
           EXR_RESOLVED
           [SdmxDataSet.mk None None (Some [("0:0:0:0:0", USD_SERIES)])]
           [SdmxDataSet.mk None None (Some [("0:1:0:0:0", USD_SERIES)])]
           eq_refl).
Defined.

(** X13. [parseJsonResponse] reads, of the data sets, the keys and the
    first element of each observation tuple, and nothing of the header:
    the attributes of the series and what follows the rate in a tuple
    (the status flags) change neither the observations nor the error. *)
Theorem parseJsonResponse_reads_the_rates_only
    (header header' : SdmxHeader) (dataSets : option (list SdmxDataSet))
    (structure : option SdmxStructure) :
  parseJsonResponse
    (SdmxJsonResponse.mk header' (option_map (map rateOnly) dataSets) structure)
  = parseJsonResponse (SdmxJsonResponse.mk header dataSets structure).
Proof.
  destruct dataSets as [[|dataSet dataSets]|]; try reflexivity.
  cbn [option_map map].
  change (parseJsonResponse
            (document header' (rateOnly dataSet :: map rateOnly dataSets) structure)
          = parseJsonResponse (document header (dataSet :: dataSets) structure)).
  destruct (resolve structure) as [R|] eqn:HR.
  - rewrite !(parseJsonResponse_resolved _ _ _ HR), !decodeFrom_pairs, !app_nil_l.
    change (rateOnly dataSet :: map rateOnly dataSets)
      with (map rateOnly (dataSet :: dataSets)).
    rewrite pairs_rateOnly, filterMap_map. f_equal.
    apply filterMap_ext. intros p. apply crossReference_rateOnly.
  - destruct (parseJsonResponse_unresolved _ HR) as [message H].
    now rewrite !H.
Qed.

(** ** [src/services/http-fetcher.ts] *)

(** X14. [FetchHttpFetcher.get] answers by the response.  It sends one
    request, a GET that accepts JSON, and resolves to a text exactly when
    [fetch] resolves to a response that is [ok] and whose [text()]
    resolves to that text.  When the response is not [ok] it rejects with
    an [EcbApiError] that holds the status and the status text of the
    response; the message ends with the body when the body could be read
    and is not empty, and the error is the same when the body could not
    be read. *)
Theorem get_answers_by_the_response
    (Number_toString : float -> string) (AbortSignal : Type)
    (timeoutSignal : float -> AbortSignal)
    (AbortSignal_any : list AbortSignal -> AbortSignal)
    (this : FetchHttpFetcher AbortSignal) (url : string)
    (externalSignal : option AbortSignal) :
  let request := requestOf timeoutSignal AbortSignal_any this externalSignal in
  let result := get Number_toString timeoutSignal AbortSignal_any this url externalSignal in
  (forall text,
      result = Ok text
      <-> exists response,
            FetchHttpFetcher.fetchFn this url request = Fulfilled response
            /\ Response.ok response = true
            /\ Response.text response = Fulfilled text)
  /\ (forall response,
         FetchHttpFetcher.fetchFn this url request = Fulfilled response ->
         Response.ok response = false ->
         result
         = Throw (EcbApiError
                    ("ECB API returned " ++ Number_toString (Response.status response)
                     ++ " " ++ Response.statusText response
                     ++ match Response.text response with
                        | Fulfilled (String c body) => ": " ++ String c body
                        | _ => ""
                        end)%string
                    (Response.status response) (Response.statusText response))).
Proof.
  intros request result. subst request result. unfold get, attempt, requestOf. split.
  - intros text. split.
    + destruct (FetchHttpFetcher.fetchFn this url _) as [response|error].
      * destruct (Response.ok response) eqn:Hok; cbn [negb].
        -- destruct (Response.text response) as [text'|error] eqn:Ht.
           ++ intros [= <-]. exists response. auto.
           ++ destruct error as [e|[image|e]]; try discriminate.
              destruct (instanceof_EcbApiError e); [discriminate|].
              destruct (String.eqb (errorName e) "AbortError"); discriminate.
        -- discriminate.
      * destruct error as [e|[image|e]]; try discriminate.
        destruct (instanceof_EcbApiError e); [discriminate|].
        destruct (String.eqb (errorName e) "AbortError"); discriminate.
    + intros [response [-> [Hok Ht]]]. now rewrite Hok, Ht.
  - intros response -> ->. cbn [negb instanceof_EcbApiError new_EcbApiError].
    now destruct (Response.text response) as [[|c body]|error].
Qed.

(** A response 404 with a body, and the same response whose body cannot
    be read. *)
Lemma get_answers_by_the_response_witness :
  get test_Number_toString (fun _ => tt) (fun _ => tt)
      (testFetcher (MockFetch (Response.mk false 404 "Not Found" (Fulfilled "No data"))))
      "https://data-api.ecb.europa.eu/service/data/EXR/D.USD.EUR.SP00.A" None
  = Throw (EcbApiError "ECB API returned 404 Not Found: No data" 404 "Not Found")
  /\ get test_Number_toString (fun _ => tt) (fun _ => tt)
       (testFetcher
          (MockFetch (Response.mk false 404 "Not Found"
                                  (Rejected (ThrownError (RuntimeError "TypeError" "body used"))))))
       "https://data-api.ecb.europa.eu/service/data/EXR/D.USD.EUR.SP00.A" None
     = Throw (EcbApiError "ECB API returned 404 Not Found" 404 "Not Found").
Proof.
  split.
  - apply (proj2 (@get_answers_by_the_response test_Number_toString unit
                    (fun _ => tt) (fun _ => tt)
                    (testFetcher
                       (MockFetch (Response.mk false 404 "Not Found" (Fulfilled "No data"))))
                    "https://data-api.ecb.europa.eu/service/data/EXR/D.USD.EUR.SP00.A" None)
             (Response.mk false 404 "Not Found" (Fulfilled "No data")) eq_refl eq_refl).
  - apply (proj2 (@get_answers_by_the_response test_Number_toString unit
                    (fun _ => tt) (fun _ => tt)
                    (testFetcher
                       (MockFetch
                          (Response.mk false 404 "Not Found"
                             (Rejected (ThrownError (RuntimeError "TypeError" "body used"))))))
                    "https://data-api.ecb.europa.eu/service/data/EXR/D.USD.EUR.SP00.A" None)
             (Response.mk false 404 "Not Found"
                (Rejected (ThrownError (RuntimeError "TypeError" "body used"))))
             eq_refl eq_refl).
Defined.

(** X15. What [FetchHttpFetcher.get] rejects with.  An [EcbApiError]
    thrown by [fetch] or by [text()] goes through as it is.  Any other
    [Error] is wrapped in an [EcbNetworkError] that keeps it as its
    cause: with the message "Request timed out after ...ms" when the
    error is named AbortError, whichever signal aborted, and with
    "Network request failed for", the URL and the message of the error
    otherwise.  So, when whatever [fetch] and [text()] throw can be
    reported ([Error]s, or values that [String] converts), [get] rejects
    with an [EcbApiError] or an [EcbNetworkError] and nothing else. *)
Theorem get_rejections
    (Number_toString : float -> string) (AbortSignal : Type)
    (timeoutSignal : float -> AbortSignal)
    (AbortSignal_any : list AbortSignal -> AbortSignal)
    (this : FetchHttpFetcher AbortSignal) (url : string)
    (externalSignal : option AbortSignal) :
  let request := requestOf timeoutSignal AbortSignal_any this externalSignal in
  let result := get Number_toString timeoutSignal AbortSignal_any this url externalSignal in
  (forall e,
      FetchHttpFetcher.fetchFn this url request = Rejected (ThrownError e)
      \/ (exists response,
             FetchHttpFetcher.fetchFn this url request = Fulfilled response
             /\ Response.ok response = true
             /\ Response.text response = Rejected (ThrownError e)) ->
      result
      = Throw (if instanceof_EcbApiError e then e
               else if String.eqb (errorName e) "AbortError"
                    then EcbNetworkError
                           ("Request timed out after "
                            ++ Number_toString (FetchHttpFetcher.timeoutMs this)
                            ++ "ms: " ++ url)%string
                           (Some (errorName e, errorMessage e))
                    else EcbNetworkError
                           ("Network request failed for " ++ url ++ ": "
                            ++ errorMessage e)%string
                           (Some (errorName e, errorMessage e))))
  /\ (rejectsReportably (FetchHttpFetcher.fetchFn this) ->
      forall e,
        result = Throw e ->
        instanceof_EcbApiError e = true \/ instanceof_EcbNetworkError e = true).
Proof.
  intros request result. subst request result. split.
  - unfold get, attempt, requestOf.
    intros e [->|[response [-> [-> ->]]]]; cbn [negb causeOf];
      destruct (instanceof_EcbApiError e); [reflexivity| |reflexivity|];
      now destruct (String.eqb (errorName e) "AbortError").
  - intros Hr e. now apply get_throws.
Qed.

(** A [fetch] that is aborted, and one that fails to connect. *)
Lemma get_rejections_witness :
  get test_Number_toString (fun _ => tt) (fun _ => tt)
      (testFetcher
         (fun _ _ => Rejected (ThrownError (RuntimeError "AbortError"
                                                         "This operation was aborted"))))
      "https://example.org/data" None
  = Throw (EcbNetworkError
             "Request timed out after 30000ms: https://example.org/data"
             (Some ("AbortError", "This operation was aborted")))
  /\ get test_Number_toString (fun _ => tt) (fun _ => tt)
       (testFetcher
          (fun _ _ => Rejected (ThrownError (RuntimeError "TypeError" "fetch failed"))))
       "https://example.org/data" None
     = Throw (EcbNetworkError
                "Network request failed for https://example.org/data: fetch failed"
                (Some ("TypeError", "fetch failed"))).
Proof.
  split.
  - apply (proj1 (@get_rejections test_Number_toString unit (fun _ => tt) (fun _ => tt)
                    (testFetcher
                       (fun _ _ => Rejected (ThrownError
                                               (RuntimeError "AbortError"
                                                             "This operation was aborted"))))
                    "https://example.org/data" None)
             (RuntimeError "AbortError" "This operation was aborted")).
    now left.
  - apply (proj1 (@get_rejections test_Number_toString unit (fun _ => tt) (fun _ => tt)
                    (testFetcher
                       (fun _ _ => Rejected (ThrownError
                                               (RuntimeError "TypeError" "fetch failed"))))
                    "https://example.org/data" None)
             (RuntimeError "TypeError" "fetch failed")).
    now left.
Defined.

(** X16. The errors of a client built by [new EcbClient(config)].  When
    whatever [fetch] and [text()] throw can be reported, every error of
    [getObservations], [getRates] and [getSingleCurrencyRates] (so
    [getRate] and [getRateHistory]) is an instance of [EcbError], or the
    [TypeError] of the URL class for a base URL that is no URL, or a
    [TypeError] of the runtime: one that the decoder throws on a response
    that has not the shape that [SdmxJsonResponse] declares, or, for
    [getRates], the one of a currency that is no string and does not
    convert to a property name.  [convert] throws the same errors as
    [getSingleCurrencyRates] except [EcbNoDataError], for which it
    returns [null], and the [TypeError] of a rate that does not convert
    to a number.  When every text that [JSON.parse] accepts is a value of
    the declared shape, the errors are instances of [EcbError] or the
    [TypeError] of the URL class, and no other. *)
Theorem new_EcbClient_errors
    (Number_toString : float -> string) (AbortSignal : Type)
    (timeoutSignal : float -> AbortSignal)
    (AbortSignal_any : list AbortSignal -> AbortSignal)
    (globalThis_fetch : Fetch AbortSignal)
    (JSON_parse : string -> Any.t + string)
    (URL_toString : string -> list (string * string) -> option string)
    (config : EcbClientConfig) (configFetchFn : option (Fetch AbortSignal)) :
  rejectsReportably (nullish configFetchFn globalThis_fetch) ->
  let client :=
    new_EcbClient Number_toString timeoutSignal AbortSignal_any globalThis_fetch
                  config configFetchFn in
  let decoderTypeError (e : Exception) :=
    errorName e = "TypeError"
    /\ exists url raw json,
         EcbClient.fetcher client url = Ok raw
         /\ JSON_parse raw = inl json
         /\ asSdmxJsonResponse json = None
         /\ Unchecked.parseJsonResponse Number_toString json = Throw e in
  (forall query e,
      getObservations Number_toString JSON_parse URL_toString client query = Throw e
      \/ getSingleCurrencyRates Number_toString JSON_parse URL_toString client query
         = Throw e ->
      instanceof_EcbError e = true
      \/ e = RuntimeError "TypeError" "Invalid URL"
      \/ decoderTypeError e)
  /\ (forall query e,
         getRates Number_toString JSON_parse URL_toString client query = Throw e ->
         instanceof_EcbError e = true
         \/ e = RuntimeError "TypeError" "Invalid URL"
         \/ decoderTypeError e
         \/ (errorName e = "TypeError"
             /\ exists observations o,
                  getObservations Number_toString JSON_parse URL_toString client query
                  = Ok observations
                  /\ In o observations
                  /\ ~ declared o
                  /\ Any.ToPropertyKey Number_toString
                       (Unchecked.ExchangeRateObservation.currency o) = Throw e))
  /\ (forall amount currency date e,
         convert Number_toString JSON_parse URL_toString client amount currency date
         = Throw e ->
         (instanceof_EcbError e = true /\ instanceof_EcbNoDataError e = false)
         \/ e = RuntimeError "TypeError" "Invalid URL"
         \/ decoderTypeError e
         \/ (errorName e = "TypeError"
             /\ exists result first rate rest,
                  getRate Number_toString JSON_parse URL_toString client currency date
                  = Ok result
                  /\ ExchangeRateResult.rates result = (first, rate) :: rest
                  /\ (forall x, rate <> Any.Number x)
                  /\ Any.ToNumber Number_toString rate = Throw e))
  /\ ((forall raw json, JSON_parse raw = inl json -> asSdmxJsonResponse json <> None) ->
      (forall query e,
          getObservations Number_toString JSON_parse URL_toString client query = Throw e
          \/ getRates Number_toString JSON_parse URL_toString client query = Throw e
          \/ getSingleCurrencyRates Number_toString JSON_parse URL_toString client query
             = Throw e ->
          instanceof_EcbError e = true \/ e = RuntimeError "TypeError" "Invalid URL")
      /\ (forall amount currency date e,
             convert Number_toString JSON_parse URL_toString client amount currency date
             = Throw e ->
             (instanceof_EcbError e = true /\ instanceof_EcbNoDataError e = false)
             \/ e = RuntimeError "TypeError" "Invalid URL")).
Proof.
  intros Hr client decoderTypeError.
  assert (Hobs : forall query e,
             getObservations Number_toString JSON_parse URL_toString client query
             = Throw e ->
             instanceof_EcbError e = true
             \/ e = RuntimeError "TypeError" "Invalid URL"
             \/ decoderTypeError e).
  { intros query e.
    apply (@getObservations_throws_classes Number_toString JSON_parse URL_toString
             client query e
             (fun e => instanceof_EcbError e = true
                       \/ e = RuntimeError "TypeError" "Invalid URL"
                       \/ decoderTypeError e)); auto.
    - intros url e' H. left.
      apply (@get_throws Number_toString AbortSignal timeoutSignal AbortSignal_any) in H;
        [|exact Hr].
      destruct e'; destruct H as [H|H]; try discriminate H; reflexivity.
    - intros url raw json e' Hf Hj Hp Hn.
      destruct (asSdmxJsonResponse json) as [data|] eqn:Hd.
      + left. rewrite (parseJsonResponse_declared Number_toString _ Hd) in Hp.
        destruct (parseJsonResponse data) as [l|e2] eqn:Ht; [discriminate|].
        injection Hp as <-. apply parseJsonResponse_throws in Ht.
        destruct e2; try discriminate; reflexivity.
      + right. right. split; [exact Hn|]. exists url, raw, json. auto. }
  assert (Hsingle : forall query e,
             getObservations Number_toString JSON_parse URL_toString client query
             = Throw e
             \/ getSingleCurrencyRates Number_toString JSON_parse URL_toString client
                  query = Throw e ->
             instanceof_EcbError e = true
             \/ e = RuntimeError "TypeError" "Invalid URL"
             \/ decoderTypeError e).
  { intros query e [H|H]; [now apply (Hobs query)|].
    apply (Hobs query). now apply (@query_methods_throw Number_toString JSON_parse URL_toString). }
  assert (Hrates : forall query e,
             getRates Number_toString JSON_parse URL_toString client query = Throw e ->
             instanceof_EcbError e = true
             \/ e = RuntimeError "TypeError" "Invalid URL"
             \/ decoderTypeError e
             \/ (errorName e = "TypeError"
                 /\ exists observations o,
                      getObservations Number_toString JSON_parse URL_toString client
                        query = Ok observations
                      /\ In o observations
                      /\ ~ declared o
                      /\ Any.ToPropertyKey Number_toString
                           (Unchecked.ExchangeRateObservation.currency o) = Throw e)).
  { intros query e H. apply getRates_throws in H.
    destruct H as [H|[observations [o [Hg [Ho [He Hn]]]]]].
    - destruct (Hobs query e H) as [H1|[H1|H1]]; auto.
    - right. right. right. split; [exact Hn|]. exists observations, o.
      split; [exact Hg|]. split; [exact Ho|]. split; [|exact He].
      intros [o' ->]. discriminate He. }
  assert (Hconvert : forall amount currency date e,
             convert Number_toString JSON_parse URL_toString client amount currency date
             = Throw e ->
             (instanceof_EcbError e = true /\ instanceof_EcbNoDataError e = false)
             \/ e = RuntimeError "TypeError" "Invalid URL"
             \/ decoderTypeError e
             \/ (errorName e = "TypeError"
                 /\ exists result first rate rest,
                      getRate Number_toString JSON_parse URL_toString client currency date
                      = Ok result
                      /\ ExchangeRateResult.rates result = (first, rate) :: rest
                      /\ (forall x, rate <> Any.Number x)
                      /\ Any.ToNumber Number_toString rate = Throw e)).
  { intros amount currency date e. unfold convert.
    destruct (getRate Number_toString JSON_parse URL_toString client currency date)
      as [result|error] eqn:Hg.
    - destruct (getSingleCurrencyRates_first _ _ _ _ _ Hg)
        as [o [l [r [rest [_ [Hrates' _]]]]]].
      rewrite Hrates'. cbn [Any.Map_first].
      destruct (Any.ToNumber Number_toString r) as [factor|e'] eqn:Hn; cbn [bind];
        [discriminate|].
      intros [= <-]. right. right. right.
      split; [now apply ToNumber_throws in Hn|].
      exists result, (Unchecked.ExchangeRateObservation.date o), r, rest.
      split; [reflexivity|]. split; [exact Hrates'|]. split; [|exact Hn].
      intros x ->. discriminate Hn.
    - destruct (instanceof_EcbNoDataError error) eqn:Hn; [discriminate|].
      intros [= <-]. unfold getRate in Hg.
      destruct (Hobs _ error (@query_methods_throw _ _ _ _ _ _ Hg)) as [H|[H|H]];
        auto. }
  split; [exact Hsingle|]. split; [exact Hrates|]. split; [exact Hconvert|].
  intros Hshape.
  assert (Hnone : forall e, ~ decoderTypeError e).
  { intros e [_ [url [raw [json [_ [Hj [Hd _]]]]]]]. exact (Hshape raw json Hj Hd). }
  split.
  - intros query e [H|[H|H]].
    + destruct (Hobs query e H) as [H1|[H1|H1]]; auto. now apply Hnone in H1.
    + destruct (Hrates query e H) as [H1|[H1|[H1|[_ [observations [o [Hg [Ho [Hd _]]]]]]]]];
        auto; [now apply Hnone in H1|].
      exfalso. apply Hd.
      pose proof (@getObservations_declared _ _ _ _ _ _ Hshape Hg) as Hall.
      rewrite Forall_forall in Hall. now apply Hall.
    + destruct (Hsingle query e (or_intror H)) as [H1|[H1|H1]]; auto.
      now apply Hnone in H1.
  - intros amount currency date e H.
    destruct (Hconvert amount currency date e H)
      as [H1|[H1|[H1|[_ [result [first [rate [rest [Hg [Hrates' [Hnum _]]]]]]]]]]]; auto;
      [now apply Hnone in H1|].
    exfalso. unfold getRate in Hg.
    destruct (getSingleCurrencyRates_first _ _ _ _ _ Hg)
      as [o [l [r [rest' [Hf [Hrates2 [last [_ [Hin Hlast]]]]]]]]].
    rewrite Hrates' in Hrates2. injection Hrates2 as _ -> _.
    assert (Hall : Forall declared (o :: l)).
    { apply (@getObservations_declared Number_toString JSON_parse URL_toString client
               (ExchangeRateQuery.mk [currency] date (Some date) None None));
        [exact Hshape|].
      unfold getObservations. unfold getSingleCurrencyRates in Hg.
      destruct (validateQuery
                  (resolveQuery client
                     (ExchangeRateQuery.mk [currency] date (Some date) None None)))
        as [[]|]; [|discriminate]. cbn [bind]. exact Hf. }
    rewrite Forall_forall in Hall. destruct (Hall last Hin) as [last' E].
    rewrite E in Hlast. cbn [unchecked Unchecked.ExchangeRateObservation.rate] in Hlast.
    exact (Hnum _ Hlast).
Qed.

(** A client whose [fetch] answers 503: the lookup rejects with an
    instance of [EcbError]. *)
Lemma new_EcbClient_errors_witness :
  exists e,
    getObservations test_Number_toString test_JSON_parse test_URL_toString
      (new_EcbClient test_Number_toString (fun _ => tt) (fun _ => tt)
         (MockFetch (Response.mk true 200 "OK" (Fulfilled "EMPTY_RESPONSE")))
         (EcbClientConfig.mk None None None)
         (Some (MockFetch (Response.mk false 503 "Service Unavailable" (Fulfilled "")))))
      (ExchangeRateQuery.mk ["USD"] "2025-01-15" None None None)
    = Throw e
    /\ instanceof_EcbError e = true
    /\ errorMessage e = "ECB API returned 503 Service Unavailable".
Proof.
  eexists. split; [reflexivity|]. split; [|reflexivity].
  destruct (proj1 (@new_EcbClient_errors test_Number_toString unit
                     (fun _ => tt) (fun _ => tt)
                     (MockFetch (Response.mk true 200 "OK" (Fulfilled "EMPTY_RESPONSE")))
                     test_JSON_parse test_URL_toString
                     (EcbClientConfig.mk None None None)
                     (Some (MockFetch (Response.mk false 503 "Service Unavailable"
                                                   (Fulfilled ""))))
                     (fun _ _ => I))
              (ExchangeRateQuery.mk ["USD"] "2025-01-15" None None None)
              _ (or_introl eq_refl)) as [H|[H|[H _]]].
  - exact H.
  - discriminate H.
  - discriminate H.
Defined.

(** ** [src/client.ts] and [src/utils/url-builder.ts] together *)

(** X17. One request, to one URL.  For a query, the client asks the
    fetcher for at most one URL: the one the URL class prints for the
    address [baseUrl/data/EXR/F.C.B.SP00.A], where F is the frequency of
    the query (D when it states none), C its currencies joined by "+",
    and B the base currency of the query or, when it states none, that of
    the client; the builder's own default, EUR, is never used.  Two
    fetchers that answer alike at that URL give the same result. *)
Theorem one_request
    (Number_toString : float -> string)
    (JSON_parse : string -> Any.t + string)
    (URL_toString : string -> list (string * string) -> option string)
    (baseUrl baseCurrency : string) (query : ExchangeRateQuery) :
  let address :=
    (baseUrl ++ "/data/EXR/"
     ++ Frequency.toString (nullish (ExchangeRateQuery.frequency query) Frequency.D)
     ++ "." ++ JS.join "+" (ExchangeRateQuery.currencies query)
     ++ "." ++ nullish (ExchangeRateQuery.baseCurrency query) baseCurrency
     ++ ".SP00.A")%string in
  let params :=
    ("startPeriod", ExchangeRateQuery.startDate query)
    :: match ExchangeRateQuery.endDate query with
       | Some endDate => [("endPeriod", endDate)]
       | None => []
       end in
  forall fetcher1 fetcher2 : HttpFetcher,
    (forall url, URL_toString address params = Some url -> fetcher1 url = fetcher2 url) ->
    getObservations Number_toString JSON_parse URL_toString
      (EcbClient.mk baseUrl baseCurrency fetcher1) query
    = getObservations Number_toString JSON_parse URL_toString
        (EcbClient.mk baseUrl baseCurrency fetcher2) query.
Proof.
  intros address params fetcher1 fetcher2 H. subst address params.
  unfold getObservations, fetchAndParse, buildExchangeRateUrl, resolveQuery.
  cbn [EcbClient.baseCurrency EcbClient.baseUrl EcbClient.fetcher].
  assert (Hf : nullish (option_map Frequency.toString (ExchangeRateQuery.frequency query)) "D"
               = Frequency.toString (nullish (ExchangeRateQuery.frequency query) Frequency.D))
    by now destruct (ExchangeRateQuery.frequency query).
  destruct (ExchangeRateQuery.baseCurrency query) as [b|] eqn:Hb;
    cbn [ExchangeRateQuery.baseCurrency ExchangeRateQuery.currencies
         ExchangeRateQuery.startDate ExchangeRateQuery.endDate
         ExchangeRateQuery.frequency nullish] in *;
    rewrite ?Hb; cbn [nullish]; rewrite Hf;
    (match goal with
     | |- context [validateQuery ?q] => destruct (validateQuery q); [|reflexivity]
     end);
    cbn [bind];
    (match goal with
     | H : forall url, URL_toString ?a ?p = Some url -> _
       |- context [URL_toString ?a ?p] =>
       destruct (URL_toString a p) as [url|] eqn:Hu; [|reflexivity]
     end);
    cbn [bind]; now rewrite (H url eq_refl).
Qed.

(** A fetcher that answers at one URL only serves the lookup of the test
    "returns raw observations" as the mock fetcher does. *)
Lemma one_request_witness :
  getObservations test_Number_toString test_JSON_parse test_URL_toString
    (EcbClient.mk DEFAULT_BASE_URL "EUR"
       (fun url =>
          if String.eqb url
               ("https://data-api.ecb.europa.eu/service/data/EXR/D.USD.EUR.SP00.A"
                ++ "?startPeriod=2025-01-15&endPeriod=2025-01-16")
          then Ok "SINGLE_CURRENCY_RESPONSE"
          else Throw (RuntimeError "Error" "another URL")))
    (ExchangeRateQuery.mk ["USD"] "2025-01-15" (Some "2025-01-16") None None)
  = getObservations test_Number_toString test_JSON_parse test_URL_toString
      (EcbClient.mk DEFAULT_BASE_URL "EUR" (MockFetcher "SINGLE_CURRENCY_RESPONSE"))
      (ExchangeRateQuery.mk ["USD"] "2025-01-15" (Some "2025-01-16") None None).
Proof.
  apply (@one_request test_Number_toString test_JSON_parse test_URL_toString DEFAULT_BASE_URL "EUR"
           (ExchangeRateQuery.mk ["USD"] "2025-01-15" (Some "2025-01-16") None None)).
  intros url Hu. injection Hu as <-. reflexivity.
Defined.

(** ** From the response to the result *)

(** X18. A rate lookup answered as the provider answers it.  The text of
    the response is a JSON value of the shape that [SdmxJsonResponse]
    declares; it holds one data set with one series; the key of the
    series joins decimal indices with colons, and the indices at the
    CURRENCY and CURRENCY_DENOM positions select a currency and a base
    currency; each observation stands under the decimal index of a date
    of the TIME_PERIOD dimension, as the tuple of its rate and its flags,
    and the dates are distinct.  Then [getSingleCurrencyRates] (so
    [getRate] and [getRateHistory]) returns the dates with their rates, in
    the order of the response, with the base currency of the response and
    the currency that was asked for. *)
Theorem getSingleCurrencyRates_provider_response
    (Number_toString : float -> string)
    (JSON_parse : string -> Any.t + string)
    (URL_toString : string -> list (string * string) -> option string)
    (this : EcbClient) (query : ExchangeRateQuery) (url raw : string) (json : Any.t)
    (header : SdmxHeader) (action validFrom : option string)
    (structure : option SdmxStructure) (R : Resolved)
    (index : nat) (indices : list nat) (attributes : list (option float))
    (entries : list (nat * float * list (option float)))
    (currency baseCurrency : string) (dates : list string) :
  validateQuery (resolveQuery this query) = Ok tt ->
  buildExchangeRateUrl URL_toString (resolveQuery this query) (EcbClient.baseUrl this)
  = Ok url ->
  EcbClient.fetcher this url = Ok raw ->
  JSON_parse raw = inl json ->
  asSdmxJsonResponse json
  = Some (document header
            [SdmxDataSet.mk action validFrom
               (Some [providerSeries index indices attributes entries])]
            structure) ->
  resolve structure = Some R ->
  Forall (fun n => Z.of_nat n < 2 ^ 53) (index :: indices) ->
  Forall (fun entry => Z.of_nat (entryTime entry) < 2 ^ 53) entries ->
  optChain (nth_error (index :: indices) (currencyPosition R))
           (identifierAt (currencyVocabulary R)) = Some currency ->
  optChain (nth_error (index :: indices) (denomPosition R))
           (identifierAt (denomVocabulary R)) = Some baseCurrency ->
  map (fun entry => identifierAt (timeVocabulary R) (entryTime entry)) entries
  = map Some dates ->
  NoDup dates ->
  entries <> [] ->
  exists result,
    getSingleCurrencyRates Number_toString JSON_parse URL_toString this query = Ok result
    /\ ExchangeRateResult.rates result
       = combine (map Any.Str dates)
                 (map (fun entry => Any.Number (entryRate entry)) entries)
    /\ ExchangeRateResult.base result = Any.Str baseCurrency
    /\ hd_error (ExchangeRateQuery.currencies query)
       = Some (ExchangeRateResult.currency result).
Proof.
  intros Hv Hu Hf Hj Hshape HR Hi Ht Hc Hb Hd Hnd Hne.
  assert (Hlen : List.length dates = List.length entries).
  { apply (f_equal (@List.length _)) in Hd. now rewrite !length_map in Hd. }
  assert (Hobs : parseJsonResponse
                   (document header
                      [SdmxDataSet.mk action validFrom
                         (Some [providerSeries index indices attributes entries])]
                      structure)
                 = Ok (map (fun p => ExchangeRateObservation.mk (fst p) currency
                                       baseCurrency (entryRate (snd p)))
                           (combine dates entries))).
  { rewrite (parseJsonResponse_resolved _ _ _ HR), decodeFrom_pairs.
    unfold pairs, dataSetPairs. cbn [flat_map SdmxDataSet.series]. rewrite !app_nil_r.
    rewrite app_nil_l. f_equal.
    now apply providerSeries_observations. }
  unfold getSingleCurrencyRates, fetchAndParse, parseSdmxJson.
  rewrite Hv. cbn [bind]. rewrite Hu. cbn [bind]. rewrite Hf. cbn [bind].
  rewrite Hj. cbn [bind].
  rewrite (parseJsonResponse_declared Number_toString _ Hshape), Hobs.
  cbn [uncheckedResult bind].
  destruct entries as [|entry entries]; [contradiction|].
  destruct dates as [|date dates]; [discriminate|].
  cbn [combine map List.length Nat.eqb bind].
  eexists. split; [reflexivity|].
  cbn [ExchangeRateResult.rates ExchangeRateResult.base ExchangeRateResult.currency].
  split; [|split].
  - change (fold_left _ _ [])
      with (fold_left
              (fun rates obs =>
                 Any.Map_set rates (Unchecked.ExchangeRateObservation.date obs)
                                   (Unchecked.ExchangeRateObservation.rate obs))
              (map unchecked
                 (map (fun p => ExchangeRateObservation.mk (fst p) currency baseCurrency
                                  (entryRate (snd p)))
                      (combine (date :: dates) (entry :: entries))))
              []).
    rewrite map_map, fold_left_mapped.
    cbn [unchecked Unchecked.ExchangeRateObservation.date
         Unchecked.ExchangeRateObservation.rate
         ExchangeRateObservation.date ExchangeRateObservation.rate].
    rewrite (@fold_set_distinct _ _ (fun p : string * (nat * float * list (option float))
                                     => fst p)
               (fun p => Any.Number (entryRate (snd p)))).
    + cbn [app].
      apply (@map_combine _ _ _ _ Any.Str (fun entry => Any.Number (entryRate entry))
               (date :: dates) (entry :: entries)).
    + cbn [Map_keys map app].
      change (NoDup (map (fun p : string * (nat * float * list (option float)) =>
                            Any.Str (fst p))
                         (combine (date :: dates) (entry :: entries)))).
      rewrite <- (map_map fst Any.Str).
      rewrite combine_fst by exact Hlen.
      now apply NoDup_map_Str.
  - reflexivity.
  - apply validateQuery_codes in Hv. destruct Hv as [Hq _].
    assert (E : ExchangeRateQuery.currencies (resolveQuery this query)
                = ExchangeRateQuery.currencies query).
    { unfold resolveQuery. now destruct (ExchangeRateQuery.baseCurrency query). }
    rewrite E in *.
    now destruct (ExchangeRateQuery.currencies query).
Qed.

(** The test "returns single currency rate result": the single-currency
    response is one series of the provider with two observations. *)
Lemma getSingleCurrencyRates_provider_response_witness :
  exists result,
    getRate test_Number_toString test_JSON_parse test_URL_toString
            (testClient "SINGLE_CURRENCY_RESPONSE") "USD" "2025-01-15"
    = Ok result
    /\ ExchangeRateResult.rates result
       = [(Any.Str "2025-01-15", Any.Number 1.03);
          (Any.Str "2025-01-16", Any.Number 1.0303)]
    /\ ExchangeRateResult.base result = Any.Str "EUR"
    /\ ExchangeRateResult.currency result = "USD".
Proof.
  destruct (@getSingleCurrencyRates_provider_response
              test_Number_toString test_JSON_parse test_URL_toString
              (testClient "SINGLE_CURRENCY_RESPONSE")
              (ExchangeRateQuery.mk ["USD"] "2025-01-15" (Some "2025-01-15") None None)
              ("https://data-api.ecb.europa.eu/service/data/EXR/D.USD.EUR.SP00.A"
               ++ "?startPeriod=2025-01-15&endPeriod=2025-01-15")%string
              "SINGLE_CURRENCY_RESPONSE"
              (parsed SINGLE_CURRENCY_RESPONSE)
              (SdmxJsonResponse.header SINGLE_CURRENCY_RESPONSE)
              (Some "Replace") None
              (SdmxJsonResponse.structure SINGLE_CURRENCY_RESPONSE)
              (Build_Resolved 1 2 0
                 [value "USD" "US dollar"] [value "EUR" "Euro"]
                 [value "2025-01-15" "2025-01-15"; value "2025-01-16" "2025-01-16"])
              0%nat [0; 0; 0; 0]%nat
              [Some 0%float; None; Some 0%float]
              [(0%nat, 1.03%float, [Some 0%float; Some 0%float; None; None]);
               (1%nat, 1.0303%float, [Some 0%float; Some 0%float; None; None])]
              "USD" "EUR" ["2025-01-15"; "2025-01-16"]
              eq_refl eq_refl eq_refl eq_refl eq_refl eq_refl)
    as [result [Hr [Hrates [Hbase Hcur]]]].
  - repeat constructor.
  - repeat constructor.
  - reflexivity.
  - reflexivity.
  - reflexivity.
  - repeat constructor; simpl; intuition discriminate.
  - discriminate.
  - exists result. split; [exact Hr|]. split; [exact Hrates|]. split; [exact Hbase|].
    now injection Hcur as <-.
Defined.

(** ** The cast of [parseSdmxJson] *)

(** X19. The cast of [parseSdmxJson] is not checked, and the decoder
    runs on whatever value [JSON.parse] returned.  On a value that has
    the shape that [SdmxJsonResponse] declares, it does what the types
    say: it returns the observations, of three strings and a number each,
    or throws the [EcbParseError], that [parseJsonResponse] gives on the
    document that the value is, and throws no [TypeError]. *)
Theorem parseJsonResponse_on_the_declared_shape
    (Number_toString : float -> string) (json : Any.t) (data : SdmxJsonResponse) :
  asSdmxJsonResponse json = Some data ->
  match parseJsonResponse data with
  | Ok observations =>
    Unchecked.parseJsonResponse Number_toString json = Ok (map unchecked observations)
    /\ Forall declared (map unchecked observations)
  | Throw e =>
    Unchecked.parseJsonResponse Number_toString json = Throw e
    /\ instanceof_EcbParseError e = true
  end.
Proof.
  intros H. rewrite (parseJsonResponse_declared Number_toString _ H).
  destruct (parseJsonResponse data) as [observations|e] eqn:Hp; cbn [uncheckedResult].
  - split; [reflexivity|]. apply Forall_forall. intros o Ho.
    apply in_map_iff in Ho. destruct Ho as [o' [<- _]]. now exists o'.
  - split; [reflexivity|]. now apply parseJsonResponse_throws in Hp.
Qed.

(** The multi-currency fixture, as [JSON.parse] returns it. *)
Lemma parseJsonResponse_on_the_declared_shape_witness :
  Unchecked.parseJsonResponse test_Number_toString (parsed MULTI_CURRENCY_RESPONSE)
  = Ok (map unchecked
          [ExchangeRateObservation.mk "2025-01-15" "USD" "EUR" 1.03;
           ExchangeRateObservation.mk "2025-01-16" "USD" "EUR" 1.0303;
           ExchangeRateObservation.mk "2025-01-15" "GBP" "EUR" 0.8442;
           ExchangeRateObservation.mk "2025-01-16" "GBP" "EUR" 0.8451]).
Proof.
  exact (proj1 (@parseJsonResponse_on_the_declared_shape test_Number_toString
                  (parsed MULTI_CURRENCY_RESPONSE) MULTI_CURRENCY_RESPONSE eq_refl)).
Defined.

(** X20. The decoder on any value of a JSON text.  What it returns has
    passed its tests: the date, the currency and the base currency of
    each observation are truthy and the rate is not [null]; but they need
    not be strings and a number.  What it throws is an [EcbParseError] or a
    [TypeError] of the runtime, and a [TypeError] only on a value that has
    not the declared shape.  So the text [null] and a text whose data sets
    hold [null] make it throw a [TypeError], which is no [EcbError]; and a
    vocabulary whose identifiers are a number and an object gives
    observations whose currencies are that number and that object. *)
Theorem parseJsonResponse_on_any_value
    (Number_toString : float -> string) (json : Any.t) :
  match Unchecked.parseJsonResponse Number_toString json with
  | Ok observations => Forall tested observations
  | Throw e =>
    instanceof_EcbParseError e = true
    \/ (errorName e = "TypeError"
        /\ instanceof_EcbError e = false
        /\ asSdmxJsonResponse json = None)
  end
  /\ Unchecked.parseJsonResponse Number_toString Any.Null
     = Throw (TypeError "Cannot read properties of null (reading 'dataSets')")
  /\ Unchecked.parseJsonResponse Number_toString NULL_DATASET_VALUE
     = Throw (TypeError "Cannot read properties of null (reading 'series')")
  /\ Unchecked.parseJsonResponse Number_toString ODD_IDENTIFIERS_VALUE
     = Ok [Unchecked.ExchangeRateObservation.mk
             (Any.Str "2025-01-15") (Any.Number 840) (Any.Str "EUR") (Any.Number 1.5);
           Unchecked.ExchangeRateObservation.mk
             (Any.Str "2025-01-15") (Any.Object 17 [("toString", Any.Null)])
             (Any.Str "EUR") (Any.Number 2.5)].
Proof.
  split; [|split; [reflexivity|split; reflexivity]].
  destruct (Unchecked.parseJsonResponse Number_toString json) as [observations|e] eqn:H.
  - now apply parseJsonResponse_tested in H.
  - destruct (asSdmxJsonResponse json) as [data|] eqn:Hd.
    + left. rewrite (parseJsonResponse_declared Number_toString _ Hd) in H.
      destruct (parseJsonResponse data) as [l|e'] eqn:Hp; [discriminate|].
      injection H as <-. now apply parseJsonResponse_throws in Hp.
    + destruct (parseJsonResponse_throws_any _ _ H) as [Hc|Hc]; [now left|].
      right. split; [exact Hc|]. split; [|reflexivity].
      now apply TypeError_classes in Hc.
Qed.

